(** * Academic MCP Server: aggregation, normalisation and merge layer

    A shallow embedding of the multi-source aggregation core of the
    repository: [utils/helpers.py], the five provider adapters under
    [adapters/] and the dispatch functions of [academic_server.py].

    Conventions of the embedding.
    - Python values are the type [value]: [None], booleans, integers,
      strings, lists and string-keyed dictionaries.  Floats are left out;
      JSON numbers are integers.  A string is kept as its UTF-8
      encoding; its methods ([lower], [strip], [len], slicing) work on
      code points.
    - Containers follow the type annotations of the source: a
      [List[Dict[str, Any]]] is a [list dict], whose leaves are dynamic.
    - A Python dictionary is an association list in insertion order.
    - An operation that can raise returns a [res]; code that talks to the
      network runs in the monad [M], which reads the outside world from an
      [env] and appends every outgoing call to a trace.
    - The methods besides the searches ([get_metadata], [download_pdf],
      the analysis prompt) run in the monad [Tool], which adds the file
      system, the download of the Sci-Hub client and the rest of the
      PubMed collaborator, with a log of their uses. *)

From stdpp Require Import gmap strings list sorting.
From Stdlib Require Import ZArith Lia Ascii DecimalString.

#[local] Open Scope Z_scope.

(** ** Python values and exceptions *)

Module Py.

Inductive exn :=
| AttributeError | TypeError | KeyError | IndexError | ValueError
| RequestException | JSONDecodeError | ParseError.

Inductive res (A : Type) :=
| Ok (a : A)
| Raise (e : exn).
Arguments Ok {A} a.
Arguments Raise {A} e.

#[global] Instance res_ret : MRet res := λ A a, Ok a.
#[global] Instance res_bind : MBind res := λ A B f m,
  match m with
  | Ok a => f a
  | Raise e => Raise e
  end.

#[warnings="-register-all"]
Inductive value :=
| VNone
| VBool (b : bool)
| VInt (z : Z)
| VStr (s : string)
| VList (l : list value)
| VDict (d : list (string * value)).

Abbreviation dict := (list (string * value)).

(** [bool(v)]: the truth value Python gives to [v] in a condition. *)
Definition truthy (v : value) : bool :=
  match v with
  | VNone => false
  | VBool b => b
  | VInt z => negb (z =? 0)
  | VStr s => negb (String.eqb s "")
  | VList l => match l with [] => false | _ => true end
  | VDict d => match d with [] => false | _ => true end
  end.

(** [d.get(k)] on an insertion-ordered dictionary. *)
Fixpoint lookup_key (d : dict) (k : string) : option value :=
  match d with
  | [] => None
  | (k', v) :: d' => if String.eqb k' k then Some v else lookup_key d' k
  end.

(** [d.get(k, default)]. *)
Definition get (d : dict) (k : string) (default : value) : value :=
  match lookup_key d k with
  | Some v => v
  | None => default
  end.

(** [k in d]. *)
Definition has_key (d : dict) (k : string) : bool :=
  match lookup_key d k with Some _ => true | None => false end.

(** [d[k] = v]: replaces the value of an existing key in place, appends a
    new key at the end. *)
Fixpoint set_item {A} (d : list (string * A)) (k : string) (v : A)
  : list (string * A) :=
  match d with
  | [] => [(k, v)]
  | (k', v') :: d' =>
      if String.eqb k' k then (k, v) :: d' else (k', v') :: set_item d' k v
  end.

(** *** Strings

    A [str] is a sequence of code points.  The embedding keeps it as its
    UTF-8 encoding: the bytes of a [string].  [points] cuts the bytes into
    code points, a lead byte with the continuation bytes after it; the
    string methods work on that sequence, with the tables of the Unicode
    database that CPython 3.11 carries. *)

Definition is_continuation (c : ascii) : bool :=
  let n := N_of_ascii c in ((128 <=? n) && (n <? 192))%N.

(** The continuation bytes [s] starts with, and the code points after
    them. *)
Fixpoint points_from (s : string) : string * list string :=
  match s with
  | EmptyString => (EmptyString, [])
  | String c s' =>
      let '(k, ps) := points_from s' in
      if is_continuation c then (String c k, ps)
      else (EmptyString, String c k :: ps)
  end.

Definition points (s : string) : list string :=
  let '(k, ps) := points_from s in
  match k with EmptyString => ps | _ => k :: ps end.

Definition unpoints (ps : list string) : string :=
  foldr String.append EmptyString ps.

(** The number of a code point, from its encoding. *)
Definition code_of (p : string) : option N :=
  match N_of_ascii <$> String.list_ascii_of_string p with
  | [a] => if (a <? 128)%N then Some a else None
  | [a; b] =>
      if ((192 <=? a) && (a <? 224))%N
      then Some ((a - 192) * 64 + (b - 128))%N else None
  | [a; b; c] =>
      if ((224 <=? a) && (a <? 240))%N
      then Some (((a - 224) * 64 + (b - 128)) * 64 + (c - 128))%N else None
  | [a; b; c; d] =>
      if ((240 <=? a) && (a <? 248))%N
      then Some ((((a - 240) * 64 + (b - 128)) * 64 + (c - 128)) * 64
                 + (d - 128))%N
      else None
  | _ => None
  end.

(** The encoding of a code point. *)
Definition point_of (n : N) : string :=
  let byte (k : N) := ascii_of_N k in
  let low (k : N) := byte (128 + k mod 64)%N in
  String.string_of_list_ascii
    (if (n <? 128)%N then [byte n]
     else if (n <? 2048)%N then [byte (192 + n / 64)%N; low n]
     else if (n <? 65536)%N
          then [byte (224 + n / 4096)%N; low (n / 64)%N; low n]
          else [byte (240 + n / 262144)%N; low (n / 4096)%N; low (n / 64)%N;
                low n]).

(** The code points [str.isspace] accepts, which [str.strip()] removes. *)
Definition whitespace : list N :=
  [9; 10; 11; 12; 13; 28; 29; 30; 31; 32; 133; 160; 5760; 8192; 8193; 8194;
   8195; 8196; 8197; 8198; 8199; 8200; 8201; 8202; 8232; 8233; 8239; 8287;
   12288]%N.

(** The simple lowercase mappings of the Unicode database of CPython 3.11
    (Unicode 14.0), in runs: [(first, count, stride, target)] sends
    [first + k * stride] to [target + k * stride] for every [k < count]. *)
Definition lowercase : list (N * N * N * N) :=
  [(65, 26, 1, 97); (192, 23, 1, 224); (216, 7, 1, 248); (256, 24, 2, 257);
   (306, 3, 2, 307); (313, 8, 2, 314); (330, 23, 2, 331); (376, 1, 1, 255);
   (377, 3, 2, 378); (385, 1, 1, 595); (386, 2, 2, 387); (390, 1, 1, 596);
   (391, 1, 1, 392); (393, 2, 1, 598); (395, 1, 1, 396); (398, 1, 1, 477);
   (399, 1, 1, 601); (400, 1, 1, 603); (401, 1, 1, 402); (403, 1, 1, 608);
   (404, 1, 1, 611); (406, 1, 1, 617); (407, 1, 1, 616); (408, 1, 1, 409);
   (412, 1, 1, 623); (413, 1, 1, 626); (415, 1, 1, 629); (416, 3, 2, 417);
   (422, 1, 1, 640); (423, 1, 1, 424); (425, 1, 1, 643); (428, 1, 1, 429);
   (430, 1, 1, 648); (431, 1, 1, 432); (433, 2, 1, 650); (435, 2, 2, 436);
   (439, 1, 1, 658); (440, 1, 1, 441); (444, 1, 1, 445); (452, 1, 1, 454);
   (453, 1, 1, 454); (455, 1, 1, 457); (456, 1, 1, 457); (458, 1, 1, 460);
   (459, 9, 2, 460); (478, 9, 2, 479); (497, 1, 1, 499); (498, 2, 2, 499);
   (502, 1, 1, 405); (503, 1, 1, 447); (504, 20, 2, 505); (544, 1, 1, 414);
   (546, 9, 2, 547); (570, 1, 1, 11365); (571, 1, 1, 572); (573, 1, 1, 410);
   (574, 1, 1, 11366); (577, 1, 1, 578); (579, 1, 1, 384); (580, 1, 1, 649);
   (581, 1, 1, 652); (582, 5, 2, 583); (880, 2, 2, 881); (886, 1, 1, 887);
   (895, 1, 1, 1011); (902, 1, 1, 940); (904, 3, 1, 941); (908, 1, 1, 972);
   (910, 2, 1, 973); (913, 17, 1, 945); (931, 9, 1, 963); (975, 1, 1, 983);
   (984, 12, 2, 985); (1012, 1, 1, 952); (1015, 1, 1, 1016); (1017, 1, 1,
   1010); (1018, 1, 1, 1019); (1021, 3, 1, 891); (1024, 16, 1, 1104); (1040,
   32, 1, 1072); (1120, 17, 2, 1121); (1162, 27, 2, 1163); (1216, 1, 1,
   1231); (1217, 7, 2, 1218); (1232, 48, 2, 1233); (1329, 38, 1, 1377);
   (4256, 38, 1, 11520); (4295, 1, 1, 11559); (4301, 1, 1, 11565); (5024, 80,
   1, 43888); (5104, 6, 1, 5112); (7312, 43, 1, 4304); (7357, 3, 1, 4349);
   (7680, 75, 2, 7681); (7838, 1, 1, 223); (7840, 48, 2, 7841); (7944, 8, 1,
   7936); (7960, 6, 1, 7952); (7976, 8, 1, 7968); (7992, 8, 1, 7984); (8008,
   6, 1, 8000); (8025, 4, 2, 8017); (8040, 8, 1, 8032); (8072, 8, 1, 8064);
   (8088, 8, 1, 8080); (8104, 8, 1, 8096); (8120, 2, 1, 8112); (8122, 2, 1,
   8048); (8124, 1, 1, 8115); (8136, 4, 1, 8050); (8140, 1, 1, 8131); (8152,
   2, 1, 8144); (8154, 2, 1, 8054); (8168, 2, 1, 8160); (8170, 2, 1, 8058);
   (8172, 1, 1, 8165); (8184, 2, 1, 8056); (8186, 2, 1, 8060); (8188, 1, 1,
   8179); (8486, 1, 1, 969); (8490, 1, 1, 107); (8491, 1, 1, 229); (8498, 1,
   1, 8526); (8544, 16, 1, 8560); (8579, 1, 1, 8580); (9398, 26, 1, 9424);
   (11264, 48, 1, 11312); (11360, 1, 1, 11361); (11362, 1, 1, 619); (11363,
   1, 1, 7549); (11364, 1, 1, 637); (11367, 3, 2, 11368); (11373, 1, 1, 593);
   (11374, 1, 1, 625); (11375, 1, 1, 592); (11376, 1, 1, 594); (11378, 1, 1,
   11379); (11381, 1, 1, 11382); (11390, 2, 1, 575); (11392, 50, 2, 11393);
   (11499, 2, 2, 11500); (11506, 1, 1, 11507); (42560, 23, 2, 42561); (42624,
   14, 2, 42625); (42786, 7, 2, 42787); (42802, 31, 2, 42803); (42873, 2, 2,
   42874); (42877, 1, 1, 7545); (42878, 5, 2, 42879); (42891, 1, 1, 42892);
   (42893, 1, 1, 613); (42896, 2, 2, 42897); (42902, 10, 2, 42903); (42922,
   1, 1, 614); (42923, 1, 1, 604); (42924, 1, 1, 609); (42925, 1, 1, 620);
   (42926, 1, 1, 618); (42928, 1, 1, 670); (42929, 1, 1, 647); (42930, 1, 1,
   669); (42931, 1, 1, 43859); (42932, 8, 2, 42933); (42948, 1, 1, 42900);
   (42949, 1, 1, 642); (42950, 1, 1, 7566); (42951, 2, 2, 42952); (42960, 1,
   1, 42961); (42966, 2, 2, 42967); (42997, 1, 1, 42998); (65313, 26, 1,
   65345); (66560, 40, 1, 66600); (66736, 36, 1, 66776); (66928, 19, 2,
   66967); (66929, 5, 2, 66968); (66941, 7, 2, 66980); (66957, 3, 2, 66996);
   (66965, 1, 1, 67004); (68736, 51, 1, 68800); (71840, 32, 1, 71872);
   (93760, 32, 1, 93792); (125184, 34, 1, 125218)]%N.

(** The code points with the property Cased, in ranges. *)
Definition cased_points : list (N * N) :=
  [(65, 90); (97, 122); (170, 170); (181, 181); (186, 186); (192, 214); (216,
   246); (248, 442); (444, 447); (452, 659); (661, 696); (704, 705); (736,
   740); (837, 837); (880, 883); (886, 887); (890, 893); (895, 895); (902,
   902); (904, 906); (908, 908); (910, 929); (931, 1013); (1015, 1153);
   (1162, 1327); (1329, 1366); (1376, 1416); (4256, 4293); (4295, 4295);
   (4301, 4301); (4304, 4346); (4349, 4351); (5024, 5109); (5112, 5117);
   (7296, 7304); (7312, 7354); (7357, 7359); (7424, 7615); (7680, 7957);
   (7960, 7965); (7968, 8005); (8008, 8013); (8016, 8023); (8025, 8025);
   (8027, 8027); (8029, 8029); (8031, 8061); (8064, 8116); (8118, 8124);
   (8126, 8126); (8130, 8132); (8134, 8140); (8144, 8147); (8150, 8155);
   (8160, 8172); (8178, 8180); (8182, 8188); (8305, 8305); (8319, 8319);
   (8336, 8348); (8450, 8450); (8455, 8455); (8458, 8467); (8469, 8469);
   (8473, 8477); (8484, 8484); (8486, 8486); (8488, 8488); (8490, 8493);
   (8495, 8500); (8505, 8505); (8508, 8511); (8517, 8521); (8526, 8526);
   (8544, 8575); (8579, 8580); (9398, 9449); (11264, 11492); (11499, 11502);
   (11506, 11507); (11520, 11557); (11559, 11559); (11565, 11565); (42560,
   42605); (42624, 42653); (42786, 42887); (42891, 42894); (42896, 42954);
   (42960, 42961); (42963, 42963); (42965, 42969); (42997, 42998); (43000,
   43002); (43824, 43866); (43868, 43880); (43888, 43967); (64256, 64262);
   (64275, 64279); (65313, 65338); (65345, 65370); (66560, 66639); (66736,
   66771); (66776, 66811); (66928, 66938); (66940, 66954); (66956, 66962);
   (66964, 66965); (66967, 66977); (66979, 66993); (66995, 67001); (67003,
   67004); (67456, 67456); (67459, 67461); (67463, 67504); (67506, 67514);
   (68736, 68786); (68800, 68850); (71840, 71903); (93760, 93823); (119808,
   119892); (119894, 119964); (119966, 119967); (119970, 119970); (119973,
   119974); (119977, 119980); (119982, 119993); (119995, 119995); (119997,
   120003); (120005, 120069); (120071, 120074); (120077, 120084); (120086,
   120092); (120094, 120121); (120123, 120126); (120128, 120132); (120134,
   120134); (120138, 120144); (120146, 120485); (120488, 120512); (120514,
   120538); (120540, 120570); (120572, 120596); (120598, 120628); (120630,
   120654); (120656, 120686); (120688, 120712); (120714, 120744); (120746,
   120770); (120772, 120779); (122624, 122633); (122635, 122654); (125184,
   125251); (127280, 127305); (127312, 127337); (127344, 127369)]%N.

(** The code points with the property Case_Ignorable, in ranges. *)
Definition case_ignorable_points : list (N * N) :=
  [(39, 39); (46, 46); (58, 58); (94, 94); (96, 96); (168, 168); (173, 173);
   (175, 175); (180, 180); (183, 184); (688, 879); (884, 885); (890, 890);
   (900, 901); (903, 903); (1155, 1161); (1369, 1369); (1375, 1375); (1425,
   1469); (1471, 1471); (1473, 1474); (1476, 1477); (1479, 1479); (1524,
   1524); (1536, 1541); (1552, 1562); (1564, 1564); (1600, 1600); (1611,
   1631); (1648, 1648); (1750, 1757); (1759, 1768); (1770, 1773); (1807,
   1807); (1809, 1809); (1840, 1866); (1958, 1968); (2027, 2037); (2042,
   2042); (2045, 2045); (2070, 2093); (2137, 2139); (2184, 2184); (2192,
   2193); (2200, 2207); (2249, 2306); (2362, 2362); (2364, 2364); (2369,
   2376); (2381, 2381); (2385, 2391); (2402, 2403); (2417, 2417); (2433,
   2433); (2492, 2492); (2497, 2500); (2509, 2509); (2530, 2531); (2558,
   2558); (2561, 2562); (2620, 2620); (2625, 2626); (2631, 2632); (2635,
   2637); (2641, 2641); (2672, 2673); (2677, 2677); (2689, 2690); (2748,
   2748); (2753, 2757); (2759, 2760); (2765, 2765); (2786, 2787); (2810,
   2815); (2817, 2817); (2876, 2876); (2879, 2879); (2881, 2884); (2893,
   2893); (2901, 2902); (2914, 2915); (2946, 2946); (3008, 3008); (3021,
   3021); (3072, 3072); (3076, 3076); (3132, 3132); (3134, 3136); (3142,
   3144); (3146, 3149); (3157, 3158); (3170, 3171); (3201, 3201); (3260,
   3260); (3263, 3263); (3270, 3270); (3276, 3277); (3298, 3299); (3328,
   3329); (3387, 3388); (3393, 3396); (3405, 3405); (3426, 3427); (3457,
   3457); (3530, 3530); (3538, 3540); (3542, 3542); (3633, 3633); (3636,
   3642); (3654, 3662); (3761, 3761); (3764, 3772); (3782, 3782); (3784,
   3789); (3864, 3865); (3893, 3893); (3895, 3895); (3897, 3897); (3953,
   3966); (3968, 3972); (3974, 3975); (3981, 3991); (3993, 4028); (4038,
   4038); (4141, 4144); (4146, 4151); (4153, 4154); (4157, 4158); (4184,
   4185); (4190, 4192); (4209, 4212); (4226, 4226); (4229, 4230); (4237,
   4237); (4253, 4253); (4348, 4348); (4957, 4959); (5906, 5908); (5938,
   5939); (5970, 5971); (6002, 6003); (6068, 6069); (6071, 6077); (6086,
   6086); (6089, 6099); (6103, 6103); (6109, 6109); (6155, 6159); (6211,
   6211); (6277, 6278); (6313, 6313); (6432, 6434); (6439, 6440); (6450,
   6450); (6457, 6459); (6679, 6680); (6683, 6683); (6742, 6742); (6744,
   6750); (6752, 6752); (6754, 6754); (6757, 6764); (6771, 6780); (6783,
   6783); (6823, 6823); (6832, 6862); (6912, 6915); (6964, 6964); (6966,
   6970); (6972, 6972); (6978, 6978); (7019, 7027); (7040, 7041); (7074,
   7077); (7080, 7081); (7083, 7085); (7142, 7142); (7144, 7145); (7149,
   7149); (7151, 7153); (7212, 7219); (7222, 7223); (7288, 7293); (7376,
   7378); (7380, 7392); (7394, 7400); (7405, 7405); (7412, 7412); (7416,
   7417); (7468, 7530); (7544, 7544); (7579, 7679); (8125, 8125); (8127,
   8129); (8141, 8143); (8157, 8159); (8173, 8175); (8189, 8190); (8203,
   8207); (8216, 8217); (8228, 8228); (8231, 8231); (8234, 8238); (8288,
   8292); (8294, 8303); (8305, 8305); (8319, 8319); (8336, 8348); (8400,
   8432); (11388, 11389); (11503, 11505); (11631, 11631); (11647, 11647);
   (11744, 11775); (11823, 11823); (12293, 12293); (12330, 12333); (12337,
   12341); (12347, 12347); (12441, 12446); (12540, 12542); (40981, 40981);
   (42232, 42237); (42508, 42508); (42607, 42610); (42612, 42621); (42623,
   42623); (42652, 42655); (42736, 42737); (42752, 42785); (42864, 42864);
   (42888, 42890); (42994, 42996); (43000, 43001); (43010, 43010); (43014,
   43014); (43019, 43019); (43045, 43046); (43052, 43052); (43204, 43205);
   (43232, 43249); (43263, 43263); (43302, 43309); (43335, 43345); (43392,
   43394); (43443, 43443); (43446, 43449); (43452, 43453); (43471, 43471);
   (43493, 43494); (43561, 43566); (43569, 43570); (43573, 43574); (43587,
   43587); (43596, 43596); (43632, 43632); (43644, 43644); (43696, 43696);
   (43698, 43700); (43703, 43704); (43710, 43711); (43713, 43713); (43741,
   43741); (43756, 43757); (43763, 43764); (43766, 43766); (43867, 43871);
   (43881, 43883); (44005, 44005); (44008, 44008); (44013, 44013); (64286,
   64286); (64434, 64450); (65024, 65039); (65043, 65043); (65056, 65071);
   (65106, 65106); (65109, 65109); (65279, 65279); (65287, 65287); (65294,
   65294); (65306, 65306); (65342, 65342); (65344, 65344); (65392, 65392);
   (65438, 65439); (65507, 65507); (65529, 65531); (66045, 66045); (66272,
   66272); (66422, 66426); (67456, 67461); (67463, 67504); (67506, 67514);
   (68097, 68099); (68101, 68102); (68108, 68111); (68152, 68154); (68159,
   68159); (68325, 68326); (68900, 68903); (69291, 69292); (69446, 69456);
   (69506, 69509); (69633, 69633); (69688, 69702); (69744, 69744); (69747,
   69748); (69759, 69761); (69811, 69814); (69817, 69818); (69821, 69821);
   (69826, 69826); (69837, 69837); (69888, 69890); (69927, 69931); (69933,
   69940); (70003, 70003); (70016, 70017); (70070, 70078); (70089, 70092);
   (70095, 70095); (70191, 70193); (70196, 70196); (70198, 70199); (70206,
   70206); (70367, 70367); (70371, 70378); (70400, 70401); (70459, 70460);
   (70464, 70464); (70502, 70508); (70512, 70516); (70712, 70719); (70722,
   70724); (70726, 70726); (70750, 70750); (70835, 70840); (70842, 70842);
   (70847, 70848); (70850, 70851); (71090, 71093); (71100, 71101); (71103,
   71104); (71132, 71133); (71219, 71226); (71229, 71229); (71231, 71232);
   (71339, 71339); (71341, 71341); (71344, 71349); (71351, 71351); (71453,
   71455); (71458, 71461); (71463, 71467); (71727, 71735); (71737, 71738);
   (71995, 71996); (71998, 71998); (72003, 72003); (72148, 72151); (72154,
   72155); (72160, 72160); (72193, 72202); (72243, 72248); (72251, 72254);
   (72263, 72263); (72273, 72278); (72281, 72283); (72330, 72342); (72344,
   72345); (72752, 72758); (72760, 72765); (72767, 72767); (72850, 72871);
   (72874, 72880); (72882, 72883); (72885, 72886); (73009, 73014); (73018,
   73018); (73020, 73021); (73023, 73029); (73031, 73031); (73104, 73105);
   (73109, 73109); (73111, 73111); (73459, 73460); (78896, 78904); (92912,
   92916); (92976, 92982); (92992, 92995); (94031, 94031); (94095, 94111);
   (94176, 94177); (94179, 94180); (110576, 110579); (110581, 110587);
   (110589, 110590); (113821, 113822); (113824, 113827); (118528, 118573);
   (118576, 118598); (119143, 119145); (119155, 119170); (119173, 119179);
   (119210, 119213); (119362, 119364); (121344, 121398); (121403, 121452);
   (121461, 121461); (121476, 121476); (121499, 121503); (121505, 121519);
   (122880, 122886); (122888, 122904); (122907, 122913); (122915, 122916);
   (122918, 122922); (123184, 123197); (123566, 123566); (123628, 123631);
   (125136, 125142); (125252, 125259); (127995, 127999); (917505, 917505);
   (917536, 917631); (917760, 917999)]%N.

Definition in_ranges (table : list (N * N)) (n : N) : bool :=
  existsb (λ '(first, last), ((first <=? n) && (n <=? last))%N) table.

Definition has_property (table : list (N * N)) (p : string) : bool :=
  match code_of p with
  | Some n => in_ranges table n
  | None => false
  end.

Definition is_space (p : string) : bool :=
  match code_of p with
  | Some n => existsb (N.eqb n) whitespace
  | None => false
  end.

(** The lowercase of one code point, when it differs: the capital I with
    a dot is the one code point that becomes two. *)
Definition lower_point (n : N) : option (list N) :=
  if (n =? 304)%N then Some [105; 775]%N
  else
    match
      find (λ '(first, count, stride, _),
              ((first <=? n) && (n <=? first + (count - 1) * stride)
               && ((n - first) mod stride =? 0))%N) lowercase
    with
    | Some (first, _, _, target) => Some [(target + (n - first))%N]
    | None => None
    end.

Fixpoint skip {A} (f : A → bool) (l : list A) : list A :=
  match l with
  | [] => []
  | x :: l' => if f x then skip f l' else l
  end.

(** The capital sigma is final, and becomes the final small sigma, after
    a cased letter and not before one, case-ignorable code points set
    aside; [before] holds the code points before it, nearest first. *)
Definition final_sigma (before after : list string) : bool :=
  match skip (has_property case_ignorable_points) before with
  | c :: _ => has_property cased_points c
  | [] => false
  end
  && match skip (has_property case_ignorable_points) after with
     | c :: _ => negb (has_property cased_points c)
     | [] => true
     end.

Fixpoint lower_points (before ps : list string) : list string :=
  match ps with
  | [] => []
  | p :: rest =>
      match code_of p with
      | Some n =>
          if (n =? 931)%N
          then [point_of (if final_sigma before rest then 962 else 963)%N]
          else match lower_point n with
               | Some l => point_of <$> l
               | None => [p]
               end
      | None => [p]
      end ++ lower_points (p :: before) rest
  end.

(** [s.lower()]. *)
Definition lower (s : string) : string :=
  unpoints (lower_points [] (points s)).

(** [s.strip()]. *)
Definition strip (s : string) : string :=
  unpoints (rev (skip is_space (rev (skip is_space (points s))))).

(** [len(s)] and [s[:n]] count code points. *)
Definition str_len (s : string) : nat := length (points s).

(** [v.lower()]: only strings have the method. *)
Definition str_lower (v : value) : res string :=
  match v with
  | VStr s => Ok (lower s)
  | _ => Raise AttributeError
  end.

(** *** Hashing: the keys of a [set]

    Lists and dictionaries are unhashable.  [True == 1] and [False == 0]
    hash alike, so booleans are stored as integers. *)
Inductive hkey :=
| KNone
| KInt (z : Z)
| KStr (s : string).

#[global] Instance hkey_eq_dec : EqDecision hkey.
Proof. solve_decision. Defined.

Definition hkey_enc (k : hkey) : unit + (Z + string) :=
  match k with
  | KNone => inl ()
  | KInt z => inr (inl z)
  | KStr s => inr (inr s)
  end.

Definition hkey_dec (x : unit + (Z + string)) : hkey :=
  match x with
  | inl _ => KNone
  | inr (inl z) => KInt z
  | inr (inr s) => KStr s
  end.

#[global] Instance hkey_countable : Countable hkey.
Proof.
  refine (inj_countable' hkey_enc hkey_dec _).
  intros []; reflexivity.
Defined.

Definition hash_key (v : value) : res hkey :=
  match v with
  | VNone => Ok KNone
  | VBool b => Ok (KInt (if b then 1 else 0))
  | VInt z => Ok (KInt z)
  | VStr s => Ok (KStr s)
  | VList _ | VDict _ => Raise TypeError
  end.

(** [v in s] for a set [s]. *)
Definition set_contains (s : gset hkey) (v : value) : res bool :=
  k ← hash_key v; Ok (bool_decide (k ∈ s)).

(** [s.add(v)]. *)
Definition set_add (s : gset hkey) (v : value) : res (gset hkey) :=
  k ← hash_key v; Ok ({[k]} ∪ s).

(** A [for] loop whose body can raise: the state is threaded through the
    elements in order and the first exception ends the loop. *)
Fixpoint for_each {S A} (body : S → A → res S) (s : S) (l : list A)
  : res S :=
  match l with
  | [] => Ok s
  | x :: l' => s' ← body s x; for_each body s' l'
  end.

(** A loop that builds a list, one element per item. *)
Fixpoint map_res {A B} (f : A → res B) (l : list A) : res (list B) :=
  match l with
  | [] => Ok []
  | x :: l' => y ← f x; ys ← map_res f l'; Ok (y :: ys)
  end.

(** *** Numbers and formatting *)

(** [str(z)] for an integer. *)
Definition dec (z : Z) : string := NilZero.string_of_int (Z.to_int z).

(** An integer operand; booleans count as 0 and 1. *)
Definition as_int (v : value) : res Z :=
  match v with
  | VInt z => Ok z
  | VBool b => Ok (if b then 1 else 0)
  | _ => Raise TypeError
  end.

(** [str(v)], as an f-string formats [v].  The text Python prints for a
    list or a dictionary is left to [repr]. *)
Definition py_str (repr : value → string) (v : value) : string :=
  match v with
  | VNone => "None"
  | VBool b => if b then "True" else "False"
  | VInt z => dec z
  | VStr s => s
  | VList _ | VDict _ => repr v
  end.

(** [f"{v:02d}"]. *)
Definition format_02d (v : value) : res string :=
  match v with
  | VInt _ | VBool _ =>
      z ← as_int v;
      let s := dec z in
      Ok (if (String.length s <? 2)%nat then "0" +:+ s else s)
  | VNone | VList _ | VDict _ => Raise TypeError
  | VStr _ => Raise ValueError
  end.

(** *** Sequences *)

(** [len(v)]. *)
Definition py_len (v : value) : res Z :=
  match v with
  | VStr s => Ok (Z.of_nat (str_len s))
  | VList l => Ok (Z.of_nat (length l))
  | VDict d => Ok (Z.of_nat (length d))
  | _ => Raise TypeError
  end.

Definition chars (s : string) : list value := VStr <$> points s.

(** What [for item in v] iterates over: the elements of a list, the keys
    of a dictionary, the characters of a string. *)
Definition py_iter (v : value) : res (list value) :=
  match v with
  | VList l => Ok l
  | VDict d => Ok ((λ kv, VStr kv.1) <$> d)
  | VStr s => Ok (chars s)
  | _ => Raise TypeError
  end.

(** [l[:n]]: the first [n] elements, or all but the last [-n]. *)
Definition slice_to {A} (l : list A) (n : Z) : list A :=
  if 0 <=? n then take (Z.to_nat n) l
  else take (length l - Z.to_nat (- n)) l.

(** [s[:n]] on a string. *)
Definition str_slice_to (s : string) (n : Z) : string :=
  unpoints (slice_to (points s) n).

(** [v[:n]] on a dynamic value. *)
Definition py_slice_to (v : value) (n : Z) : res value :=
  match v with
  | VList l => Ok (VList (slice_to l n))
  | VStr s => Ok (VStr (str_slice_to s n))
  | _ => Raise TypeError
  end.

(** [v[k]] for a string key. *)
Definition subscript_key (v : value) (k : string) : res value :=
  match v with
  | VDict d => match lookup_key d k with
               | Some x => Ok x
               | None => Raise KeyError
               end
  | _ => Raise TypeError
  end.

(** [v[i]] for an index [i] that is not negative. *)
Definition subscript_idx (v : value) (i : nat) : res value :=
  match v with
  | VList l => match l !! i with Some x => Ok x | None => Raise IndexError end
  | VStr s => match points s !! i with
              | Some c => Ok (VStr c)
              | None => Raise IndexError
              end
  | VDict _ => Raise KeyError
  | _ => Raise TypeError
  end.

(** [v.get(k, default)]: a dictionary method. *)
Definition py_get (v : value) (k : string) (default : value) : res value :=
  match v with
  | VDict d => Ok (get d k default)
  | _ => Raise AttributeError
  end.

(** [sub in s] for two strings. *)
Fixpoint contains (sub s : string) : bool :=
  String.prefix sub s
  || match s with
     | EmptyString => false
     | String _ s' => contains sub s'
     end.

(** [sep.join(parts)]; every part must be a string. *)
Fixpoint join (sep : string) (parts : list value) : res string :=
  match parts with
  | [] => Ok ""
  | [VStr s] => Ok s
  | VStr s :: rest => t ← join sep rest; Ok (s +:+ sep +:+ t)
  | _ => Raise TypeError
  end.

(** [a < b]: defined between two strings and between two integers. *)
Definition py_lt (a b : value) : res bool :=
  match a, b with
  | VStr s, VStr t => Ok (String.ltb s t)
  | (VInt _ | VBool _), (VInt _ | VBool _) =>
      x ← as_int a; y ← as_int b; Ok (x <? y)
  | _, _ => Raise TypeError
  end.

(** [s.split(sep)[-1]] for a non-empty [sep]: the text after the last of
    the occurrences of [sep] found left to right without overlap.  [skip]
    counts the characters of an occurrence still to pass over. *)
Fixpoint split_last_go (sep : string) (skip : nat) (piece s : string)
  : string :=
  match s with
  | EmptyString => piece
  | String c s' =>
      match skip with
      | S k => split_last_go sep k piece s'
      | O =>
          if String.prefix sep s
          then split_last_go sep (String.length sep - 1) "" s'
          else split_last_go sep 0 (piece +:+ String c EmptyString) s'
      end
  end.

Definition split_last (sep s : string) : string := split_last_go sep 0 "" s.

(** [a >= b]. *)
Definition py_ge (a b : value) : res bool :=
  lt ← py_lt a b; Ok (negb lt).

(** [l[:n]] for a dynamic bound: [None] keeps the whole list. *)
Definition slice_by {A} (l : list A) (n : value) : res (list A) :=
  match n with
  | VNone => Ok l
  | VInt _ | VBool _ => z ← as_int n; Ok (slice_to l z)
  | _ => Raise TypeError
  end.

(** [sep.join(parts)] for a list of strings. *)
Fixpoint join_str (sep : string) (parts : list string) : string :=
  match parts with
  | [] => ""
  | [s] => s
  | s :: rest => s +:+ sep +:+ join_str sep rest
  end.

(** [v[:n]] for a dynamic value and a dynamic bound. *)
Definition py_slice (v n : value) : res value :=
  match n with
  | VNone => match v with
             | VList _ | VStr _ => Ok v
             | _ => Raise TypeError
             end
  | VInt _ | VBool _ => z ← as_int n; py_slice_to v z
  | _ => Raise TypeError
  end.

(** [v is None]. *)
Definition is_none (v : value) : bool :=
  match v with VNone => true | _ => false end.

(** [d.get(k)] in a dictionary of any values. *)
Fixpoint assoc {A} (d : list (string * A)) (k : string) : option A :=
  match d with
  | [] => None
  | (k', v) :: d' => if String.eqb k' k then Some v else assoc d' k
  end.

(** [v + s] for a string [s]: concatenation, of two strings only. *)
Definition add_str (v : value) (s : string) : res value :=
  match v with
  | VStr t => Ok (VStr (t +:+ s))
  | _ => Raise TypeError
  end.

(** [s.replace(old, new)] for a non-empty [old]: every occurrence of [old]
    found left to right without overlap gives way to [new].  [skip] counts
    the characters of an occurrence still to pass over. *)
Fixpoint replace_go (old new : string) (skip : nat) (s : string) : string :=
  match s with
  | EmptyString => EmptyString
  | String c s' =>
      match skip with
      | S k => replace_go old new k s'
      | O =>
          if String.prefix old s
          then new +:+ replace_go old new (String.length old - 1) s'
          else String c (replace_go old new 0 s')
      end
  end.

Definition replace (old new s : string) : string := replace_go old new 0 s.

End Py.

Export Py.

(** ** [utils/helpers.py] *)

Module helpers.

Definition format_search_results (results : list dict)
    (max_abstract_length : Z) : res (list dict) :=
  for_each
    (λ formatted result,
       let formatted_result := result in
       let abstract := get result "abstract" (VStr "") in
       n ← py_len abstract;
       formatted_result ←
         (if max_abstract_length <? n
          then cut ← py_slice_to abstract max_abstract_length;
               v ← add_str cut "...";
               Ok (set_item formatted_result "abstract" v)
          else Ok formatted_result);
       Ok (formatted ++ [formatted_result]))
    [] results.

(** The three locals of [merge_results_from_sources]. *)
Record merge_state := MergeState {
  merged : list dict;
  seen_ids : gset hkey;
  seen_titles : gset string
}.

(** The body of the inner loop, for one [result]. *)
Definition merge_result (st : merge_state) (result : dict)
  : res merge_state :=
  let result_id := get result "id" (VStr "") in
  lowered ← str_lower (get result "title" (VStr ""));
  let title := strip lowered in
  dup_id ← (if truthy result_id
             then set_contains (seen_ids st) result_id
             else Ok false);
  if (dup_id : bool) then Ok st
  else if negb (String.eqb title "") && bool_decide (title ∈ seen_titles st)
  then Ok st
  else
    ids ← (if truthy result_id
            then set_add (seen_ids st) result_id
            else Ok (seen_ids st));
    Ok {| merged := merged st ++ [result];
          seen_ids := ids;
          seen_titles := if negb (String.eqb title "")
                         then {[title]} ∪ seen_titles st
                         else seen_titles st |}.

Definition merge_results_from_sources (results_dict : list (string * list dict))
  : res (list dict) :=
  st ← for_each
         (λ st '(source, results), for_each merge_result st results)
         {| merged := []; seen_ids := ∅; seen_titles := ∅ |}
         results_dict;
  Ok (merged st).

Definition validate_source (source : string) (available_sources : list string)
  : bool :=
  bool_decide (source ∈ available_sources) || String.eqb source "all".

End helpers.

(** ** The outside world

    Everything an adapter reaches outside the repository: the HTTP client,
    the XML parser, [urllib.parse.quote], the clock, the Sci-Hub client
    library and the PubMed collaborator [utils.pubmed_utils]. *)

Module World.

(** An [xml.etree.ElementTree] element; [tag] is the qualified name. *)
#[warnings="-register-all"]
Inductive element :=
| Element (tag : string) (attrib : list (string * string))
          (text : option string) (children : list element).

Definition tag (e : element) : string :=
  match e with Element t _ _ _ => t end.
Definition attrib (e : element) : list (string * string) :=
  match e with Element _ a _ _ => a end.
Definition text (e : element) : option string :=
  match e with Element _ _ t _ => t end.
Definition children (e : element) : list element :=
  match e with Element _ _ _ c => c end.

(** [e.findall(name)] and [e.find(name)]: the direct children with that
    tag, and the first of them. *)
Definition findall (e : element) (name : string) : list element :=
  filter (λ c, tag c = name) (children e).

Definition find (e : element) (name : string) : option element :=
  head (findall e name).

(** A [requests.Response]: [json] is what [response.json()] gives. *)
Record response := Response {
  status_code : Z;
  text_body : string;
  json : res value
}.

(** The calls that leave the process, and the hand-over of a search to an
    adapter by [asyncio.to_thread]. *)
Inductive call :=
| RequestsGet (url : string) (params : dict)
| ScihubFetch (doi : value)
| PubmedSearchKeyWords (keywords : string) (num_results : Z)
| PubmedSearchAdvanced (kwargs : dict)
| ToThread (source_name : string).

(** The answers of the outside world.  An answer may depend on the calls
    made so far. *)
Record env := Env {
  requests_get : list call → string → dict → res response;
  fromstring : string → res element;
  quote : string → string;
  (** [datetime.now().strftime('%Y-%m-%d')], and the same 365 days back. *)
  today : string;
  year_ago : string;
  (** [(datetime.strptime(d, '%Y-%m-%d') - timedelta(days=365))
      .strftime('%Y-%m-%d')]. *)
  minus_365_days : string → res string;
  (** The text of a list or dictionary, and of an exception. *)
  repr : value → string;
  exn_str : exn → string;
  (** The [scihub] library: whether it imports, and [SciHub().fetch]. *)
  scihub_available : bool;
  scihub_fetch : list call → value → res value;
  (** [utils.pubmed_utils]. *)
  pubmed_search_key_words : list call → string → Z → res (list dict);
  pubmed_search_advanced : list call → dict → res (list dict)
}.

(** Code that may call out: it reads the world, extends the trace of
    calls, and returns or raises. *)
Definition M (A : Type) : Type := env → list call → res A * list call.

#[global] Instance M_ret : MRet M := λ A a w tr, (Ok a, tr).
#[global] Instance M_bind : MBind M := λ A B f m w tr,
  match m w tr with
  | (Ok a, tr') => f a w tr'
  | (Raise e, tr') => (Raise e, tr')
  end.

Definition lift {A} (r : res A) : M A := λ w tr, (r, tr).

Definition ask : M env := λ w tr, (Ok w, tr).

(** [try: body except Exception as e: handler e]. *)
Definition try_except {A} (body : M A) (handler : exn → M A) : M A :=
  λ w tr,
    match body w tr with
    | (Ok a, tr') => (Ok a, tr')
    | (Raise e, tr') => handler e w tr'
    end.

(** An outgoing call: answered by the world, recorded in the trace. *)
Definition call_out {A} (c : call) (answer : env → list call → res A)
  : M A :=
  λ w tr, (answer w tr, tr ++ [c]).

Definition http_get (url : string) (params : dict) : M response :=
  call_out (RequestsGet url params) (λ w tr, requests_get w tr url params).

(** [await asyncio.to_thread(method, ...)]: the method runs to its end
    before the caller goes on. *)
Definition to_thread {A} (source_name : string) (method : M A) : M A :=
  λ w tr, method w (tr ++ [ToThread source_name]).

(** *** Loops *)

Inductive control (S : Type) :=
| Break (s : S)
| Continue (s : S).
Arguments Break {S} s.
Arguments Continue {S} s.

(** [while cond: body].  [None] when [fuel] iterations did not reach the
    end of the loop. *)
Fixpoint while {S} (fuel : nat) (cond : S → res bool)
    (body : S → M (control S)) (s : S) : M (option S) :=
  c ← lift (cond s);
  if (c : bool) then
    match fuel with
    | O => mret None
    | Datatypes.S fuel' =>
        r ← body s;
        match r with
        | Break s' => mret (Some s')
        | Continue s' => while fuel' cond body s'
        end
    end
  else mret (Some s).

(** A [for] loop with [break]. *)
Fixpoint for_break {S A} (body : S → A → res (control S)) (s : S)
    (l : list A) : res S :=
  match l with
  | [] => Ok s
  | x :: l' =>
      r ← body s x;
      match r with
      | Break s' => Ok s'
      | Continue s' => for_break body s' l'
      end
  end.

(** A [for] loop inside a [try] whose handler goes on with the state the
    loop had reached: the state before the item that raised. *)
Fixpoint for_keep {S A} (body : S → A → M S) (s : S) (l : list A)
  : M S :=
  match l with
  | [] => mret s
  | x :: l' =>
      λ w tr,
        match body s x w tr with
        | (Ok s', tr') => for_keep body s' l' w tr'
        | (Raise _, tr') => (Ok s, tr')
        end
  end.

(** The interface of [adapters/base_adapter.py], as far as the search
    path uses it. *)
Record BaseAdapter := {
  get_source_name : string;
  search_by_keywords : string → Z → M (list dict);
  search_advanced : dict → M (list dict)
}.

(** *** The tools other than the searches

    [get_metadata], [download_pdf] and the analysis prompt also reach the
    file system, the download of the Sci-Hub client and the rest of
    [utils.pubmed_utils].  These effects have a log of their own. *)

Inductive effect :=
| WriteFile (filename : string) (data : string)
| ScihubDownload (url : value) (path : string)
| GetPubmedMetadata (pmid : string)
| DownloadFullTextPdf (pmid : string)
| PubmedDeepAnalysis (metadata : dict).

Record tools := Tools {
  (** [response.content]. *)
  content : response → string;
  (** [with open(filename, 'wb') as f: f.write(data)]. *)
  write_file : list effect → string → string → res ();
  (** [SciHub().download(url, path=path)]. *)
  scihub_download : list effect → value → string → res ();
  (** [utils.pubmed_utils]: [get_pubmed_metadata], whose answer may be
      [None], [download_full_text_pdf] and [deep_paper_analysis]. *)
  get_pubmed_metadata : list effect → string → res (option dict);
  download_full_text_pdf : list effect → string → res string;
  pubmed_deep_analysis : list effect → dict → res string
}.

(** Code that may call out and use the tools: an effect stays in the log
    when the code raises later. *)
Definition Tool (A : Type) : Type :=
  tools → list effect → env → list call → res A * list effect * list call.

#[global] Instance Tool_ret : MRet Tool := λ A a t ef w tr, (Ok a, ef, tr).
#[global] Instance Tool_bind : MBind Tool := λ A B f m t ef w tr,
  match m t ef w tr with
  | (Ok a, ef', tr') => f a t ef' w tr'
  | (Raise e, ef', tr') => (Raise e, ef', tr')
  end.

(** Code of the search layer, run among the tools. *)
Definition net {A} (m : M A) : Tool A :=
  λ t ef w tr, let '(r, tr') := m w tr in (r, ef, tr').

(** [try: body except Exception as e: handler e]. *)
Definition tool_try {A} (body : Tool A) (handler : exn → Tool A) : Tool A :=
  λ t ef w tr,
    match body t ef w tr with
    | (Ok a, ef', tr') => (Ok a, ef', tr')
    | (Raise e, ef', tr') => handler e t ef' w tr'
    end.

(** The use of a tool: answered by the world, recorded in the log. *)
Definition tool_out {A} (e : effect) (answer : tools → list effect → res A)
  : Tool A :=
  λ t ef w tr, (answer t ef, ef ++ [e], tr).

Definition tool_ask : Tool tools := λ t ef w tr, (Ok t, ef, tr).

(** [await asyncio.to_thread(method, ...)]. *)
Definition tool_thread {A} (source_name : string) (method : Tool A) : Tool A :=
  λ t ef w tr, method t ef w (tr ++ [ToThread source_name]).

(** An adapter with all its methods: the searches, and the two other
    methods of the interface.  [deep_analysis] is a method of the PubMed
    adapter alone. *)
Record Adapter := {
  searches : BaseAdapter;
  get_metadata : string → Tool dict;
  download_pdf : string → Tool value;
  deep_analysis : option (string → Tool value)
}.

End World.

Export World.

(** ** [adapters/base_adapter.py] *)

Module base_adapter.

Definition _format_result (source_name : string) (raw_result : dict) : dict :=
  [("id", get raw_result "id" (VStr ""));
   ("title", get raw_result "title" (VStr ""));
   ("authors", get raw_result "authors" (VStr ""));
   ("abstract", get raw_result "abstract" (VStr ""));
   ("publication_date", get raw_result "publication_date" (VStr ""));
   ("journal", get raw_result "journal" (VStr ""));
   ("url", get raw_result "url" (VStr ""));
   ("pdf_url", get raw_result "pdf_url" VNone);
   ("source", VStr source_name)].

End base_adapter.

(** ** [adapters/arxiv_adapter.py] *)

Module arxiv_adapter.

Definition base_url : string := "http://export.arxiv.org/api/query".

(** A name in the Atom namespace [ns]. *)
Definition atom (name : string) : string :=
  "{http://www.w3.org/2005/Atom}" +:+ name.

(** [elem.text.method()] when [elem] is there, else the empty string. *)
Definition text_or_empty (elem : option element) (method : string → string)
  : res string :=
  match elem with
  | Some e => match text e with
              | Some t => Ok (method t)
              | None => Raise AttributeError
              end
  | None => Ok ""
  end.

(** The body of the loop over the entries of the feed. *)
Definition parse_entry (entry : element) : res dict :=
  arxiv_id ← text_or_empty (find entry (atom "id")) (split_last "/abs/");
  title ← text_or_empty (find entry (atom "title")) strip;
  let authors :=
    omap (λ author,
            match find author (atom "name") with
            | Some name_elem =>
                Some (match text name_elem with
                      | Some t => VStr t
                      | None => VNone
                      end)
            | None => None
            end)
         (findall entry (atom "author")) in
  authors_str ← join ", " authors;
  abstract ← text_or_empty (find entry (atom "summary")) strip;
  pub_date ← match find entry (atom "published") with
             | Some e => match text e with
                         | Some t => Ok (String.substring 0 10 t)
                         | None => Raise TypeError
                         end
             | None => Ok ""
             end;
  let category :=
    match find entry (atom "category") with
    | Some e => match lookup_key ((λ kv, (kv.1, VStr kv.2)) <$> attrib e) "term" with
                | Some (VStr t) => t
                | _ => "None"
                end
    | None => ""
    end in
  Ok [("id", VStr arxiv_id);
      ("title", VStr title);
      ("authors", VStr authors_str);
      ("abstract", VStr abstract);
      ("publication_date", VStr pub_date);
      ("journal", VStr ("arXiv preprint (" +:+ category +:+ ")"));
      ("url", VStr ("https://arxiv.org/abs/" +:+ arxiv_id));
      ("pdf_url", VStr ("https://arxiv.org/pdf/" +:+ arxiv_id +:+ ".pdf"));
      ("source", VStr "arxiv")].

Definition _parse_arxiv_response (xml_text : string) : M (list dict) :=
  try_except
    (w ← ask;
     root ← lift (fromstring w xml_text);
     lift (map_res parse_entry (findall root (atom "entry"))))
    (λ e, mret []).

Definition keywords_params (w : env) (keywords : string) (num_results : Z)
  : dict :=
  let search_query := "all:" +:+ quote w keywords in
  [("search_query", VStr search_query);
   ("start", VInt 0);
   ("max_results", VInt num_results);
   ("sortBy", VStr "relevance");
   ("sortOrder", VStr "descending")].

Definition search_by_keywords (keywords : string) (num_results : Z)
  : M (list dict) :=
  try_except
    (w ← ask;
     let params := keywords_params w keywords num_results in
     response ← http_get base_url params;
     if negb (status_code response =? 200) then mret []
     else _parse_arxiv_response (text_body response))
    (λ e, mret []).

(** [quote(v)]: of a string only. *)
Definition quote_value (w : env) (v : value) : res string :=
  match v with
  | VStr s => Ok (quote w s)
  | _ => Raise TypeError
  end.

(** [if kwargs.get(key): query_parts.append(f"{prefix}{quote(kwargs[key])}")]. *)
Definition add_part (w : env) (kwargs : dict) (key prefix : string)
    (query_parts : list value) : res (list value) :=
  if truthy (get kwargs key VNone)
  then q ← quote_value w (get kwargs key VNone);
       Ok (query_parts ++ [VStr (prefix +:+ q)])
  else Ok query_parts.

Definition _filter_by_date (results : list dict) (start_date end_date : value)
  : res (list dict) :=
  for_each
    (λ filtered result,
       let pub_date := get result "publication_date" (VStr "") in
       early ← (if truthy start_date then py_lt pub_date start_date
                else Ok false);
       if (early : bool) then Ok filtered
       else
         late ← (if truthy end_date then py_lt end_date pub_date
                 else Ok false);
         if (late : bool) then Ok filtered
         else Ok (filtered ++ [result]))
    [] results.

Definition search_advanced (kwargs : dict) : M (list dict) :=
  try_except
    (w ← ask;
     query_parts ← lift (add_part w kwargs "title" "ti:" []);
     query_parts ← lift (add_part w kwargs "author" "au:" query_parts);
     query_parts ← lift (add_part w kwargs "abstract" "abs:" query_parts);
     query_parts ← lift (add_part w kwargs "category" "cat:" query_parts);
     if negb (truthy (VList query_parts))
        && negb (truthy (get kwargs "term" VNone))
     then mret []
     else
       query_parts ← (if negb (truthy (VList query_parts))
                      then lift (add_part w kwargs "term" "all:" query_parts)
                      else mret query_parts);
       search_query ← lift (join "+AND+" query_parts);
       let num_results := get kwargs "num_results" (VInt 10) in
       let params := [("search_query", VStr search_query);
                      ("start", VInt 0);
                      ("max_results", num_results);
                      ("sortBy", VStr "submittedDate");
                      ("sortOrder", VStr "descending")] in
       response ← http_get base_url params;
       if negb (status_code response =? 200) then mret []
       else
         results ← _parse_arxiv_response (text_body response);
         if truthy (get kwargs "start_date" VNone)
            || truthy (get kwargs "end_date" VNone)
         then lift (_filter_by_date results (get kwargs "start_date" VNone)
                                    (get kwargs "end_date" VNone))
         else mret results)
    (λ e, mret []).

Definition ArXivAdapter : BaseAdapter := {|
  World.get_source_name := "arxiv";
  World.search_by_keywords := search_by_keywords;
  World.search_advanced := search_advanced
|}.

(** [identifier.replace("arXiv:", "").strip()]. *)
Definition clean_id (identifier : string) : string :=
  strip (replace "arXiv:" "" identifier).

Definition get_metadata (identifier : string) : M dict :=
  try_except
    (let arxiv_id := clean_id identifier in
     let params := [("id_list", VStr arxiv_id); ("max_results", VInt 1)] in
     response ← http_get base_url params;
     if negb (status_code response =? 200)
     then mret [("error",
                 VStr ("Could not retrieve metadata for arXiv ID: "
                       +:+ identifier))]
     else
       results ← _parse_arxiv_response (text_body response);
       match results with
       | result :: _ => mret result
       | [] => mret [("error",
                      VStr ("No metadata found for arXiv ID: "
                            +:+ identifier))]
       end)
    (λ e,
       w ← ask;
       mret [("error", VStr ("Error fetching metadata: " +:+ exn_str w e))]).

Definition download_pdf (identifier : string) : Tool value :=
  tool_try
    (let arxiv_id := clean_id identifier in
     let pdf_url := "https://arxiv.org/pdf/" +:+ arxiv_id +:+ ".pdf" in
     response ← net (http_get pdf_url []);
     if negb (status_code response =? 200)
     then mret (VStr ("Error: Unable to download PDF (status code: "
                      +:+ dec (status_code response) +:+ ")"))
     else
       let filename := "arxiv_" +:+ replace "/" "_" arxiv_id +:+ ".pdf" in
       t ← tool_ask;
       _ ← tool_out (WriteFile filename (content t response))
             (λ t ef, write_file t ef filename (content t response));
       mret (VStr ("PDF downloaded successfully as " +:+ filename)))
    (λ e,
       w ← net ask;
       mret (VStr ("Error downloading PDF: " +:+ exn_str w e))).

Definition ArXivTools : Adapter := {|
  World.searches := ArXivAdapter;
  World.get_metadata := λ identifier, net (get_metadata identifier);
  World.download_pdf := download_pdf;
  World.deep_analysis := None
|}.

End arxiv_adapter.

(** ** [adapters/biorxiv_adapter.py] *)

Module biorxiv_adapter.

Definition base_url : string := "https://api.biorxiv.org".

Definition _format_biorxiv_result (w : env) (server : string) (item : value)
  : res dict :=
  doi ← py_get item "doi" (VStr "");
  title ← py_get item "title" (VStr "");
  authors ← py_get item "authors" (VStr "");
  abstract ← py_get item "abstract" (VStr "");
  date ← py_get item "date" (VStr "");
  let content := "https://www." +:+ server +:+ ".org/content/"
                 +:+ py_str (repr w) doi in
  Ok [("id", doi);
      ("title", title);
      ("authors", authors);
      ("abstract", abstract);
      ("publication_date", date);
      ("journal", VStr (server +:+ " (preprint)"));
      ("url", VStr content);
      ("pdf_url", VStr (content +:+ "v1.full.pdf"));
      ("source", VStr server)].

Definition details_url (server date_range : string) (cursor : Z) : string :=
  base_url +:+ "/details/" +:+ server +:+ "/" +:+ date_range
  +:+ "/" +:+ dec cursor.

(** One round of the [while] loop: fetch the page at [cursor], leave the
    loop on a bad status or an empty batch, else filter the batch with
    [inner] and move the cursor past it. *)
Definition scan_page (server date_range : string)
    (inner : list dict → value → res (control (list dict)))
    (st : list dict * Z) : M (control (list dict * Z)) :=
  let '(all_results, cursor) := st in
  response ← http_get (details_url server date_range cursor) [];
  if negb (status_code response =? 200) then mret (Break st)
  else
    data ← lift (json response);
    collection ← lift (py_get data "collection" (VList []));
    if negb (truthy collection) then mret (Break st)
    else
      items ← lift (py_iter collection);
      all_results ← lift (for_break inner all_results items);
      n ← lift (py_len collection);
      mret (Continue (all_results, cursor + n)).

(** The search with its loop bounded by [fuel] rounds; [None] if they do
    not suffice. *)
Definition scan_by_keywords (fuel : nat) (server keywords : string)
    (num_results : Z) : M (option (list dict)) :=
  try_except
    (w ← ask;
     let date_range := year_ago w +:+ "/" +:+ today w in
     let keywords_lower := lower keywords in
     st ← while fuel
            (λ '(all_results, cursor),
               Ok ((Z.of_nat (length all_results) <? num_results)
                   && (cursor <? 10000)))
            (scan_page server date_range
               (λ all_results item,
                  t ← py_get item "title" (VStr "");
                  title ← str_lower t;
                  a ← py_get item "abstract" (VStr "");
                  abstract ← str_lower a;
                  if contains keywords_lower title
                     || contains keywords_lower abstract
                  then
                    r ← _format_biorxiv_result w server item;
                    let all_results := all_results ++ [r] in
                    if Z.of_nat (length all_results) >=? num_results
                    then Ok (Break all_results)
                    else Ok (Continue all_results)
                  else Ok (Continue all_results)))
            ([], 0);
     match st with
     | Some (all_results, _) => mret (Some (slice_to all_results num_results))
     | None => mret None
     end)
    (λ e, mret (Some [])).

(** The ceiling on the cursor bounds the rounds. *)
Definition scan_ceiling : nat := Z.to_nat 10000.

Definition search_by_keywords (server keywords : string) (num_results : Z)
  : M (list dict) :=
  r ← scan_by_keywords scan_ceiling server keywords num_results;
  mret (default [] r).

(** [not query or query in item.get(field, "").lower()]. *)
Definition field_match (query : string) (item : value) (field : string)
  : res bool :=
  if String.eqb query "" then Ok true
  else
    v ← py_get item field (VStr "");
    s ← str_lower v;
    Ok (contains query s).

(** The date window of the advanced search: the dates given, else the
    last year up to today. *)
Definition date_window (w : env) (kwargs : dict) : res string :=
  let start_date := get kwargs "start_date" VNone in
  let end_date := get kwargs "end_date" VNone in
  let end_date := if negb (truthy end_date) then VStr (today w)
                  else end_date in
  start_date ← (if negb (truthy start_date)
                then match end_date with
                     | VStr d => s ← minus_365_days w d; Ok (VStr s)
                     | _ => Raise TypeError
                     end
                else Ok start_date);
  Ok (py_str (repr w) start_date +:+ "/" +:+ py_str (repr w) end_date).

Definition scan_advanced (fuel : nat) (server : string) (kwargs : dict)
  : M (option (list dict)) :=
  try_except
    (w ← ask;
     title_query ← lift (str_lower (get kwargs "title" (VStr "")));
     author_query ← lift (str_lower (get kwargs "author" (VStr "")));
     let num_results := get kwargs "num_results" (VInt 10) in
     date_range ← lift (date_window w kwargs);
     st ← while fuel
            (λ '(all_results, cursor),
               more ← py_lt (VInt (Z.of_nat (length all_results))) num_results;
               Ok (more && (cursor <? 10000)))
            (scan_page server date_range
               (λ all_results item,
                  title_match ← field_match title_query item "title";
                  author_match ← field_match author_query item "authors";
                  if title_match && author_match
                  then
                    r ← _format_biorxiv_result w server item;
                    let all_results := all_results ++ [r] in
                    full ← py_ge (VInt (Z.of_nat (length all_results)))
                                 num_results;
                    if (full : bool) then Ok (Break all_results)
                    else Ok (Continue all_results)
                  else Ok (Continue all_results)))
            ([], 0);
     match st with
     | Some (all_results, _) =>
         sliced ← lift (slice_by all_results num_results);
         mret (Some sliced)
     | None => mret None
     end)
    (λ e, mret (Some [])).

Definition search_advanced (server : string) (kwargs : dict)
  : M (list dict) :=
  r ← scan_advanced scan_ceiling server kwargs;
  mret (default [] r).

Definition BioRxivAdapter (server : string) : BaseAdapter := {|
  World.get_source_name := server;
  World.search_by_keywords := search_by_keywords server;
  World.search_advanced := search_advanced server
|}.

(** [BioRxivAdapter(server)]: the constructor accepts the two servers. *)
Definition __init__ (server : string) : res BaseAdapter :=
  if negb (bool_decide (server ∈ ["biorxiv"; "medrxiv"]))
  then Raise ValueError
  else Ok (BioRxivAdapter server).

Definition get_metadata (server identifier : string) : M dict :=
  try_except
    (w ← ask;
     let doi := replace "10.1101/" "" identifier in
     let url := base_url +:+ "/details/" +:+ server +:+ "/" +:+ doi in
     response ← http_get url [];
     if negb (status_code response =? 200)
     then mret [("error",
                 VStr ("Could not retrieve metadata for DOI: "
                       +:+ identifier))]
     else
       data ← lift (json response);
       collection ← lift (py_get data "collection" (VList []));
       if truthy collection
       then item ← lift (subscript_idx collection 0);
            lift (_format_biorxiv_result w server item)
       else mret [("error",
                   VStr ("No metadata found for DOI: " +:+ identifier))])
    (λ e,
       w ← ask;
       mret [("error", VStr ("Error fetching metadata: " +:+ exn_str w e))]).

Definition download_pdf (server identifier : string) : Tool value :=
  tool_try
    (let doi := replace "10.1101/" "" identifier in
     let pdf_url := "https://www." +:+ server +:+ ".org/content/" +:+ doi
                    +:+ "v1.full.pdf" in
     response ← net (http_get pdf_url []);
     if negb (status_code response =? 200)
     then mret (VStr ("Error: Unable to download PDF (status code: "
                      +:+ dec (status_code response) +:+ ")"))
     else
       let filename := server +:+ "_" +:+ replace "/" "_" doi +:+ ".pdf" in
       t ← tool_ask;
       _ ← tool_out (WriteFile filename (content t response))
             (λ t ef, write_file t ef filename (content t response));
       mret (VStr ("PDF downloaded successfully as " +:+ filename)))
    (λ e,
       w ← net ask;
       mret (VStr ("Error downloading PDF: " +:+ exn_str w e))).

Definition BioRxivTools (server : string) : Adapter := {|
  World.searches := BioRxivAdapter server;
  World.get_metadata := λ identifier, net (get_metadata server identifier);
  World.download_pdf := download_pdf server;
  World.deep_analysis := None
|}.

End biorxiv_adapter.

(** ** [adapters/pubmed_adapter.py] *)

Module pubmed_adapter.

Definition _format_result (w : env) (pubmed_result : dict) : dict :=
  if has_key pubmed_result "error" then pubmed_result
  else
    let pmid := get pubmed_result "PMID" (VStr "") in
    [("id", pmid);
     ("title", get pubmed_result "Title" (VStr "No title available"));
     ("authors", get pubmed_result "Authors" (VStr "No authors available"));
     ("abstract", get pubmed_result "Abstract" (VStr "No abstract available"));
     ("publication_date", get pubmed_result "Publication Date" (VStr ""));
     ("journal", get pubmed_result "Journal" (VStr ""));
     ("url", VStr ("https://pubmed.ncbi.nlm.nih.gov/"
                   +:+ py_str (repr w) pmid +:+ "/"));
     ("pdf_url", VNone);
     ("source", VStr "pubmed")].

Definition search_by_keywords (keywords : string) (num_results : Z)
  : M (list dict) :=
  try_except
    (results ← call_out (PubmedSearchKeyWords keywords num_results)
                 (λ w tr, pubmed_search_key_words w tr keywords num_results);
     w ← ask;
     mret (_format_result w <$> results))
    (λ e, mret []).

Definition advanced_args (kwargs : dict) : dict :=
  [("term", get kwargs "term" VNone);
   ("title", get kwargs "title" VNone);
   ("author", get kwargs "author" VNone);
   ("journal", get kwargs "journal" VNone);
   ("start_date", get kwargs "start_date" VNone);
   ("end_date", get kwargs "end_date" VNone);
   ("num_results", get kwargs "num_results" (VInt 10))].

Definition search_advanced (kwargs : dict) : M (list dict) :=
  try_except
    (let args := advanced_args kwargs in
     results ← call_out (PubmedSearchAdvanced args)
                 (λ w tr, pubmed_search_advanced w tr args);
     w ← ask;
     mret (_format_result w <$> results))
    (λ e, mret []).

Definition PubMedAdapter : BaseAdapter := {|
  World.get_source_name := "pubmed";
  World.search_by_keywords := search_by_keywords;
  World.search_advanced := search_advanced
|}.

Definition get_metadata (identifier : string) : Tool dict :=
  tool_try
    (metadata ← tool_out (GetPubmedMetadata identifier)
                  (λ t ef, get_pubmed_metadata t ef identifier);
     match metadata with
     | Some (field :: fields) =>
         w ← net ask;
         mret (_format_result w (field :: fields))
     | Some [] | None =>
         mret [("error",
                VStr ("No metadata found for PMID: " +:+ identifier))]
     end)
    (λ e,
       w ← net ask;
       mret [("error", VStr ("Error fetching metadata: " +:+ exn_str w e))]).

Definition download_pdf (identifier : string) : Tool value :=
  tool_try
    (message ← tool_out (DownloadFullTextPdf identifier)
                 (λ t ef, download_full_text_pdf t ef identifier);
     mret (VStr message))
    (λ e,
       w ← net ask;
       mret (VStr ("Error downloading PDF: " +:+ exn_str w e))).

Definition deep_analysis (identifier : string) : Tool value :=
  tool_try
    (metadata ← tool_out (GetPubmedMetadata identifier)
                  (λ t ef, get_pubmed_metadata t ef identifier);
     match metadata with
     | Some (field :: fields) =>
         prompt ← tool_out (PubmedDeepAnalysis (field :: fields))
                    (λ t ef, pubmed_deep_analysis t ef (field :: fields));
         mret (VStr prompt)
     | Some [] | None =>
         mret (VStr "Error: Could not retrieve metadata for analysis")
     end)
    (λ e,
       w ← net ask;
       mret (VStr ("Error generating analysis: " +:+ exn_str w e))).

Definition PubMedTools : Adapter := {|
  World.searches := PubMedAdapter;
  World.get_metadata := get_metadata;
  World.download_pdf := download_pdf;
  World.deep_analysis := Some deep_analysis
|}.

End pubmed_adapter.

(** ** [adapters/semantic_scholar_adapter.py] *)

Module semantic_scholar_adapter.

Definition base_url : string := "https://api.semanticscholar.org/graph/v1".

Definition _format_semantic_result (w : env) (paper : value) : res dict :=
  authors_list ← py_get paper "authors" (VList []);
  authors_str ←
    (if truthy authors_list
     then authors ← py_iter authors_list;
          names ← map_res (λ author, py_get author "name" (VStr "")) authors;
          join ", " names
     else Ok "No authors available");
  pdf_info ← py_get paper "openAccessPdf" VNone;
  pdf_url ← (if truthy pdf_info then py_get pdf_info "url" VNone
             else Ok VNone);
  paper_id ← py_get paper "paperId" (VStr "");
  title ← py_get paper "title" (VStr "No title available");
  abstract ← py_get paper "abstract" (VStr "No abstract available");
  year ← py_get paper "year" (VStr "");
  venue ← py_get paper "venue" (VStr "");
  url ← py_get paper "url"
          (VStr ("https://www.semanticscholar.org/paper/"
                 +:+ py_str (repr w) paper_id));
  citation_count ← py_get paper "citationCount" VNone;
  reference_count ← py_get paper "referenceCount" VNone;
  fields_of_study ← py_get paper "fieldsOfStudy" VNone;
  Ok [("id", paper_id);
      ("title", title);
      ("authors", VStr authors_str);
      ("abstract", abstract);
      ("publication_date", VStr (py_str (repr w) year));
      ("journal", venue);
      ("url", url);
      ("pdf_url", pdf_url);
      ("source", VStr "semantic_scholar");
      ("citation_count", citation_count);
      ("reference_count", reference_count);
      ("fields_of_study", fields_of_study)].

Definition search_url : string := base_url +:+ "/paper/search".

Definition keywords_params (keywords : string) (num_results : Z) : dict :=
  [("query", VStr keywords);
   ("limit", VInt (Z.min num_results 100));
   ("fields", VStr "paperId,title,abstract,authors,year,venue,url,openAccessPdf")].

Definition search_by_keywords (keywords : string) (num_results : Z)
  : M (list dict) :=
  try_except
    (w ← ask;
     let params := keywords_params keywords num_results in
     response ← http_get search_url params;
     if negb (status_code response =? 200) then mret []
     else
       data ← lift (json response);
       papers ← lift (py_get data "data" (VList []));
       items ← lift (py_iter papers);
       lift (map_res (_format_semantic_result w) items))
    (λ e, mret []).

(** [if kwargs.get(key): query_parts.append(kwargs[key])]. *)
Definition add_part (kwargs : dict) (key : string) (query_parts : list value)
  : list value :=
  if truthy (get kwargs key VNone)
  then query_parts ++ [get kwargs key VNone]
  else query_parts.

(** [if kwargs.get(key): params[name] = value]. *)
Definition add_param (kwargs : dict) (key name : string)
    (convert : value → value) (params : dict) : dict :=
  if truthy (get kwargs key VNone)
  then set_item params name (convert (get kwargs key VNone))
  else params.

Definition search_advanced (kwargs : dict) : M (list dict) :=
  try_except
    (w ← ask;
     let query_parts := add_part kwargs "term" [] in
     let query_parts := add_part kwargs "title" query_parts in
     let query_parts := add_part kwargs "author" query_parts in
     if negb (truthy (VList query_parts)) then mret []
     else
       query ← lift (join " " query_parts);
       let num_results := get kwargs "num_results" (VInt 10) in
       n ← lift (as_int num_results);
       let params :=
         [("query", VStr query);
          ("limit", VInt (Z.min (n * 2) 100));
          ("fields", VStr "paperId,title,abstract,authors,year,venue,url,openAccessPdf,fieldsOfStudy")] in
       let params :=
         add_param kwargs "year" "year" (λ v, VStr (py_str (repr w) v)) params in
       let params := add_param kwargs "venue" "venue" id params in
       let params :=
         add_param kwargs "fields_of_study" "fieldsOfStudy" id params in
       response ← http_get search_url params;
       if negb (status_code response =? 200) then mret []
       else
         data ← lift (json response);
         papers ← lift (py_get data "data" (VList []));
         items ← lift (py_iter papers);
         results ← lift (map_res (_format_semantic_result w) items);
         results ←
           (if truthy (get kwargs "author" VNone)
            then
              author_query ← lift (str_lower (get kwargs "author" VNone));
              lift (for_each
                      (λ kept r,
                         a ← str_lower (get r "authors" (VStr ""));
                         Ok (if contains author_query a then kept ++ [r]
                             else kept))
                      [] results)
            else mret results);
         mret (slice_to results n))
    (λ e, mret []).

Definition SemanticScholarAdapter : BaseAdapter := {|
  World.get_source_name := "semantic_scholar";
  World.search_by_keywords := search_by_keywords;
  World.search_advanced := search_advanced
|}.

Definition get_metadata (identifier : string) : M dict :=
  try_except
    (w ← ask;
     let url := base_url +:+ "/paper/" +:+ identifier in
     let params :=
       [("fields", VStr "paperId,title,abstract,authors,year,venue,url,openAccessPdf,citationCount,referenceCount")] in
     response ← http_get url params;
     if negb (status_code response =? 200)
     then mret [("error",
                 VStr ("Could not retrieve metadata for ID: " +:+ identifier))]
     else
       paper ← lift (json response);
       lift (_format_semantic_result w paper))
    (λ e,
       w ← ask;
       mret [("error", VStr ("Error fetching metadata: " +:+ exn_str w e))]).

(** [requests.get(url)] for a dynamic [url]: what is not a string is no
    URL, and the request fails before it leaves. *)
Definition http_get_value (url : value) : M response :=
  match url with
  | VStr u => http_get u []
  | _ => lift (Raise RequestException)
  end.

(** [v.replace("/", "_")]: a string method. *)
Definition replace_slash (v : value) : res string :=
  match v with
  | VStr s => Ok (replace "/" "_" s)
  | _ => Raise AttributeError
  end.

Definition download_pdf (identifier : string) : Tool value :=
  tool_try
    (metadata ← net (get_metadata identifier);
     if has_key metadata "error"
     then net (lift (subscript_key (VDict metadata) "error"))
     else
       let pdf_url := get metadata "pdf_url" VNone in
       if negb (truthy pdf_url)
       then
         w ← net ask;
         mret (VStr ("No open access PDF available for this paper. Try accessing: "
                     +:+ py_str (repr w) (get metadata "url" (VStr ""))))
       else
         response ← net (http_get_value pdf_url);
         if negb (status_code response =? 200)
         then mret (VStr ("Error: Unable to download PDF (status code: "
                          +:+ dec (status_code response) +:+ ")"))
         else
           paper_id ← net (lift (replace_slash
                                   (get metadata "id" (VStr identifier))));
           let filename := "semantic_scholar_" +:+ paper_id +:+ ".pdf" in
           t ← tool_ask;
           _ ← tool_out (WriteFile filename (content t response))
                 (λ t ef, write_file t ef filename (content t response));
           mret (VStr ("PDF downloaded successfully as " +:+ filename)))
    (λ e,
       w ← net ask;
       mret (VStr ("Error downloading PDF: " +:+ exn_str w e))).

Definition SemanticScholarTools : Adapter := {|
  World.searches := SemanticScholarAdapter;
  World.get_metadata := λ identifier, net (get_metadata identifier);
  World.download_pdf := download_pdf;
  World.deep_analysis := None
|}.

End semantic_scholar_adapter.

(** ** [adapters/scihub_adapter.py] *)

Module scihub_adapter.

Definition unavailable : list dict :=
  [[("error", VStr "Sci-Hub library not available")]].

Definition _fetch_from_scihub (doi : value) : M value :=
  try_except
    (call_out (ScihubFetch doi) (λ w tr, scihub_fetch w tr doi))
    (λ e, mret VNone).

Definition _format_authors (w : env) (authors : value) : res string :=
  if negb (truthy authors) then Ok "N/A"
  else
    first5 ← py_slice_to authors 5;
    items ← py_iter first5;
    author_names ←
      for_each
        (λ author_names author,
           given ← py_get author "given" (VStr "");
           family ← py_get author "family" (VStr "");
           if truthy given || truthy family
           then Ok (author_names
                    ++ [VStr (strip (py_str (repr w) given +:+ " "
                                     +:+ py_str (repr w) family))])
           else Ok author_names)
        [] items;
    result ← join ", " author_names;
    n ← py_len authors;
    let result := if 5 <? n then result +:+ " et al." else result in
    Ok (if negb (String.eqb result "") then result else "N/A").

Definition _format_date (w : env) (date_dict : value) : res string :=
  if negb (truthy date_dict) then Ok "N/A"
  else
    date_parts ← py_get date_dict "date-parts" (VList [VList []]);
    has_parts ← (if truthy date_parts
                 then p ← subscript_idx date_parts 0; Ok (truthy p)
                 else Ok false);
    if (has_parts : bool) then
      parts ← subscript_idx date_parts 0;
      n ← py_len parts;
      if 1 <=? n then
        year ← subscript_idx parts 0;
        month ← (if 2 <=? n then subscript_idx parts 1 else Ok (VInt 1));
        day ← (if 3 <=? n then subscript_idx parts 2 else Ok (VInt 1));
        mm ← format_02d month;
        dd ← format_02d day;
        Ok (py_str (repr w) year +:+ "-" +:+ mm +:+ "-" +:+ dd)
      else Ok "N/A"
    else Ok "N/A".

(** [item.get(key, [''])[0] if item.get(key) else fallback]. *)
Definition first_or (item : value) (key : string) (fallback : string)
  : res value :=
  v ← py_get item key VNone;
  if truthy v
  then l ← py_get item key (VList [VStr ""]); subscript_idx l 0
  else Ok (VStr fallback).

(** The body of the loop over the CrossRef items. *)
Definition resolve_item (papers : list dict) (item : value)
  : M (list dict) :=
  doi ← lift (py_get item "DOI" VNone);
  if truthy doi then
    paper_info ← _fetch_from_scihub doi;
    if truthy paper_info then
      w ← ask;
      title ← lift (first_or item "title" "");
      author ← lift (py_get item "author" (VList []));
      authors ← lift (_format_authors w author);
      abstract ← lift (py_get item "abstract" (VStr "N/A"));
      created ← lift (py_get item "created" (VDict []));
      publication_date ← lift (_format_date w created);
      journal ← lift (first_or item "container-title" "N/A");
      pdf_url ← lift (py_get paper_info "url" (VStr ""));
      mret (papers
            ++ [[("id", doi);
                 ("title", title);
                 ("authors", VStr authors);
                 ("abstract", abstract);
                 ("publication_date", VStr publication_date);
                 ("journal", journal);
                 ("url", VStr ("https://doi.org/" +:+ py_str (repr w) doi));
                 ("pdf_url", pdf_url);
                 ("source", VStr "scihub")]])
    else mret papers
  else mret papers.

(** [search_by_keywords] with the bound as it arrives from
    [search_advanced]. *)
Definition crossref_url (w : env) (keywords : string) (num_results : value)
  : string :=
  "https://api.crossref.org/works?query=" +:+ keywords
  +:+ "&rows=" +:+ py_str (repr w) num_results.

Definition search_by_keywords_dyn (keywords : string) (num_results : value)
  : M (list dict) :=
  w ← ask;
  if negb (scihub_available w) then mret unavailable
  else
    items ←
      try_except
        (let url := crossref_url w keywords num_results in
         response ← http_get url [];
         if status_code response =? 200 then
           data ← lift (json response);
           message ← lift (subscript_key data "message");
           items ← lift (subscript_key message "items");
           first ← lift (py_slice items num_results);
           lift (py_iter first)
         else mret [])
        (λ e, mret []);
    for_keep resolve_item [] items.

Definition search_by_keywords (keywords : string) (num_results : Z)
  : M (list dict) :=
  search_by_keywords_dyn keywords (VInt num_results).

(** [if field: query_parts.append(f"{prefix}{field}")]. *)
Definition add_part (w : env) (kwargs : dict) (key prefix : string)
    (query_parts : list value) : list value :=
  if truthy (get kwargs key VNone)
  then query_parts
       ++ [VStr (prefix +:+ py_str (repr w) (get kwargs key VNone))]
  else query_parts.

Definition search_advanced (kwargs : dict) : M (list dict) :=
  w ← ask;
  if negb (scihub_available w) then mret unavailable
  else
    let query_parts := add_part w kwargs "title" "title:" [] in
    let query_parts := add_part w kwargs "author" "author:" query_parts in
    let query_parts :=
      add_part w kwargs "journal" "container-title:" query_parts in
    let query_parts :=
      if truthy (get kwargs "term" VNone)
      then query_parts ++ [get kwargs "term" VNone]
      else query_parts in
    query ← (if truthy (VList query_parts)
             then lift (join " " query_parts)
             else mret "research");
    search_by_keywords_dyn query (get kwargs "num_results" (VInt 10)).

Definition SciHubAdapter : BaseAdapter := {|
  World.get_source_name := "scihub";
  World.search_by_keywords := search_by_keywords;
  World.search_advanced := search_advanced
|}.

(** [data.get('title', [''])[0] if data.get('title') else
    result.get('title', '')]. *)
Definition title_or (data result : value) : res value :=
  v ← py_get data "title" VNone;
  if truthy v
  then l ← py_get data "title" (VList [VStr ""]); subscript_idx l 0
  else py_get result "title" (VStr "").

Definition get_metadata (identifier : value) : M dict :=
  w ← ask;
  if negb (scihub_available w)
  then mret [("error", VStr "Sci-Hub library not available")]
  else
    try_except
      (result ← _fetch_from_scihub identifier;
       let not_found :=
         mret [("error",
                VStr ("Paper with DOI " +:+ py_str (repr w) identifier
                      +:+ " not found"))] in
       if truthy result then
         let crossref_url := "https://api.crossref.org/works/"
                             +:+ py_str (repr w) identifier in
         response ← http_get crossref_url [];
         if status_code response =? 200 then
           body ← lift (json response);
           data ← lift (subscript_key body "message");
           title ← lift (title_or data result);
           author ← lift (py_get data "author" (VList []));
           authors ← lift (_format_authors w author);
           abstract ← lift (py_get data "abstract" (VStr "N/A"));
           created ← lift (py_get data "created" (VDict []));
           publication_date ← lift (_format_date w created);
           journal ← lift (first_or data "container-title" "N/A");
           pdf_url ← lift (py_get result "url" (VStr ""));
           mret [("id", identifier);
                 ("title", title);
                 ("authors", VStr authors);
                 ("abstract", abstract);
                 ("publication_date", VStr publication_date);
                 ("journal", journal);
                 ("url", VStr ("https://doi.org/"
                               +:+ py_str (repr w) identifier));
                 ("pdf_url", pdf_url);
                 ("source", VStr "scihub")]
         else not_found
       else not_found)
      (λ e,
         mret [("error",
                VStr ("Error retrieving metadata: " +:+ exn_str w e))]).

Definition download_pdf (identifier : string) (output_path : option string)
  : Tool value :=
  w ← net ask;
  if negb (scihub_available w)
  then mret (VStr "Error: Sci-Hub library not available")
  else
    tool_try
      (result ← net (_fetch_from_scihub (VStr identifier));
       url ← (if truthy result then net (lift (py_get result "url" VNone))
              else mret VNone);
       if truthy result && truthy url then
         let output_path :=
           match output_path with
           | None => "paper_" +:+ replace "/" "_" identifier +:+ ".pdf"
           | Some path => path
           end in
         url ← net (lift (subscript_key result "url"));
         _ ← tool_out (ScihubDownload url output_path)
               (λ t ef, scihub_download t ef url output_path);
         mret (VStr ("PDF successfully downloaded to " +:+ output_path))
       else
         mret (VStr ("Error: Could not find PDF for DOI " +:+ identifier)))
      (λ e, mret (VStr ("Error downloading PDF: " +:+ exn_str w e))).

Definition search_by_title (title : string) : M dict :=
  w ← ask;
  if negb (scihub_available w)
  then mret [("error", VStr "Sci-Hub library not available")]
  else
    try_except
      (let url := "https://api.crossref.org/works?query.title=" +:+ title
                  +:+ "&rows=1" in
       let not_found :=
         mret [("error",
                VStr ("Paper with title '" +:+ title +:+ "' not found"))] in
       response ← http_get url [];
       if status_code response =? 200 then
         data ← lift (json response);
         message ← lift (subscript_key data "message");
         items ← lift (subscript_key message "items");
         if truthy items then
           message ← lift (subscript_key data "message");
           items ← lift (subscript_key message "items");
           item ← lift (subscript_idx items 0);
           doi ← lift (py_get item "DOI" VNone);
           if truthy doi then get_metadata doi else not_found
         else not_found
       else not_found)
      (λ e,
         mret [("error",
                VStr ("Error searching by title: " +:+ exn_str w e))]).

Definition SciHubTools : Adapter := {|
  World.searches := SciHubAdapter;
  World.get_metadata := λ identifier, net (get_metadata (VStr identifier));
  World.download_pdf := λ identifier, download_pdf identifier None;
  World.deep_analysis := None
|}.

End scihub_adapter.

(** ** [academic_server.py] *)

Module academic_server.

Abbreviation registry := (list (string * BaseAdapter)).

Definition adapters : registry :=
  [("pubmed", pubmed_adapter.PubMedAdapter);
   ("biorxiv", biorxiv_adapter.BioRxivAdapter "biorxiv");
   ("medrxiv", biorxiv_adapter.BioRxivAdapter "medrxiv");
   ("arxiv", arxiv_adapter.ArXivAdapter);
   ("semantic_scholar", semantic_scholar_adapter.SemanticScholarAdapter)].

Definition AVAILABLE_SOURCES (adapters : registry) : list string :=
  adapters.*1.

(** The loop of the ["all"] branch: each adapter runs under its own [try];
    a non-empty result is stored under the source's name. *)
Fixpoint search_every (method : BaseAdapter → M (list dict))
    (adapters : registry) (all_results : list (string * list dict))
  : M (list (string * list dict)) :=
  match adapters with
  | [] => mret all_results
  | (source_name, adapter) :: rest =>
      all_results ←
        try_except
          (results ← to_thread source_name (method adapter);
           if negb (bool_decide (results = []))
           then mret (set_item all_results source_name results)
           else mret all_results)
          (λ e, mret all_results);
      search_every method rest all_results
  end.

Definition invalid_source (source : string) (label : string)
    (adapters : registry) : string :=
  "Invalid source '" +:+ source +:+ "'. " +:+ label
  +:+ join_str ", " (AVAILABLE_SOURCES adapters) +:+ ", 'all'".

Definition search_papers (adapters : registry) (keywords source : string)
    (num_results : Z) : M (list dict) :=
  try_except
    (if String.eqb source "all" then
       all_results ←
         search_every (λ adapter, search_by_keywords adapter keywords num_results)
                      adapters [];
       lift (helpers.merge_results_from_sources all_results)
     else
       match assoc adapters source with
       | Some adapter =>
           to_thread source (search_by_keywords adapter keywords num_results)
       | None =>
           mret [[("error",
                   VStr (invalid_source source "Available sources: " adapters))]]
       end)
    (λ e,
       w ← ask;
       mret [[("error",
               VStr ("An error occurred while searching: " +:+ exn_str w e))]]).

Definition search_papers_advanced (adapters : registry)
    (title author journal start_date end_date term : value)
    (source : string) (num_results : Z) : M (list dict) :=
  try_except
    (let search_params :=
       [("title", title); ("author", author); ("journal", journal);
        ("start_date", start_date); ("end_date", end_date); ("term", term);
        ("num_results", VInt num_results)] in
     let search_params :=
       filter (λ kv, is_none kv.2 = false) search_params in
     if String.eqb source "all" then
       all_results ←
         search_every (λ adapter, search_advanced adapter search_params)
                      adapters [];
       lift (helpers.merge_results_from_sources all_results)
     else
       match assoc adapters source with
       | Some adapter =>
           to_thread source (search_advanced adapter search_params)
       | None =>
           mret [[("error",
                   VStr (invalid_source source "Available: " adapters))]]
       end)
    (λ e,
       w ← ask;
       mret [[("error",
               VStr ("Error in advanced search: " +:+ exn_str w e))]]).

(** The registry with all the methods of its adapters. *)
Abbreviation tool_registry := (list (string * Adapter)).

Definition tool_adapters : tool_registry :=
  [("pubmed", pubmed_adapter.PubMedTools);
   ("biorxiv", biorxiv_adapter.BioRxivTools "biorxiv");
   ("medrxiv", biorxiv_adapter.BioRxivTools "medrxiv");
   ("arxiv", arxiv_adapter.ArXivTools);
   ("semantic_scholar", semantic_scholar_adapter.SemanticScholarTools)].

(** The message of the tools that take one source: the names, without the
    selector ['all']. *)
Definition invalid_tool_source (source : string) (adapters : tool_registry)
  : string :=
  "Invalid source '" +:+ source +:+ "'. Available: "
  +:+ join_str ", " adapters.*1.

Definition get_paper_metadata (adapters : tool_registry)
    (identifier source : string) : Tool dict :=
  tool_try
    (match assoc adapters source with
     | None => mret [("error", VStr (invalid_tool_source source adapters))]
     | Some adapter => tool_thread source (get_metadata adapter identifier)
     end)
    (λ e,
       w ← net ask;
       mret [("error", VStr ("Error fetching metadata: " +:+ exn_str w e))]).

Definition download_paper_pdf (adapters : tool_registry)
    (identifier source : string) : Tool value :=
  tool_try
    (match assoc adapters source with
     | None => mret (VStr ("Error: " +:+ invalid_tool_source source adapters))
     | Some adapter => tool_thread source (download_pdf adapter identifier)
     end)
    (λ e,
       w ← net ask;
       mret (VStr ("Error downloading PDF: " +:+ exn_str w e))).

Definition list_available_sources (adapters : tool_registry) : list string :=
  adapters.*1.

(** The line feed of the prompt. *)
Definition newline : string := String (ascii_of_nat 10) EmptyString.

(** The f-string of [deep_paper_analysis], line by line. *)
Definition analysis_prompt (w : env) (metadata : dict) : string :=
  let field k := py_str (repr w) (get metadata k (VStr "N/A")) in
  newline
  +:+ join_str newline
    ["As an expert in scientific paper analysis, please provide a comprehensive analysis of the following paper:";
     "";
     "Title: " +:+ field "title";
     "Authors: " +:+ field "authors";
     "Journal/Venue: " +:+ field "journal";
     "Publication Date: " +:+ field "publication_date";
     "Abstract: " +:+ field "abstract";
     "";
     "Please address the following aspects in your analysis:";
     "";
     "1. Research Background and Significance";
     "2. Main Research Questions or Hypotheses";
     "3. Methodology Overview";
     "4. Key Findings and Results";
     "5. Conclusions and Implications";
     "6. Limitations of the Study";
     "7. Future Research Directions";
     "8. Relationship to Other Studies in the Field";
     "9. Overall Evaluation of the Research";
     "";
     "Ensure your analysis is thorough, objective, and based on the information provided.";
     "            "].

Definition deep_paper_analysis (adapters : tool_registry)
    (identifier source : string) : Tool dict :=
  tool_try
    (if String.eqb source "pubmed" then
       adapter ← net (lift (match assoc adapters "pubmed" with
                            | Some adapter => Ok adapter
                            | None => Raise KeyError
                            end));
       method ← net (lift (match deep_analysis adapter with
                           | Some method => Ok method
                           | None => Raise AttributeError
                           end));
       analysis ← tool_thread "pubmed" (method identifier);
       mret [("analysis_prompt", analysis)]
     else
       metadata ← get_paper_metadata adapters identifier source;
       if has_key metadata "error"
       then error ← net (lift (subscript_key (VDict metadata) "error"));
            mret [("error", error)]
       else
         w ← net ask;
         mret [("analysis_prompt", VStr (analysis_prompt w metadata))])
    (λ e,
       w ← net ask;
       mret [("error", VStr ("Error performing analysis: " +:+ exn_str w e))]).

End academic_server.

(** ** The canonical paper record of the data model

    What [merge_results_from_sources] reads of a record: the [id] and the
    [title], both strings when present. *)

Module PaperRecord.

Definition is_str (v : value) : bool :=
  match v with VStr _ => true | _ => false end.

Definition as_str (v : value) : string :=
  match v with VStr s => s | _ => "" end.

(** The fields the merge reads have the type the data model gives them;
    an absent field reads as the empty string. *)
Definition paper_typed (r : dict) : Prop :=
  is_str (get r "id" (VStr "")) ∧ is_str (get r "title" (VStr "")).

Definition paper_id (r : dict) : string := as_str (get r "id" (VStr "")).

(** The normalized title: lower-cased, whitespace-trimmed. *)
Definition norm_title (r : dict) : string :=
  strip (lower (as_str (get r "title" (VStr "")))).

Definition empty_keyed (r : dict) : Prop :=
  paper_id r = "" ∧ norm_title r = "".

#[global] Instance paper_typed_dec r : Decision (paper_typed r).
Proof. unfold paper_typed. apply _. Defined.

#[global] Instance empty_keyed_dec r : Decision (empty_keyed r).
Proof. unfold empty_keyed. apply _. Defined.

End PaperRecord.

Export PaperRecord.

(** ** The merge as the specification words it

    Section 4.4: two membership sets, seen identifiers and seen normalized
    titles; a record is skipped when its non-empty id is in the first, else
    when its non-empty normalized title is in the second, else appended and
    registered. *)

Module MergeSpec.

Definition register (s : string) (seen : gset string) : gset string :=
  if decide (s = "") then seen else {[s]} ∪ seen.

Definition duplicate (ids titles : gset string) (r : dict) : Prop :=
  (paper_id r ≠ "" ∧ paper_id r ∈ ids)
  ∨ (norm_title r ≠ "" ∧ norm_title r ∈ titles).

#[global] Instance duplicate_dec ids titles r : Decision (duplicate ids titles r).
Proof. unfold duplicate. apply _. Defined.

Fixpoint dedup (ids titles : gset string) (rs : list dict) : list dict :=
  match rs with
  | [] => []
  | r :: rs' =>
      if decide (duplicate ids titles r) then dedup ids titles rs'
      else r :: dedup (register (paper_id r) ids)
                      (register (norm_title r) titles) rs'
  end.

(** The two sets once [rs] has been processed. *)
Fixpoint seen_after (ids titles : gset string) (rs : list dict)
  : gset string * gset string :=
  match rs with
  | [] => (ids, titles)
  | r :: rs' =>
      if decide (duplicate ids titles r) then seen_after ids titles rs'
      else seen_after (register (paper_id r) ids)
                      (register (norm_title r) titles) rs'
  end.

(** Sources in mapping order, records in each source's order. *)
Definition merge (per_source : list (string * list dict)) : list dict :=
  dedup ∅ ∅ (mjoin per_source.*2).

End MergeSpec.

(** ** Vocabulary of the statements *)

Module Vocabulary.

(** *** Code points *)

(** A code point of the sequence: a lead byte and continuation bytes. *)
Fixpoint continuation (k : string) : bool :=
  match k with
  | EmptyString => true
  | String c k' => is_continuation c && continuation k'
  end.

Definition point (p : string) : bool :=
  match p with
  | EmptyString => false
  | String c k => negb (is_continuation c) && continuation k
  end.

(** The sequences [points] gives: a first element of stray continuation
    bytes, which no encoding of a [str] has, is allowed for. *)
Definition pointed (l : list string) : Prop :=
  Forall (λ p, point p = true) l
  ∨ ∃ k l', l = k :: l' ∧ k ≠ "" ∧ continuation k = true
            ∧ Forall (λ p, point p = true) l'.

Import MergeSpec.

(** The hashed identifiers are the registered strings. *)
Definition ids_agree (hs : gset hkey) (ids : gset string) : Prop :=
  ∀ k, k ∈ hs ↔ ∃ s, k = KStr s ∧ s ∈ ids.

(** No two records of [rs] share a non-empty key. *)
Definition no_shared (key : dict → string) (rs : list dict) : Prop :=
  ∀ i j r r',
    rs !! i = Some r → rs !! j = Some r' →
    key r ≠ "" → key r = key r' → i = j.

(** Sample records. *)
Definition paperA1 : dict := [("id", VStr "1"); ("title", VStr "Graph Cuts")].
Definition paperA2 : dict := [("id", VStr "2"); ("title", VStr "graph cuts ")].
Definition paperB1 : dict := [("id", VStr "2"); ("title", VStr "Max Flow")].
Definition paperB2 : dict := [("id", VStr "7"); ("title", VStr "Min Cut")].

(** A world in which nothing answers: every request times out, no library
    is installed. *)
Definition silent_world : env := {|
  requests_get := λ _ _ _, Raise RequestException;
  fromstring := λ _, Raise ParseError;
  quote := λ s, s;
  today := "2024-06-01";
  year_ago := "2023-06-02";
  minus_365_days := λ _, Ok "2023-06-02";
  repr := λ _, "";
  exn_str := λ _, "";
  scihub_available := false;
  scihub_fetch := λ _ _, Raise RequestException;
  pubmed_search_key_words := λ _ _ _, Raise RequestException;
  pubmed_search_advanced := λ _ _, Raise RequestException
|}.

(** A world in which the collaborator of the PubMed adapter reports an
    error as a record, and nothing else answers. *)
Definition pubmed_error_world : env := {|
  requests_get := requests_get silent_world;
  fromstring := fromstring silent_world;
  quote := quote silent_world;
  today := today silent_world;
  year_ago := year_ago silent_world;
  minus_365_days := minus_365_days silent_world;
  repr := repr silent_world;
  exn_str := exn_str silent_world;
  scihub_available := false;
  scihub_fetch := scihub_fetch silent_world;
  pubmed_search_key_words := λ _ _ _,
    Ok [[("error", VStr "Too Many Requests")]];
  pubmed_search_advanced := pubmed_search_advanced silent_world
|}.

(** What the adapters answer when the ["all"] branch hands each of them
    the search, in registry order, and the trace afterwards. *)
Fixpoint answers (method : BaseAdapter → M (list dict))
    (adapters : list (string * BaseAdapter)) (w : env) (tr : list call)
  : list (string * res (list dict)) * list call :=
  match adapters with
  | [] => ([], tr)
  | (source_name, adapter) :: rest =>
      let '(r, tr1) := to_thread source_name (method adapter) w tr in
      let '(rs, tr2) := answers method rest w tr1 in
      ((source_name, r) :: rs, tr2)
  end.

(** What an answer contributes to the per-source mapping: a result that
    was returned and is not empty. *)
Definition contribution (answer : string * res (list dict))
  : option (string * list dict) :=
  match answer with
  | (source_name, Ok (x :: l)) => Some (source_name, x :: l)
  | _ => None
  end.

(** [r] is in [out], or [out] holds the record that made [r] a duplicate. *)
Definition covered (r : dict) (out : list dict) : Prop :=
  ∃ r', r' ∈ out
        ∧ (r' = r
           ∨ (paper_id r ≠ "" ∧ paper_id r' = paper_id r)
           ∨ (norm_title r ≠ "" ∧ norm_title r' = norm_title r)).

(** An adapter that answers every search the same way. *)
Definition stub (source_name : string) (answer : res (list dict))
  : BaseAdapter := {|
  get_source_name := source_name;
  search_by_keywords := λ _ _, lift answer;
  search_advanced := λ _, lift answer
|}.

Definition sample_registry : list (string * BaseAdapter) :=
  [("pubmed", stub "pubmed" (Ok [paperA1; paperB1]));
   ("biorxiv", stub "biorxiv" (Raise RequestException));
   ("medrxiv", stub "medrxiv" (Ok []));
   ("arxiv", stub "arxiv" (Ok [paperA2; paperB2]))].

(** The request for the page of the listing at [cursor]. *)
Definition page_call (server date_range : string) (cursor : Z) : call :=
  RequestsGet (biorxiv_adapter.details_url server date_range cursor) [].

(** What is left of the scan: the distance of the cursor to the ceiling. *)
Definition scan_variant (st : list dict * Z) : nat := Z.to_nat (10000 - st.2).

(** Cursors of a scan: they grow from page to page and stay under the
    ceiling. *)
Definition page_cursors (cursors : list Z) : Prop :=
  StronglySorted Z.lt cursors ∧ Forall (λ c, 0 ≤ c < 10000) cursors.

(** The list a search returned; nothing if it raised. *)
Definition returned (run : res (list dict) * list call) : list dict :=
  match run.1 with
  | Ok results => results
  | Raise _ => []
  end.

Definition is_ok {A} (r : res A) : bool :=
  match r with Ok _ => true | Raise _ => false end.

(** The upstream request failed: it raised (a timeout, a refused
    connection), or came back with a status other than 200 (an error, a
    rate-limit rejection), or with a body that does not parse. *)
Definition request_failed (parses : response → bool) (answer : res response)
  : Prop :=
  match answer with
  | Raise _ => True
  | Ok resp => status_code resp ≠ 200 ∨ parses resp = false
  end.

Definition json_parses (resp : response) : bool := is_ok (json resp).

Definition feed_parses (w : env) (resp : response) : bool :=
  is_ok (fromstring w (text_body resp)).

(** None of the fields [keys] is given: absent, [None] or empty. *)
Definition no_field (kwargs : dict) (keys : list string) : Prop :=
  Forall (λ k, truthy (get kwargs k VNone) = false) keys.

(** The six adapter instances of the repository. *)
Definition all_adapters : list BaseAdapter :=
  [pubmed_adapter.PubMedAdapter;
   biorxiv_adapter.BioRxivAdapter "biorxiv";
   biorxiv_adapter.BioRxivAdapter "medrxiv";
   arxiv_adapter.ArXivAdapter;
   semantic_scholar_adapter.SemanticScholarAdapter;
   scihub_adapter.SciHubAdapter].

(** How many entries the answer of the arXiv API holds. *)
Definition feed_entries (w : env) (answer : res response) : nat :=
  match answer with
  | Ok resp =>
      match fromstring w (text_body resp) with
      | Ok root => length (findall root (arxiv_adapter.atom "entry"))
      | Raise _ => 0%nat
      end
  | Raise _ => 0%nat
  end.

(** How many papers the answer of the Semantic Scholar API holds. *)
Definition data_papers (answer : res response) : nat :=
  match answer with
  | Ok resp =>
      match json resp with
      | Ok (VDict data) =>
          match py_iter (get data "data" (VList [])) with
          | Ok papers => length papers
          | Raise _ => 0%nat
          end
      | _ => 0%nat
      end
  | Raise _ => 0%nat
  end.

(** A bioRxiv listing item and a Semantic Scholar paper. *)
Definition sample_item (doi title : string) : value :=
  VDict [("doi", VStr doi);
         ("title", VStr title);
         ("authors", VStr "Doe, J.");
         ("abstract", VStr "We report a screen.");
         ("date", VStr "2024-01-15")].

Definition sample_paper (paper_id title : string) (abstract : value) : value :=
  VDict [("paperId", VStr paper_id);
         ("title", VStr title);
         ("abstract", abstract);
         ("authors", VList [VDict [("authorId", VStr "1");
                                   ("name", VStr "Jane Doe")]]);
         ("year", VInt 2024);
         ("venue", VStr "Nature");
         ("url", VStr ("https://www.semanticscholar.org/paper/" +:+ paper_id));
         ("openAccessPdf", VNone)].

Definition not_found : response :=
  {| status_code := 404; text_body := ""; json := Raise JSONDecodeError |}.

(** A world in which bioRxiv lists two preprints for the last year and
    Semantic Scholar answers every query with the same two papers, the
    second without an abstract; the Sci-Hub library is not installed. *)
Definition sample_world : env := {|
  requests_get := λ _ url _,
    if String.eqb url
         (biorxiv_adapter.details_url "biorxiv" "2023-06-02/2024-06-01" 0)
    then Ok {| status_code := 200; text_body := "";
               json := Ok (VDict [("collection",
                             VList [sample_item "10.1101/2024.01.15.000001"
                                      "CRISPR screens in yeast";
                                    sample_item "10.1101/2024.01.15.000002"
                                      "Base editing at scale"])]) |}
    else if String.eqb url semantic_scholar_adapter.search_url
    then Ok {| status_code := 200; text_body := "";
               json := Ok (VDict [("total", VInt 2);
                                  ("data",
                                   VList [sample_paper "p1" "CRISPR screens"
                                            (VStr "We screen.");
                                          sample_paper "p2" "CRISPR atlas"
                                            VNone])]) |}
    else Ok not_found;
  fromstring := λ _, Raise ParseError;
  quote := λ s, s;
  today := "2024-06-01";
  year_ago := "2023-06-02";
  minus_365_days := λ _, Ok "2023-06-02";
  repr := λ _, "";
  exn_str := λ _, "";
  scihub_available := false;
  scihub_fetch := λ _ _, Raise RequestException;
  pubmed_search_key_words := λ _ _ _, Ok [];
  pubmed_search_advanced := λ _ _, Ok []
|}.

(** The silent world with the Sci-Hub library installed. *)
Definition scihub_world : env := {|
  requests_get := requests_get silent_world;
  fromstring := fromstring silent_world;
  quote := quote silent_world;
  today := today silent_world;
  year_ago := year_ago silent_world;
  minus_365_days := minus_365_days silent_world;
  repr := repr silent_world;
  exn_str := exn_str silent_world;
  scihub_available := true;
  scihub_fetch := scihub_fetch silent_world;
  pubmed_search_key_words := pubmed_search_key_words silent_world;
  pubmed_search_advanced := pubmed_search_advanced silent_world
|}.

(** The calls of a computation come after those already made. *)
Definition extends {A} (m : M A) : Prop :=
  ∀ w tr, ∃ calls, (m w tr).2 = tr ++ calls.

(** How many records the PubMed collaborator answered with. *)
Definition answered_records (answer : res (list dict)) : nat :=
  match answer with
  | Ok results => length results
  | Raise _ => 0%nat
  end.

(** The fields of the canonical paper record. *)
Definition canonical_fields : list string :=
  ["id"; "title"; "authors"; "abstract"; "publication_date"; "journal";
   "url"; "pdf_url"; "source"].

Definition has_core_fields (r : dict) : Prop :=
  Forall (λ k, has_key r k = true) canonical_fields.

(** A field of the record has its type: a string, or for [pdf_url] the
    marker [None]. *)
Definition field_typed (r : dict) (k : string) : Prop :=
  match lookup_key r k with
  | Some (VStr _) => True
  | Some VNone => k = "pdf_url"
  | _ => False
  end.

Definition conforms (r : dict) : Prop :=
  Forall (field_typed r) canonical_fields.

(** The record the Semantic Scholar adapter makes of the sample paper
    that has no abstract. *)
Definition no_abstract_record : dict :=
  [("id", VStr "p2"); ("title", VStr "CRISPR atlas");
   ("authors", VStr "Jane Doe"); ("abstract", VNone);
   ("publication_date", VStr "2024"); ("journal", VStr "Nature");
   ("url", VStr "https://www.semanticscholar.org/paper/p2");
   ("pdf_url", VNone); ("source", VStr "semantic_scholar");
   ("citation_count", VNone); ("reference_count", VNone);
   ("fields_of_study", VNone)].

(** The state a round leaves. *)
Definition after {S} (c : control S) : S :=
  match c with Break s | Continue s => s end.

(** [r] is the record of a listed item whose title or abstract contains
    the keywords, case aside. *)
Definition keyword_match (w : env) (server keywords : string) (r : dict)
  : Prop :=
  ∃ item title abstract,
    py_get item "title" (VStr "") = Ok (VStr title)
    ∧ py_get item "abstract" (VStr "") = Ok (VStr abstract)
    ∧ contains (lower keywords) (lower title)
      || contains (lower keywords) (lower abstract) = true
    ∧ biorxiv_adapter._format_biorxiv_result w server item = Ok r.

(** [r] is the record of a listed item whose title and authors contain
    the queries given, case aside. *)
Definition advanced_match (w : env) (server : string) (kwargs : dict)
    (r : dict) : Prop :=
  ∃ item title_query author_query,
    str_lower (get kwargs "title" (VStr "")) = Ok title_query
    ∧ str_lower (get kwargs "author" (VStr "")) = Ok author_query
    ∧ biorxiv_adapter.field_match title_query item "title" = Ok true
    ∧ biorxiv_adapter.field_match author_query item "authors" = Ok true
    ∧ biorxiv_adapter._format_biorxiv_result w server item = Ok r.


(** *** The bioRxiv listing, page by page *)

(** What the request for a page brings: a batch with its items and its
    length; the end of the listing, which is a status other than 200 or an
    empty batch; or a failure, when the request raises or the body is not
    the JSON of a listing. *)
Inductive page :=
| Batch (items : list value) (n : Z)
| Closed
| Broken.

Definition read_page (w : env) (server date_range : string) (cursor : Z)
    (tr : list call) : page :=
  match
    requests_get w tr (biorxiv_adapter.details_url server date_range cursor) []
  with
  | Raise _ => Broken
  | Ok response =>
      if negb (status_code response =? 200) then Closed
      else
        match data ← json response; py_get data "collection" (VList []) with
        | Raise _ => Broken
        | Ok collection =>
            if negb (truthy collection) then Closed
            else
              match py_iter collection, py_len collection with
              | Ok items, Ok n => Batch items n
              | _, _ => Broken
              end
        end
  end.

(** The batches [pages], each with its cursor, are what the listing
    answers from [cursor] on when every page is requested after the
    earlier ones: a page starts where the one before it ended.  [stop] is
    the cursor and the trace after the last of them. *)
Fixpoint reads (w : env) (server date_range : string) (cursor : Z)
    (tr : list call) (pages : list (Z * list value)) (stop : Z * list call)
  : Prop :=
  match pages with
  | [] => stop = (cursor, tr)
  | (c, items) :: rest =>
      c = cursor ∧ c < 10000
      ∧ ∃ n, read_page w server date_range c tr = Batch items n
             ∧ 1 ≤ n
             ∧ reads w server date_range (c + n)
                 (tr ++ [page_call server date_range c]) rest stop
  end.

(** A listed item: a dictionary whose fields [fields] are strings, where
    it has them. *)
Definition listed (fields : list string) (item : value) : Prop :=
  ∃ d, item = VDict d ∧ Forall (λ f, is_str (get d f (VStr ""))) fields.

Definition item_text (item : value) (field : string) : string :=
  match item with
  | VDict d => as_str (get d field (VStr ""))
  | _ => ""
  end.

(** The title or the abstract of the item contains the keywords, case
    aside. *)
Definition keyword_hit (keywords : string) (item : value) : bool :=
  contains (lower keywords) (lower (item_text item "title"))
  || contains (lower keywords) (lower (item_text item "abstract")).

(** The title and the authors of the item contain the queries that are
    not empty. *)
Definition advanced_hit (title_query author_query : string) (item : value)
  : bool :=
  (String.eqb title_query ""
   || contains title_query (lower (item_text item "title")))
  && (String.eqb author_query ""
      || contains author_query (lower (item_text item "authors"))).

Definition record_of (w : env) (server : string) (item : value) : dict :=
  match biorxiv_adapter._format_biorxiv_result w server item with
  | Ok r => r
  | Raise _ => []
  end.

(** The records of the items that match, in the order of the listing. *)
Fixpoint found (hit : value → bool) (record : value → dict)
    (items : list value) : list dict :=
  match items with
  | [] => []
  | item :: rest =>
      if hit item then record item :: found hit record rest
      else found hit record rest
  end.

(** The fields of an item the advanced search reads: those it has a
    query for. *)
Definition queried (title_query author_query : string) : list string :=
  (if String.eqb title_query "" then [] else ["title"])
  ++ (if String.eqb author_query "" then [] else ["authors"]).

(** The account of a scan for [n] matches that left the trace [tr'] and
    returned [results].  It read the batches [pages] from cursor 0 on and
    made, besides, at most one request [last], which did not bring a
    batch.  When the items read are listed items: a page was requested only
    while fewer than [n] matches were in hand; a scan that ended on the
    request [last] returns every match of the pages if the listing was
    closed there, and nothing if the request failed; a scan that ended
    otherwise returns the first [n] matches of the pages, and it ended
    because [n] matches were collected or the cursor reached the
    ceiling. *)
Definition scan_account (w : env) (server date_range : string)
    (fields : list string) (hit : value → bool) (n : Z) (tr : list call)
    (results : list dict) (tr' : list call) : Prop :=
  ∃ pages last stop,
    tr' = tr ++ (page_call server date_range
                   <$> pages.*1 ++ option_list last)
    ∧ reads w server date_range 0 tr pages stop
    ∧ (∀ c, last = Some c →
            c = stop.1 ∧ c < 10000
            ∧ ∀ items m, read_page w server date_range c stop.2
                         ≠ Batch items m)
    ∧ (Forall (listed fields) (mjoin pages.*2) →
       let matches := found hit (record_of w server) in
       (∀ before page after,
          pages = before ++ page :: after →
          Z.of_nat (length (matches (mjoin before.*2))) < n)
       ∧ match last with
         | Some c =>
             Z.of_nat (length (matches (mjoin pages.*2))) < n
             ∧ results
               = match read_page w server date_range c stop.2 with
                 | Closed => matches (mjoin pages.*2)
                 | _ => []
                 end
         | None =>
             results = take (Z.to_nat n) (matches (mjoin pages.*2))
             ∧ (n ≤ Z.of_nat (length (matches (mjoin pages.*2)))
                ∨ 10000 ≤ stop.1)
         end).

(** *** Vocabulary of the other tools *)

(** The two decimal digits of a number under 100, the tens first. *)
Definition two_digits (z : Z) : string :=
  String (ascii_of_N (48 + Z.to_N (z / 10)))
    (String (ascii_of_N (48 + Z.to_N (z mod 10))) EmptyString).


(** The record can be merged: its title is a string, and its id, when it
    is not empty, can be put in a set. *)
Definition mergeable (r : dict) : Prop :=
  is_str (get r "title" (VStr ""))
  ∧ (truthy (get r "id" (VStr "")) → is_ok (hash_key (get r "id" (VStr "")))).

#[global] Instance mergeable_dec r : Decision (mergeable r).
Proof. unfold mergeable. apply _. Defined.

(** The abstract of a record, a string when it is there. *)
Definition abstract_of (r : dict) : string :=
  as_str (get r "abstract" (VStr "")).

Definition abstract_typed (r : dict) : Prop :=
  is_str (get r "abstract" (VStr "")).

(** What the loop of [format_search_results] makes of a record whose
    abstract is a string. *)
Definition shorten (max_abstract_length : Z) (r : dict) : dict :=
  if max_abstract_length <? Z.of_nat (str_len (abstract_of r))
  then set_item r "abstract"
         (VStr (str_slice_to (abstract_of r) max_abstract_length +:+ "..."))
  else r.

(** An error answer: a dictionary with the one key [error]. *)
Definition error_shaped (d : dict) : Prop := ∃ msg, d = [("error", VStr msg)].

(** The publication date of the record is a string; a bound of the date
    filter is a string or [None]. *)
Definition dated (r : dict) : Prop :=
  is_str (get r "publication_date" (VStr "")).

Definition date_bound (v : value) : Prop := v = VNone ∨ is_str v.

(** The record is not before the start date given and not after the end
    date given, as strings compare. *)
Definition in_window (start_date end_date : value) (r : dict) : Prop :=
  let pub_date := as_str (get r "publication_date" (VStr "")) in
  (truthy start_date → String.ltb pub_date (as_str start_date) = false)
  ∧ (truthy end_date → String.ltb (as_str end_date) pub_date = false).

#[global] Instance in_window_dec s e r : Decision (in_window s e r).
Proof. unfold in_window. cbn zeta. apply _. Defined.

(** An Atom feed, a leaf element and an entry of the arXiv API. *)
Definition feed (entries : list element) : element :=
  Element (arxiv_adapter.atom "feed") [] None entries.

Definition leaf (name text : string) : element :=
  Element (arxiv_adapter.atom name) [] (Some text) [].

Definition sample_entry (arxiv_id title : string) (summary : element)
  : element :=
  Element (arxiv_adapter.atom "entry") [] None
    [leaf "id" ("http://arxiv.org/abs/" +:+ arxiv_id);
     leaf "title" title;
     Element (arxiv_adapter.atom "author") [] None [leaf "name" "A. Author"];
     summary;
     leaf "published" "2023-01-01T00:00:00Z";
     Element (arxiv_adapter.atom "category") [("term", "cs.AI")] None []].

(** A world whose arXiv answers every query with a feed of two entries. *)
Definition arxiv_world (second_summary : element) : env := {|
  requests_get := λ _ _ _,
    Ok {| status_code := 200; text_body := "<feed/>";
          json := Raise JSONDecodeError |};
  fromstring := λ _,
    Ok (feed [sample_entry "2301.00001v1" "First" (leaf "summary" "One.");
              sample_entry "2301.00002v1" "Second" second_summary]);
  quote := quote silent_world;
  today := today silent_world;
  year_ago := year_ago silent_world;
  minus_365_days := minus_365_days silent_world;
  repr := repr silent_world;
  exn_str := exn_str silent_world;
  scihub_available := false;
  scihub_fetch := scihub_fetch silent_world;
  pubmed_search_key_words := pubmed_search_key_words silent_world;
  pubmed_search_advanced := pubmed_search_advanced silent_world
|}.

(** The answer of a metadata lookup: an error, or a record with the core
    fields. *)
Definition metadata_shaped (d : dict) : Prop :=
  has_key d "error" = true ∨ has_core_fields d.

(** A world whose Sci-Hub client finds every paper. *)
Definition scihub_download_world : env := {|
  requests_get := requests_get silent_world;
  fromstring := fromstring silent_world;
  quote := quote silent_world;
  today := today silent_world;
  year_ago := year_ago silent_world;
  minus_365_days := minus_365_days silent_world;
  repr := repr silent_world;
  exn_str := exn_str silent_world;
  scihub_available := true;
  scihub_fetch := λ _ _,
    Ok (VDict [("url", VStr "https://sci-hub.se/182.pdf")]);
  pubmed_search_key_words := pubmed_search_key_words silent_world;
  pubmed_search_advanced := pubmed_search_advanced silent_world
|}.

(** The six adapters with all their methods. *)
Definition all_tools : list Adapter :=
  [pubmed_adapter.PubMedTools;
   biorxiv_adapter.BioRxivTools "biorxiv";
   biorxiv_adapter.BioRxivTools "medrxiv";
   arxiv_adapter.ArXivTools;
   semantic_scholar_adapter.SemanticScholarTools;
   scihub_adapter.SciHubTools].

(** Tools that work: files are written, PubMed knows the article. *)
Definition sample_tools : tools := {|
  content := text_body;
  write_file := λ _ _ _, Ok ();
  scihub_download := λ _ _ _, Ok ();
  get_pubmed_metadata := λ _ pmid,
    Ok (Some [("PMID", VStr pmid); ("Title", VStr "A trial")]);
  download_full_text_pdf := λ _ _, Ok "No PMC full text available";
  pubmed_deep_analysis := λ _ _, Ok "Analyse this article."
|}.

(** The arguments of the advanced search that were given. *)
Definition search_params_of (title author journal start_date end_date
    term : value) (num_results : Z) : dict :=
  filter (λ kv : string * value, is_none kv.2 = false)
    [("title", title); ("author", author); ("journal", journal);
     ("start_date", start_date); ("end_date", end_date); ("term", term);
     ("num_results", VInt num_results)].

(** The name holds no path separator. *)
Definition slash_free (s : string) : Prop := contains "/" s = false.

(** What a download by HTTP leaves: nothing, or one file, named without a
    path separator, that holds the body of the answer with status 200 to
    the last request; if the write went through, the message names the
    file. *)
Definition downloaded (t : tools) (w : env) (tr' : list call)
    (ef ef' : list effect) (message : string) : Prop :=
  ef' = ef
  ∨ ∃ filename url resp pre,
      ef' = ef ++ [WriteFile filename (content t resp)]
      ∧ slash_free filename
      ∧ tr' = pre ++ [RequestsGet url []]
      ∧ requests_get w pre url [] = Ok resp
      ∧ status_code resp = 200
      ∧ (write_file t ef filename (content t resp) = Ok ()
         → message = "PDF downloaded successfully as " +:+ filename).

(** The adapters that download by HTTP. *)
Definition http_downloaders : list Adapter :=
  [biorxiv_adapter.BioRxivTools "biorxiv";
   biorxiv_adapter.BioRxivTools "medrxiv";
   arxiv_adapter.ArXivTools;
   semantic_scholar_adapter.SemanticScholarTools].

(** The five fields the analysis prompt quotes. *)
Definition prompt_fields : list string :=
  ["title"; "authors"; "journal"; "publication_date"; "abstract"].

(** The registry holds adapters of the repository. *)
Definition repository_registry (adapters : list (string * Adapter)) : Prop :=
  Forall (λ entry, entry.2 ∈ all_tools) adapters.

(** The record says where it comes from, unless it is an error. *)
Definition tagged (source_name : string) (r : dict) : Prop :=
  has_key r "error" = true ∨ lookup_key r "source" = Some (VStr source_name).

End Vocabulary.

Export Vocabulary.

(** * Properties *)

(** Unfolds the plumbing of [M] in the goal and the hypotheses. *)
Ltac run_M :=
  unfold mbind, M_bind, mret, M_ret, lift, ask, http_get, call_out,
    try_except in *;
  cbn beta iota.

(** ** The Python primitives, evaluated *)

Example split_last_sample :
  split_last "/abs/" "http://arxiv.org/abs/2301.00001v1" = "2301.00001v1"
  ∧ split_last "/abs/" "/abs/abs/" = "abs/"
  ∧ split_last "/abs/" "no separator" = "no separator".
Proof. by vm_compute. Qed.

Example replace_sample :
  replace "arXiv:" "" "arXiv:2301.00001" = "2301.00001"
  ∧ replace "/" "_" "a/b//c" = "a_b__c"
  ∧ replace "aa" "b" "aaa" = "ba"
  ∧ replace "ab" "abab" "xabab" = "xabababab".
Proof. by vm_compute. Qed.

(** Letters beyond ASCII: capitals with accents, the two small sigmas of
    Greek, the dotted capital I, which becomes two code points. *)
Example lower_sample :
  lower "ÉTUDE DES GRAPHES" = "étude des graphes"
  ∧ lower "MÜLLER GLIA" = "müller glia"
  ∧ lower "ΟΔΟΣ ΣΟΦΟΣ Σ" = "οδος σοφος σ"
  ∧ lower (point_of 304) = "i" +:+ point_of 775
  ∧ lower "straße 42" = "straße 42".
Proof. by vm_compute. Qed.

(** The no-break space (160), the em space (8195) and the paragraph
    separator (8233) are blanks like the space. *)
Example strip_sample :
  strip (point_of 160 +:+ " Deep learning" +:+ point_of 8195
         +:+ point_of 8233)
  = "Deep learning"
  ∧ strip (point_of 160) = ""
  ∧ strip ("a" +:+ point_of 160 +:+ "b") = "a" +:+ point_of 160 +:+ "b".
Proof. by vm_compute. Qed.

(** Lengths and slices count code points, not bytes. *)
Example str_len_sample :
  str_len "Étude des protéines à l'échelle" = 31%nat
  ∧ String.length "Étude des protéines à l'échelle" = 35%nat
  ∧ str_slice_to "Étude des protéines" 3 = "Étu"
  ∧ str_slice_to "protéines" (-3) = "protéi"
  ∧ chars "né" = [VStr "n"; VStr "é"]
  ∧ subscript_idx (VStr "né") 1 = Ok (VStr "é").
Proof. by vm_compute. Qed.

Example strip_lower_sample :
  strip (lower "  Deep Learning for X  ") = "deep learning for x".
Proof. by vm_compute. Qed.

Example format_02d_sample :
  format_02d (VInt 7) = Ok "07" ∧ format_02d (VInt 12) = Ok "12"
  ∧ format_02d (VInt (-1)) = Ok "-1".
Proof. by vm_compute. Qed.

Example slice_to_sample :
  slice_to [1; 2; 3; 4] 2 = [1; 2] ∧ slice_to [1; 2; 3; 4] (-1) = [1; 2; 3]
  ∧ slice_to [1; 2; 3; 4] 9 = [1; 2; 3; 4] ∧ slice_to [1; 2; 3; 4] (-9) = [].
Proof. by vm_compute. Qed.

Example contains_sample :
  contains "" "abc" = true ∧ contains "bc" "abc" = true
  ∧ contains "ac" "abc" = false.
Proof. by vm_compute. Qed.

Example py_lt_sample :
  py_lt (VStr "2024-01-15") (VStr "2024-06-01") = Ok true
  ∧ py_lt (VStr "2024-06-01") (VStr "2024-06-01") = Ok false
  ∧ py_lt (VStr "2024-06-01") VNone = Raise TypeError.
Proof. by vm_compute. Qed.

Example join_sample :
  join ", " [VStr "a"; VStr "b"; VStr "c"] = Ok "a, b, c"
  ∧ join ", " [] = Ok "" ∧ join ", " [VStr "a"; VNone] = Raise TypeError.
Proof. by vm_compute. Qed.

Example scihub_format_sample :
  scihub_adapter._format_date silent_world
    (VDict [("date-parts", VList [VList [VInt 2023; VInt 5]])])
  = Ok "2023-05-01"
  ∧ scihub_adapter._format_authors silent_world
      (VList [VDict [("given", VStr "Ada"); ("family", VStr "Lovelace")];
              VDict [("family", VStr "Turing")]])
    = Ok "Ada Lovelace, Turing".
Proof. by vm_compute. Qed.

Example arxiv_entry_sample :
  arxiv_adapter.parse_entry
    (Element (arxiv_adapter.atom "entry") [] None
       [Element (arxiv_adapter.atom "id") []
          (Some "http://arxiv.org/abs/2301.00001v1") [];
        Element (arxiv_adapter.atom "title") [] (Some "  A Title ") [];
        Element (arxiv_adapter.atom "author") [] None
          [Element (arxiv_adapter.atom "name") [] (Some "A. Author") []];
        Element (arxiv_adapter.atom "author") [] None
          [Element (arxiv_adapter.atom "name") [] (Some "B. Author") []];
        Element (arxiv_adapter.atom "summary") [] (Some " text ") [];
        Element (arxiv_adapter.atom "published") []
          (Some "2023-01-01T00:00:00Z") [];
        Element (arxiv_adapter.atom "category") [("term", "cs.AI")] None []])
  = Ok [("id", VStr "2301.00001v1"); ("title", VStr "A Title");
        ("authors", VStr "A. Author, B. Author"); ("abstract", VStr "text");
        ("publication_date", VStr "2023-01-01");
        ("journal", VStr "arXiv preprint (cs.AI)");
        ("url", VStr "https://arxiv.org/abs/2301.00001v1");
        ("pdf_url", VStr "https://arxiv.org/pdf/2301.00001v1.pdf");
        ("source", VStr "arxiv")].
Proof. by vm_compute. Qed.

(** ** Code points *)

Section code_points.

Lemma append_nil_r (s : string) : s +:+ "" = s.
Proof.
  induction s as [|c s IH]; [done|].
  change (String c (s +:+ "") = String c s). by rewrite IH.
Qed.

Lemma string_app_assoc (a b c : string) : (a +:+ b) +:+ c = a +:+ b +:+ c.
Proof.
  induction a as [|x a IH]; [done|].
  change (String x ((a +:+ b) +:+ c) = String x (a +:+ b +:+ c)).
  by rewrite IH.
Qed.

Lemma unpoints_app (l k : list string) :
  unpoints (l ++ k) = unpoints l +:+ unpoints k.
Proof.
  induction l as [|p l IH]; [done|].
  change (p +:+ unpoints (l ++ k) = (p +:+ unpoints l) +:+ unpoints k).
  by rewrite IH, string_app_assoc.
Qed.

Lemma points_from_spec (s : string) :
  (points_from s).1 +:+ unpoints (points_from s).2 = s.
Proof.
  induction s as [|c s IH]; [done|].
  cbn [points_from]. destruct (points_from s) as [k ps]. cbn [fst snd] in IH.
  destruct (is_continuation c); cbn [fst snd].
  - change (String c (k +:+ unpoints ps) = String c s). by rewrite IH.
  - change (String c (k +:+ unpoints ps) = String c s). by rewrite IH.
Qed.

Lemma unpoints_points (s : string) : unpoints (points s) = s.
Proof.
  pose proof (points_from_spec s) as H. unfold points.
  destruct (points_from s) as [[|c k] ps]; exact H.
Qed.

Lemma points_nil (s : string) : points s = [] → s = "".
Proof. intros H. by rewrite <- (unpoints_points s), H. Qed.

Lemma str_len_pos (s : string) : s ≠ "" → (0 < str_len s)%nat.
Proof.
  intros Hs. unfold str_len. destruct (points s) eqn:E; [|cbn; lia].
  by apply points_nil in E.
Qed.

Lemma points_from_shape (s : string) :
  continuation (points_from s).1 = true
  ∧ Forall (λ p, point p = true) (points_from s).2.
Proof.
  induction s as [|c s [Hk Hps]]; [by split|].
  cbn [points_from]. destruct (points_from s) as [k ps]. cbn [fst snd] in *.
  destruct (is_continuation c) eqn:Hc; cbn [fst snd].
  - split; [|done]. cbn. by rewrite Hc.
  - split; [done|]. apply Forall_cons_2; [|done]. cbn. by rewrite Hc.
Qed.

Lemma points_from_continuation (k s : string) :
  continuation k = true →
  points_from (k +:+ s) = (k +:+ (points_from s).1, (points_from s).2).
Proof.
  induction k as [|c k IH]; intros Hk.
  - change ("" +:+ s) with s. change ("" +:+ (points_from s).1)
      with (points_from s).1. by destruct (points_from s).
  - cbn in Hk. apply andb_prop in Hk as [Hc Hk].
    change (points_from (String c (k +:+ s))
            = (String c (k +:+ (points_from s).1), (points_from s).2)).
    cbn [points_from]. rewrite (IH Hk). by rewrite Hc.
Qed.

Lemma points_from_unpoints (l : list string) :
  Forall (λ p, point p = true) l → points_from (unpoints l) = ("", l).
Proof.
  induction l as [|p l IH]; intros Hl; [done|].
  apply Forall_cons in Hl as [Hp Hl]. destruct p as [|c k]; [done|].
  cbn in Hp. apply andb_prop in Hp as [Hc Hk].
  apply negb_true_iff in Hc.
  change (points_from (String c (k +:+ unpoints l)) = ("", String c k :: l)).
  cbn [points_from]. rewrite (points_from_continuation _ _ Hk), (IH Hl), Hc.
  cbn [fst snd]. by rewrite append_nil_r.
Qed.

Lemma points_pointed (s : string) : pointed (points s).
Proof.
  destruct (points_from_shape s) as [Hk Hps]. unfold points.
  destruct (points_from s) as [[|c k] ps]; cbn [fst snd] in *.
  - by left.
  - right. by exists (String c k), ps.
Qed.

Lemma points_unpoints (l : list string) : pointed l → points (unpoints l) = l.
Proof.
  intros [Hl|(k & l' & -> & Hne & Hk & Hl)]; unfold points.
  - by rewrite points_from_unpoints.
  - change (unpoints (k :: l')) with (k +:+ unpoints l').
    rewrite (points_from_continuation _ _ Hk), (points_from_unpoints _ Hl).
    cbn [fst snd]. rewrite append_nil_r. by destruct k.
Qed.

Lemma pointed_take (n : nat) (l : list string) :
  pointed l → pointed (take n l).
Proof.
  intros [Hl|(k & l' & -> & Hne & Hk & Hl)].
  - left. by apply Forall_take.
  - destruct n as [|n]; [by left|]. right.
    exists k, (take n l'). repeat split; try done. by apply Forall_take.
Qed.

Lemma pointed_app (l l' : list string) :
  pointed l → Forall (λ p, point p = true) l' → pointed (l ++ l').
Proof.
  intros [Hl|(k & l0 & -> & Hne & Hk & Hl)] Hl'.
  - left. by apply Forall_app.
  - right. exists k, (l0 ++ l'). repeat split; try done. by apply Forall_app.
Qed.

Lemma slice_to_take {A} (l : list A) (n : Z) : ∃ m, slice_to l n = take m l.
Proof. unfold slice_to. destruct (0 <=? n); by eexists. Qed.

Lemma points_str_slice_to (s : string) (n : Z) :
  points (str_slice_to s n) = slice_to (points s) n.
Proof.
  unfold str_slice_to. destruct (slice_to_take (points s) n) as [m ->].
  apply points_unpoints, pointed_take, points_pointed.
Qed.

(** Text of plain characters after a string adds its own code points. *)
Lemma points_app (s t : string) :
  Forall (λ p, point p = true) (points t) →
  points (s +:+ t) = points s ++ points t.
Proof.
  intros Ht.
  rewrite <- (unpoints_points s) at 1. rewrite <- (unpoints_points t) at 1.
  rewrite <- unpoints_app.
  apply points_unpoints, pointed_app; [apply points_pointed | done].
Qed.

Lemma str_slice_to_prefix (s : string) (n : Z) :
  ∃ rest, s = str_slice_to s n +:+ rest.
Proof.
  unfold str_slice_to. destruct (slice_to_take (points s) n) as [m ->].
  exists (unpoints (drop m (points s))).
  by rewrite <- unpoints_app, take_drop, unpoints_points.
Qed.

End code_points.

(** ** Loops *)

Lemma for_each_app {S A} (body : S → A → res S) s l1 l2 :
  for_each body s (l1 ++ l2) = (s' ← for_each body s l1; for_each body s' l2).
Proof.
  revert s. induction l1 as [|x l1 IH]; intros s; simpl; [done|].
  destruct (body s x) as [s'|e]; simpl; [apply IH | done].
Qed.

Lemma for_each_nested {S A} (body : S → A → res S) s
    (d : list (string * list A)) :
  for_each (λ st '(_, xs), for_each body st xs) s d
  = for_each body s (mjoin d.*2).
Proof.
  revert s. induction d as [|[k xs] d IH]; intros s; simpl; [done|].
  rewrite for_each_app.
  destruct (for_each body s xs) as [s'|e]; simpl; [apply IH | done].
Qed.

(** A sequence of steps that returns: so did its first step. *)
Lemma bind_res_Ok {A B} (m : res A) (f : A → res B) b :
  (m ≫= f) = Ok b → ∃ a, m = Ok a ∧ f a = Ok b.
Proof. destruct m as [a|e]; [by exists a | done]. Qed.

(** ** The source's merge computes the specified one *)

Section merge_refinement.
Import helpers MergeSpec.

Lemma ids_agree_empty : ids_agree ∅ ∅.
Proof. intros k. split; [set_solver | intros (s & _ & Hs); set_solver]. Qed.

Lemma ids_agree_insert hs ids s :
  ids_agree hs ids → ids_agree ({[KStr s]} ∪ hs) ({[s]} ∪ ids).
Proof.
  intros H k. rewrite elem_of_union, elem_of_singleton, (H k). split.
  - intros [-> | (s' & -> & Hs')]; [exists s | exists s']; set_solver.
  - intros (s' & -> & [->%elem_of_singleton | Hs']%elem_of_union); eauto.
Qed.

Lemma eqb_empty_false s : s ≠ "" → String.eqb s "" = false.
Proof. intros. by apply String.eqb_neq. Qed.

Lemma bind_Ok {A B} (a : A) (f : A → res B) : (x ← Ok a; f x) = f a.
Proof. reflexivity. Qed.

Lemma truthy_str s : truthy (VStr s) = bool_decide (s ≠ "").
Proof.
  unfold truthy. destruct (String.eqb_spec s ""); by case_bool_decide.
Qed.

Lemma eqb_empty s : String.eqb s "" = bool_decide (s = "").
Proof. destruct (String.eqb_spec s ""); by case_bool_decide. Qed.

(** One step of the loop, on a record of the data model's type. *)
Lemma merge_result_typed st ids r :
  paper_typed r →
  ids_agree (seen_ids st) ids →
  merge_result st r =
    if decide (duplicate ids (seen_titles st) r) then Ok st
    else Ok {| merged := merged st ++ [r];
               seen_ids := if decide (paper_id r = "") then seen_ids st
                           else {[KStr (paper_id r)]} ∪ seen_ids st;
               seen_titles := register (norm_title r) (seen_titles st) |}.
Proof.
  intros [Hid Htitle] Hagree. unfold merge_result.
  assert (Hpid : get r "id" (VStr "") = VStr (paper_id r)).
  { unfold paper_id. by destruct (get r "id" (VStr "")). }
  assert (Hnt : str_lower (get r "title" (VStr ""))
                = Ok (lower (as_str (get r "title" (VStr ""))))).
  { by destruct (get r "title" (VStr "")). }
  rewrite Hnt, Hpid, bind_Ok. cbv zeta. fold (norm_title r).
  rewrite truthy_str, eqb_empty.
  unfold set_contains, set_add, hash_key. rewrite !bind_Ok.
  assert (Hmem : bool_decide (KStr (paper_id r) ∈ seen_ids st)
                 = bool_decide (paper_id r ∈ ids)).
  { apply bool_decide_ext. rewrite (Hagree _). split.
    - by intros (s & [= <-] & ?).
    - eauto. }
  rewrite Hmem, !bool_decide_not. unfold duplicate, register.
  destruct (decide (paper_id r = "")) as [Hi|Hi];
    destruct (decide (norm_title r = "")) as [Ht|Ht];
    destruct (decide (paper_id r ∈ ids)) as [Hi'|Hi'];
    destruct (decide (norm_title r ∈ seen_titles st)) as [Ht'|Ht'];
    repeat first
      [ rewrite (bool_decide_eq_true_2 _ Hi)
      | rewrite (bool_decide_eq_true_2 _ Ht)
      | rewrite (bool_decide_eq_true_2 _ Hi')
      | rewrite (bool_decide_eq_true_2 _ Ht')
      | rewrite (bool_decide_eq_false_2 _ Hi)
      | rewrite (bool_decide_eq_false_2 _ Ht)
      | rewrite (bool_decide_eq_false_2 _ Hi')
      | rewrite (bool_decide_eq_false_2 _ Ht')
      | rewrite bind_Ok ];
    cbn [negb andb];
    rewrite ?bind_Ok;
    (rewrite decide_True by tauto) || (rewrite decide_False by tauto);
    reflexivity.
Qed.

Lemma ids_agree_register hs ids s :
  ids_agree hs ids →
  ids_agree (if decide (s = "") then hs else {[KStr s]} ∪ hs) (register s ids).
Proof.
  intros H. unfold register. case_decide; [done | by apply ids_agree_insert].
Qed.

Lemma for_each_merge_typed rs : ∀ st ids,
  Forall paper_typed rs →
  ids_agree (seen_ids st) ids →
  ∃ st', for_each merge_result st rs = Ok st'
         ∧ merged st' = merged st ++ dedup ids (seen_titles st) rs.
Proof.
  induction rs as [|r rs IH]; intros st ids Hty Hagree.
  - exists st. by rewrite app_nil_r.
  - apply Forall_cons in Hty as [Hr Hrs]. cbn [for_each dedup].
    rewrite (merge_result_typed st ids r Hr Hagree).
    destruct (decide (duplicate ids (seen_titles st) r)); rewrite bind_Ok.
    + by apply IH.
    + set (st1 := MergeState _ _ _).
      destruct (IH st1 (register (paper_id r) ids) Hrs) as (st' & Hrun & Hout).
      { subst st1. cbn [seen_ids]. apply ids_agree_register, Hagree. }
      exists st'. split; [exact Hrun|].
      rewrite Hout. subst st1. cbn [merged seen_titles].
      by rewrite <- app_assoc.
Qed.

(** On typed records the source's two nested loops compute the specified
    merge, and do not raise. *)
Lemma merge_refines (results_dict : list (string * list dict)) :
  Forall paper_typed (mjoin results_dict.*2) →
  merge_results_from_sources results_dict = Ok (merge results_dict).
Proof.
  intros Hty. unfold merge_results_from_sources, merge.
  rewrite (for_each_nested merge_result).
  destruct (for_each_merge_typed _ (MergeState [] ∅ ∅) ∅ Hty ids_agree_empty)
    as (st' & Hrun & Hout).
  rewrite Hrun, bind_Ok, Hout. reflexivity.
Qed.

End merge_refinement.

(** ** The specified merge *)

Section dedup_facts.
Import MergeSpec.

Lemma dedup_app ids titles l1 l2 :
  dedup ids titles (l1 ++ l2)
  = dedup ids titles l1
    ++ dedup (seen_after ids titles l1).1 (seen_after ids titles l1).2 l2.
Proof.
  revert ids titles. induction l1 as [|r l1 IH]; intros ids titles; [done|].
  cbn [app dedup seen_after]. case_decide; [apply IH|].
  rewrite IH. reflexivity.
Qed.

Lemma register_mono s seen : seen ⊆ register s seen.
Proof. unfold register. case_decide; set_solver. Qed.

Lemma register_elem s seen : s ≠ "" → s ∈ register s seen.
Proof. intros. unfold register. rewrite decide_False by done. set_solver. Qed.

Lemma seen_after_ids_mono l : ∀ ids titles,
  ids ⊆ (seen_after ids titles l).1.
Proof.
  induction l as [|r l IH]; intros ids titles; [done|].
  cbn [seen_after]. case_decide; [apply IH|].
  etrans; [apply (register_mono (paper_id r)) | apply IH].
Qed.

(** A record whose non-empty id is registered is skipped, and leaves the
    two sets as they are. *)
Lemma dedup_skip_id ids titles b l :
  paper_id b ≠ "" → paper_id b ∈ ids →
  dedup ids titles (b :: l) = dedup ids titles l.
Proof.
  intros Hne Hin. cbn [dedup]. rewrite decide_True; [done|]. by left.
Qed.

(** No record of the output carries a non-empty id that was registered
    before the run. *)
Lemma dedup_fresh_ids l : ∀ ids titles r,
  r ∈ dedup ids titles l → paper_id r ≠ "" → paper_id r ∉ ids.
Proof.
  induction l as [|x l IH]; intros ids titles r Hin Hne; [by inversion Hin|].
  cbn [dedup] in Hin. case_decide as Hdup; [by eapply IH|].
  apply elem_of_cons in Hin as [-> | Hin].
  - intros Hmem. apply Hdup. by left.
  - intros Hmem. eapply IH; [exact Hin | exact Hne |].
    by apply register_mono.
Qed.

(** The output is a sub-list of the input: nothing is invented and the
    order is kept. *)
Lemma dedup_sublist l : ∀ ids titles, sublist (dedup ids titles l) l.
Proof.
  induction l as [|x l IH]; intros ids titles; [done|].
  cbn [dedup]. case_decide; [apply sublist_cons | apply sublist_skip]; apply IH.
Qed.

(** Records with neither an id nor a title are all kept. *)
Lemma dedup_empty_keyed l : ∀ ids titles,
  filter empty_keyed (dedup ids titles l) = filter empty_keyed l.
Proof.
  induction l as [|r l IH]; intros ids titles; [done|].
  cbn [dedup]. case_decide as Hdup.
  - rewrite filter_cons_False; [apply IH|].
    intros [Hi Ht]. destruct Hdup as [[? _]|[? _]]; done.
  - rewrite !filter_cons. case_decide; rewrite IH; reflexivity.
Qed.

Lemma no_shared_tail key r l : no_shared key (r :: l) → no_shared key l.
Proof.
  intros H i j x y Hi Hj Hne Heq.
  assert (S i = S j) by (eapply H; eauto). lia.
Qed.

Lemma register_fresh key r l seen :
  no_shared key (r :: l) →
  (∀ r', r' ∈ r :: l → key r' ≠ "" → key r' ∉ seen) →
  ∀ r', r' ∈ l → key r' ≠ "" → key r' ∉ register (key r) seen.
Proof.
  intros Hns Hfresh r' Hr' Hne.
  unfold register. case_decide as Hr; [by apply Hfresh; [right|]|].
  rewrite elem_of_union, elem_of_singleton. intros [Heq | Hin].
  - apply list_elem_of_lookup in Hr' as [j Hj].
    assert (S j = 0%nat) by (eapply (Hns (S j) 0%nat r' r); eauto).
    lia.
  - by apply (Hfresh r'); [right|..].
Qed.

(** A list that repeats no non-empty id and no non-empty normalized title,
    and none that is registered already, is kept whole. *)
Lemma dedup_id l : ∀ ids titles,
  no_shared paper_id l →
  no_shared norm_title l →
  (∀ r, r ∈ l → paper_id r ≠ "" → paper_id r ∉ ids) →
  (∀ r, r ∈ l → norm_title r ≠ "" → norm_title r ∉ titles) →
  dedup ids titles l = l.
Proof.
  induction l as [|r l IH]; intros ids titles Hids Htitles Hfi Hft; [done|].
  cbn [dedup]. rewrite decide_False.
  2:{ intros [[Hne Hin]|[Hne Hin]].
      - by apply (Hfi r); [left|..].
      - by apply (Hft r); [left|..]. }
  f_equal. apply IH.
  - by eapply no_shared_tail.
  - by eapply no_shared_tail.
  - by apply register_fresh.
  - by apply register_fresh.
Qed.

End dedup_facts.

(** ** Merge and deduplication: the claims *)

Section merge_claims.
Import helpers MergeSpec.

(** C1, as the claim words its consequence, fails: list A's second record
    [paperA2] and list B's first record [paperB1] share the id "2", but
    [paperA2] repeats the title of [paperA1] and is skipped before its id
    is registered, so the output drops A's version and keeps B's. *)
Lemma merge_shared_id_counterexample :
  paper_id paperA2 = paper_id paperB1
  ∧ merge_results_from_sources
      [("A", [paperA1; paperA2]); ("B", [paperB1])]
    = Ok [paperA1; paperB1]
  ∧ (paperA2 ∉ [paperA1; paperB1])
  ∧ (paperB1 ∈ [paperA1; paperB1]).
Proof.
  split; [reflexivity|]. split; [by vm_compute|]. split.
  - intros Hin. repeat (apply elem_of_cons in Hin as [Hin|Hin]; [done|]).
    by apply elem_of_nil in Hin.
  - apply elem_of_cons. right. apply elem_of_cons. by left.
Qed.

Lemma appended_not_duplicate l a :
  dedup ∅ ∅ (l ++ [a]) = dedup ∅ ∅ l ++ [a] →
  ¬ duplicate (seen_after ∅ ∅ l).1 (seen_after ∅ ∅ l).2 a.
Proof.
  intros H Hdup. rewrite dedup_app in H. apply app_inv_head in H.
  cbn [dedup] in H. by rewrite decide_True in H.
Qed.

(** First writer wins, on the flattened input. *)
Lemma dedup_first_writer l1 a l2 b l3 :
  ¬ duplicate (seen_after ∅ ∅ l1).1 (seen_after ∅ ∅ l1).2 a →
  paper_id a ≠ "" →
  paper_id b = paper_id a →
  ∃ out2,
    dedup ∅ ∅ (l1 ++ a :: l2 ++ b :: l3) = dedup ∅ ∅ l1 ++ a :: out2
    ∧ dedup ∅ ∅ (l1 ++ a :: l2 ++ l3) = dedup ∅ ∅ l1 ++ a :: out2
    ∧ Forall (λ r, paper_id r ≠ paper_id a) out2.
Proof.
  intros Hnd Hne Hid.
  set (ids1 := (seen_after ∅ ∅ l1).1) in *.
  set (titles1 := (seen_after ∅ ∅ l1).2) in *.
  set (ids2 := register (paper_id a) ids1).
  set (titles2 := register (norm_title a) titles1).
  exists (dedup ids2 titles2 (l2 ++ l3)).
  rewrite !(dedup_app _ _ l1). fold ids1 titles1.
  cbn [dedup]. rewrite !decide_False by done. fold ids2 titles2.
  split; [|split; [done|]].
  - do 2 f_equal. rewrite !dedup_app. f_equal.
    apply dedup_skip_id; [congruence|]. rewrite Hid.
    apply seen_after_ids_mono. by apply register_elem.
  - apply Forall_forall. intros r Hr Heq.
    eapply dedup_fresh_ids; [exact Hr | congruence |].
    rewrite Heq. by apply register_elem.
Qed.

Lemma join_snd_app {A} (d1 d2 : list (string * list A)) :
  mjoin (d1 ++ d2).*2 = mjoin d1.*2 ++ mjoin d2.*2.
Proof. by rewrite fmap_app, join_app. Qed.

Lemma join_snd_cons {A} k (xs : list A) (d : list (string * list A)) :
  mjoin ((k, xs) :: d).*2 = xs ++ mjoin d.*2.
Proof. reflexivity. Qed.

(** C1 (amended).  On records of the data model's type the merge visits
    the sources in mapping order and each list in its own order, skips a
    record whose non-empty id is already seen, else one whose non-empty
    normalized title is already seen, else appends it and registers its
    non-empty id and title: it computes [MergeSpec.merge].  Consequently,
    when list B holds a record [b] sharing a non-empty id with a record [a]
    of an earlier list A that was itself appended, the output keeps [a]
    right after the output of what precedes it, is the same as if [b] were
    not there, and holds no other record with that id. *)
Theorem merge_first_writer_wins (results_dict : list (string * list dict)) :
  Forall paper_typed (mjoin results_dict.*2) →
  merge_results_from_sources results_dict = Ok (merge results_dict)
  ∧ ∀ pre sa A1 a A2 mid sb B1 b B2 post out1,
      results_dict
        = pre ++ (sa, A1 ++ a :: A2) :: mid ++ (sb, B1 ++ b :: B2) :: post →
      merge_results_from_sources (pre ++ [(sa, A1)]) = Ok out1 →
      merge_results_from_sources (pre ++ [(sa, A1 ++ [a])])
        = Ok (out1 ++ [a]) →
      paper_id a ≠ "" →
      paper_id b = paper_id a →
      ∃ out2,
        merge_results_from_sources results_dict = Ok (out1 ++ a :: out2)
        ∧ merge_results_from_sources
            (pre ++ (sa, A1 ++ a :: A2) :: mid ++ (sb, B1 ++ B2) :: post)
          = Ok (out1 ++ a :: out2)
        ∧ Forall (λ r, paper_id r ≠ paper_id a) out2.
Proof.
  intros Hty. split; [by apply merge_refines|].
  intros pre sa A1 a A2 mid sb B1 b B2 post out1 -> Hout1 Happ Hne Hid.
  assert (Hflat : mjoin (pre ++ (sa, A1 ++ a :: A2) :: mid
                              ++ (sb, B1 ++ b :: B2) :: post).*2
          = (mjoin pre.*2 ++ A1) ++ a
              :: (A2 ++ mjoin mid.*2 ++ B1) ++ b :: (B2 ++ mjoin post.*2)).
  { rewrite !join_snd_app, !join_snd_cons, !join_snd_app,
      !join_snd_cons. by rewrite <- !app_assoc. }
  assert (Hflat' : mjoin (pre ++ (sa, A1 ++ a :: A2) :: mid
                               ++ (sb, B1 ++ B2) :: post).*2
          = (mjoin pre.*2 ++ A1) ++ a
              :: (A2 ++ mjoin mid.*2 ++ B1) ++ (B2 ++ mjoin post.*2)).
  { rewrite !join_snd_app, !join_snd_cons, !join_snd_app,
      !join_snd_cons. by rewrite <- !app_assoc. }
  assert (Hpre : mjoin (pre ++ [(sa, A1)]).*2 = mjoin pre.*2 ++ A1).
  { rewrite join_snd_app, join_snd_cons. simpl. by rewrite app_nil_r. }
  assert (Hpre' : mjoin (pre ++ [(sa, A1 ++ [a])]).*2
                  = (mjoin pre.*2 ++ A1) ++ [a]).
  { rewrite join_snd_app, join_snd_cons. simpl.
    by rewrite app_nil_r, app_assoc. }
  rewrite Hflat in Hty.
  assert (Hty1 : Forall paper_typed (mjoin pre.*2 ++ A1)).
  { by apply Forall_app in Hty as [? _]. }
  assert (Htya : Forall paper_typed ((mjoin pre.*2 ++ A1) ++ [a])).
  { apply Forall_app in Hty as [? [? _]%Forall_cons].
    apply Forall_app. split; [done|]. by apply Forall_singleton. }
  rewrite merge_refines in Hout1 by (by rewrite Hpre).
  rewrite merge_refines in Happ by (by rewrite Hpre').
  unfold merge in Hout1, Happ. rewrite Hpre in Hout1. rewrite Hpre' in Happ.
  injection Hout1 as <-. injection Happ as Happ.
  apply appended_not_duplicate in Happ.
  destruct (dedup_first_writer _ a (A2 ++ mjoin mid.*2 ++ B1) b
              (B2 ++ mjoin post.*2) Happ Hne Hid) as (out2 & E1 & E2 & Hfresh).
  exists out2. split; [|split; [|exact Hfresh]].
  - rewrite merge_refines by (by rewrite Hflat).
    unfold merge. by rewrite Hflat, E1.
  - rewrite merge_refines.
    + unfold merge. by rewrite Hflat', E2.
    + rewrite Hflat'. apply Forall_app in Hty as [? [? Hrest]%Forall_cons].
      apply Forall_app. split; [done|]. apply Forall_cons. split; [done|].
      apply Forall_app in Hrest as [? [_ ?]%Forall_cons].
      apply Forall_app. done.
Qed.

Lemma merge_first_writer_wins_witness :
  ∃ out2,
    merge_results_from_sources
      [("pubmed", [paperA1; paperB1]); ("arxiv", [paperA2; paperB2])]
    = Ok ([paperA1] ++ paperB1 :: out2)
    ∧ merge_results_from_sources
        [("pubmed", [paperA1; paperB1]); ("arxiv", [paperB2])]
      = Ok ([paperA1] ++ paperB1 :: out2)
    ∧ Forall (λ r, paper_id r ≠ paper_id paperB1) out2.
Proof.
  destruct (merge_first_writer_wins
              [("pubmed", [paperA1; paperB1]); ("arxiv", [paperA2; paperB2])])
    as [_ H].
  { repeat constructor. }
  apply (H [] "pubmed" [paperA1] paperB1 [] [] "arxiv" [] paperA2 [paperB2]
           [] [paperA1]).
  - reflexivity.
  - by vm_compute.
  - by vm_compute.
  - discriminate.
  - reflexivity.
Defined.

(** The title fallback of the specification's P5: the second record has
    another id and the same title up to case and outer blanks. *)
Example merge_title_fallback :
  merge_results_from_sources
    [("arxiv", [[("id", VStr "2301.1"); ("title", VStr "Deep Learning for X")]]);
     ("semantic_scholar",
      [[("id", VStr "abc"); ("title", VStr "  deep learning for x  ")]])]
  = Ok [[("id", VStr "2301.1"); ("title", VStr "Deep Learning for X")]].
Proof. by vm_compute. Qed.

(** Two records that share the empty id are both kept. *)
Example merge_shared_empty_id :
  merge_results_from_sources
    [("A", [[("id", VStr ""); ("title", VStr "One")]]);
     ("B", [[("id", VStr ""); ("title", VStr "Two")]])]
  = Ok [[("id", VStr ""); ("title", VStr "One")];
        [("id", VStr ""); ("title", VStr "Two")]].
Proof. by vm_compute. Qed.

(** C9.  A list in which no two records share a non-empty id and no two
    share a non-empty normalized title, merged as the only input, comes
    back unchanged: nothing dropped, order kept. *)
Theorem merge_single_source_unchanged (source : string) (results : list dict) :
  Forall paper_typed results →
  no_shared paper_id results →
  no_shared norm_title results →
  merge_results_from_sources [(source, results)] = Ok results.
Proof.
  intros Hty Hids Htitles.
  rewrite merge_refines by (simpl; by rewrite app_nil_r).
  unfold merge. simpl. rewrite app_nil_r. f_equal.
  apply dedup_id; [done | done | |]; intros r _ _; apply not_elem_of_empty.
Qed.

Lemma merge_single_source_unchanged_witness :
  merge_results_from_sources [("arxiv", [paperA1; paperB1; paperB2])]
  = Ok [paperA1; paperB1; paperB2].
Proof.
  apply merge_single_source_unchanged.
  - repeat constructor.
  - intros [|[|[|i]]] [|[|[|j]]] r r' Hi Hj Hne Heq;
      simplify_eq/=; by try discriminate.
  - intros [|[|[|i]]] [|[|[|j]]] r r' Hi Hj Hne Heq;
      simplify_eq/=; by try discriminate.
Defined.

(** One step of the loop on a record with neither id nor title: it is
    appended whatever has been seen, and registers nothing. *)
Lemma merge_result_empty_keyed st r :
  get r "id" (VStr "") = VStr "" →
  is_str (get r "title" (VStr "")) →
  norm_title r = "" →
  merge_result st r
  = Ok {| merged := merged st ++ [r];
          seen_ids := seen_ids st;
          seen_titles := seen_titles st |}.
Proof.
  intros Hid Hty Ht. unfold merge_result, norm_title in *.
  rewrite Hid. destruct (get r "title" (VStr "")) as [| | |t| |]; try done.
  cbn [str_lower as_str] in *. rewrite bind_Ok. cbv zeta. rewrite Ht.
  reflexivity.
Qed.

(** C10.  A record whose id is the empty string and whose normalized title
    is empty is always appended: the merge returns, and the empty-keyed
    records of its output are exactly those of its input, each occurrence
    kept, whichever source it came from. *)
Theorem merge_keeps_empty_keyed (results_dict : list (string * list dict)) :
  Forall paper_typed (mjoin results_dict.*2) →
  ∃ out,
    merge_results_from_sources results_dict = Ok out
    ∧ filter empty_keyed out = filter empty_keyed (mjoin results_dict.*2).
Proof.
  intros Hty. exists (merge results_dict). split; [by apply merge_refines|].
  apply dedup_empty_keyed.
Qed.

Lemma merge_keeps_empty_keyed_witness :
  ∃ out,
    merge_results_from_sources
      [("pubmed", [[("error", VStr "no data")]; paperA1]);
       ("arxiv", [[("error", VStr "no data")]; paperA2])]
    = Ok out
    ∧ filter empty_keyed out
      = [[("error", VStr "no data")]; [("error", VStr "no data")]].
Proof.
  apply (merge_keeps_empty_keyed
           [("pubmed", [[("error", VStr "no data")]; paperA1]);
            ("arxiv", [[("error", VStr "no data")]; paperA2])]).
  repeat constructor.
Defined.

(** Titles are normalized as Python does it, beyond ASCII: a title in
    capitals with accents, the same title in small letters and the same
    followed by a no-break space are one title, and the first record
    wins.  A title that is a no-break space only is empty once trimmed,
    so records that have it and no id are all kept. *)
Example merge_accented_titles :
  merge_results_from_sources
    [("pubmed", [[("id", VStr "1"); ("title", VStr "ÉTUDE DES GRAPHES")]]);
     ("arxiv", [[("id", VStr "2"); ("title", VStr "étude des graphes")];
                [("id", VStr "3");
                 ("title", VStr ("Étude des graphes" +:+ point_of 160))]])]
  = Ok [[("id", VStr "1"); ("title", VStr "ÉTUDE DES GRAPHES")]]
  ∧ merge_results_from_sources
      [("pubmed", [[("id", VStr ""); ("title", VStr (point_of 160))];
                   [("id", VStr ""); ("title", VStr (point_of 160))]]);
       ("arxiv", [[("id", VStr "7"); ("title", VStr (point_of 160))];
                  [("id", VStr "8"); ("title", VStr (point_of 160))]])]
    = Ok [[("id", VStr ""); ("title", VStr (point_of 160))];
          [("id", VStr ""); ("title", VStr (point_of 160))];
          [("id", VStr "7"); ("title", VStr (point_of 160))];
          [("id", VStr "8"); ("title", VStr (point_of 160))]].
Proof. split; by vm_compute. Qed.

End merge_claims.

(** ** Dispatch: the invalid selector *)

Section dispatch_claims.
Import academic_server.

Lemma prefix_app sub post : String.prefix sub (sub +:+ post) = true.
Proof.
  induction sub as [|c sub IH]; [by destruct post|].
  change (String.prefix (String c sub) (String c (sub +:+ post)) = true).
  cbn [String.prefix]. destruct (ascii_dec c c); [exact IH | done].
Qed.

Lemma prefix_app_r sub s post :
  String.prefix sub s = true → String.prefix sub (s +:+ post) = true.
Proof.
  revert s. induction sub as [|c sub IH]; intros s H; [by destruct (s +:+ post)|].
  destruct s as [|d s]; [done|].
  change (String.prefix (String c sub) (String d (s +:+ post)) = true).
  cbn [String.prefix] in *.
  destruct (ascii_dec c d); [by apply IH | done].
Qed.

Lemma contains_unfold sub s :
  contains sub s
  = String.prefix sub s
    || match s with
       | EmptyString => false
       | String _ s' => contains sub s'
       end.
Proof. by destruct s. Qed.

Lemma contains_here sub post : contains sub (sub +:+ post) = true.
Proof. by rewrite contains_unfold, prefix_app. Qed.

Lemma contains_later sub pre s :
  contains sub s = true → contains sub (pre +:+ s) = true.
Proof.
  intros H. induction pre as [|c pre IH]; [done|].
  change (String c pre +:+ s) with (String c (pre +:+ s)).
  cbn [contains]. rewrite IH. apply orb_true_r.
Qed.

Lemma contains_earlier sub s post :
  contains sub s = true → contains sub (s +:+ post) = true.
Proof.
  induction s as [|c s IH]; intros H.
  - destruct sub; [by destruct post | done].
  - rewrite contains_unfold in H. apply orb_true_iff in H as [H|H].
    + by rewrite contains_unfold, (prefix_app_r _ (String c s) post H).
    + change (String c s +:+ post) with (String c (s +:+ post)).
      cbn [contains]. rewrite (IH H). apply orb_true_r.
Qed.

Lemma contains_intro sub pre post :
  contains sub (pre +:+ sub +:+ post) = true.
Proof. apply contains_later, contains_here. Qed.

Lemma contains_refl s : contains s s = true.
Proof.
  assert (E : s +:+ "" = s).
  { induction s as [|c s IH]; [done|].
    change (String c (s +:+ "") = String c s). by rewrite IH. }
  pose proof (contains_here s "") as H. by rewrite E in H.
Qed.

Lemma contains_join sep (l : list string) x :
  x ∈ l → contains x (join_str sep l) = true.
Proof.
  induction l as [|s l IH]; intros Hin; [by apply elem_of_nil in Hin|].
  apply elem_of_cons in Hin as [-> | Hin].
  - destruct l as [|t l]; cbn [join_str]; [apply contains_refl|].
    apply contains_here.
  - destruct l as [|t l]; [by apply elem_of_nil in Hin|].
    cbn [join_str]. apply contains_later, contains_later, IH, Hin.
Qed.

Lemma assoc_None {A} (d : list (string * A)) k : k ∉ d.*1 → assoc d k = None.
Proof.
  induction d as [|[k' v] d IH]; intros Hk; [done|].
  cbn [assoc]. rewrite fmap_cons, not_elem_of_cons in Hk.
  destruct Hk as [Hne Hk]. cbn [fst] in Hne.
  destruct (String.eqb_spec k' k); [congruence | by apply IH].
Qed.

(** The message names the rejected selector, every registered source and
    the selector ['all']. *)
Lemma invalid_source_names source label adapters :
  let msg := invalid_source source label adapters in
  contains ("'" +:+ source +:+ "'") msg = true
  ∧ contains "'all'" msg = true
  ∧ ∀ name, name ∈ AVAILABLE_SOURCES adapters → contains name msg = true.
Proof.
  unfold invalid_source. split; [|split].
  - change ("Invalid source '" +:+ source +:+ "'. " +:+ label
             +:+ join_str ", " (AVAILABLE_SOURCES adapters) +:+ ", 'all'")
      with ("Invalid source " +:+ ("'" +:+ source +:+ "'" +:+ ". " +:+ label
             +:+ join_str ", " (AVAILABLE_SOURCES adapters) +:+ ", 'all'")).
    apply contains_later.
    set (T := ". " +:+ label +:+ join_str ", " (AVAILABLE_SOURCES adapters)
              +:+ ", 'all'").
    replace ("'" +:+ source +:+ "'" +:+ T) with (("'" +:+ source +:+ "'") +:+ T)
      by (by rewrite !string_app_assoc).
    apply contains_here.
  - do 5 apply contains_later. apply (contains_intro "'all'" ", " "").
  - intros name Hin. do 4 apply contains_later.
    apply contains_earlier, contains_join, Hin.
Qed.

(** C7.  A selector that is neither ["all"] nor a registered source makes
    both dispatch operations return one error entry whose message names the
    selector, lists every registered source and ['all']; no adapter is
    handed a search and no call leaves the process: the trace is as
    before. *)
Theorem invalid_source_rejected (adapters : registry) (source : string)
    (w : env) (tr : list call) :
  source ≠ "all" →
  source ∉ AVAILABLE_SOURCES adapters →
  ∃ msg msg',
    (∀ keywords num_results,
       search_papers adapters keywords source num_results w tr
       = (Ok [[("error", VStr msg)]], tr))
    ∧ (∀ title author journal start_date end_date term num_results,
         search_papers_advanced adapters title author journal start_date
           end_date term source num_results w tr
         = (Ok [[("error", VStr msg')]], tr))
    ∧ Forall (λ m, contains ("'" +:+ source +:+ "'") m = true
                   ∧ contains "'all'" m = true
                   ∧ ∀ name, name ∈ AVAILABLE_SOURCES adapters →
                             contains name m = true)
             [msg; msg'].
Proof.
  intros Hall Hsrc.
  exists (invalid_source source "Available sources: " adapters),
         (invalid_source source "Available: " adapters).
  assert (Heqb : String.eqb source "all" = false) by by apply String.eqb_neq.
  split; [|split].
  - intros. unfold search_papers, try_except.
    rewrite Heqb, (assoc_None adapters source Hsrc). reflexivity.
  - intros. unfold search_papers_advanced, try_except.
    rewrite Heqb, (assoc_None adapters source Hsrc). reflexivity.
  - repeat (apply Forall_cons_2; [apply invalid_source_names|]).
    apply Forall_nil_2.
Qed.

Lemma invalid_source_rejected_witness :
  ∃ msg msg',
    (∀ keywords num_results,
       search_papers adapters keywords "nonexistent_source" num_results
         silent_world []
       = (Ok [[("error", VStr msg)]], []))
    ∧ (∀ title author journal start_date end_date term num_results,
         search_papers_advanced adapters title author journal start_date
           end_date term "nonexistent_source" num_results silent_world []
         = (Ok [[("error", VStr msg')]], []))
    ∧ Forall (λ m, contains "'nonexistent_source'" m = true
                   ∧ contains "'all'" m = true
                   ∧ ∀ name, name ∈ AVAILABLE_SOURCES adapters →
                             contains name m = true)
             [msg; msg'].
Proof.
  apply (invalid_source_rejected adapters "nonexistent_source" silent_world []).
  - discriminate.
  - unfold AVAILABLE_SOURCES, adapters. cbn [fmap list_fmap fst].
    intros Hin. repeat (apply elem_of_cons in Hin as [Hin|Hin]; [discriminate|]).
    by apply elem_of_nil in Hin.
Defined.

(** Scenario B of the specification, evaluated. *)
Example invalid_source_message :
  search_papers adapters "crispr" "nonexistent_source" 5 silent_world []
  = (Ok [[("error",
           VStr "Invalid source 'nonexistent_source'. Available sources: pubmed, biorxiv, medrxiv, arxiv, semantic_scholar, 'all'")]],
     []).
Proof. by vm_compute. Qed.

End dispatch_claims.

(** ** Dispatch: all sources *)

Section all_sources.
Import academic_server MergeSpec.

Lemma set_item_fresh {A} (d : list (string * A)) k v :
  k ∉ d.*1 → set_item d k v = d ++ [(k, v)].
Proof.
  induction d as [|[k' v'] d IH]; intros Hk; [done|].
  rewrite fmap_cons, not_elem_of_cons in Hk. destruct Hk as [Hne Hk].
  cbn [set_item fst] in *.
  destruct (String.eqb_spec k' k); [congruence|]. by rewrite IH.
Qed.

Lemma contribution_name a c : contribution a = Some c → c.1 = a.1.
Proof. destruct a as [n [[|x l]|e]]; intros [= <-]; done. Qed.

(** The loop never raises, and stores exactly the contributions of the
    answers, in registry order. *)
Lemma search_every_contributions method adapters : ∀ all_results w tr,
  NoDup adapters.*1 →
  (∀ k, k ∈ adapters.*1 → k ∉ all_results.*1) →
  search_every method adapters all_results w tr
  = (Ok (all_results ++ omap contribution (answers method adapters w tr).1),
     (answers method adapters w tr).2).
Proof.
  induction adapters as [|[name a] rest IH]; intros acc w tr Hnd Hfresh.
  { cbn. by rewrite app_nil_r. }
  rewrite fmap_cons in Hnd. apply NoDup_cons in Hnd as [Hname Hnd].
  cbn [search_every answers].
  unfold mbind at 1, M_bind, try_except.
  unfold mbind at 1, M_bind.
  destruct (to_thread name (method a) w tr) as [r tr1] eqn:Hrun.
  destruct (answers method rest w tr1) as [rs tr2] eqn:Hrest.
  assert (Hacc : name ∉ acc.*1) by (apply Hfresh; rewrite fmap_cons; left).
  destruct r as [[|x l]|e]; cbn.
  - rewrite IH, Hrest; [done | done |].
    intros k Hk. apply Hfresh. rewrite fmap_cons. by right.
  - rewrite IH, Hrest; [| done |].
    + rewrite (set_item_fresh acc name _ Hacc). cbn. by rewrite <- app_assoc.
    + intros k Hk. rewrite (set_item_fresh acc name _ Hacc), fmap_app.
      rewrite not_elem_of_app. split.
      * apply Hfresh. rewrite fmap_cons. by right.
      * cbn. rewrite list_elem_of_singleton. intros ->. done.
  - rewrite IH, Hrest; [done | done |].
    intros k Hk. apply Hfresh. rewrite fmap_cons. by right.
Qed.

(** Every record of the input is in the output or is the duplicate of one
    that is, unless what made it a duplicate was registered beforehand. *)
Lemma dedup_covers l : ∀ ids titles r,
  r ∈ l →
  covered r (dedup ids titles l)
  ∨ (paper_id r ≠ "" ∧ paper_id r ∈ ids)
  ∨ (norm_title r ≠ "" ∧ norm_title r ∈ titles).
Proof.
  induction l as [|x l IH]; intros ids titles r Hin;
    [by apply elem_of_nil in Hin|].
  cbn [dedup]. apply elem_of_cons in Hin as [-> | Hin].
  - case_decide as Hdup; [by right|].
    left. exists x. split; [by left | by left].
  - case_decide as Hdup; [by apply IH|].
    destruct (IH (register (paper_id x) ids) (register (norm_title x) titles)
                r Hin) as [(r' & Hr' & Hcov) | [[Hne Hreg] | [Hne Hreg]]].
    + left. exists r'. split; [by right | done].
    + unfold register in Hreg. case_decide; [right; by left|].
      apply elem_of_union in Hreg as [Heq%elem_of_singleton | Hreg].
      * left. exists x. split; [by left|]. right. left. by split.
      * right. by left.
    + unfold register in Hreg. case_decide; [right; by right|].
      apply elem_of_union in Hreg as [Heq%elem_of_singleton | Hreg].
      * left. exists x. split; [by left|]. right. right. by split.
      * right. by right.
Qed.

(** Every adapter of the registry is handed the search, in order. *)
Lemma answers_names method (adapters : registry) w tr :
  (answers method adapters w tr).1.*1 = AVAILABLE_SOURCES adapters.
Proof.
  unfold AVAILABLE_SOURCES. revert tr.
  induction adapters as [|[name a] rest IH]; intros tr; [done|].
  cbn [answers]. destruct (to_thread name (method a) w tr) as [r tr1].
  specialize (IH tr1). destruct (answers method rest w tr1) as [rs tr2].
  cbn [fst fmap list_fmap] in *. by rewrite IH.
Qed.

Lemma contribution_spec (source_name : string) (l : list dict)
    (answered : list (string * res (list dict))) :
  (source_name, l) ∈ omap contribution answered
  ↔ l ≠ [] ∧ (source_name, Ok l) ∈ answered.
Proof.
  rewrite list_elem_of_omap. split.
  - intros ([n [[|x l']|e]] & Hin & Hc); cbn in Hc; try done.
    injection Hc as <- <-. done.
  - intros [Hne Hin]. exists (source_name, Ok l). split; [done|].
    by destruct l.
Qed.

Lemma elem_of_per_source (per_source : list (string * list dict)) r :
  r ∈ mjoin per_source.*2 ↔ ∃ name l, (name, l) ∈ per_source ∧ r ∈ l.
Proof.
  rewrite list_elem_of_join. split.
  - intros (l & Hr & Hl). apply list_elem_of_fmap in Hl as ([name l'] & -> & Hin).
    by exists name, l'.
  - intros (name & l & Hin & Hr). exists l. split; [done|].
    by apply (list_elem_of_fmap_2 snd _ (name, l)).
Qed.

(** C2, as stated, fails: an error value does appear in the merged list.
    The PubMed adapter passes on a record of its collaborator that has the
    key [error] as it is, and the merge keeps it like any record.  Here
    the other four adapters fail internally and come back empty. *)
Lemma all_sources_error_value_counterexample :
  search_papers adapters "crispr" "all" 5 pubmed_error_world []
  = (Ok [[("error", VStr "Too Many Requests")]],
     [ToThread "pubmed"; PubmedSearchKeyWords "crispr" 5;
      ToThread "biorxiv";
      page_call "biorxiv" "2023-06-02/2024-06-01" 0;
      ToThread "medrxiv";
      page_call "medrxiv" "2023-06-02/2024-06-01" 0;
      ToThread "arxiv";
      RequestsGet arxiv_adapter.base_url
        (arxiv_adapter.keywords_params pubmed_error_world "crispr" 5);
      ToThread "semantic_scholar";
      RequestsGet semantic_scholar_adapter.search_url
        (semantic_scholar_adapter.keywords_params "crispr" 5)])
  ∧ has_key [("error", VStr "Too Many Requests")] "error" = true.
Proof. split; by vm_compute. Qed.

(** C2 (amended).  Under the selector ["all"] every adapter is handed the
    search under its own [try], in registry order.  Whatever the adapters
    do, the loop does not raise and passes to the merge exactly the
    non-empty results that were returned: an adapter that raised and a
    source with zero results are left out.  On records of the data model
    the aggregate is the merge of that mapping: every record an adapter
    returned is in it or is the duplicate of one that is, and every record
    in it was returned by an adapter; the dispatch adds no error value of
    its own, and a record an adapter returns is merged whatever it
    holds. *)
Theorem all_sources_fault_isolation (adapters : registry) (keywords : string)
    (num_results : Z) (w : env) (tr : list call) :
  let method := λ adapter, search_by_keywords adapter keywords num_results in
  let answered := (answers method adapters w tr).1 in
  let per_source := omap contribution answered in
  NoDup (AVAILABLE_SOURCES adapters) →
  ∃ tr',
    search_every method adapters [] w tr = (Ok per_source, tr')
    ∧ answered.*1 = AVAILABLE_SOURCES adapters
    ∧ (∀ name l, (name, l) ∈ per_source ↔ l ≠ [] ∧ (name, Ok l) ∈ answered)
    ∧ (Forall paper_typed (mjoin per_source.*2) →
       ∃ merged,
         helpers.merge_results_from_sources per_source = Ok merged
         ∧ search_papers adapters keywords "all" num_results w tr
           = (Ok merged, tr')
         ∧ (∀ name l r, (name, Ok l) ∈ answered → r ∈ l → covered r merged)
         ∧ (∀ r, r ∈ merged → ∃ name l, (name, Ok l) ∈ answered ∧ r ∈ l)).
Proof.
  intros method answered per_source Hnd.
  exists (answers method adapters w tr).2.
  assert (Hloop : search_every method adapters [] w tr
                  = (Ok per_source, (answers method adapters w tr).2)).
  { rewrite search_every_contributions; [done | done |].
    intros k _. apply not_elem_of_nil. }
  split; [exact Hloop|]. split; [apply answers_names|].
  split; [intros name l; apply contribution_spec|].
  intros Hty. exists (merge per_source).
  assert (Hmerge : helpers.merge_results_from_sources per_source
                   = Ok (merge per_source)) by by apply merge_refines.
  split; [exact Hmerge|]. split; [|split].
  - unfold search_papers, try_except. cbn [String.eqb Ascii.eqb Bool.eqb].
    unfold mbind, M_bind. fold method. rewrite Hloop. unfold lift.
    by rewrite Hmerge.
  - intros name l r Hin Hr.
    assert (Hflat : r ∈ mjoin per_source.*2).
    { apply elem_of_per_source. exists name, l. split; [|done].
      apply contribution_spec. split; [|done]. intros ->.
      by apply elem_of_nil in Hr. }
    destruct (dedup_covers _ ∅ ∅ r Hflat) as [Hc | [[_ Hc] | [_ Hc]]];
      [exact Hc | by apply not_elem_of_empty in Hc..].
  - intros r Hr.
    assert (Hflat : r ∈ mjoin per_source.*2).
    { eapply elem_of_sublist; [exact Hr | apply dedup_sublist]. }
    apply elem_of_per_source in Hflat as (name & l & Hin & Hrl).
    exists name, l. split; [|done]. by apply contribution_spec in Hin as [_ ?].
Qed.

(** A title that is [None], which the defect of the Semantic Scholar
    formatter produces, is no record of the data model: the merge raises
    on it and the whole search answers with one error entry. *)
Example all_sources_untyped_title :
  (search_papers
     [("pubmed", stub "pubmed" (Ok [paperA1]));
      ("semantic_scholar",
       stub "semantic_scholar" (Ok [[("id", VStr "p9"); ("title", VNone)]]))]
     "CRISPR" "all" 5 silent_world []).1
  = Ok [[("error", VStr "An error occurred while searching: ")]].
Proof. by vm_compute. Qed.

Lemma all_sources_fault_isolation_witness :
  ∃ merged tr',
    search_every (λ adapter, search_by_keywords adapter "CRISPR" 5)
      sample_registry [] silent_world []
    = (Ok [("pubmed", [paperA1; paperB1]); ("arxiv", [paperA2; paperB2])], tr')
    ∧ helpers.merge_results_from_sources
        [("pubmed", [paperA1; paperB1]); ("arxiv", [paperA2; paperB2])]
      = Ok merged
    ∧ search_papers sample_registry "CRISPR" "all" 5 silent_world []
      = (Ok merged, tr').
Proof.
  destruct (all_sources_fault_isolation sample_registry "CRISPR" 5
              silent_world []) as (tr' & H1 & _ & _ & H).
  - unfold AVAILABLE_SOURCES, sample_registry. cbn [fmap list_fmap fst].
    repeat (apply NoDup_cons_2;
            [intros Hin;
             repeat (apply elem_of_cons in Hin as [Hin|Hin]; [discriminate|]);
             by apply elem_of_nil in Hin|]).
    apply NoDup_nil_2.
  - destruct H as (merged & H2 & H3 & _); [repeat constructor|].
    exists merged, tr'. split; [exact H1|]. split; [exact H2 | exact H3].
Defined.

(** The aggregate of the sample registry: the source that raised and the
    empty one leave no trace in it. *)
Example all_sources_sample :
  (search_papers sample_registry "CRISPR" "all" 5 silent_world []).1
  = Ok [paperA1; paperB1; paperB2].
Proof. by vm_compute. Qed.

End all_sources.

(** ** The [while] loop *)

Section while_facts.
Context {S : Type} (cond : S → res bool) (body : S → M (control S)).

(** One round, spelled out. *)
Lemma while_round fuel s w tr :
  while fuel cond body s w tr
  = match cond s with
    | Raise e => (Raise e, tr)
    | Ok false => (Ok (Some s), tr)
    | Ok true =>
        match fuel with
        | O => (Ok None, tr)
        | Datatypes.S fuel' =>
            match body s w tr with
            | (Raise e, tr') => (Raise e, tr')
            | (Ok (Break s'), tr') => (Ok (Some s'), tr')
            | (Ok (Continue s'), tr') => while fuel' cond body s' w tr'
            end
        end
    end.
Proof.
  destruct fuel; cbn [while]; unfold mbind, M_bind, lift;
    destruct (cond s) as [[|]|]; try reflexivity.
  destruct (body s w tr) as [[[s'|s']|e] tr']; reflexivity.
Qed.

(** A variant: positive while the loop goes on, smaller after a round that
    continues. *)
Context (variant : S → nat).
Hypothesis variant_pos : ∀ s, cond s = Ok true → (0 < variant s)%nat.
Hypothesis variant_decr : ∀ s w tr s' tr',
  cond s = Ok true →
  body s w tr = (Ok (Continue s'), tr') →
  (variant s' < variant s)%nat.

(** With as much fuel as the variant the loop reaches its end. *)
Lemma while_enough fuel : ∀ s w tr,
  (variant s ≤ fuel)%nat →
  (while fuel cond body s w tr).1 ≠ Ok None.
Proof.
  induction fuel as [|fuel IH]; intros s w tr Hfuel; rewrite while_round.
  - destruct (cond s) as [[|]|] eqn:Hc; try done.
    apply variant_pos in Hc. lia.
  - destruct (cond s) as [[|]|] eqn:Hc; try done.
    destruct (body s w tr) as [[[s'|s']|e] tr'] eqn:Hb; try done.
    apply IH. pose proof (variant_decr _ _ _ _ _ Hc Hb). lia.
Qed.

(** More fuel than that changes nothing. *)
Lemma while_fuel fuel : ∀ fuel' s w tr,
  (variant s ≤ fuel)%nat →
  (variant s ≤ fuel')%nat →
  while fuel cond body s w tr = while fuel' cond body s w tr.
Proof.
  induction fuel as [|fuel IH]; intros fuel' s w tr Hfuel Hfuel';
    rewrite (while_round fuel'), while_round.
  - destruct (cond s) as [[|]|] eqn:Hc; try done.
    apply variant_pos in Hc. lia.
  - destruct (cond s) as [[|]|] eqn:Hc; try done.
    destruct fuel' as [|fuel']; [apply variant_pos in Hc; lia|].
    destruct (body s w tr) as [[[s'|s']|e] tr'] eqn:Hb; try done.
    pose proof (variant_decr _ _ _ _ _ Hc Hb). apply IH; lia.
Qed.

End while_facts.

(** What holds before a loop and is kept by every round holds after it. *)
Lemma while_invariant {S} (I : S → Prop) (cond : S → res bool)
    (body : S → M (control S)) :
  (∀ s w tr c tr', I s → body s w tr = (Ok c, tr') → I (after c)) →
  ∀ fuel s w tr s' tr',
    I s → while fuel cond body s w tr = (Ok (Some s'), tr') → I s'.
Proof.
  intros Hbody. induction fuel as [|fuel IH]; intros s w tr s' tr' Hs;
    rewrite while_round.
  - destruct (cond s) as [[|]|]; intros [= <- <-] || intros [=]; done.
  - destruct (cond s) as [[|]|]; [| by intros [= <- <-] | done].
    destruct (body s w tr) as [[[s1|s1]|e] tr1] eqn:Hb; [| | done].
    + intros [= <- <-]. apply (Hbody _ _ _ _ _ Hs Hb).
    + apply IH. apply (Hbody _ _ _ _ _ Hs Hb).
Qed.

Lemma for_break_invariant {S A} (I : S → Prop)
    (body : S → A → res (control S)) :
  (∀ s x c, I s → body s x = Ok c → I (after c)) →
  ∀ l s s', I s → for_break body s l = Ok s' → I s'.
Proof.
  intros Hbody. induction l as [|x l IH]; intros s s' Hs; cbn [for_break].
  - by intros [= <-].
  - destruct (body s x) as [[s1|s1]|e] eqn:Hb; cbn; [| | done].
    + intros [= <-]. apply (Hbody _ _ _ Hs Hb).
    + apply IH. apply (Hbody _ _ _ Hs Hb).
Qed.

(** ** The bioRxiv scan *)

Section biorxiv_scan.
Import biorxiv_adapter.

Ltac close_scan :=
  split; [by rewrite ?app_nil_r|];
  split; [done|];
  split; [repeat constructor|];
  split; [repeat constructor; lia|];
  first [congruence | intros _; by eexists].

Lemma truthy_len v n : truthy v = true → py_len v = Ok n → 1 ≤ n.
Proof.
  destruct v as [| | |s|l|d]; cbn [truthy py_len]; intros Ht [= <-];
    try done.
  - destruct s as [|c s]; [done|].
    pose proof (str_len_pos (String c s) ltac:(done)). lia.
  - destruct l; [done | cbn; lia].
  - destruct d; [done | cbn; lia].
Qed.

(** A round issues exactly one request, the page at the cursor, and moves
    the cursor forward when the loop goes on. *)
Lemma scan_page_shape server date_range inner all_results cursor w tr :
  ∃ r,
    scan_page server date_range inner (all_results, cursor) w tr
    = (r, tr ++ [page_call server date_range cursor])
    ∧ ∀ st', r = Ok (Continue st') → cursor < st'.2.
Proof.
  unfold scan_page, page_call. run_M.
  destruct (requests_get w tr _ []) as [resp|e]; [|by eexists].
  destruct (negb (status_code resp =? 200)); [by eexists|].
  destruct (json resp) as [data|e]; [|by eexists].
  destruct (py_get data "collection" (VList [])) as [collection|e];
    [|by eexists].
  destruct (negb (truthy collection)) eqn:Ht; [by eexists|].
  destruct (py_iter collection) as [items|e]; [|by eexists].
  destruct (for_break inner all_results items) as [all'|e]; [|by eexists].
  destruct (py_len collection) as [n|e] eqn:Hlen; [|by eexists].
  eexists. split; [reflexivity|]. intros st' [= <-]. cbn.
  apply negb_false_iff in Ht. pose proof (truthy_len _ _ Ht Hlen). lia.
Qed.

(** The loop leaves on a page whose status is not 200. *)
Lemma scan_page_bad_status server date_range inner st w tr resp :
  requests_get w tr (details_url server date_range st.2) [] = Ok resp →
  status_code resp ≠ 200 →
  scan_page server date_range inner st w tr
  = (Ok (Break st), tr ++ [page_call server date_range st.2]).
Proof.
  intros Hget Hstatus. destruct st as [all_results cursor].
  unfold scan_page, page_call. run_M. cbn [snd] in Hget. rewrite Hget.
  apply Z.eqb_neq in Hstatus. by rewrite Hstatus.
Qed.

(** The loop leaves on an empty batch. *)
Lemma scan_page_empty_batch server date_range inner st w tr resp data :
  requests_get w tr (details_url server date_range st.2) [] = Ok resp →
  status_code resp = 200 →
  json resp = Ok (VDict data) →
  truthy (get data "collection" (VList [])) = false →
  scan_page server date_range inner st w tr
  = (Ok (Break st), tr ++ [page_call server date_range st.2]).
Proof.
  intros Hget Hstatus Hjson Hempty. destruct st as [all_results cursor].
  unfold scan_page, page_call. run_M. cbn [snd] in Hget.
  rewrite Hget, Hstatus, Hjson. cbn. by rewrite Hempty.
Qed.

(** A request that raises (a timeout, a refused connection) ends the
    round with the exception. *)
Lemma scan_page_raises server date_range inner st w tr e :
  requests_get w tr (details_url server date_range st.2) [] = Raise e →
  scan_page server date_range inner st w tr
  = (Raise e, tr ++ [page_call server date_range st.2]).
Proof.
  intros Hget. destruct st as [all_results cursor].
  unfold scan_page, page_call. run_M. cbn [snd] in Hget. by rewrite Hget.
Qed.

Section loop.
Context (server date_range : string)
        (inner : list dict → value → res (control (list dict)))
        (cond : list dict * Z → res bool).
Hypothesis cond_ceiling : ∀ st, cond st = Ok true → st.2 < 10000.

Lemma scan_variant_pos st : cond st = Ok true → (0 < scan_variant st)%nat.
Proof. intros H%cond_ceiling. unfold scan_variant. lia. Qed.

Lemma scan_variant_decr st w tr st' tr' :
  cond st = Ok true →
  scan_page server date_range inner st w tr = (Ok (Continue st'), tr') →
  (scan_variant st' < scan_variant st)%nat.
Proof.
  intros Hc%cond_ceiling Hb. destruct st as [all_results cursor].
  destruct (scan_page_shape server date_range inner all_results cursor w tr)
    as (r & Hr & Hmove).
  rewrite Hr in Hb. injection Hb as -> <-.
  specialize (Hmove st' eq_refl). unfold scan_variant. cbn [snd] in *. lia.
Qed.

(** The loop reaches its end within the ceiling, and the calls it makes
    are the pages at growing cursors. *)
Lemma scan_loop fuel : ∀ st w tr,
  0 ≤ st.2 →
  (scan_variant st ≤ fuel)%nat →
  ∃ r cursors,
    while fuel cond (scan_page server date_range inner) st w tr
    = (r, tr ++ (page_call server date_range <$> cursors))
    ∧ r ≠ Ok None
    ∧ StronglySorted Z.lt cursors
    ∧ Forall (λ c, st.2 ≤ c < 10000) cursors
    ∧ (cond st = Ok true → ∃ rest, cursors = st.2 :: rest).
Proof.
  induction fuel as [|fuel IH]; intros st w tr H0 Hfuel; rewrite while_round.
  - destruct (cond st) as [[|]|] eqn:Hc.
    + apply scan_variant_pos in Hc. lia.
    + exists (Ok (Some st)), []. close_scan.
    + exists (Raise e), []. close_scan.
  - destruct (cond st) as [[|]|] eqn:Hc.
    2:{ exists (Ok (Some st)), []. close_scan. }
    2:{ exists (Raise e), []. close_scan. }
    pose proof (cond_ceiling _ Hc) as Hceil.
    destruct st as [all_results cursor]. cbn [snd] in *.
    destruct (scan_page_shape server date_range inner all_results cursor w tr)
      as (r & Hr & Hmove).
    rewrite Hr. destruct r as [[st'|st']|e].
    + exists (Ok (Some st')), [cursor]. close_scan.
    + specialize (Hmove st' eq_refl).
      destruct (IH st' w (tr ++ [page_call server date_range cursor]))
        as (r & cursors & Hrun & Hsome & Hsorted & Hrange & _).
      { lia. }
      { unfold scan_variant in *. cbn [snd] in *. lia. }
      exists r, (cursor :: cursors). rewrite Hrun, <- app_assoc.
      split; [done|]. split; [done|]. split; [|split].
      * constructor; [done|]. eapply Forall_impl; [exact Hrange|].
        cbn. intros c ?. lia.
      * constructor; [lia|]. eapply Forall_impl; [exact Hrange|].
        cbn. intros c ?. lia.
      * intros _. by eexists.
    + exists (Raise e), [cursor]. close_scan.
Qed.

End loop.

(** Growing cursors under the ceiling: at most as many as the ceiling. *)
Lemma sorted_cursors_length (cursors : list Z) : ∀ low,
  StronglySorted Z.lt cursors →
  Forall (λ c, low ≤ c < 10000) cursors →
  low ≤ 10000 →
  Z.of_nat (length cursors) ≤ 10000 - low.
Proof.
  induction cursors as [|c cursors IH]; intros low Hs Hr Hlow; [cbn; lia|].
  apply StronglySorted_inv in Hs as [Hs Hc].
  apply Forall_cons in Hr as [Hc0 Hr].
  assert (Z.of_nat (length cursors) ≤ 10000 - (c + 1)).
  { apply IH; [done | | lia].
    apply Forall_forall. intros x Hx.
    rewrite Forall_forall in Hc, Hr. specialize (Hc x Hx).
    specialize (Hr x Hx). cbn in Hr. lia. }
  cbn [length]. lia.
Qed.

Lemma keywords_cond_ceiling (num_results : Z) (st : list dict * Z) :
  (let '(all_results, cursor) := st in
   Ok ((Z.of_nat (length all_results) <? num_results) && (cursor <? 10000)))
  = Ok true →
  st.2 < 10000.
Proof.
  destruct st as [all_results cursor]. intros [= H].
  apply andb_true_iff in H as [_ H]. cbn. lia.
Qed.

Lemma advanced_cond_ceiling (num_results : value) (st : list dict * Z) :
  (let '(all_results, cursor) := st in
   more ← py_lt (VInt (Z.of_nat (length all_results))) num_results;
   Ok (more && (cursor <? 10000)))
  = Ok true →
  st.2 < 10000.
Proof.
  destruct st as [all_results cursor].
  destruct (py_lt _ num_results) as [more|e]; [|done]. intros [= H].
  apply andb_true_iff in H as [_ H]. cbn. lia.
Qed.

Lemma page_cursors_intro cursors :
  StronglySorted Z.lt cursors →
  Forall (λ c, 0 ≤ c < 10000) cursors →
  page_cursors cursors ∧ Z.of_nat (length cursors) ≤ 10000.
Proof.
  intros Hs Hr. split; [by split|].
  pose proof (sorted_cursors_length cursors 0 Hs Hr). lia.
Qed.

Lemma scan_by_keywords_runs fuel server keywords num_results w tr :
  (scan_ceiling ≤ fuel)%nat →
  ∃ results cursors,
    scan_by_keywords fuel server keywords num_results w tr
    = (Ok (Some results),
       tr ++ (page_call server (year_ago w +:+ "/" +:+ today w) <$> cursors))
    ∧ page_cursors cursors ∧ Z.of_nat (length cursors) ≤ 10000.
Proof.
  intros Hfuel. unfold scan_by_keywords. run_M.
  match goal with
  | |- context [while fuel ?c (scan_page ?s ?d ?i) ?st w tr] =>
      destruct (scan_loop s d i c (keywords_cond_ceiling num_results)
                  fuel st w tr)
        as (r & cursors & Hrun & Hsome & Hsorted & Hrange & Hfirst);
        [cbn; lia | exact Hfuel |]
  end.
  rewrite Hrun. destruct r as [[[all_results cursor]|]|e]; [| done |].
  - eexists _, cursors. split; [reflexivity|]. by apply page_cursors_intro.
  - eexists _, cursors. split; [reflexivity|]. by apply page_cursors_intro.
Qed.

(** A round keeps what the filter of the batch keeps. *)
Lemma scan_page_invariant (P : list dict → Prop) server date_range inner :
  (∀ acc item c, P acc → inner acc item = Ok c → P (after c)) →
  ∀ st w tr c tr',
    P st.1 →
    scan_page server date_range inner st w tr = (Ok c, tr') →
    P (after c).1.
Proof.
  intros Hinner [all_results cursor] w tr c tr' Hst.
  unfold scan_page. run_M.
  destruct (requests_get w tr _ []) as [resp|e]; [|done].
  destruct (negb (status_code resp =? 200)); [by intros [= <- _]|].
  destruct (json resp) as [data|e]; [|done].
  destruct (py_get data "collection" (VList [])) as [collection|e]; [|done].
  destruct (negb (truthy collection)); [by intros [= <- _]|].
  destruct (py_iter collection) as [items|e]; [|done].
  destruct (for_break inner all_results items) as [all'|e] eqn:Hfor; [|done].
  destruct (py_len collection) as [n|e]; [|done].
  intros [= <- _]. cbn.
  by apply (for_break_invariant P inner Hinner items all_results all').
Qed.

Lemma slice_to_Forall {A} (P : A → Prop) l n :
  Forall P l → Forall P (slice_to l n).
Proof. intros H. unfold slice_to. destruct (0 <=? n); by apply Forall_take. Qed.

(** Every record the keyword search returns matched the keywords. *)
Lemma scan_by_keywords_matches fuel server keywords num_results w tr
    results tr' :
  scan_by_keywords fuel server keywords num_results w tr
  = (Ok (Some results), tr') →
  Forall (keyword_match w server keywords) results.
Proof.
  unfold scan_by_keywords. run_M.
  match goal with
  | |- context [while fuel ?c ?b ?st w tr] =>
      destruct (while fuel c b st w tr)
        as [[[[all_results cursor]|]|e] tr1] eqn:Hrun
  end; [| done | by intros [= <- _]].
  intros [= <- _]. apply slice_to_Forall.
  eapply (while_invariant
            (λ st, Forall (keyword_match w server keywords) st.1)) in Hrun;
    [exact Hrun | | by constructor].
  clear. intros st w' tr c tr' Hst Hb.
  eapply (scan_page_invariant (Forall (keyword_match w server keywords)));
    [|exact Hst | exact Hb].
  clear. intros acc item c Hacc Hinner.
  apply bind_res_Ok in Hinner as (t & Ht & Hinner).
  apply bind_res_Ok in Hinner as (title & Htitle & Hinner).
  apply bind_res_Ok in Hinner as (a & Ha & Hinner).
  apply bind_res_Ok in Hinner as (abstract & Habstract & Hinner).
  destruct t as [| | |t| |]; try done. injection Htitle as <-.
  destruct a as [| | |a| |]; try done. injection Habstract as <-.
  destruct (contains _ (lower t) || contains _ (lower a)) eqn:Hmatch;
    [|by injection Hinner as <-].
  apply bind_res_Ok in Hinner as (r & Hr & Hinner).
  assert (Forall (keyword_match w server keywords) (acc ++ [r])).
  { apply Forall_app. split; [done|]. apply Forall_singleton.
    by exists item, t, a. }
  cbv zeta in Hinner. by destruct (_ >=? _); injection Hinner as <-.
Qed.

Lemma scan_by_keywords_fuel fuel server keywords num_results w tr :
  (scan_ceiling ≤ fuel)%nat →
  scan_by_keywords fuel server keywords num_results w tr
  = scan_by_keywords scan_ceiling server keywords num_results w tr.
Proof.
  intros Hfuel. unfold scan_by_keywords. run_M.
  match goal with
  | |- context [while fuel ?c (scan_page ?s ?d ?i) ?st w tr] =>
      rewrite (while_fuel c (scan_page s d i) scan_variant
                 (scan_variant_pos c (keywords_cond_ceiling num_results))
                 (scan_variant_decr s d i c
                    (keywords_cond_ceiling num_results))
                 fuel scan_ceiling st w tr Hfuel (le_n _))
  end.
  reflexivity.
Qed.

(** The steps of [scan_advanced] before its loop, one case each. *)
Ltac advanced_prelude kwargs w :=
  unfold scan_advanced; run_M;
  destruct (str_lower (get kwargs "title" (VStr "")))
    as [title_query|?] eqn:Htitle;
    [destruct (str_lower (get kwargs "author" (VStr "")))
       as [author_query|?] eqn:Hauthor;
     [destruct (date_window w kwargs) as [date_range|?] eqn:Hwindow|]|].

Lemma scan_advanced_runs fuel server kwargs w tr :
  (scan_ceiling ≤ fuel)%nat →
  ∃ results date_range cursors,
    scan_advanced fuel server kwargs w tr
    = (Ok (Some results), tr ++ (page_call server date_range <$> cursors))
    ∧ page_cursors cursors ∧ Z.of_nat (length cursors) ≤ 10000.
Proof.
  intros Hfuel. advanced_prelude kwargs w.
  2-4: eexists [], "", []; rewrite app_nil_r;
       split; [reflexivity|]; apply page_cursors_intro; constructor.
  match goal with
  | |- context [while fuel ?c (scan_page ?s ?d ?i) ?st w tr] =>
      destruct (scan_loop s d i c
                  (advanced_cond_ceiling (get kwargs "num_results" (VInt 10)))
                  fuel st w tr)
        as (r & cursors & Hrun & Hsome & Hsorted & Hrange & Hfirst);
        [cbn; lia | exact Hfuel |]
  end.
  rewrite Hrun. destruct r as [[[all_results cursor]|]|e]; [| done |].
  - destruct (slice_by all_results (get kwargs "num_results" (VInt 10)));
      eexists _, _, cursors; (split; [reflexivity|]);
      by apply page_cursors_intro.
  - eexists _, _, cursors. split; [reflexivity|]. by apply page_cursors_intro.
Qed.

Lemma scan_advanced_fuel fuel server kwargs w tr :
  (scan_ceiling ≤ fuel)%nat →
  scan_advanced fuel server kwargs w tr
  = scan_advanced scan_ceiling server kwargs w tr.
Proof.
  intros Hfuel. advanced_prelude kwargs w; try reflexivity.
  match goal with
  | |- context [while fuel ?c (scan_page ?s ?d ?i) ?st w tr] =>
      rewrite (while_fuel c (scan_page s d i) scan_variant
                 (scan_variant_pos c
                    (advanced_cond_ceiling
                       (get kwargs "num_results" (VInt 10))))
                 (scan_variant_decr s d i c
                    (advanced_cond_ceiling
                       (get kwargs "num_results" (VInt 10))))
                 fuel scan_ceiling st w tr Hfuel (le_n _))
  end.
  reflexivity.
Qed.

(** Every record the advanced search returns matched the title and the
    author given. *)
Lemma scan_advanced_matches fuel server kwargs w tr results tr' :
  scan_advanced fuel server kwargs w tr = (Ok (Some results), tr') →
  Forall (advanced_match w server kwargs) results.
Proof.
  advanced_prelude kwargs w; try by intros [= <- _].
  match goal with
  | |- context [while fuel ?c ?b ?st w tr] =>
      destruct (while fuel c b st w tr)
        as [[[[all_results cursor]|]|e] tr1] eqn:Hrun
  end; [| done | by intros [= <- _]].
  destruct (slice_by all_results _) as [sliced|e] eqn:Hslice;
    [|by intros [= <- _]].
  intros [= <- _].
  assert (Forall (advanced_match w server kwargs) all_results) as Hall.
  { eapply (while_invariant
              (λ st, Forall (advanced_match w server kwargs) st.1)) in Hrun;
      [exact Hrun | | by constructor].
    intros st w' tr0 c tr0' Hst Hb.
    eapply (scan_page_invariant (Forall (advanced_match w server kwargs)));
      [|exact Hst | exact Hb].
    intros acc item c' Hacc Hinner.
    apply bind_res_Ok in Hinner as (title_match & Htm & Hinner).
    apply bind_res_Ok in Hinner as (author_match & Ham & Hinner).
    destruct title_match, author_match; cbn [andb] in Hinner;
      try (by injection Hinner as <-).
    apply bind_res_Ok in Hinner as (r & Hr & Hinner).
    assert (Forall (advanced_match w server kwargs) (acc ++ [r])).
    { apply Forall_app. split; [done|]. apply Forall_singleton.
      by exists item, title_query, author_query. }
    cbv zeta in Hinner. apply bind_res_Ok in Hinner as (full & _ & Hinner).
    by destruct full; injection Hinner as <-. }
  destruct (get kwargs "num_results" (VInt 10)) as [|b|z| | |];
    cbn in Hslice; try done; injection Hslice as <-;
    by try apply slice_to_Forall.
Qed.

(** *** The account of a scan *)

Lemma pages_cons (c : Z) (items : list value) (pages : list (Z * list value)) :
  mjoin ((c, items) :: pages).*2 = items ++ mjoin pages.*2.
Proof. reflexivity. Qed.

Lemma pages_nil : mjoin ([] : list (Z * list value)).*2 = [].
Proof. reflexivity. Qed.

Lemma found_app hit record (l l' : list value) :
  found hit record (l ++ l') = found hit record l ++ found hit record l'.
Proof.
  induction l as [|x l IH]; [done|]. cbn [found app].
  destruct (hit x); by rewrite IH.
Qed.

(** A round, by what the request for the page brings. *)
Lemma scan_page_read server date_range inner all_results cursor w tr :
  let page := page_call server date_range cursor in
  match read_page w server date_range cursor tr with
  | Broken =>
      ∃ e, scan_page server date_range inner (all_results, cursor) w tr
           = (Raise e, tr ++ [page])
  | Closed =>
      scan_page server date_range inner (all_results, cursor) w tr
      = (Ok (Break (all_results, cursor)), tr ++ [page])
  | Batch items n =>
      1 ≤ n
      ∧ scan_page server date_range inner (all_results, cursor) w tr
        = (match for_break inner all_results items with
           | Ok all_results' => Ok (Continue (all_results', cursor + n))
           | Raise e => Raise e
           end, tr ++ [page])
  end.
Proof.
  unfold read_page, scan_page, page_call. run_M.
  destruct (requests_get w tr _ []) as [resp|e]; [|by eexists].
  destruct (negb (status_code resp =? 200)); [done|].
  destruct (json resp) as [data|e]; cbn [mbind res_bind]; [|by eexists].
  destruct (py_get data "collection" (VList [])) as [collection|e];
    [|by eexists].
  destruct (negb (truthy collection)) eqn:Ht; [done|].
  destruct (py_iter collection) as [items|e]; [|by eexists].
  destruct (py_len collection) as [n|e] eqn:Hlen.
  - split.
    + apply negb_false_iff in Ht. by apply (truthy_len collection).
    + by destruct (for_break inner all_results items).
  - destruct (for_break inner all_results items); by eexists.
Qed.

Section account.
Context (w : env) (server date_range : string) (fields : list string)
        (hit : value → bool) (n : Z)
        (inner : list dict → value → res (control (list dict)))
        (cond : list dict * Z → res bool).
Hypothesis cond_spec : ∀ all_results cursor,
  cond (all_results, cursor)
  = Ok ((Z.of_nat (length all_results) <? n) && (cursor <? 10000)).
Hypothesis inner_spec : ∀ all_results item,
  listed fields item →
  inner all_results item
  = Ok (if hit item
        then let all_results' := all_results ++ [record_of w server item] in
             if n <=? Z.of_nat (length all_results')
             then Break all_results' else Continue all_results'
        else Continue all_results).

#[local] Abbreviation matches := (found hit (record_of w server)).

Lemma for_break_found items : ∀ all_results,
  Forall (listed fields) items →
  Z.of_nat (length all_results) < n →
  for_break inner all_results items
  = Ok (all_results
        ++ take (Z.to_nat (n - Z.of_nat (length all_results)))
             (matches items)).
Proof.
  induction items as [|item items IH]; intros acc Hl Hacc.
  - cbn. by rewrite take_nil, app_nil_r.
  - apply Forall_cons in Hl as [Hitem Hl]. cbn [for_break found].
    rewrite (inner_spec acc item Hitem). destruct (hit item).
    + cbv zeta. rewrite bind_Ok, length_app. cbn [length].
      destruct (Z.leb_spec n (Z.of_nat (length acc + 1))) as [Hfull|Hmore].
      * replace (Z.to_nat (n - Z.of_nat (length acc))) with 1%nat by lia.
        done.
      * rewrite IH by (done || rewrite length_app; cbn; lia).
        rewrite length_app. cbn [length]. rewrite <- app_assoc. cbn [app].
        replace (Z.to_nat (n - Z.of_nat (length acc)))
          with (S (Z.to_nat (n - Z.of_nat (length acc + 1)))) by lia.
        done.
    + rewrite bind_Ok. by apply IH.
Qed.

(** The loop, from any state. *)
Lemma scan_loop_account fuel : ∀ all_results cursor tr,
  0 ≤ cursor →
  (scan_variant (all_results, cursor) ≤ fuel)%nat →
  ∃ r pages last stop,
    while fuel cond (scan_page server date_range inner)
      (all_results, cursor) w tr
    = (r, tr ++ (page_call server date_range
                   <$> pages.*1 ++ option_list last))
    ∧ r ≠ Ok None
    ∧ reads w server date_range cursor tr pages stop
    ∧ (∀ c, last = Some c →
            c = stop.1 ∧ c < 10000
            ∧ ∀ items m, read_page w server date_range c stop.2
                         ≠ Batch items m)
    ∧ (Forall (listed fields) (mjoin pages.*2) →
       (∀ before page after,
          pages = before ++ page :: after →
          Z.of_nat (length all_results)
          + Z.of_nat (length (matches (mjoin before.*2))) < n)
       ∧ match last with
         | Some c =>
             Z.of_nat (length all_results)
             + Z.of_nat (length (matches (mjoin pages.*2))) < n
             ∧ match read_page w server date_range c stop.2 with
               | Closed =>
                   r = Ok (Some (all_results ++ matches (mjoin pages.*2),
                                 stop.1))
               | _ => ∃ e, r = Raise e
               end
         | None =>
             r = Ok (Some (all_results
                           ++ take (Z.to_nat
                                      (n - Z.of_nat (length all_results)))
                                (matches (mjoin pages.*2)),
                           stop.1))
             ∧ (n ≤ Z.of_nat (length all_results)
                    + Z.of_nat (length (matches (mjoin pages.*2)))
                ∨ 10000 ≤ stop.1)
         end).
Proof.
  induction fuel as [|fuel IH]; intros acc cursor tr H0 Hfuel;
    rewrite while_round, cond_spec.
  - destruct ((Z.of_nat (length acc) <? n) && (cursor <? 10000)) eqn:Hc.
    { apply andb_true_iff in Hc as [_ Hc]. unfold scan_variant in Hfuel.
      cbn [snd] in Hfuel. lia. }
    exists (Ok (Some (acc, cursor))), [], None, (cursor, tr).
    rewrite pages_nil. cbn [fmap list_fmap option_list app reads].
    rewrite app_nil_r.
    split; [done|]. split; [done|]. split; [done|]. split; [done|].
    intros _. split.
    { intros [|??] ?? E; discriminate E. }
    rewrite ?pages_nil; cbn [found length snd fst]. rewrite take_nil, app_nil_r.
    split; [done|]. apply andb_false_iff in Hc as [Hc|Hc]; lia.
  - destruct ((Z.of_nat (length acc) <? n) && (cursor <? 10000)) eqn:Hc.
    2:{ exists (Ok (Some (acc, cursor))), [], None, (cursor, tr).
        rewrite pages_nil. cbn [fmap list_fmap option_list app reads].
    rewrite app_nil_r.
        split; [done|]. split; [done|]. split; [done|]. split; [done|].
        intros _. split.
        { intros [|??] ?? E; discriminate E. }
        rewrite ?pages_nil; cbn [found length snd fst].
        rewrite take_nil, app_nil_r.
        split; [done|]. apply andb_false_iff in Hc as [Hc|Hc]; lia. }
    apply andb_true_iff in Hc as [Hshort Hceil].
    apply Z.ltb_lt in Hshort, Hceil.
    pose proof (scan_page_read server date_range inner acc cursor w tr)
      as Hpage. cbv zeta in Hpage.
    destruct (read_page w server date_range cursor tr) as [items m| |]
      eqn:Hread.
    + destruct Hpage as [Hm Hpage]. rewrite Hpage.
      destruct (for_break inner acc items) as [acc'|e] eqn:Hfor.
      * destruct (IH acc' (cursor + m)
                    (tr ++ [page_call server date_range cursor]))
          as (r & pages & last & stop & Hrun & Hsome & Hreads & Hlast
              & Hacct).
        { lia. }
        { unfold scan_variant in *. cbn [snd] in *. lia. }
        exists r, ((cursor, items) :: pages), last, stop.
        rewrite Hrun, <- app_assoc. split; [done|]. split; [done|].
        split; [cbn [reads]; by eauto 10|]. split; [exact Hlast|].
        rewrite pages_cons. intros Hl.
        apply Forall_app in Hl as [Hitems Hl].
        specialize (Hacct Hl) as [Hmin Hend].
        rewrite (for_break_found items acc Hitems Hshort) in Hfor.
        injection Hfor as <-.
        rewrite found_app, !length_app in *.
        set (k := Z.to_nat (n - Z.of_nat (length acc))) in *.
        assert (Hk : (length (take k (matches items)) ≤ k)%nat)
          by (rewrite length_take; lia).
        assert (Hwhole : (length acc + length (take k (matches items))
                          < Z.to_nat n)%nat →
                         take k (matches items) = matches items).
        { rewrite length_take. intros ?. apply take_ge. lia. }
        split.
        { intros [|[c0 it0] before] page after E.
          - cbn. lia.
          - injection E as <- <- E. specialize (Hmin _ _ _ E).
            assert (Hw : take k (matches items) = matches items)
              by (apply Hwhole; lia).
            rewrite Hw in Hmin.
            rewrite pages_cons, found_app, length_app. lia. }
        destruct last as [c|].
        -- destruct Hend as [Hlt Hr].
           assert (Hw : take k (matches items) = matches items)
             by (apply Hwhole; lia).
           rewrite Hw in Hlt, Hr. split; [lia|].
           by rewrite <- app_assoc in Hr.
        -- destruct Hend as [-> Hwhy].
           destruct (decide (length acc + length (take k (matches items))
                             < Z.to_nat n)%nat) as [Hlt|Hge].
           ++ assert (Hw : take k (matches items) = matches items)
                by (by apply Hwhole).
              rewrite Hw in Hwhy, Hk, Hlt |- *.
              split; [|lia]. f_equal. f_equal. f_equal.
              rewrite <- app_assoc. f_equal.
              rewrite take_app_ge by lia. f_equal. f_equal.
              subst k. lia.
           ++ assert (pages = []) as ->.
              { destruct pages as [|p pages]; [done|].
                specialize (Hmin [] p pages eq_refl). cbn in Hmin. lia. }
              rewrite pages_nil in *. cbn [found] in *.
              rewrite take_nil, !app_nil_r in *.
              split; [done|]. left.
              assert (length (take k (matches items)) = k) by lia.
              rewrite length_take in *. lia.
      * exists (Raise e), [(cursor, items)], None,
          (cursor + m, tr ++ [page_call server date_range cursor]).
        split; [done|]. split; [done|]. split; [cbn [reads]; by eauto 10|].
        split; [done|]. rewrite pages_cons, pages_nil, app_nil_r.
        intros Hl. by rewrite (for_break_found items acc Hl Hshort) in Hfor.
    + rewrite Hpage.
      exists (Ok (Some (acc, cursor))), [], (Some cursor), (cursor, tr).
      split; [done|]. split; [done|]. split; [done|]. split.
      { intros c [= <-]. cbn [fst snd]. rewrite Hread. by repeat split. }
      intros _. split.
      { intros [|??] ?? E; discriminate E. }
      rewrite ?pages_nil; cbn [found length snd fst]. rewrite Hread, app_nil_r.
      split; [lia | done].
    + destruct Hpage as [e Hpage]. rewrite Hpage.
      exists (Raise e), [], (Some cursor), (cursor, tr).
      split; [done|]. split; [done|]. split; [done|]. split.
      { intros c [= <-]. cbn [fst snd]. rewrite Hread. by repeat split. }
      intros _. split.
      { intros [|??] ?? E; discriminate E. }
      rewrite ?pages_nil; cbn [found length snd fst]. rewrite Hread.
      split; [lia | by eexists].
Qed.

End account.

Lemma found_ext hit hit' record (items : list value) :
  (∀ item, hit item = hit' item) →
  found hit record items = found hit' record items.
Proof.
  intros H. induction items as [|x l IH]; [done|].
  cbn [found]. by rewrite H, IH.
Qed.

Lemma format_listed w server d :
  _format_biorxiv_result w server (VDict d)
  = Ok (record_of w server (VDict d)).
Proof. reflexivity. Qed.

(** What the loop leaves is within the bound: the slice takes nothing
    away. *)
Lemma slice_to_take_bound {A} (l : list A) (n : Z) :
  slice_to (take (Z.to_nat n) l) n = take (Z.to_nat n) l.
Proof.
  unfold slice_to. destruct (Z.leb_spec 0 n).
  - by rewrite take_take, Nat.min_id.
  - by replace (Z.to_nat n) with 0%nat by lia.
Qed.

(** From the account of the loop to the account of the search. *)
Lemma scan_account_intro w server date_range fields hit n tr
    (r : res (option (list dict * Z))) pages last stop :
  r ≠ Ok None →
  reads w server date_range 0 tr pages stop →
  (∀ c, last = Some c →
        c = stop.1 ∧ c < 10000
        ∧ ∀ items m, read_page w server date_range c stop.2 ≠ Batch items m) →
  (Forall (listed fields) (mjoin pages.*2) →
   let matches := found hit (record_of w server) in
   (∀ before page after,
      pages = before ++ page :: after →
      Z.of_nat (length ([] : list dict))
      + Z.of_nat (length (matches (mjoin before.*2))) < n)
   ∧ match last with
     | Some c =>
         Z.of_nat (length ([] : list dict))
         + Z.of_nat (length (matches (mjoin pages.*2))) < n
         ∧ match read_page w server date_range c stop.2 with
           | Closed => r = Ok (Some ([] ++ matches (mjoin pages.*2), stop.1))
           | _ => ∃ e, r = Raise e
           end
     | None =>
         r = Ok (Some ([] ++ take (Z.to_nat
                                     (n - Z.of_nat (length ([] : list dict))))
                               (matches (mjoin pages.*2)),
                       stop.1))
         ∧ (n ≤ Z.of_nat (length ([] : list dict))
                + Z.of_nat (length (matches (mjoin pages.*2)))
            ∨ 10000 ≤ stop.1)
     end) →
  ∃ results,
    match r with
    | Ok (Some (all_results, _)) => slice_to all_results n
    | _ => []
    end = results
    ∧ scan_account w server date_range fields hit n tr results
        (tr ++ (page_call server date_range
                  <$> pages.*1 ++ option_list last)).
Proof.
  intros Hsome Hreads Hlast Hacct. eexists. split; [reflexivity|].
  exists pages, last, stop. split; [done|]. split; [done|]. split; [done|].
  intros Hl. specialize (Hacct Hl). cbv zeta in Hacct |- *.
  destruct Hacct as [Hmin Hend]. cbn [length] in Hmin, Hend.
  split; [intros before page after E; specialize (Hmin _ _ _ E); lia|].
  destruct last as [c|].
  - destruct Hend as [Hlt Hr]. split; [lia|].
    destruct (read_page w server date_range c stop.2).
    + by destruct Hr as [e ->].
    + rewrite Hr. cbn [app]. unfold slice_to.
      rewrite (proj2 (Z.leb_le 0 n)) by lia. apply take_ge. lia.
    + by destruct Hr as [e ->].
  - destruct Hend as [-> Hwhy]. cbn [app]. rewrite Z.sub_0_r.
    split; [apply slice_to_take_bound | lia].
Qed.

Lemma keyword_inner_spec w server keywords n all_results item :
  listed ["title"; "abstract"] item →
  (t ← py_get item "title" (VStr "");
   title ← str_lower t;
   a ← py_get item "abstract" (VStr "");
   abstract ← str_lower a;
   if contains (lower keywords) title || contains (lower keywords) abstract
   then
     r ← _format_biorxiv_result w server item;
     let all_results := all_results ++ [r] in
     if Z.of_nat (length all_results) >=? n
     then Ok (Break all_results)
     else Ok (Continue all_results)
   else Ok (Continue all_results))
  = Ok (if keyword_hit keywords item
        then let all_results' := all_results ++ [record_of w server item] in
             if n <=? Z.of_nat (length all_results')
             then Break all_results' else Continue all_results'
        else Continue all_results).
Proof.
  intros (d & -> & Hf). apply Forall_cons in Hf as [Ht Hf].
  apply Forall_cons in Hf as [Ha _].
  unfold keyword_hit, item_text. cbn [py_get]. rewrite !bind_Ok.
  destruct (get d "title" (VStr "")) as [| | |t| |]; try done.
  destruct (get d "abstract" (VStr "")) as [| | |a| |]; try done.
  repeat (cbn [str_lower as_str]; rewrite ?bind_Ok).
  destruct (contains (lower keywords) (lower t)
            || contains (lower keywords) (lower a)); [|done].
  rewrite format_listed, bind_Ok. cbv zeta. rewrite Z.geb_leb.
  by destruct (n <=? _).
Qed.

Lemma scan_by_keywords_account fuel server keywords n w tr :
  (scan_ceiling ≤ fuel)%nat →
  ∃ results tr',
    scan_by_keywords fuel server keywords n w tr = (Ok (Some results), tr')
    ∧ scan_account w server (year_ago w +:+ "/" +:+ today w)
        ["title"; "abstract"] (keyword_hit keywords) n tr results tr'.
Proof.
  intros Hfuel. unfold scan_by_keywords. run_M.
  match goal with
  | |- context [while fuel ?c (scan_page ?s ?d ?i) ?st w tr] =>
      destruct (scan_loop_account w s d ["title"; "abstract"]
                  (keyword_hit keywords) n i c) with
        (fuel := fuel) (all_results := @nil dict) (cursor := 0) (tr := tr)
        as (r & pages & last & stop & Hrun & Hsome & Hreads & Hlast & Hacct)
  end.
  { done. }
  { intros acc item. apply keyword_inner_spec. }
  { done. }
  { exact Hfuel. }
  rewrite Hrun.
  destruct (scan_account_intro w server (year_ago w +:+ "/" +:+ today w)
              ["title"; "abstract"] (keyword_hit keywords) n tr r pages
              last stop Hsome Hreads Hlast Hacct)
    as (results & Hres & Hacc).
  eexists results, _. split; [|exact Hacc].
  destruct r as [[[all_results cursor]|]|e]; [| done |]; by subst results.
Qed.

Lemma field_match_listed query d field :
  (String.eqb query "" = false → is_str (get d field (VStr ""))) →
  field_match query (VDict d) field
  = Ok (String.eqb query ""
        || contains query (lower (item_text (VDict d) field))).
Proof.
  intros H. unfold field_match, item_text.
  destruct (String.eqb query ""); [done|]. cbn [py_get orb]. rewrite bind_Ok.
  specialize (H eq_refl).
  by destruct (get d field (VStr "")) as [| | |t| |].
Qed.

Lemma advanced_inner_spec w server title_query author_query n all_results
    item :
  listed (queried title_query author_query) item →
  (title_match ← field_match title_query item "title";
   author_match ← field_match author_query item "authors";
   if title_match && author_match
   then
     r ← _format_biorxiv_result w server item;
     let all_results := all_results ++ [r] in
     full ← py_ge (VInt (Z.of_nat (length all_results))) (VInt n);
     if (full : bool) then Ok (Break all_results)
     else Ok (Continue all_results)
   else Ok (Continue all_results))
  = Ok (if advanced_hit title_query author_query item
        then let all_results' := all_results ++ [record_of w server item] in
             if n <=? Z.of_nat (length all_results')
             then Break all_results' else Continue all_results'
        else Continue all_results).
Proof.
  intros (d & -> & Hf). unfold queried in Hf.
  apply Forall_app in Hf as [Htitle Hauthors].
  rewrite (field_match_listed title_query d "title")
    by (intros E; rewrite E in Htitle;
        exact (proj1 (Forall_singleton _ _) Htitle)).
  rewrite (field_match_listed author_query d "authors")
    by (intros E; rewrite E in Hauthors;
        exact (proj1 (Forall_singleton _ _) Hauthors)).
  rewrite !bind_Ok. fold (advanced_hit title_query author_query (VDict d)).
  destruct (advanced_hit title_query author_query (VDict d)); [|done].
  rewrite format_listed, bind_Ok. cbv zeta.
  unfold py_ge, py_lt. cbn [as_int]. rewrite !bind_Ok.
  rewrite (Z.leb_antisym (Z.of_nat (length (all_results ++ [_]))) n).
  by destruct (_ <? n).
Qed.

Lemma scan_advanced_account fuel server kwargs w tr title_query
    author_query date_range n :
  (scan_ceiling ≤ fuel)%nat →
  str_lower (get kwargs "title" (VStr "")) = Ok title_query →
  str_lower (get kwargs "author" (VStr "")) = Ok author_query →
  date_window w kwargs = Ok date_range →
  get kwargs "num_results" (VInt 10) = VInt n →
  ∃ results tr',
    scan_advanced fuel server kwargs w tr = (Ok (Some results), tr')
    ∧ scan_account w server date_range (queried title_query author_query)
        (advanced_hit title_query author_query) n tr results tr'.
Proof.
  intros Hfuel Ht Ha Hd Hn. unfold scan_advanced. run_M.
  rewrite Ht, Ha, Hd, Hn.
  match goal with
  | |- context [while fuel ?c (scan_page ?s ?d ?i) ?st w tr] =>
      destruct (scan_loop_account w s d (queried title_query author_query)
                  (advanced_hit title_query author_query) n i c) with
        (fuel := fuel) (all_results := @nil dict) (cursor := 0) (tr := tr)
        as (r & pages & last & stop & Hrun & Hsome & Hreads & Hlast & Hacct)
  end.
  { done. }
  { intros acc item. apply advanced_inner_spec. }
  { done. }
  { exact Hfuel. }
  rewrite Hrun.
  destruct (scan_account_intro w server date_range
              (queried title_query author_query)
              (advanced_hit title_query author_query) n tr r pages last
              stop Hsome Hreads Hlast Hacct)
    as (results & Hres & Hacc).
  eexists results, _. split; [|exact Hacc].
  destruct r as [[[all_results cursor]|]|e]; [| done |]; by subst results.
Qed.

(** A scan for a positive number of matches requests the first page. *)
Lemma scan_account_first w server date_range fields hit n tr results tr' :
  0 < n →
  scan_account w server date_range fields hit n tr results tr' →
  ∃ calls, tr' = tr ++ page_call server date_range 0 :: calls.
Proof.
  intros Hn (pages & last & stop & -> & Hreads & Hlast & Hacct).
  destruct pages as [|[c items] pages].
  - cbn [reads] in Hreads. subst stop. destruct last as [c|].
    + destruct (Hlast c eq_refl) as (-> & _). by exists [].
    + destruct Hacct as [_ [_ Hwhy]]; [done|]. cbn in Hwhy. lia.
  - cbn [reads] in Hreads. destruct Hreads as (-> & _). by eexists.
Qed.


(** C8.  The batched scan of the bioRxiv/medRxiv adapter always
    terminates.  Given as many rounds as the ceiling of 10,000, or more,
    the loop of either search reaches its end and the search returns a
    list and does not raise.  It pages through the date-bounded listing:
    the calls it makes are the requests for pages at cursors that grow
    from page to page and stay under the ceiling, so at most 10,000 of
    them.  The match is made on the client, case aside: every record
    returned is that of a listed item whose title or abstract contains the
    keywords (whose title and authors contain the queries, for the
    advanced search).  The account of the scan says when it stops: the
    pages are read one after the other from cursor 0, each where the one
    before ended, and a page is requested only while fewer than
    [num_results] matches are in hand; the scan ends when [num_results]
    matches are collected or the cursor reaches the ceiling, and then
    returns the first [num_results] matches of the pages read, in order;
    or it ends on a request that brings no batch, and then returns every
    match of the pages read if the listing was closed there (a status
    other than 200, an empty batch) and nothing if the request failed.  A
    round leaves the loop when the page comes back with a status other
    than 200 or with an empty batch, and ends the search when the request
    raises. *)
Theorem biorxiv_scan_terminates (server : string) (w : env) (tr : list call)
    (fuel : nat) :
  (scan_ceiling ≤ fuel)%nat →
  (∀ keywords num_results, ∃ results cursors,
     let date_range := year_ago w +:+ "/" +:+ today w in
     let tr' := tr ++ (page_call server date_range <$> cursors) in
     scan_by_keywords fuel server keywords num_results w tr
     = (Ok (Some results), tr')
     ∧ search_by_keywords server keywords num_results w tr = (Ok results, tr')
     ∧ page_cursors cursors
     ∧ Z.of_nat (length cursors) ≤ 10000
     ∧ Forall (keyword_match w server keywords) results
     ∧ scan_account w server date_range ["title"; "abstract"]
         (keyword_hit keywords) num_results tr results tr')
  ∧ (∀ kwargs, ∃ results date_range cursors,
       let tr' := tr ++ (page_call server date_range <$> cursors) in
       scan_advanced fuel server kwargs w tr = (Ok (Some results), tr')
       ∧ search_advanced server kwargs w tr = (Ok results, tr')
       ∧ page_cursors cursors
       ∧ Z.of_nat (length cursors) ≤ 10000
       ∧ Forall (advanced_match w server kwargs) results
       ∧ ∀ title_query author_query window n,
           str_lower (get kwargs "title" (VStr "")) = Ok title_query →
           str_lower (get kwargs "author" (VStr "")) = Ok author_query →
           date_window w kwargs = Ok window →
           get kwargs "num_results" (VInt 10) = VInt n →
           scan_account w server window (queried title_query author_query)
             (advanced_hit title_query author_query) n tr results tr')
  ∧ (∀ date_range inner st tr0,
       let page := page_call server date_range st.2 in
       match requests_get w tr0 (details_url server date_range st.2) [] with
       | Raise e =>
           scan_page server date_range inner st w tr0 = (Raise e, tr0 ++ [page])
       | Ok resp =>
           (status_code resp ≠ 200 →
            scan_page server date_range inner st w tr0
            = (Ok (Break st), tr0 ++ [page]))
           ∧ (∀ data,
                status_code resp = 200 →
                json resp = Ok (VDict data) →
                truthy (get data "collection" (VList [])) = false →
                scan_page server date_range inner st w tr0
                = (Ok (Break st), tr0 ++ [page]))
       end).
Proof.
  intros Hfuel. split; [|split].
  - intros keywords num_results.
    destruct (scan_by_keywords_runs fuel server keywords num_results w tr Hfuel)
      as (results & cursors & Hrun & Hcur & Hlen).
    exists results, cursors. cbv zeta. split; [exact Hrun|].
    split; [|split; [done|split; [done|split]]].
    + unfold search_by_keywords. unfold mbind at 1, M_bind.
      by rewrite <- (scan_by_keywords_fuel fuel), Hrun.
    + by eapply scan_by_keywords_matches.
    + destruct (scan_by_keywords_account fuel server keywords num_results w tr
                  Hfuel) as (results' & tr' & Hrun' & Hacc).
      rewrite Hrun in Hrun'. by injection Hrun' as <- <-.
  - intros kwargs.
    destruct (scan_advanced_runs fuel server kwargs w tr Hfuel)
      as (results & date_range & cursors & Hrun & Hcur & Hlen).
    exists results, date_range, cursors. cbv zeta. split; [exact Hrun|].
    split; [|split; [done|split; [done|split]]].
    + unfold search_advanced. unfold mbind at 1, M_bind.
      by rewrite <- (scan_advanced_fuel fuel), Hrun.
    + by eapply scan_advanced_matches.
    + intros title_query author_query window n Ht Ha Hd Hn.
      destruct (scan_advanced_account fuel server kwargs w tr title_query
                  author_query window n Hfuel Ht Ha Hd Hn)
        as (results' & tr' & Hrun' & Hacc).
      rewrite Hrun in Hrun'. by injection Hrun' as <- <-.
  - intros date_range inner st tr0. cbv zeta.
    destruct (requests_get w tr0 _ []) as [resp|e] eqn:Hget.
    + split.
      * intros Hs. by eapply scan_page_bad_status.
      * intros data Hs Hj He. by eapply scan_page_empty_batch.
    + by apply scan_page_raises.
Qed.

Lemma biorxiv_scan_terminates_witness :
  ∃ results cursors,
    scan_by_keywords (Datatypes.S scan_ceiling) "biorxiv" "crispr" 5
      sample_world []
    = (Ok (Some results),
       [] ++ (page_call "biorxiv" "2023-06-02/2024-06-01" <$> cursors))
    ∧ search_by_keywords "biorxiv" "crispr" 5 sample_world []
      = (Ok results,
         [] ++ (page_call "biorxiv" "2023-06-02/2024-06-01" <$> cursors))
    ∧ page_cursors cursors
    ∧ Z.of_nat (length cursors) ≤ 10000
    ∧ Forall (keyword_match sample_world "biorxiv" "crispr") results
    ∧ scan_account sample_world "biorxiv" "2023-06-02/2024-06-01"
        ["title"; "abstract"] (keyword_hit "crispr") 5 [] results
        ([] ++ (page_call "biorxiv" "2023-06-02/2024-06-01" <$> cursors)).
Proof.
  destruct (biorxiv_scan_terminates "biorxiv" sample_world []
              (Datatypes.S scan_ceiling)) as [H _].
  - apply le_S, le_n.
  - exact (H "crispr" 5).
Defined.

(** The scan of the sample listing: the page at cursor 0 holds two
    preprints, the page at cursor 2 comes back with status 404 and ends
    the loop. *)
Example biorxiv_scan_sample :
  (search_by_keywords "biorxiv" "base editing" 5 sample_world []).2
  = [page_call "biorxiv" "2023-06-02/2024-06-01" 0;
     page_call "biorxiv" "2023-06-02/2024-06-01" 2]
  ∧ length (returned (search_by_keywords "biorxiv" "base editing" 5
                        sample_world [])) = 1%nat.
Proof. split; by vm_compute. Qed.

End biorxiv_scan.

(** ** Adapters: failures stay inside [search_by_keywords] *)

Section keyword_search_failures.

Lemma try_except_returns {A} (body : M A) (fallback : A) w tr :
  ∃ a tr', try_except body (λ _, mret fallback) w tr = (Ok a, tr').
Proof.
  unfold try_except. destruct (body w tr) as [[a|e] tr']; by eexists _, _.
Qed.

Lemma for_keep_returns {S A} (body : S → A → M S) (l : list A) : ∀ s w tr,
  ∃ s' tr', for_keep body s l w tr = (Ok s', tr').
Proof.
  induction l as [|x l IH]; intros s w tr; cbn [for_keep].
  - by eexists _, _.
  - destruct (body s x w tr) as [[s'|e] tr']; [apply IH | by eexists _, _].
Qed.

Lemma slice_to_nil {A} n : slice_to (@nil A) n = [].
Proof. unfold slice_to. destruct (0 <=? n); apply take_nil. Qed.

Lemma arxiv_keywords_returns keywords num_results w tr :
  ∃ results tr',
    arxiv_adapter.search_by_keywords keywords num_results w tr
    = (Ok results, tr').
Proof. apply try_except_returns. Qed.

Lemma arxiv_keywords_failed keywords num_results w tr :
  request_failed (feed_parses w)
    (requests_get w tr arxiv_adapter.base_url
       (arxiv_adapter.keywords_params w keywords num_results)) →
  (arxiv_adapter.search_by_keywords keywords num_results w tr).1 = Ok [].
Proof.
  unfold arxiv_adapter.search_by_keywords, arxiv_adapter._parse_arxiv_response,
    request_failed, feed_parses.
  run_M. destruct (requests_get w tr _ _) as [resp|e]; [|done].
  intros [Hs | Hp].
  - apply Z.eqb_neq in Hs. by rewrite Hs.
  - destruct (negb (status_code resp =? 200)); [done|].
    by destruct (fromstring w (text_body resp)).
Qed.

Lemma semantic_keywords_returns keywords num_results w tr :
  ∃ results tr',
    semantic_scholar_adapter.search_by_keywords keywords num_results w tr
    = (Ok results, tr').
Proof. apply try_except_returns. Qed.

Lemma semantic_keywords_failed keywords num_results w tr :
  request_failed json_parses
    (requests_get w tr semantic_scholar_adapter.search_url
       (semantic_scholar_adapter.keywords_params keywords num_results)) →
  (semantic_scholar_adapter.search_by_keywords keywords num_results w tr).1
  = Ok [].
Proof.
  unfold semantic_scholar_adapter.search_by_keywords, request_failed,
    json_parses.
  run_M. destruct (requests_get w tr _ _) as [resp|e]; [|done].
  intros [Hs | Hp].
  - apply Z.eqb_neq in Hs. by rewrite Hs.
  - destruct (negb (status_code resp =? 200)); [done|].
    by destruct (json resp).
Qed.

Lemma pubmed_keywords_returns keywords num_results w tr :
  ∃ results tr',
    pubmed_adapter.search_by_keywords keywords num_results w tr
    = (Ok results, tr').
Proof. apply try_except_returns. Qed.

Lemma pubmed_keywords_failed keywords num_results w tr e :
  pubmed_search_key_words w tr keywords num_results = Raise e →
  (pubmed_adapter.search_by_keywords keywords num_results w tr).1 = Ok [].
Proof.
  intros H. unfold pubmed_adapter.search_by_keywords. run_M. by rewrite H.
Qed.

Lemma biorxiv_keywords_returns server keywords num_results w tr :
  ∃ results tr',
    biorxiv_adapter.search_by_keywords server keywords num_results w tr
    = (Ok results, tr').
Proof.
  destruct (scan_by_keywords_runs biorxiv_adapter.scan_ceiling server keywords
              num_results w tr (le_n _)) as (results & cursors & Hrun & _).
  unfold biorxiv_adapter.search_by_keywords. unfold mbind at 1, M_bind.
  rewrite Hrun. by eexists _, _.
Qed.

(** When the first page fails the loop ends with nothing collected. *)
Lemma scan_first_page_failed server date_range inner cond fuel w tr :
  request_failed json_parses
    (requests_get w tr (biorxiv_adapter.details_url server date_range 0) []) →
  ∃ r tr',
    while fuel cond (biorxiv_adapter.scan_page server date_range inner)
      ([], 0) w tr = (r, tr')
    ∧ (r = Ok None ∨ (∃ cursor, r = Ok (Some ([], cursor))) ∨ ∃ e, r = Raise e).
Proof.
  intros Hfail. rewrite while_round.
  destruct (cond ([], 0)) as [[|]|e].
  2:{ eexists _, _. split; [reflexivity|]. right. left. by eexists. }
  2:{ eexists _, _. split; [reflexivity|]. right. right. by eexists. }
  destruct fuel as [|fuel].
  { eexists _, _. split; [reflexivity|]. by left. }
  unfold biorxiv_adapter.scan_page. run_M.
  unfold request_failed, json_parses in Hfail.
  destruct (requests_get w tr _ []) as [resp|e].
  2:{ eexists _, _. split; [reflexivity|]. right. right. by eexists. }
  destruct (negb (status_code resp =? 200)) eqn:Hs.
  { eexists _, _. split; [reflexivity|]. right. left. by eexists. }
  destruct Hfail as [Hne | Hp].
  { apply negb_false_iff, Z.eqb_eq in Hs. done. }
  destruct (json resp); [done|].
  eexists _, _. split; [reflexivity|]. right. right. by eexists.
Qed.

Lemma biorxiv_keywords_failed server keywords num_results w tr :
  request_failed json_parses
    (requests_get w tr
       (biorxiv_adapter.details_url server (year_ago w +:+ "/" +:+ today w) 0)
       []) →
  (biorxiv_adapter.search_by_keywords server keywords num_results w tr).1
  = Ok [].
Proof.
  intros Hfail.
  unfold biorxiv_adapter.search_by_keywords, biorxiv_adapter.scan_by_keywords.
  run_M.
  match goal with
  | |- context [while ?f ?c (biorxiv_adapter.scan_page ?s ?d ?i) ?st w tr] =>
      destruct (scan_first_page_failed s d i c f w tr Hfail)
        as (r & tr' & -> & [-> | [[cursor ->] | [e ->]]])
  end; cbn; by rewrite ?slice_to_nil.
Qed.

Lemma scihub_keywords_returns keywords num_results w tr :
  ∃ results tr',
    scihub_adapter.search_by_keywords_dyn keywords num_results w tr
    = (Ok results, tr').
Proof.
  unfold scihub_adapter.search_by_keywords_dyn.
  unfold mbind at 1, M_bind, ask.
  destruct (negb (scihub_available w)); [by eexists _, _|].
  unfold mbind at 1, M_bind.
  match goal with
  | |- context [try_except ?b (λ _, mret ?d) w tr] =>
      destruct (try_except_returns b d w tr) as (items & tr1 & ->)
  end.
  apply for_keep_returns.
Qed.

Lemma scihub_keywords_failed keywords num_results w tr :
  scihub_available w = true →
  request_failed json_parses
    (requests_get w tr (scihub_adapter.crossref_url w keywords num_results) []) →
  (scihub_adapter.search_by_keywords_dyn keywords num_results w tr).1 = Ok [].
Proof.
  intros Hav Hfail. unfold scihub_adapter.search_by_keywords_dyn.
  run_M. rewrite Hav. cbn [negb].
  unfold request_failed, json_parses in Hfail.
  destruct (requests_get w tr _ []) as [resp|e]; [|done].
  destruct Hfail as [Hs | Hp].
  - apply Z.eqb_neq in Hs. by rewrite Hs.
  - destruct (status_code resp =? 200); [|done].
    by destruct (json resp).
Qed.

Lemma scihub_keywords_unavailable keywords num_results w tr :
  scihub_available w = false →
  scihub_adapter.search_by_keywords_dyn keywords num_results w tr
  = (Ok scihub_adapter.unavailable, tr).
Proof.
  intros Hav. unfold scihub_adapter.search_by_keywords_dyn. run_M.
  by rewrite Hav.
Qed.

(** C3, as stated, fails for the Sci-Hub adapter: when its client library
    is not installed, [search_by_keywords] returns a list holding an
    error-shaped value, not the empty sequence. *)
Lemma scihub_unavailable_counterexample :
  search_by_keywords scihub_adapter.SciHubAdapter "crispr" 5 sample_world []
  = (Ok [[("error", VStr "Sci-Hub library not available")]], [])
  ∧ returned (search_by_keywords scihub_adapter.SciHubAdapter "crispr" 5
                sample_world []) ≠ [].
Proof. split; [by vm_compute | by vm_compute]. Qed.

(** A later page of the bioRxiv listing that comes back with an error
    status ends the scan with the matches of the pages before it. *)
Example biorxiv_partial_results :
  returned (biorxiv_adapter.search_by_keywords "biorxiv" "crispr" 5
              sample_world [])
  = [[("id", VStr "10.1101/2024.01.15.000001");
      ("title", VStr "CRISPR screens in yeast");
      ("authors", VStr "Doe, J.");
      ("abstract", VStr "We report a screen.");
      ("publication_date", VStr "2024-01-15");
      ("journal", VStr "biorxiv (preprint)");
      ("url", VStr "https://www.biorxiv.org/content/10.1101/2024.01.15.000001");
      ("pdf_url",
       VStr "https://www.biorxiv.org/content/10.1101/2024.01.15.000001v1.full.pdf");
      ("source", VStr "biorxiv")]].
Proof. by vm_compute. Qed.

(** C3 (amended).  No adapter's [search_by_keywords] raises: it returns a
    list whatever the outside world does.  When the adapter's upstream
    search request fails (it raises, or answers with a status other than
    200, or with a body that does not parse; for bioRxiv/medRxiv the
    request for the first page, for PubMed the call of the collaborator,
    for Sci-Hub the CrossRef query), the list is empty.  The Sci-Hub
    adapter whose library is not available returns instead one
    error-shaped entry, and calls nothing. *)
Theorem search_by_keywords_contains_failures (keywords : string)
    (num_results : Z) (w : env) (tr : list call) :
  (∀ adapter, adapter ∈ all_adapters →
     ∃ results tr',
       search_by_keywords adapter keywords num_results w tr = (Ok results, tr'))
  ∧ (request_failed (feed_parses w)
       (requests_get w tr arxiv_adapter.base_url
          (arxiv_adapter.keywords_params w keywords num_results)) →
     returned (arxiv_adapter.search_by_keywords keywords num_results w tr) = [])
  ∧ (request_failed json_parses
       (requests_get w tr semantic_scholar_adapter.search_url
          (semantic_scholar_adapter.keywords_params keywords num_results)) →
     returned (semantic_scholar_adapter.search_by_keywords keywords
                 num_results w tr) = [])
  ∧ (∀ server,
       request_failed json_parses
         (requests_get w tr
            (biorxiv_adapter.details_url server
               (year_ago w +:+ "/" +:+ today w) 0) []) →
       returned (biorxiv_adapter.search_by_keywords server keywords
                   num_results w tr) = [])
  ∧ (is_ok (pubmed_search_key_words w tr keywords num_results) = false →
     returned (pubmed_adapter.search_by_keywords keywords num_results w tr)
     = [])
  ∧ (scihub_available w = true →
     request_failed json_parses
       (requests_get w tr
          (scihub_adapter.crossref_url w keywords (VInt num_results)) []) →
     returned (scihub_adapter.search_by_keywords keywords num_results w tr)
     = [])
  ∧ (scihub_available w = false →
     scihub_adapter.search_by_keywords keywords num_results w tr
     = (Ok [[("error", VStr "Sci-Hub library not available")]], tr)).
Proof.
  split; [|split; [|split; [|split; [|split; [|split]]]]].
  - intros adapter Hin. unfold all_adapters in Hin.
    repeat (apply elem_of_cons in Hin as [-> | Hin]);
      [apply pubmed_keywords_returns
      |apply biorxiv_keywords_returns
      |apply biorxiv_keywords_returns
      |apply arxiv_keywords_returns
      |apply semantic_keywords_returns
      |apply scihub_keywords_returns
      |by apply elem_of_nil in Hin].
  - intros H. unfold returned. by rewrite arxiv_keywords_failed.
  - intros H. unfold returned. by rewrite semantic_keywords_failed.
  - intros server H. unfold returned. by rewrite biorxiv_keywords_failed.
  - intros H. unfold returned.
    destruct (pubmed_search_key_words w tr keywords num_results) eqn:E;
      [done|].
    by rewrite (pubmed_keywords_failed _ _ _ _ _ E).
  - intros Hav H. unfold returned, scihub_adapter.search_by_keywords.
    by rewrite scihub_keywords_failed.
  - intros Hav. by apply scihub_keywords_unavailable.
Qed.

Lemma search_by_keywords_contains_failures_witness :
  (∀ adapter, adapter ∈ all_adapters →
     ∃ results tr',
       search_by_keywords adapter "crispr" 5 silent_world [] = (Ok results, tr'))
  ∧ returned (arxiv_adapter.search_by_keywords "crispr" 5 silent_world []) = []
  ∧ returned (semantic_scholar_adapter.search_by_keywords "crispr" 5
                silent_world []) = []
  ∧ returned (biorxiv_adapter.search_by_keywords "medrxiv" "crispr" 5
                silent_world []) = []
  ∧ returned (pubmed_adapter.search_by_keywords "crispr" 5 silent_world [])
    = []
  ∧ returned (scihub_adapter.search_by_keywords "crispr" 5 scihub_world [])
    = []
  ∧ scihub_adapter.search_by_keywords "crispr" 5 silent_world []
    = (Ok [[("error", VStr "Sci-Hub library not available")]], []).
Proof.
  destruct (search_by_keywords_contains_failures "crispr" 5 silent_world [])
    as (H1 & H2 & H3 & H4 & H5 & _ & H7).
  destruct (search_by_keywords_contains_failures "crispr" 5 scihub_world [])
    as (_ & _ & _ & _ & _ & H6 & _).
  split; [exact H1|].
  split; [apply H2; exact I|].
  split; [apply H3; exact I|].
  split; [apply H4; exact I|].
  split; [apply H5; reflexivity|].
  split; [apply H6; [reflexivity | exact I]|].
  apply H7. reflexivity.
Defined.

End keyword_search_failures.

(** ** Adapters: [search_advanced] without a field to map *)

Section advanced_without_fields.

Lemma arxiv_advanced_no_field kwargs w tr :
  no_field kwargs ["title"; "author"; "abstract"; "category"; "term"] →
  arxiv_adapter.search_advanced kwargs w tr = (Ok [], tr).
Proof.
  intros H. unfold no_field in H.
  repeat (apply Forall_cons in H as [? H]).
  unfold arxiv_adapter.search_advanced, arxiv_adapter.add_part. run_M.
  repeat match goal with
         | E : truthy _ = false |- _ => rewrite E; clear E
         end.
  reflexivity.
Qed.

Lemma semantic_advanced_no_field kwargs w tr :
  no_field kwargs ["term"; "title"; "author"] →
  semantic_scholar_adapter.search_advanced kwargs w tr = (Ok [], tr).
Proof.
  intros H. unfold no_field in H.
  repeat (apply Forall_cons in H as [? H]).
  unfold semantic_scholar_adapter.search_advanced,
    semantic_scholar_adapter.add_part. run_M.
  repeat match goal with
         | E : truthy _ = false |- _ => rewrite E; clear E
         end.
  reflexivity.
Qed.

Lemma pubmed_advanced_calls kwargs w tr :
  (pubmed_adapter.search_advanced kwargs w tr).2
  = tr ++ [PubmedSearchAdvanced (pubmed_adapter.advanced_args kwargs)].
Proof.
  unfold pubmed_adapter.search_advanced. run_M.
  by destruct (pubmed_search_advanced w tr _).
Qed.

Lemma extends_bind {A B} (m : M A) (f : A → M B) :
  extends m → (∀ a, extends (f a)) → extends (m ≫= f).
Proof.
  intros Hm Hf w tr. unfold mbind, M_bind.
  destruct (Hm w tr) as [c1 H1]. destruct (m w tr) as [[a|e] tr1]; cbn in H1.
  - destruct (Hf a w tr1) as [c2 H2]. exists (c1 ++ c2).
    by rewrite H2, H1, app_assoc.
  - by exists c1.
Qed.

Lemma extends_lift {A} (r : res A) : extends (lift r).
Proof. intros w tr. exists []. by rewrite app_nil_r. Qed.

Lemma extends_ret {A} (a : A) : extends (mret a).
Proof. intros w tr. exists []. by rewrite app_nil_r. Qed.

Lemma extends_ask : extends ask.
Proof. intros w tr. exists []. by rewrite app_nil_r. Qed.

Lemma extends_call_out {A} c (answer : env → list call → res A) :
  extends (call_out c answer).
Proof. intros w tr. by exists [c]. Qed.

Lemma extends_try {A} (body : M A) handler :
  extends body → (∀ e, extends (handler e)) → extends (try_except body handler).
Proof.
  intros Hb Hh w tr. unfold try_except.
  destruct (Hb w tr) as [c1 H1]. destruct (body w tr) as [[a|e] tr1]; cbn in H1.
  - by exists c1.
  - destruct (Hh e w tr1) as [c2 H2]. exists (c1 ++ c2).
    by rewrite H2, H1, app_assoc.
Qed.

Lemma extends_if {A} (b : bool) (m1 m2 : M A) :
  extends m1 → extends m2 → extends (if b then m1 else m2).
Proof. by destruct b. Qed.

Lemma extends_for_keep {S A} (body : S → A → M S) (l : list A) :
  (∀ s x, extends (body s x)) → ∀ s, extends (for_keep body s l).
Proof.
  intros Hb. induction l as [|x l IH]; intros s w tr; cbn [for_keep].
  - exists []. by rewrite app_nil_r.
  - destruct (Hb s x w tr) as [c1 H1].
    destruct (body s x w tr) as [[s'|e] tr1]; cbn in H1.
    + destruct (IH s' w tr1) as [c2 H2]. exists (c1 ++ c2).
      by rewrite H2, H1, app_assoc.
    + by exists c1.
Qed.

Lemma extends_resolve_item papers item :
  extends (scihub_adapter.resolve_item papers item).
Proof.
  unfold scihub_adapter.resolve_item, scihub_adapter._fetch_from_scihub.
  repeat first
    [ apply extends_bind; [|intros ?]
    | apply extends_if
    | apply extends_lift
    | apply extends_ret
    | apply extends_ask
    | apply extends_try; [|intros ?]
    | apply extends_call_out ].
Qed.

Lemma scihub_advanced_no_field kwargs w tr :
  scihub_available w = true →
  no_field kwargs ["title"; "author"; "journal"; "term"] →
  ∃ results calls,
    scihub_adapter.search_advanced kwargs w tr
    = (Ok results,
       tr ++ RequestsGet
               (scihub_adapter.crossref_url w "research"
                  (get kwargs "num_results" (VInt 10))) []
          :: calls).
Proof.
  intros Hav H. unfold no_field in H.
  repeat (apply Forall_cons in H as [? H]).
  unfold scihub_adapter.search_advanced, scihub_adapter.add_part,
    scihub_adapter.search_by_keywords_dyn.
  unfold mbind at 1, M_bind, ask. rewrite Hav. cbn [negb].
  repeat match goal with
         | E : truthy _ = false |- _ => rewrite E; clear E
         end.
  cbn [truthy]. unfold mbind at 1, M_bind, mret, M_ret.
  unfold mbind at 1, M_bind, ask. rewrite Hav. cbn [negb].
  unfold mbind at 1, M_bind.
  match goal with
  | |- context [try_except ?b ?h w tr] =>
      assert (∃ items,
                try_except b h w tr
                = (Ok items,
                   tr ++ [RequestsGet
                            (scihub_adapter.crossref_url w "research"
                               (get kwargs "num_results" (VInt 10))) []]))
        as [items ->]
  end.
  { run_M. destruct (requests_get w tr _ []) as [resp|e]; [|by eexists].
    destruct (status_code resp =? 200); [|by eexists].
    destruct (json resp) as [data|e]; [|by eexists].
    destruct (subscript_key data "message") as [message|e]; [|by eexists].
    destruct (subscript_key message "items") as [its|e]; [|by eexists].
    destruct (py_slice its _) as [first|e]; [|by eexists].
    destruct (py_iter first) as [l|e]; by eexists. }
  match goal with
  | |- context [for_keep ?b ?s ?l ?w' ?t] =>
      destruct (for_keep_returns b l s w' t) as (papers & tr' & Hrun);
      destruct (extends_for_keep b l extends_resolve_item s w' t)
        as [calls Hcalls]
  end.
  rewrite Hrun in Hcalls |- *. cbn in Hcalls. subst tr'.
  exists papers, calls. by rewrite <- app_assoc.
Qed.

Lemma scan_account_ext w server date_range fields hit hit' n tr results tr' :
  (∀ item, hit item = hit' item) →
  scan_account w server date_range fields hit n tr results tr' →
  scan_account w server date_range fields hit' n tr results tr'.
Proof.
  intros Hext (pages & last & stop & Htr & Hreads & Hlast & Hacct).
  exists pages, last, stop. split; [done|]. split; [done|]. split; [done|].
  intros Hl. specialize (Hacct Hl). cbv zeta in Hacct |- *.
  assert (E : ∀ l, found hit' (record_of w server) l
                   = found hit (record_of w server) l)
    by (intros l; symmetry; by apply found_ext).
  destruct Hacct as [Hmin Hend]. split.
  - intros before page after Hp. rewrite E. by eapply Hmin.
  - rewrite !E. exact Hend.
Qed.

(** Without a title and an author to look for, the scan of the advanced
    search takes every item of the pages it reads. *)
Lemma biorxiv_advanced_unfiltered server kwargs w tr date_range n :
  str_lower (get kwargs "title" (VStr "")) = Ok "" →
  str_lower (get kwargs "author" (VStr "")) = Ok "" →
  biorxiv_adapter.date_window w kwargs = Ok date_range →
  get kwargs "num_results" (VInt 10) = VInt n →
  0 < n →
  ∃ results calls,
    biorxiv_adapter.search_advanced server kwargs w tr
    = (Ok results, tr ++ page_call server date_range 0 :: calls)
    ∧ scan_account w server date_range [] (λ _, true) n tr results
        (tr ++ page_call server date_range 0 :: calls).
Proof.
  intros Ht Ha Hd Hn Hpos.
  destruct (scan_advanced_account biorxiv_adapter.scan_ceiling server kwargs w tr "" ""
              date_range n (le_n _) Ht Ha Hd Hn)
    as (results & tr' & Hrun & Hacc).
  apply (scan_account_ext _ _ _ _ _ (λ _, true)) in Hacc; [|done].
  destruct (scan_account_first _ _ _ _ _ _ _ _ _ Hpos Hacc) as [calls ->].
  exists results, calls. split; [|exact Hacc].
  unfold biorxiv_adapter.search_advanced. unfold mbind at 1, M_bind. by rewrite Hrun.
Qed.

(** C4, as stated, fails for the bioRxiv/medRxiv adapter: called with no
    field to filter on, it scans the listing of the last year and returns
    what it finds; two requests leave the process. *)
Lemma biorxiv_advanced_counterexample :
  no_field [("num_results", VInt 10)]
    ["title"; "author"; "journal"; "start_date"; "end_date"; "term"]
  ∧ length (returned (biorxiv_adapter.search_advanced "biorxiv"
                        [("num_results", VInt 10)] sample_world [])) = 2%nat
  ∧ (biorxiv_adapter.search_advanced "biorxiv" [("num_results", VInt 10)]
       sample_world []).2
    = [page_call "biorxiv" "2023-06-02/2024-06-01" 0;
       page_call "biorxiv" "2023-06-02/2024-06-01" 2].
Proof.
  split; [by repeat constructor|]. split; by vm_compute.
Qed.

(** The Sci-Hub adapter, called with no field, queries CrossRef for the
    fallback term. *)
Example scihub_advanced_fallback :
  (scihub_adapter.search_advanced [("num_results", VInt 10)] scihub_world []).2
  = [RequestsGet "https://api.crossref.org/works?query=research&rows=10" []].
Proof. by vm_compute. Qed.

(** C4 (amended).  Called with none of the fields they map into their
    query, the arXiv adapter (title, author, abstract, category, term) and
    the Semantic Scholar adapter (term, title, author) return an empty
    sequence and call nothing.  The other adapters do call out: PubMed
    always hands the request to its collaborator; Sci-Hub, its library
    available, queries CrossRef for the fallback term "research";
    bioRxiv/medRxiv, given neither title nor author, a date window and a
    positive bound, requests the first page of the listing and scans the
    listing unfiltered: every item of the pages it reads counts as a
    match. *)
Theorem search_advanced_without_fields (kwargs : dict) (w : env)
    (tr : list call) :
  (no_field kwargs ["title"; "author"; "abstract"; "category"; "term"] →
   arxiv_adapter.search_advanced kwargs w tr = (Ok [], tr))
  ∧ (no_field kwargs ["term"; "title"; "author"] →
     semantic_scholar_adapter.search_advanced kwargs w tr = (Ok [], tr))
  ∧ (pubmed_adapter.search_advanced kwargs w tr).2
    = tr ++ [PubmedSearchAdvanced (pubmed_adapter.advanced_args kwargs)]
  ∧ (scihub_available w = true →
     no_field kwargs ["title"; "author"; "journal"; "term"] →
     ∃ results calls,
       scihub_adapter.search_advanced kwargs w tr
       = (Ok results,
          tr ++ RequestsGet
                  (scihub_adapter.crossref_url w "research"
                     (get kwargs "num_results" (VInt 10))) []
             :: calls))
  ∧ (∀ server date_range n,
       str_lower (get kwargs "title" (VStr "")) = Ok "" →
       str_lower (get kwargs "author" (VStr "")) = Ok "" →
       biorxiv_adapter.date_window w kwargs = Ok date_range →
       get kwargs "num_results" (VInt 10) = VInt n →
       0 < n →
       ∃ results calls,
         biorxiv_adapter.search_advanced server kwargs w tr
         = (Ok results, tr ++ page_call server date_range 0 :: calls)
         ∧ scan_account w server date_range [] (λ _, true) n tr results
             (tr ++ page_call server date_range 0 :: calls)).
Proof.
  split; [apply arxiv_advanced_no_field|].
  split; [apply semantic_advanced_no_field|].
  split; [apply pubmed_advanced_calls|].
  split; [apply scihub_advanced_no_field|].
  intros server date_range n. apply biorxiv_advanced_unfiltered.
Qed.

Lemma search_advanced_without_fields_witness :
  arxiv_adapter.search_advanced [("num_results", VInt 10)] sample_world []
  = (Ok [], [])
  ∧ semantic_scholar_adapter.search_advanced [("num_results", VInt 10)]
      sample_world []
    = (Ok [], [])
  ∧ (∃ results calls,
       scihub_adapter.search_advanced [("num_results", VInt 10)]
         scihub_world []
       = (Ok results,
          [] ++ RequestsGet
                  "https://api.crossref.org/works?query=research&rows=10" []
             :: calls))
  ∧ (∃ results calls,
       biorxiv_adapter.search_advanced "medrxiv" [("num_results", VInt 10)]
         sample_world []
       = (Ok results,
          [] ++ page_call "medrxiv" "2023-06-02/2024-06-01" 0 :: calls)
       ∧ scan_account sample_world "medrxiv" "2023-06-02/2024-06-01" []
           (λ _, true) 10 [] results
           ([] ++ page_call "medrxiv" "2023-06-02/2024-06-01" 0 :: calls)).
Proof.
  destruct (search_advanced_without_fields [("num_results", VInt 10)]
              sample_world []) as (H1 & H2 & _ & _ & H5).
  destruct (search_advanced_without_fields [("num_results", VInt 10)]
              scihub_world []) as (_ & _ & _ & H4 & _).
  split; [apply H1; by repeat constructor|].
  split; [apply H2; by repeat constructor|].
  split; [apply H4; [reflexivity | by repeat constructor]|].
  apply (H5 "medrxiv" "2023-06-02/2024-06-01" 10); reflexivity.
Defined.

End advanced_without_fields.

(** ** Adapters: the bound on the number of results *)

Section result_cap.

Lemma slice_to_length {A} (l : list A) n :
  0 ≤ n → Z.of_nat (length (slice_to l n)) ≤ n.
Proof.
  intros Hn. unfold slice_to. destruct (Z.leb_spec 0 n); [|lia].
  rewrite length_take. lia.
Qed.

Lemma slice_by_length {A} (l l' : list A) v n :
  as_int v = Ok n → 0 ≤ n → slice_by l v = Ok l' →
  Z.of_nat (length l') ≤ n.
Proof.
  intros Hv Hn. destruct v; try done; cbn in Hv |- *;
    injection Hv as <-; intros [= <-]; by apply slice_to_length.
Qed.

Lemma map_res_length {A B} (f : A → res B) l l' :
  map_res f l = Ok l' → length l' = length l.
Proof.
  revert l'. induction l as [|x l IH]; intros l'; cbn; [by intros [= <-]|].
  destruct (f x) as [y|e]; [|done]. cbn.
  destruct (map_res f l) as [ys|e]; [|done]. cbn. intros [= <-].
  cbn. by rewrite (IH ys).
Qed.

Lemma for_each_grows {A B} (body : list B → A → res (list B)) l :
  (∀ acc x acc', body acc x = Ok acc' → (length acc' ≤ length acc + 1)%nat) →
  ∀ acc acc', for_each body acc l = Ok acc' →
              (length acc' ≤ length acc + length l)%nat.
Proof.
  intros Hb. induction l as [|x l IH]; intros acc acc'; cbn.
  - intros [= <-]. lia.
  - destruct (body acc x) as [acc1|e] eqn:E; [|done]. cbn. intros H.
    apply IH in H. apply Hb in E. lia.
Qed.

Lemma for_keep_grows {A B} (body : list B → A → M (list B)) l :
  (∀ acc x w tr acc' tr',
     body acc x w tr = (Ok acc', tr') → (length acc' ≤ length acc + 1)%nat) →
  ∀ acc w tr acc' tr',
    for_keep body acc l w tr = (Ok acc', tr') →
    (length acc' ≤ length acc + length l)%nat.
Proof.
  intros Hb. induction l as [|x l IH]; intros acc w tr acc' tr'; cbn.
  - intros [= <- _]. lia.
  - destruct (body acc x w tr) as [[acc1|e] tr1] eqn:E.
    + intros H. apply IH in H. apply Hb in E. lia.
    + intros [= <- _]. lia.
Qed.

(** *** bioRxiv/medRxiv *)

Lemma biorxiv_keywords_cap server keywords n w tr :
  0 ≤ n →
  Z.of_nat (length (returned (biorxiv_adapter.search_by_keywords server
                                keywords n w tr))) ≤ n.
Proof.
  intros Hn.
  unfold returned, biorxiv_adapter.search_by_keywords,
    biorxiv_adapter.scan_by_keywords.
  run_M.
  match goal with
  | |- context [while ?f ?c ?b ?st w tr] =>
      destruct (while f c b st w tr) as [[[[all_results cursor]|]|e] tr']
  end; cbn; try lia.
  by apply slice_to_length.
Qed.

Lemma biorxiv_advanced_cap server kwargs n w tr :
  as_int (get kwargs "num_results" (VInt 10)) = Ok n →
  0 ≤ n →
  Z.of_nat (length (returned (biorxiv_adapter.search_advanced server kwargs
                                w tr))) ≤ n.
Proof.
  intros Hv Hn.
  unfold returned, biorxiv_adapter.search_advanced,
    biorxiv_adapter.scan_advanced.
  run_M.
  destruct (str_lower (get kwargs "title" (VStr ""))); [|cbn; lia].
  destruct (str_lower (get kwargs "author" (VStr ""))); [|cbn; lia].
  destruct (biorxiv_adapter.date_window w kwargs); [|cbn; lia].
  match goal with
  | |- context [while ?f ?c ?b ?st w tr] =>
      destruct (while f c b st w tr) as [[[[all_results cursor]|]|e] tr']
  end; cbn; try lia.
  destruct (slice_by all_results _) as [sliced|e] eqn:E; cbn; [|lia].
  by apply (slice_by_length _ _ _ _ Hv Hn E).
Qed.

(** *** Semantic Scholar *)

Lemma semantic_advanced_cap kwargs n w tr :
  as_int (get kwargs "num_results" (VInt 10)) = Ok n →
  0 ≤ n →
  Z.of_nat (length (returned (semantic_scholar_adapter.search_advanced kwargs
                                w tr))) ≤ n.
Proof.
  intros Hv Hn.
  unfold returned, semantic_scholar_adapter.search_advanced. run_M.
  destruct (negb (truthy (VList _))); [cbn; lia|].
  destruct (join " " _) as [query|e]; [|cbn; lia].
  rewrite Hv.
  destruct (requests_get w tr _ _) as [resp|e]; [|cbn; lia].
  destruct (negb (status_code resp =? 200)); [cbn; lia|].
  destruct (json resp) as [data|e]; [|cbn; lia].
  destruct (py_get data "data" (VList [])) as [papers|e]; [|cbn; lia].
  destruct (py_iter papers) as [items|e]; [|cbn; lia].
  destruct (map_res _ items) as [results|e]; [|cbn; lia].
  destruct (truthy (get kwargs "author" VNone)).
  - destruct (str_lower (get kwargs "author" VNone)) as [author_query|e];
      [|cbn; lia].
    destruct (for_each _ [] results) as [kept|e]; [|cbn; lia].
    cbn. by apply slice_to_length.
  - cbn. by apply slice_to_length.
Qed.

Lemma semantic_keywords_count keywords n w tr :
  (length (returned (semantic_scholar_adapter.search_by_keywords keywords n
                       w tr))
   ≤ data_papers
       (requests_get w tr semantic_scholar_adapter.search_url
          (semantic_scholar_adapter.keywords_params keywords n)))%nat.
Proof.
  unfold returned, semantic_scholar_adapter.search_by_keywords, data_papers.
  run_M.
  destruct (requests_get w tr _ _) as [resp|e]; [|cbn; lia].
  destruct (negb (status_code resp =? 200)); [cbn; lia|].
  destruct (json resp) as [data|e]; [|cbn; lia].
  destruct data as [| | | | |d]; try (cbn; lia).
  cbn [py_get].
  destruct (py_iter (get d "data" (VList []))) as [items|e]; [|cbn; lia].
  destruct (map_res _ items) as [results|e] eqn:E; [|cbn; lia].
  cbn. by rewrite (map_res_length _ _ _ E).
Qed.

(** *** arXiv *)

Lemma parse_arxiv_count xml_text w tr :
  (length (returned (arxiv_adapter._parse_arxiv_response xml_text w tr))
   ≤ match fromstring w xml_text with
     | Ok root => length (findall root (arxiv_adapter.atom "entry"))
     | Raise _ => 0
     end)%nat
  ∧ ∃ results,
      arxiv_adapter._parse_arxiv_response xml_text w tr = (Ok results, tr).
Proof.
  unfold returned, arxiv_adapter._parse_arxiv_response. run_M.
  destruct (fromstring w xml_text) as [root|e]; [|split; [cbn; lia | by eexists]].
  destruct (map_res _ _) as [results|e] eqn:E;
    [|split; [cbn; lia | by eexists]].
  split; [|by eexists]. cbn. by rewrite (map_res_length _ _ _ E).
Qed.

Lemma arxiv_keywords_count keywords n w tr :
  (length (returned (arxiv_adapter.search_by_keywords keywords n w tr))
   ≤ feed_entries w
       (requests_get w tr arxiv_adapter.base_url
          (arxiv_adapter.keywords_params w keywords n)))%nat.
Proof.
  unfold returned, arxiv_adapter.search_by_keywords, feed_entries.
  unfold try_except, mbind at 1, M_bind, ask.
  unfold mbind at 1, M_bind, http_get, call_out.
  destruct (requests_get w tr _ _) as [resp|e]; [|cbn; lia].
  destruct (negb (status_code resp =? 200)); [cbn; lia|].
  destruct (parse_arxiv_count (text_body resp) w
              (tr ++ [RequestsGet arxiv_adapter.base_url
                        (arxiv_adapter.keywords_params w keywords n)]))
    as [Hlen [results Hrun]].
  unfold returned in Hlen. rewrite Hrun in Hlen |- *. exact Hlen.
Qed.

Lemma filter_by_date_length results start_date end_date filtered :
  arxiv_adapter._filter_by_date results start_date end_date = Ok filtered →
  (length filtered ≤ length results)%nat.
Proof.
  intros H. apply for_each_grows in H; [exact H|].
  intros acc x acc' Hb. cbv zeta in Hb.
  apply bind_res_Ok in Hb as ([|] & _ & Hb); [injection Hb as <-; lia|].
  apply bind_res_Ok in Hb as ([|] & _ & Hb); injection Hb as <-;
    rewrite ?length_app; cbn; lia.
Qed.

(** *** PubMed *)

Lemma pubmed_keywords_count keywords n w tr :
  (length (returned (pubmed_adapter.search_by_keywords keywords n w tr))
   ≤ answered_records (pubmed_search_key_words w tr keywords n))%nat.
Proof.
  unfold returned, pubmed_adapter.search_by_keywords, answered_records. run_M.
  destruct (pubmed_search_key_words w tr keywords n); cbn; [|lia].
  by rewrite length_fmap.
Qed.

Lemma pubmed_advanced_count kwargs w tr :
  (length (returned (pubmed_adapter.search_advanced kwargs w tr))
   ≤ answered_records
       (pubmed_search_advanced w tr (pubmed_adapter.advanced_args kwargs)))%nat.
Proof.
  unfold returned, pubmed_adapter.search_advanced, answered_records. run_M.
  destruct (pubmed_search_advanced w tr _); cbn; [|lia].
  by rewrite length_fmap.
Qed.

(** *** Sci-Hub *)

Lemma chars_length s : length (chars s) = str_len s.
Proof. unfold chars. by rewrite length_fmap. Qed.

Lemma string_of_list_length l :
  String.length (String.string_of_list_ascii l) = length l.
Proof. induction l as [|c l IH]; [done|]. cbn. by rewrite IH. Qed.

Lemma py_slice_iter_length its v n first items :
  as_int v = Ok n → 0 ≤ n →
  py_slice its v = Ok first →
  py_iter first = Ok items →
  Z.of_nat (length items) ≤ n.
Proof.
  intros Hv Hn Hs Hi.
  assert (py_slice_to its n = Ok first) as Hs'.
  { destruct v; try done; cbn in Hv, Hs; injection Hv as <-; exact Hs. }
  clear Hs. destruct its as [| | |s|l|d]; try done;
    cbn [py_slice_to] in Hs'.
  - injection Hs' as <-. cbn [py_iter] in Hi. injection Hi as <-.
    rewrite chars_length. unfold str_len. rewrite points_str_slice_to.
    by apply slice_to_length.
  - injection Hs' as <-. cbn in Hi. injection Hi as <-.
    by apply slice_to_length.
Qed.

Lemma resolve_item_grows papers item w tr papers' tr' :
  scihub_adapter.resolve_item papers item w tr = (Ok papers', tr') →
  (length papers' ≤ length papers + 1)%nat.
Proof.
  unfold scihub_adapter.resolve_item, scihub_adapter._fetch_from_scihub.
  run_M. intros H.
  repeat case_match; simplify_eq; rewrite ?length_app; cbn; lia.
Qed.

Lemma scihub_dyn_cap keywords v n w tr :
  scihub_available w = true →
  as_int v = Ok n → 0 ≤ n →
  Z.of_nat (length (returned (scihub_adapter.search_by_keywords_dyn keywords v
                                w tr))) ≤ n.
Proof.
  intros Hav Hv Hn. unfold returned, scihub_adapter.search_by_keywords_dyn.
  unfold mbind at 1, M_bind, ask. rewrite Hav. cbn [negb].
  unfold mbind at 1, M_bind.
  match goal with
  | |- context [try_except ?b ?h w tr] =>
      assert (∃ items tr1,
                try_except b h w tr = (Ok items, tr1)
                ∧ Z.of_nat (length items) ≤ n)
        as (items & tr1 & -> & Hlen)
  end.
  { run_M.
    destruct (requests_get w tr _ []) as [resp|e];
      [|eexists _, _; split; [reflexivity | cbn; lia]].
    destruct (status_code resp =? 200);
      [|eexists _, _; split; [reflexivity | cbn; lia]].
    destruct (json resp) as [data|e];
      [|eexists _, _; split; [reflexivity | cbn; lia]].
    destruct (subscript_key data "message") as [message|e];
      [|eexists _, _; split; [reflexivity | cbn; lia]].
    destruct (subscript_key message "items") as [its|e];
      [|eexists _, _; split; [reflexivity | cbn; lia]].
    destruct (py_slice its v) as [first|e] eqn:Es;
      [|eexists _, _; split; [reflexivity | cbn; lia]].
    destruct (py_iter first) as [l|e] eqn:Ei;
      [|eexists _, _; split; [reflexivity | cbn; lia]].
    eexists _, _. split; [reflexivity|].
    by apply (py_slice_iter_length its v n first l). }
  destruct (for_keep scihub_adapter.resolve_item [] items w tr1)
    as [[papers|e] tr2] eqn:E; [|cbn; lia].
  apply for_keep_grows in E; [cbn in *; lia|].
  apply resolve_item_grows.
Qed.

Lemma scihub_advanced_cap kwargs n w tr :
  scihub_available w = true →
  as_int (get kwargs "num_results" (VInt 10)) = Ok n → 0 ≤ n →
  Z.of_nat (length (returned (scihub_adapter.search_advanced kwargs w tr))) ≤ n.
Proof.
  intros Hav Hv Hn. unfold scihub_adapter.search_advanced.
  unfold mbind at 1, M_bind, ask. rewrite Hav. cbn [negb]. cbv zeta.
  unfold mbind at 1, M_bind.
  destruct (truthy (VList _)).
  - unfold lift. destruct (join " " _) as [query|e]; [|unfold returned; cbn; lia].
    by apply scihub_dyn_cap.
  - unfold mret, M_ret. by apply scihub_dyn_cap.
Qed.

(** The searches that cut their list to the bound: for a bound [n] that
    is not negative, the bioRxiv/medRxiv adapter, the advanced search of
    the Semantic Scholar adapter and the Sci-Hub adapter with its library
    available never return more than [n] records. *)
Lemma num_results_cap (n : Z) (w : env) (tr : list call) :
  0 ≤ n →
  (∀ server keywords,
     Z.of_nat (length (returned (biorxiv_adapter.search_by_keywords server
                                   keywords n w tr))) ≤ n)
  ∧ (∀ server kwargs,
       as_int (get kwargs "num_results" (VInt 10)) = Ok n →
       Z.of_nat (length (returned (biorxiv_adapter.search_advanced server
                                     kwargs w tr))) ≤ n)
  ∧ (∀ kwargs,
       as_int (get kwargs "num_results" (VInt 10)) = Ok n →
       Z.of_nat (length (returned (semantic_scholar_adapter.search_advanced
                                     kwargs w tr))) ≤ n)
  ∧ (scihub_available w = true →
     (∀ keywords,
        Z.of_nat (length (returned (scihub_adapter.search_by_keywords keywords
                                      n w tr))) ≤ n)
     ∧ (∀ kwargs,
          as_int (get kwargs "num_results" (VInt 10)) = Ok n →
          Z.of_nat (length (returned (scihub_adapter.search_advanced kwargs
                                        w tr))) ≤ n)).
Proof.
  intros Hn.
  split; [intros; by apply biorxiv_keywords_cap|].
  split; [intros; by apply biorxiv_advanced_cap|].
  split; [intros; by apply semantic_advanced_cap|].
  intros Hav. split.
  - intros. by apply (scihub_dyn_cap _ (VInt n)).
  - intros. by apply scihub_advanced_cap.
Qed.

(** C5.  The keyword search of the Semantic Scholar adapter does not keep
    to the bound.  It sends [num_results] upstream as [limit] and returns
    every paper of the answer: asked for one result, the service answers
    with two papers and two records come back.  The advanced search of
    the same adapter cuts the same answer to one record. *)
Theorem semantic_keywords_exceeds_bound :
  semantic_scholar_adapter.keywords_params "crispr" 1
  = [("query", VStr "crispr"); ("limit", VInt 1);
     ("fields",
      VStr "paperId,title,abstract,authors,year,venue,url,openAccessPdf")]
  ∧ (semantic_scholar_adapter.search_by_keywords "crispr" 1 sample_world []).2
    = [RequestsGet semantic_scholar_adapter.search_url
         (semantic_scholar_adapter.keywords_params "crispr" 1)]
  ∧ length (returned (semantic_scholar_adapter.search_by_keywords "crispr" 1
                        sample_world [])) = 2%nat
  ∧ length (returned (semantic_scholar_adapter.search_advanced
                        [("term", VStr "crispr"); ("num_results", VInt 1)]
                        sample_world [])) = 1%nat.
Proof. repeat split; by vm_compute. Qed.

(** The Sci-Hub adapter without its library answers with one error entry
    whatever the bound is. *)
Example scihub_unavailable_bound :
  returned (scihub_adapter.search_by_keywords "crispr" 0 sample_world [])
  = [[("error", VStr "Sci-Hub library not available")]].
Proof. by vm_compute. Qed.

(** The bound at work: both preprints of the sample listing match, one is
    returned. *)
Example biorxiv_cap_sample :
  length (returned (biorxiv_adapter.search_by_keywords "biorxiv" "e" 1
                      sample_world [])) = 1%nat
  ∧ length (returned (semantic_scholar_adapter.search_advanced
                        [("term", VStr "crispr"); ("num_results", VInt 1)]
                        sample_world [])) = 1%nat.
Proof. split; by vm_compute. Qed.

End result_cap.

(** ** The shape of the records *)

Section record_shape.

Ltac core_fields := repeat constructor.

(** No formatter leaves a core field out. *)
Lemma base_format_core_fields source_name raw_result :
  has_core_fields (base_adapter._format_result source_name raw_result).
Proof. core_fields. Qed.

Lemma pubmed_format_core_fields w pubmed_result :
  has_key pubmed_result "error" = false →
  has_core_fields (pubmed_adapter._format_result w pubmed_result).
Proof.
  intros H. unfold pubmed_adapter._format_result. rewrite H. core_fields.
Qed.

Lemma biorxiv_format_core_fields w server item r :
  biorxiv_adapter._format_biorxiv_result w server item = Ok r →
  has_core_fields r.
Proof.
  unfold biorxiv_adapter._format_biorxiv_result.
  destruct item; try done. cbn. intros [= <-]. core_fields.
Qed.

Lemma semantic_format_core_fields w paper r :
  semantic_scholar_adapter._format_semantic_result w paper = Ok r →
  has_core_fields r.
Proof.
  unfold semantic_scholar_adapter._format_semantic_result.
  intros H. repeat (apply bind_res_Ok in H as (? & _ & H)).
  injection H as <-. core_fields.
Qed.

Lemma arxiv_entry_conforms entry r :
  arxiv_adapter.parse_entry entry = Ok r → has_core_fields r ∧ conforms r.
Proof.
  unfold arxiv_adapter.parse_entry.
  intros H. repeat (apply bind_res_Ok in H as (? & _ & H)).
  injection H as <-. split; repeat constructor.
Qed.

(** C6: the code breaks the claim.  The Semantic Scholar adapter returns,
    for a paper without an abstract, a record that has every core field
    but whose [abstract] is [None], not a string; the repository's own
    [format_search_results] then raises on that record. *)
Theorem semantic_abstract_not_string :
  returned (semantic_scholar_adapter.search_by_keywords "crispr" 5
              sample_world []) !! 1%nat
  = Some no_abstract_record
  ∧ has_core_fields no_abstract_record
  ∧ lookup_key no_abstract_record "abstract" = Some VNone
  ∧ ¬ conforms no_abstract_record
  ∧ helpers.format_search_results [no_abstract_record] 500 = Raise TypeError.
Proof.
  split; [by vm_compute|]. split; [repeat constructor|].
  split; [reflexivity|]. split; [|by vm_compute].
  intros H. unfold conforms, canonical_fields in H.
  do 3 apply Forall_cons in H as [_ H].
  apply Forall_cons in H as [H _]. cbn in H. discriminate.
Qed.

End record_shape.

(** * Properties of the rest of the code *)

(** ** [helpers.py]: [format_search_results] *)

Section format_results.
Import helpers.

Lemma lookup_set_item_eq (d : dict) k v :
  lookup_key (set_item d k v) k = Some v.
Proof.
  induction d as [|[k' v'] d IH]; cbn.
  - by rewrite String.eqb_refl.
  - destruct (String.eqb k' k) eqn:E; cbn.
    + by rewrite String.eqb_refl.
    + by rewrite E.
Qed.

Lemma lookup_set_item_ne (d : dict) k k' v :
  k' ≠ k → lookup_key (set_item d k v) k' = lookup_key d k'.
Proof.
  intros Hne. induction d as [|[k0 v0] d IH]; cbn.
  - destruct (String.eqb k k') eqn:E; [|done].
    apply String.eqb_eq in E. congruence.
  - destruct (String.eqb k0 k) eqn:E; cbn.
    + apply String.eqb_eq in E as ->.
      destruct (String.eqb k k') eqn:E'; [|done].
      apply String.eqb_eq in E'. congruence.
    + by rewrite IH.
Qed.

Lemma set_item_twice {A} (d : list (string * A)) k v v' :
  set_item (set_item d k v) k v' = set_item d k v'.
Proof.
  induction d as [|[k0 v0] d IH]; cbn.
  - by rewrite String.eqb_refl.
  - destruct (String.eqb k0 k) eqn:E; cbn.
    + by rewrite String.eqb_refl.
    + by rewrite E, IH.
Qed.

Lemma length_app_string (s t : string) :
  String.length (s +:+ t) = (String.length s + String.length t)%nat.
Proof.
  induction s as [|c s IH]; [done|].
  change (S (String.length (s +:+ t))
          = S (String.length s + String.length t)).
  by rewrite IH.
Qed.

Lemma str_len_dots (s : string) :
  str_len (s +:+ "...") = (str_len s + 3)%nat.
Proof.
  unfold str_len. rewrite points_app by (by repeat constructor).
  by rewrite length_app.
Qed.

(** The cut of a string longer than the bound. *)
Lemma str_slice_to_long (s : string) (n : Z) :
  0 ≤ n → n < Z.of_nat (str_len s) →
  length (points (str_slice_to s n)) = Z.to_nat n.
Proof.
  intros Hn Hlong. rewrite points_str_slice_to. unfold slice_to.
  rewrite (proj2 (Z.leb_le 0 n)) by done.
  rewrite length_take. unfold str_len in Hlong. lia.
Qed.

Lemma str_slice_to_dots (s : string) (n : Z) :
  0 ≤ n → n < Z.of_nat (str_len s) →
  str_slice_to (str_slice_to s n +:+ "...") n = str_slice_to s n.
Proof.
  intros Hn Hlong. unfold str_slice_to at 1.
  rewrite points_app by (by repeat constructor).
  unfold slice_to at 1. rewrite (proj2 (Z.leb_le 0 n)) by done.
  rewrite take_app_length' by (symmetry; by apply str_slice_to_long).
  apply unpoints_points.
Qed.

(** One round of the loop. *)
Lemma format_step max_abstract_length (formatted results : list dict) :
  Forall abstract_typed results →
  for_each
    (λ formatted result,
       let formatted_result := result in
       let abstract := get result "abstract" (VStr "") in
       n ← py_len abstract;
       formatted_result ←
         (if max_abstract_length <? n
          then cut ← py_slice_to abstract max_abstract_length;
               v ← add_str cut "...";
               Ok (set_item formatted_result "abstract" v)
          else Ok formatted_result);
       Ok (formatted ++ [formatted_result]))
    formatted results
  = Ok (formatted ++ (shorten max_abstract_length <$> results)).
Proof.
  match goal with |- context [for_each ?b _ _] => set (body := b) end.
  assert (Hstep : ∀ formatted r,
             abstract_typed r →
             body formatted r
             = Ok (formatted ++ [shorten max_abstract_length r])).
  { intros acc r Hr. subst body. cbn beta zeta.
    unfold abstract_typed in Hr. unfold shorten, abstract_of.
    destruct (get r "abstract" (VStr "")) as [| | |a| |] eqn:Ha; try done.
    cbn [py_len py_slice_to as_str]. rewrite bind_Ok.
    by destruct (max_abstract_length <? Z.of_nat (str_len a)). }
  clearbody body. revert formatted.
  induction results as [|r results IH]; intros formatted Hty.
  - cbn. by rewrite app_nil_r.
  - apply Forall_cons in Hty as [Hr Hty]. cbn [for_each fmap list_fmap].
    rewrite Hstep, bind_Ok, IH by done. by rewrite <- app_assoc.
Qed.

Lemma format_search_results_shortens results max_abstract_length :
  Forall abstract_typed results →
  format_search_results results max_abstract_length
  = Ok (shorten max_abstract_length <$> results).
Proof. intros Hty. exact (format_step max_abstract_length [] results Hty). Qed.

Lemma abstract_of_set_item r s :
  abstract_of (set_item r "abstract" (VStr s)) = s.
Proof. unfold abstract_of, get. by rewrite lookup_set_item_eq. Qed.

Lemma shorten_typed max_abstract_length r :
  abstract_typed r → abstract_typed (shorten max_abstract_length r).
Proof.
  intros Hr. unfold shorten. case_match; [|done].
  unfold abstract_typed, get. by rewrite lookup_set_item_eq.
Qed.

Lemma shorten_twice max_abstract_length r :
  0 ≤ max_abstract_length →
  shorten max_abstract_length (shorten max_abstract_length r)
  = shorten max_abstract_length r.
Proof.
  intros Hmax. unfold shorten at 2.
  destruct (max_abstract_length <? _) eqn:Hlong; [|unfold shorten; by rewrite Hlong].
  apply Z.ltb_lt in Hlong.
  unfold shorten. rewrite abstract_of_set_item, str_len_dots.
  unfold str_len at 1. rewrite str_slice_to_long by done.
  rewrite (proj2 (Z.ltb_lt max_abstract_length
                   (Z.of_nat (Z.to_nat max_abstract_length + 3)))) by lia.
  rewrite (proj2 (Z.ltb_lt _ _) Hlong).
  by rewrite set_item_twice, str_slice_to_dots.
Qed.

End format_results.

(** ** [helpers.py]: the claims on the display format *)

Section format_claims.
Import helpers.

(** X1.  [format_search_results] with a bound that is not negative, on
    records whose abstract is a string: it returns one record per record,
    in order; every field other than the abstract is untouched; no
    abstract is longer than the bound plus three; a record whose abstract
    fits is returned as it is, and a longer abstract gives way to its first
    [max_abstract_length] characters followed by three dots. *)
Theorem format_search_results_truncates (results : list dict)
    (max_abstract_length : Z) :
  0 ≤ max_abstract_length →
  Forall abstract_typed results →
  ∃ formatted,
    format_search_results results max_abstract_length = Ok formatted
    ∧ Forall2
        (λ r f,
           (∀ k, k ≠ "abstract" → lookup_key f k = lookup_key r k)
           ∧ Z.of_nat (str_len (abstract_of f)) ≤ max_abstract_length + 3
           ∧ (Z.of_nat (str_len (abstract_of r)) ≤ max_abstract_length
              → f = r)
           ∧ (max_abstract_length < Z.of_nat (str_len (abstract_of r))
              → ∃ cut, abstract_of f = cut +:+ "..."
                       ∧ points cut
                         = take (Z.to_nat max_abstract_length)
                                (points (abstract_of r))
                       ∧ Z.of_nat (str_len cut) = max_abstract_length))
        results formatted.
Proof.
  intros Hmax Hty. eexists. split; [by apply format_search_results_shortens|].
  apply Forall2_fmap_r, Forall_Forall2_diag, Forall_forall.
  intros r _. unfold compose. cbn beta. unfold shorten.
  destruct (max_abstract_length <? Z.of_nat (str_len (abstract_of r)))
    eqn:Hlong.
  - apply Z.ltb_lt in Hlong. rewrite abstract_of_set_item, str_len_dots.
    pose proof (str_slice_to_long _ _ Hmax Hlong) as Hcut.
    split; [intros k Hk; by apply lookup_set_item_ne|].
    unfold str_len at 1. rewrite Hcut.
    split; [lia|]. split; [lia|]. intros _.
    exists (str_slice_to (abstract_of r) max_abstract_length).
    split; [done|]. split; [|unfold str_len; rewrite Hcut; lia].
    rewrite points_str_slice_to. unfold slice_to.
    by rewrite (proj2 (Z.leb_le 0 max_abstract_length)).
  - apply Z.ltb_ge in Hlong. split; [done|]. split; [lia|].
    split; [done | lia].
Qed.

Lemma format_search_results_truncates_witness :
  ∃ formatted,
    format_search_results
      [[("id", VStr "1"); ("abstract", VStr "We report a screen.")];
       [("id", VStr "2")]] 9 = Ok formatted
    ∧ Forall2
        (λ r f,
           (∀ k, k ≠ "abstract" → lookup_key f k = lookup_key r k)
           ∧ Z.of_nat (str_len (abstract_of f)) ≤ 9 + 3
           ∧ (Z.of_nat (str_len (abstract_of r)) ≤ 9 → f = r)
           ∧ (9 < Z.of_nat (str_len (abstract_of r))
              → ∃ cut, abstract_of f = cut +:+ "..."
                       ∧ points cut
                         = take (Z.to_nat 9) (points (abstract_of r))
                       ∧ Z.of_nat (str_len cut) = 9))
        [[("id", VStr "1"); ("abstract", VStr "We report a screen.")];
         [("id", VStr "2")]] formatted.
Proof.
  apply (format_search_results_truncates
           [[("id", VStr "1"); ("abstract", VStr "We report a screen.")];
            [("id", VStr "2")]] 9).
  - lia.
  - repeat constructor.
Defined.

Example format_search_results_sample :
  format_search_results
    [[("id", VStr "1"); ("abstract", VStr "We report a screen.")];
     [("id", VStr "2")]] 9
  = Ok [[("id", VStr "1"); ("abstract", VStr "We report...")];
        [("id", VStr "2")]].
Proof. by vm_compute. Qed.

(** X2.  With a bound that is not negative, formatting what
    [format_search_results] returned changes nothing. *)
Theorem format_search_results_idempotent (results : list dict)
    (max_abstract_length : Z) :
  0 ≤ max_abstract_length →
  Forall abstract_typed results →
  ∃ formatted,
    format_search_results results max_abstract_length = Ok formatted
    ∧ format_search_results formatted max_abstract_length = Ok formatted.
Proof.
  intros Hmax Hty. eexists. split; [by apply format_search_results_shortens|].
  rewrite format_search_results_shortens.
  2:{ apply Forall_fmap. eapply Forall_impl; [exact Hty|].
      intros r Hr. by apply shorten_typed. }
  f_equal. rewrite <- list_fmap_compose. apply list_fmap_ext.
  intros i r _. by apply shorten_twice.
Qed.

Lemma format_search_results_idempotent_witness :
  ∃ formatted,
    format_search_results
      [[("id", VStr "1"); ("abstract", VStr "We report a screen.")]] 9
    = Ok formatted
    ∧ format_search_results formatted 9 = Ok formatted.
Proof.
  apply (format_search_results_idempotent
           [[("id", VStr "1"); ("abstract", VStr "We report a screen.")]] 9).
  - lia.
  - repeat constructor.
Defined.

(** The bound counts characters: an abstract of 31 characters in 35
    bytes fits a bound of 31, and a bound of 30 cuts it after the 30th
    character. *)
Example format_search_results_accents :
  format_search_results
    [[("abstract", VStr "Étude des protéines à l'échelle")]] 31
  = Ok [[("abstract", VStr "Étude des protéines à l'échelle")]]
  ∧ format_search_results
      [[("abstract", VStr "Étude des protéines à l'échelle")]] 30
    = Ok [[("abstract", VStr "Étude des protéines à l'échell...")]].
Proof. by vm_compute. Qed.

(** A negative bound cuts from the end, and a second pass cuts again. *)
Example format_search_results_negative_bound :
  format_search_results [[("id", VStr "2"); ("abstract", VStr "abcdef")]] (-1)
  = Ok [[("id", VStr "2"); ("abstract", VStr "abcde...")]]
  ∧ format_search_results
      [[("id", VStr "2"); ("abstract", VStr "abcde...")]] (-1)
    = Ok [[("id", VStr "2"); ("abstract", VStr "abcde.....")]].
Proof. by vm_compute. Qed.

End format_claims.

(** ** [helpers.py]: the merge, further *)

Section merge_invariants.
Import helpers MergeSpec.

Lemma seen_after_titles_mono l : ∀ ids titles,
  titles ⊆ (seen_after ids titles l).2.
Proof.
  induction l as [|r l IH]; intros ids titles; [done|].
  cbn [seen_after]. case_decide; [apply IH|].
  etrans; [apply (register_mono (norm_title r)) | apply IH].
Qed.

Lemma dedup_fresh_titles l : ∀ ids titles r,
  r ∈ dedup ids titles l → norm_title r ≠ "" → norm_title r ∉ titles.
Proof.
  induction l as [|x l IH]; intros ids titles r Hin Hne; [by inversion Hin|].
  cbn [dedup] in Hin. case_decide as Hdup; [by eapply IH|].
  apply elem_of_cons in Hin as [-> | Hin].
  - intros Hmem. apply Hdup. by right.
  - intros Hmem. eapply IH; [exact Hin | exact Hne |].
    by apply register_mono.
Qed.

(** A list whose head shares no key with its tail, and whose tail repeats
    none, repeats none. *)
Lemma no_shared_cons key r l :
  (∀ r', r' ∈ l → key r' ≠ "" → key r' ≠ key r) →
  no_shared key l → no_shared key (r :: l).
Proof.
  intros Hhead Htail [|i] [|j] x y Hi Hj Hne Heq; cbn in Hi, Hj.
  - done.
  - injection Hi as <-. exfalso.
    apply (Hhead y); [by eapply list_elem_of_lookup_2 | congruence | done].
  - injection Hj as <-. exfalso.
    apply (Hhead x); [by eapply list_elem_of_lookup_2 | done | done].
  - f_equal. by eapply Htail.
Qed.

Lemma dedup_no_shared l : ∀ ids titles,
  no_shared paper_id (dedup ids titles l)
  ∧ no_shared norm_title (dedup ids titles l).
Proof.
  induction l as [|r l IH]; intros ids titles.
  - split; intros i j x y Hi; by destruct i.
  - cbn [dedup]. case_decide as Hdup; [apply IH|].
    destruct (IH (register (paper_id r) ids)
                 (register (norm_title r) titles)) as [Hids Htitles].
    split; apply no_shared_cons; try done.
    + intros r' Hin Hne Heq.
      apply (dedup_fresh_ids _ _ _ _ Hin Hne).
      rewrite Heq. apply register_elem. congruence.
    + intros r' Hin Hne Heq.
      apply (dedup_fresh_titles _ _ _ _ Hin Hne).
      rewrite Heq. apply register_elem. congruence.
Qed.

Lemma sublist_Forall {A} (P : A → Prop) (l1 l2 : list A) :
  sublist l1 l2 → Forall P l2 → Forall P l1.
Proof.
  intros Hsub. rewrite !Forall_forall. intros H x Hx.
  apply H. by eapply elem_of_sublist.
Qed.

(** error behaviour *)
Lemma merge_result_mergeable st r :
  mergeable r → ∃ st', merge_result st r = Ok st'.
Proof.
  intros [Htitle Hid]. unfold merge_result.
  destruct (get r "title" (VStr "")) as [| | |t| |]; try done.
  cbn [str_lower]. rewrite bind_Ok.
  destruct (truthy (get r "id" (VStr ""))) eqn:Htruthy.
  - specialize (Hid I).
    destruct (hash_key (get r "id" (VStr ""))) as [k|e] eqn:Hk; [|done].
    unfold set_contains, set_add. rewrite Hk, !bind_Ok.
    case_bool_decide; [by eexists|].
    destruct (_ && _); by eexists.
  - rewrite bind_Ok. destruct (_ && _); by eexists.
Qed.

Lemma merge_result_not_mergeable st r :
  ¬ mergeable r →
  merge_result st r = Raise AttributeError
  ∨ merge_result st r = Raise TypeError.
Proof.
  intros Hnot. unfold merge_result.
  destruct (get r "title" (VStr "")) as [| | |t| |] eqn:Htitle;
    try (by left).
  cbn [str_lower]. rewrite bind_Ok. right.
  destruct (truthy (get r "id" (VStr ""))) eqn:Htruthy.
  2:{ exfalso. apply Hnot. split; [by rewrite Htitle|].
      by rewrite Htruthy. }
  destruct (hash_key (get r "id" (VStr ""))) as [k|e] eqn:Hk.
  { exfalso. apply Hnot. split; [by rewrite Htitle|]. by rewrite Hk. }
  unfold set_contains. rewrite Hk.
  destruct (get r "id" (VStr "")); cbn in Hk; by simplify_eq.
Qed.

Lemma for_each_merge_raises rs : ∀ st,
  (Forall mergeable rs → ∃ st', for_each merge_result st rs = Ok st')
  ∧ (¬ Forall mergeable rs →
     for_each merge_result st rs = Raise AttributeError
     ∨ for_each merge_result st rs = Raise TypeError).
Proof.
  induction rs as [|r rs IH]; intros st.
  - split; [by eexists | intros H; by destruct H].
  - cbn [for_each]. destruct (decide (mergeable r)) as [Hr|Hr].
    + destruct (merge_result_mergeable st r Hr) as [st1 ->].
      rewrite bind_Ok. destruct (IH st1) as [Hok Hraise]. split.
      * intros H. apply Forall_cons in H as [_ H]. by apply Hok.
      * intros H. apply Hraise. intros Hrs. apply H. by constructor.
    + split; [intros H; apply Forall_cons in H as [? _]; done|].
      intros _. destruct (merge_result_not_mergeable st r Hr) as [-> | ->];
        [by left | by right].
Qed.

End merge_invariants.

(** ** [helpers.py]: invariants of the merge *)

Section merge_invariant_claims.
Import helpers MergeSpec.

(** X3.  On records whose id and title are strings, the merged output
    holds no two records with the same non-empty id and no two records
    with the same non-empty normalized title. *)
Theorem merge_output_unique (results_dict : list (string * list dict)) :
  Forall paper_typed (mjoin results_dict.*2) →
  ∃ out, merge_results_from_sources results_dict = Ok out
         ∧ no_shared paper_id out ∧ no_shared norm_title out.
Proof.
  intros Hty. exists (merge results_dict).
  split; [by apply merge_refines|]. apply dedup_no_shared.
Qed.

Lemma merge_output_unique_witness :
  ∃ out, merge_results_from_sources
           [("pubmed", [paperA1; paperB1]); ("arxiv", [paperA2; paperB2])]
         = Ok out
         ∧ no_shared paper_id out ∧ no_shared norm_title out.
Proof.
  apply (merge_output_unique
           [("pubmed", [paperA1; paperB1]); ("arxiv", [paperA2; paperB2])]).
  repeat constructor.
Defined.

(** X4.  On records whose id and title are strings, the merged output is
    a sub-sequence of the lists put end to end in mapping order: no record
    is invented, changed or moved; and the first record read is always
    kept. *)
Theorem merge_output_subsequence (results_dict : list (string * list dict)) :
  Forall paper_typed (mjoin results_dict.*2) →
  ∃ out, merge_results_from_sources results_dict = Ok out
         ∧ sublist out (mjoin results_dict.*2)
         ∧ head out = head (mjoin results_dict.*2).
Proof.
  intros Hty. exists (merge results_dict).
  split; [by apply merge_refines|]. split; [apply dedup_sublist|].
  unfold merge. destruct (mjoin results_dict.*2) as [|r l]; [done|].
  cbn [dedup]. rewrite decide_False; [done|].
  intros [[_ H]|[_ H]]; set_solver.
Qed.

Lemma merge_output_subsequence_witness :
  ∃ out, merge_results_from_sources
           [("pubmed", [paperA1; paperB1]); ("arxiv", [paperA2; paperB2])]
         = Ok out
         ∧ sublist out [paperA1; paperB1; paperA2; paperB2]
         ∧ head out = Some paperA1.
Proof.
  apply (merge_output_subsequence
           [("pubmed", [paperA1; paperB1]); ("arxiv", [paperA2; paperB2])]).
  repeat constructor.
Defined.

(** X5.  Merging is idempotent: the merged output, merged again as the
    list of one source, comes back as it is. *)
Theorem merge_idempotent (results_dict : list (string * list dict))
    (source : string) :
  Forall paper_typed (mjoin results_dict.*2) →
  ∃ out, merge_results_from_sources results_dict = Ok out
         ∧ merge_results_from_sources [(source, out)] = Ok out.
Proof.
  intros Hty. exists (merge results_dict).
  split; [by apply merge_refines|].
  rewrite merge_refines.
  2:{ cbn. rewrite app_nil_r.
      eapply sublist_Forall; [apply dedup_sublist | exact Hty]. }
  f_equal. unfold merge at 1. cbn. rewrite app_nil_r.
  destruct (dedup_no_shared (mjoin results_dict.*2) ∅ ∅) as [Hids Htitles].
  apply dedup_id; try done; set_solver.
Qed.

Lemma merge_idempotent_witness :
  ∃ out, merge_results_from_sources
           [("pubmed", [paperA1; paperB1]); ("arxiv", [paperA2; paperB2])]
         = Ok out
         ∧ merge_results_from_sources [("merged", out)] = Ok out.
Proof.
  apply (merge_idempotent
           [("pubmed", [paperA1; paperB1]); ("arxiv", [paperA2; paperB2])]).
  repeat constructor.
Defined.

(** X6.  When the merge raises.  It returns a list exactly when every
    record has a string for a title (an absent one counts as empty) and an
    id that is empty or can be hashed; one record with another title, or
    with a non-empty list or dictionary for an id, makes the whole merge
    raise, [AttributeError] or [TypeError], whatever the other records
    are. *)
Theorem merge_error_behaviour (results_dict : list (string * list dict)) :
  (Forall mergeable (mjoin results_dict.*2) →
   ∃ out, merge_results_from_sources results_dict = Ok out)
  ∧ (¬ Forall mergeable (mjoin results_dict.*2) →
     merge_results_from_sources results_dict = Raise AttributeError
     ∨ merge_results_from_sources results_dict = Raise TypeError).
Proof.
  unfold merge_results_from_sources.
  rewrite (for_each_nested merge_result).
  destruct (for_each_merge_raises (mjoin results_dict.*2) (MergeState [] ∅ ∅))
    as [Hok Hraise].
  split.
  - intros H. destruct (Hok H) as [st' ->]. by eexists.
  - intros H. destruct (Hraise H) as [-> | ->]; [by left | by right].
Qed.

Lemma merge_error_behaviour_witness :
  (∃ out, merge_results_from_sources
            [("pubmed", [[("id", VInt 7); ("title", VStr "Min Cut")]])]
          = Ok out)
  ∧ (merge_results_from_sources
       [("pubmed", [paperA1]);
        ("semantic_scholar", [[("id", VStr "p2"); ("title", VNone)]])]
     = Raise AttributeError
     ∨ merge_results_from_sources
         [("pubmed", [paperA1]);
          ("semantic_scholar", [[("id", VStr "p2"); ("title", VNone)]])]
       = Raise TypeError).
Proof.
  split.
  - apply (merge_error_behaviour
             [("pubmed", [[("id", VInt 7); ("title", VStr "Min Cut")]])]).
    repeat constructor.
  - apply (merge_error_behaviour
             [("pubmed", [paperA1]);
              ("semantic_scholar", [[("id", VStr "p2"); ("title", VNone)]])]).
    intros H. apply Forall_cons in H as [_ H].
    apply Forall_cons in H as [[H _] _]. exact H.
Defined.

End merge_invariant_claims.

(** ** [arxiv_adapter.py]: the date filter and the parser, lemmas *)

Section arxiv_tools.
Import arxiv_adapter.

Lemma map_res_Forall2 {A B} (f : A → res B) l l' :
  map_res f l = Ok l' → Forall2 (λ x y, f x = Ok y) l l'.
Proof.
  revert l'. induction l as [|x l IH]; intros l' H; cbn in H.
  - injection H as <-. constructor.
  - apply bind_res_Ok in H as (y & Hy & H).
    apply bind_res_Ok in H as (ys & Hys & H). injection H as <-.
    constructor; [done | by apply IH].
Qed.

Lemma map_res_Exists {A B} (f : A → res B) l :
  Exists (λ x, is_ok (f x) = false) l → is_ok (map_res f l) = false.
Proof.
  induction 1 as [x l Hx | x l _ IH]; cbn.
  - by destruct (f x).
  - destruct (f x); [|done]. cbn. by destruct (map_res f l).
Qed.

(** The window of [_filter_by_date], one record at a time. *)
Lemma filter_by_date_filter results start_date end_date :
  date_bound start_date → date_bound end_date →
  Forall dated results →
  _filter_by_date results start_date end_date
  = Ok (filter (in_window start_date end_date) results).
Proof.
  intros Hs He Hty. unfold _filter_by_date.
  match goal with |- context [for_each ?b _ _] => set (body := b) end.
  assert (Hstep : ∀ filtered r,
             dated r →
             body filtered r
             = Ok (filtered ++ filter (in_window start_date end_date) [r])).
  { intros acc r Hr. subst body. cbn beta zeta.
    unfold dated in Hr. rewrite filter_cons, filter_nil.
    destruct (get r "publication_date" (VStr "")) as [| | |d| |] eqn:Hd;
      try done.
    assert (Hearly : (if truthy start_date then py_lt (VStr d) start_date
                      else Ok false)
                     = Ok (truthy start_date
                           && String.ltb d (as_str start_date))).
    { destruct Hs as [-> | Hs]; [done|].
      destruct start_date as [| | |s| |]; try done.
      cbn [py_lt as_str]. by destruct (truthy (VStr s)). }
    assert (Hlate : (if truthy end_date then py_lt end_date (VStr d)
                     else Ok false)
                    = Ok (truthy end_date
                          && String.ltb (as_str end_date) d)).
    { destruct He as [-> | He]; [done|].
      destruct end_date as [| | |e| |]; try done.
      cbn [py_lt as_str]. by destruct (truthy (VStr e)). }
    rewrite Hearly, bind_Ok.
    assert (Hw : in_window start_date end_date r
                 ↔ (truthy start_date && String.ltb d (as_str start_date)
                    = false)
                   ∧ (truthy end_date && String.ltb (as_str end_date) d
                      = false)).
    { unfold in_window. cbn zeta. rewrite Hd. cbn [as_str].
      destruct (truthy start_date), (truthy end_date),
        (String.ltb d (as_str start_date)), (String.ltb (as_str end_date) d);
        cbn; intuition congruence. }
    destruct (truthy start_date && _) eqn:E1.
    - rewrite decide_False; [by rewrite app_nil_r|]. rewrite Hw. by intros [? _].
    - rewrite Hlate, bind_Ok. destruct (truthy end_date && _) eqn:E2.
      + rewrite decide_False; [by rewrite app_nil_r|]. rewrite Hw.
        by intros [_ ?].
      + rewrite decide_True; [done|]. by rewrite Hw. }
  clearbody body.
  enough (H : ∀ acc, for_each body acc results
                     = Ok (acc ++ filter (in_window start_date end_date) results))
    by apply (H []).
  induction results as [|r results IH]; intros acc.
  - cbn. by rewrite app_nil_r.
  - apply Forall_cons in Hty as [Hr Hty]. cbn [for_each].
    rewrite Hstep, bind_Ok, IH by done.
    rewrite <- app_assoc. f_equal. f_equal.
    by rewrite (filter_app _ [r] results).
Qed.

End arxiv_tools.

Section arxiv_metadata.
Import arxiv_adapter.

Lemma parse_arxiv_response_entries xml_text w tr :
  ∃ results,
    _parse_arxiv_response xml_text w tr = (Ok results, tr)
    ∧ (results = []
       ∨ ∃ root, fromstring w xml_text = Ok root
                 ∧ Forall2 (λ entry r, parse_entry entry = Ok r)
                     (findall root (atom "entry")) results)
    ∧ Forall conforms results.
Proof.
  unfold _parse_arxiv_response. run_M.
  destruct (fromstring w xml_text) as [root|e];
    [|eexists; split; [done|]; split; [by left | constructor]].
  destruct (map_res _ _) as [results|e] eqn:E;
    [|eexists; split; [done|]; split; [by left | constructor]].
  apply map_res_Forall2 in E.
  exists results. split; [done|]. split; [right; by exists root|].
  apply Forall_forall. intros r Hr.
  apply list_elem_of_lookup in Hr as [i Hi].
  destruct (Forall2_lookup_r _ _ _ i r E Hi) as (entry & _ & Hentry).
  by apply arxiv_entry_conforms in Hentry as [_ ?].
Qed.

Lemma parse_arxiv_response_unparsed xml_text w tr :
  is_ok (fromstring w xml_text) = false →
  _parse_arxiv_response xml_text w tr = (Ok [], tr).
Proof.
  intros H. unfold _parse_arxiv_response. run_M.
  by destruct (fromstring w xml_text).
Qed.

Lemma parse_arxiv_response_fails xml_text w tr root :
  fromstring w xml_text = Ok root →
  Exists (λ entry, is_ok (parse_entry entry) = false)
    (findall root (atom "entry")) →
  _parse_arxiv_response xml_text w tr = (Ok [], tr).
Proof.
  intros Hroot Hbad. unfold _parse_arxiv_response. run_M. rewrite Hroot.
  apply map_res_Exists in Hbad. by destruct (map_res _ _).
Qed.

End arxiv_metadata.

(** ** [arxiv_adapter.py]: the date filter and the parser *)

Section arxiv_claims.
Import arxiv_adapter.

(** X7.  [_filter_by_date], with bounds that are strings or [None] and
    records whose publication date is a string: it keeps, in order, exactly
    the records that are not before the start date given and not after the
    end date given, as strings compare; a bound that is [None] or empty
    bounds nothing; and filtering the result again changes nothing. *)
Theorem filter_by_date_window (results : list dict)
    (start_date end_date : value) :
  date_bound start_date → date_bound end_date →
  Forall dated results →
  ∃ filtered,
    _filter_by_date results start_date end_date = Ok filtered
    ∧ sublist filtered results
    ∧ (∀ r, r ∈ filtered ↔ r ∈ results ∧ in_window start_date end_date r)
    ∧ _filter_by_date filtered start_date end_date = Ok filtered.
Proof.
  intros Hs He Hty. eexists. split; [by apply filter_by_date_filter|].
  split; [apply sublist_filter|].
  split; [intros r; rewrite list_elem_of_filter; tauto|].
  rewrite filter_by_date_filter; try done.
  - f_equal. apply list_filter_filter_l. tauto.
  - eapply sublist_Forall; [apply sublist_filter | done].
Qed.

Lemma filter_by_date_window_witness :
  ∃ filtered,
    _filter_by_date
      [[("id", VStr "1"); ("publication_date", VStr "2023-01-01")];
       [("id", VStr "2"); ("publication_date", VStr "2024-03-05")]]
      (VStr "2024-01-01") VNone = Ok filtered
    ∧ sublist filtered
        [[("id", VStr "1"); ("publication_date", VStr "2023-01-01")];
         [("id", VStr "2"); ("publication_date", VStr "2024-03-05")]]
    ∧ (∀ r, r ∈ filtered
            ↔ r ∈ [[("id", VStr "1"); ("publication_date", VStr "2023-01-01")];
                   [("id", VStr "2"); ("publication_date", VStr "2024-03-05")]]
              ∧ in_window (VStr "2024-01-01") VNone r)
    ∧ _filter_by_date filtered (VStr "2024-01-01") VNone = Ok filtered.
Proof.
  apply (filter_by_date_window
           [[("id", VStr "1"); ("publication_date", VStr "2023-01-01")];
            [("id", VStr "2"); ("publication_date", VStr "2024-03-05")]]
           (VStr "2024-01-01") VNone).
  - right. exact I.
  - left. reflexivity.
  - repeat constructor.
Defined.

(** The comparison is that of strings: a bound written without the
    leading zero of its month excludes a later date. *)
Example filter_by_date_compares_strings :
  _filter_by_date [[("id", VStr "1"); ("publication_date", VStr "2023-12-31")]]
    (VStr "2023-2-01") VNone
  = Ok [].
Proof. by vm_compute. Qed.

(** X8.  [_parse_arxiv_response] never raises and calls nothing.  Its
    result is all or nothing: either the empty list, or one record per
    entry of the feed, in the order of the feed; every field of such a
    record is a string.  As soon as one entry does not parse (an element
    without text among id, title, summary, published or an author's name)
    the whole feed is dropped. *)
Theorem parse_arxiv_response_all_or_nothing (xml_text : string) (w : env)
    (tr : list call) :
  ∃ results,
    _parse_arxiv_response xml_text w tr = (Ok results, tr)
    ∧ (results = []
       ∨ ∃ root, fromstring w xml_text = Ok root
                 ∧ Forall2 (λ entry r, parse_entry entry = Ok r)
                     (findall root (atom "entry")) results)
    ∧ Forall conforms results
    ∧ (∀ root,
         fromstring w xml_text = Ok root →
         Exists (λ entry, is_ok (parse_entry entry) = false)
           (findall root (atom "entry")) →
         results = []).
Proof.
  destruct (parse_arxiv_response_entries xml_text w tr)
    as (results & Hrun & Hres & Hconf).
  exists results. split; [done|]. split; [done|]. split; [done|].
  intros root Hroot Hbad.
  rewrite (parse_arxiv_response_fails _ _ _ _ Hroot Hbad) in Hrun.
  by injection Hrun as <-.
Qed.

(** A feed of two entries: both are returned; with the summary of the
    second left empty, none is. *)
Example parse_arxiv_response_sample :
  length (returned (search_by_keywords "cuts" 5
                      (arxiv_world (leaf "summary" "Two.")) [])) = 2%nat
  ∧ returned (search_by_keywords "cuts" 5
                (arxiv_world (Element (atom "summary") [] None [])) []) = [].
Proof. by vm_compute. Qed.

End arxiv_claims.

(** ** The metadata lookups, lemmas *)

Ltac run_T :=
  unfold mbind, Tool_bind, mret, Tool_ret, net, tool_try, tool_out, tool_ask,
    tool_thread in *;
  cbn beta iota.

Section metadata.

Lemma error_shaped_metadata d : error_shaped d → metadata_shaped d.
Proof. intros [msg ->]. by left. Qed.

Lemma conforms_core r : conforms r → has_core_fields r.
Proof.
  unfold conforms, has_core_fields. intros H.
  eapply Forall_impl; [exact H|].
  intros k. unfold field_typed, has_key. by destruct (lookup_key r k).
Qed.

Lemma arxiv_get_metadata_run identifier w tr :
  ∃ metadata,
    arxiv_adapter.get_metadata identifier w tr
    = (Ok metadata,
       tr ++ [RequestsGet arxiv_adapter.base_url
                [("id_list", VStr (arxiv_adapter.clean_id identifier));
                 ("max_results", VInt 1)]])
    ∧ (error_shaped metadata ∨ conforms metadata)
    ∧ (request_failed (feed_parses w)
         (requests_get w tr arxiv_adapter.base_url
            [("id_list", VStr (arxiv_adapter.clean_id identifier));
             ("max_results", VInt 1)])
       → error_shaped metadata).
Proof.
  unfold arxiv_adapter.get_metadata. run_M.
  destruct (requests_get w tr _ _) as [resp|e] eqn:Hresp;
    [|eexists; split; [done|]; split; [left|intros _]; by eexists].
  destruct (status_code resp =? 200) eqn:Hstatus; cbn [negb];
    [|eexists; split; [done|]; split; [left|intros _]; by eexists].
  set (tr1 := tr ++ _).
  destruct (parse_arxiv_response_entries (text_body resp) w tr1)
    as (results & Hrun & Hres & Hconf).
  rewrite Hrun. destruct results as [|result results].
  - eexists; split; [done|]; split; [left|intros _]; by eexists.
  - exists result. split; [done|]. apply Forall_cons in Hconf as [Hconf _].
    split; [by right|]. cbn [request_failed]. intros [H | H].
    + apply Z.eqb_eq in Hstatus. done.
    + unfold feed_parses in H.
      by rewrite (parse_arxiv_response_unparsed _ _ _ H) in Hrun.
Qed.

Lemma bind_M_Ok {A B} (m : M A) (f : A → M B) w tr b tr' :
  (m ≫= f) w tr = (Ok b, tr') →
  ∃ a tr1, m w tr = (Ok a, tr1) ∧ f a w tr1 = (Ok b, tr').
Proof.
  unfold mbind, M_bind. destruct (m w tr) as [[a|e] tr1]; [|done].
  intros H. by exists a, tr1.
Qed.

Lemma bind_lift_Ok {A B} (r : res A) (f : A → M B) w tr b tr' :
  (lift r ≫= f) w tr = (Ok b, tr') →
  ∃ a, r = Ok a ∧ f a w tr = (Ok b, tr').
Proof.
  unfold mbind, M_bind, lift. destruct r as [a|e]; [|done].
  intros H. by exists a.
Qed.

Lemma lift_Ok {A} (r : res A) w tr a tr' :
  lift r w tr = (Ok a, tr') → r = Ok a ∧ tr' = tr.
Proof. unfold lift. by intros [= -> ->]. Qed.

Lemma try_except_case {A} (P : res A * list call → Prop) body handler w tr :
  (∀ a tr', body w tr = (Ok a, tr') → P (Ok a, tr')) →
  (∀ e tr', body w tr = (Raise e, tr') → P (handler e w tr')) →
  P (try_except body handler w tr).
Proof.
  intros Hok Hraise. unfold try_except.
  destruct (body w tr) as [[a|e] tr'] eqn:E; [by apply Hok | by apply Hraise].
Qed.

Lemma biorxiv_get_metadata_run server identifier w tr :
  ∃ metadata,
    biorxiv_adapter.get_metadata server identifier w tr
    = (Ok metadata,
       tr ++ [RequestsGet
                (biorxiv_adapter.base_url +:+ "/details/" +:+ server +:+ "/"
                 +:+ replace "10.1101/" "" identifier) []])
    ∧ (error_shaped metadata
       ∨ ∃ item,
           biorxiv_adapter._format_biorxiv_result w server item = Ok metadata).
Proof.
  unfold biorxiv_adapter.get_metadata. run_M.
  destruct (requests_get w tr _ _) as [resp|e] eqn:Hresp;
    [|eexists; split; [done|]; left; by eexists].
  destruct (status_code resp =? 200) eqn:Hstatus; cbn [negb];
    [|eexists; split; [done|]; left; by eexists].
  destruct (json resp) as [data|e];
    [|eexists; split; [done|]; left; by eexists].
  destruct (py_get data "collection" (VList [])) as [collection|e];
    [|eexists; split; [done|]; left; by eexists].
  destruct (truthy collection);
    [|eexists; split; [done|]; left; by eexists].
  destruct (subscript_idx collection 0) as [item|e];
    [|eexists; split; [done|]; left; by eexists].
  destruct (biorxiv_adapter._format_biorxiv_result w server item)
    as [metadata|e] eqn:Hfmt;
    [|eexists; split; [done|]; left; by eexists].
  exists metadata. split; [done|]. right. by exists item.
Qed.

Lemma semantic_format_no_error w paper r :
  semantic_scholar_adapter._format_semantic_result w paper = Ok r →
  has_key r "error" = false
  ∧ ∃ v, lookup_key r "id" = Some v ∧ lookup_key r "pdf_url" ≠ None.
Proof.
  unfold semantic_scholar_adapter._format_semantic_result.
  intros H. repeat (apply bind_res_Ok in H as (? & _ & H)).
  injection H as <-. split; [done|]. by eexists.
Qed.

Lemma semantic_get_metadata_run identifier w tr :
  ∃ metadata,
    semantic_scholar_adapter.get_metadata identifier w tr
    = (Ok metadata,
       tr ++ [RequestsGet
                (semantic_scholar_adapter.base_url +:+ "/paper/" +:+ identifier)
                [("fields", VStr "paperId,title,abstract,authors,year,venue,url,openAccessPdf,citationCount,referenceCount")]])
    ∧ (error_shaped metadata
       ∨ ∃ paper,
           semantic_scholar_adapter._format_semantic_result w paper
           = Ok metadata).
Proof.
  unfold semantic_scholar_adapter.get_metadata. run_M.
  destruct (requests_get w tr _ _) as [resp|e] eqn:Hresp;
    [|eexists; split; [done|]; left; by eexists].
  destruct (status_code resp =? 200) eqn:Hstatus; cbn [negb];
    [|eexists; split; [done|]; left; by eexists].
  destruct (json resp) as [paper|e];
    [|eexists; split; [done|]; left; by eexists].
  destruct (semantic_scholar_adapter._format_semantic_result w paper)
    as [metadata|e] eqn:Hfmt;
    [|eexists; split; [done|]; left; by eexists].
  exists metadata. split; [done|]. right. by exists paper.
Qed.

(** A record of the Sci-Hub adapter for [identifier]. *)
Lemma scihub_get_metadata_run identifier w tr :
  ∃ metadata tr',
    scihub_adapter.get_metadata identifier w tr = (Ok metadata, tr')
    ∧ (error_shaped metadata
       ∨ (has_core_fields metadata
          ∧ lookup_key metadata "id" = Some identifier
          ∧ lookup_key metadata "source" = Some (VStr "scihub")))
    ∧ (scihub_available w = false →
       tr' = tr ∧ metadata = [("error", VStr "Sci-Hub library not available")]).
Proof.
  unfold scihub_adapter.get_metadata.
  unfold mbind at 1, M_bind at 1, ask at 1.
  destruct (scihub_available w) eqn:Havail; cbn [negb].
  2:{ eexists _, _. split; [done|]. split; [left; by eexists | done]. }
  apply (try_except_case
           (λ run, ∃ metadata tr',
              run = (Ok metadata, tr')
              ∧ (error_shaped metadata
                 ∨ (has_core_fields metadata
                    ∧ lookup_key metadata "id" = Some identifier
                    ∧ lookup_key metadata "source" = Some (VStr "scihub")))
              ∧ (true = false → _))).
  2:{ intros e tr' _. eexists _, _. split; [done|].
      split; [left; by eexists | done]. }
  intros metadata tr' H. exists metadata, tr'. split; [done|].
  split; [|done].
  apply bind_M_Ok in H as (result & tr1 & _ & H).
  destruct (truthy result); [|injection H as <- _; left; by eexists].
  apply bind_M_Ok in H as (resp & tr2 & _ & H).
  destruct (status_code resp =? 200); [|injection H as <- _; left; by eexists].
  repeat (apply bind_lift_Ok in H as (? & _ & H)).
  injection H as <- _. right. split; [repeat constructor | done].
Qed.

Lemma pubmed_format_shaped w pubmed_result :
  metadata_shaped (pubmed_adapter._format_result w pubmed_result).
Proof.
  destruct (has_key pubmed_result "error") eqn:E.
  - left. unfold pubmed_adapter._format_result. by rewrite E.
  - right. by apply pubmed_format_core_fields.
Qed.

Lemma pubmed_get_metadata_run identifier t ef w tr :
  ∃ metadata,
    pubmed_adapter.get_metadata identifier t ef w tr
    = (Ok metadata, ef ++ [GetPubmedMetadata identifier], tr)
    ∧ metadata_shaped metadata.
Proof.
  unfold pubmed_adapter.get_metadata. run_T. unfold ask.
  destruct (get_pubmed_metadata t ef identifier) as [[[|field fields]|]|e];
    eexists; (split; [done|]);
    try (left; done).
  apply pubmed_format_shaped.
Qed.

Lemma tools_get_metadata_shaped a identifier t ef w tr :
  a ∈ all_tools →
  ∃ metadata ef' tr',
    get_metadata a identifier t ef w tr = (Ok metadata, ef', tr')
    ∧ metadata_shaped metadata.
Proof.
  unfold all_tools. rewrite !elem_of_cons, elem_of_nil.
  intros [-> | [-> | [-> | [-> | [-> | [-> | []]]]]]]; cbn [get_metadata
    pubmed_adapter.PubMedTools biorxiv_adapter.BioRxivTools
    arxiv_adapter.ArXivTools semantic_scholar_adapter.SemanticScholarTools
    scihub_adapter.SciHubTools]; unfold net.
  - destruct (pubmed_get_metadata_run identifier t ef w tr) as (m & -> & H).
    by eexists _, _, _.
  - destruct (biorxiv_get_metadata_run "biorxiv" identifier w tr)
      as (m & -> & [H | [item H]]); eexists _, _, _; (split; [done|]).
    + by apply error_shaped_metadata.
    + right. by eapply biorxiv_format_core_fields.
  - destruct (biorxiv_get_metadata_run "medrxiv" identifier w tr)
      as (m & -> & [H | [item H]]); eexists _, _, _; (split; [done|]).
    + by apply error_shaped_metadata.
    + right. by eapply biorxiv_format_core_fields.
  - destruct (arxiv_get_metadata_run identifier w tr)
      as (m & -> & [H | H] & _); eexists _, _, _; (split; [done|]).
    + by apply error_shaped_metadata.
    + right. by apply conforms_core.
  - destruct (semantic_get_metadata_run identifier w tr)
      as (m & -> & [H | [paper H]]); eexists _, _, _; (split; [done|]).
    + by apply error_shaped_metadata.
    + right. by eapply semantic_format_core_fields.
  - destruct (scihub_get_metadata_run (VStr identifier) w tr)
      as (m & tr' & -> & [H | [H _]] & _); eexists _, _, _; (split; [done|]).
    + by apply error_shaped_metadata.
    + by right.
Qed.

End metadata.

(** ** The searches, lemmas *)

Section provenance.

(** An invariant of a loop that collects records. *)
Lemma for_each_Forall {A B} (Q : A → Prop) (P : B → Prop)
    (body : list B → A → res (list B)) (l : list A) :
  (∀ acc x acc',
     Q x → Forall P acc → body acc x = Ok acc' → Forall P acc') →
  Forall Q l →
  ∀ acc acc', Forall P acc → for_each body acc l = Ok acc' → Forall P acc'.
Proof.
  intros Hbody HQ. induction HQ as [|x l Hx _ IH]; intros acc acc' Hacc H;
    cbn in H.
  - by injection H as <-.
  - apply bind_res_Ok in H as (acc1 & H1 & H). eapply IH; [|exact H].
    by eapply Hbody.
Qed.

Lemma for_keep_Forall {A B} (P : B → Prop) (body : list B → A → M (list B))
    (l : list A) :
  (∀ acc x w tr acc' tr',
     Forall P acc → body acc x w tr = (Ok acc', tr') → Forall P acc') →
  ∀ acc w tr acc' tr',
    Forall P acc → for_keep body acc l w tr = (Ok acc', tr') → Forall P acc'.
Proof.
  intros Hbody. induction l as [|x l IH]; intros acc w tr acc' tr' Hacc H;
    cbn [for_keep] in H.
  - by injection H as <- _.
  - destruct (body acc x w tr) as [[acc1|e] tr1] eqn:E.
    + eapply IH; [|exact H]. by eapply Hbody.
    + by injection H as <- _.
Qed.

Lemma map_res_Forall {A B} (P : B → Prop) (f : A → res B) l l' :
  (∀ x y, f x = Ok y → P y) → map_res f l = Ok l' → Forall P l'.
Proof.
  intros Hf H. apply map_res_Forall2 in H.
  induction H; constructor; eauto.
Qed.

(** *** arXiv *)

Lemma parse_entry_tagged entry r :
  arxiv_adapter.parse_entry entry = Ok r → tagged "arxiv" r.
Proof.
  unfold arxiv_adapter.parse_entry.
  intros H. repeat (apply bind_res_Ok in H as (? & _ & H)).
  injection H as <-. by right.
Qed.

Lemma parse_arxiv_response_tagged xml_text w tr :
  ∃ results,
    arxiv_adapter._parse_arxiv_response xml_text w tr = (Ok results, tr)
    ∧ Forall (tagged "arxiv") results.
Proof.
  unfold arxiv_adapter._parse_arxiv_response. run_M.
  destruct (fromstring w xml_text) as [root|e];
    [|eexists; split; [done | constructor]].
  destruct (map_res _ _) as [results|e] eqn:E;
    [|eexists; split; [done | constructor]].
  exists results. split; [done|].
  eapply map_res_Forall; [|exact E]. apply parse_entry_tagged.
Qed.

Lemma filter_by_date_Forall (P : dict → Prop) results start_date end_date
    filtered :
  Forall P results →
  arxiv_adapter._filter_by_date results start_date end_date = Ok filtered →
  Forall P filtered.
Proof.
  intros Hres H. unfold arxiv_adapter._filter_by_date in H.
  eapply (for_each_Forall P P); [|exact Hres| |exact H]; [|constructor].
  clear. intros acc r acc' Hr Hacc H. cbn beta zeta in H.
  apply bind_res_Ok in H as ([|] & _ & H); [by injection H as <-|].
  apply bind_res_Ok in H as ([|] & _ & H); injection H as <-; [done|].
  apply Forall_app. split; [done | by constructor].
Qed.

Lemma arxiv_keywords_tagged keywords num_results w tr :
  Forall (tagged "arxiv")
    (returned (arxiv_adapter.search_by_keywords keywords num_results w tr)).
Proof.
  unfold returned, arxiv_adapter.search_by_keywords. run_M.
  destruct (requests_get w tr _ _) as [resp|e]; [|constructor].
  destruct (negb (status_code resp =? 200)); [constructor|].
  match goal with
  | |- context [arxiv_adapter._parse_arxiv_response ?x w ?t] =>
      destruct (parse_arxiv_response_tagged x w t) as (results & -> & H)
  end.
  exact H.
Qed.

Lemma arxiv_advanced_tagged kwargs w tr :
  Forall (tagged "arxiv")
    (returned (arxiv_adapter.search_advanced kwargs w tr)).
Proof.
  unfold returned, arxiv_adapter.search_advanced. run_M.
  destruct (arxiv_adapter.add_part w kwargs "title" _ _) as [parts1|e];
    [|constructor].
  destruct (arxiv_adapter.add_part w kwargs "author" _ _) as [parts2|e];
    [|constructor].
  destruct (arxiv_adapter.add_part w kwargs "abstract" _ _) as [parts3|e];
    [|constructor].
  destruct (arxiv_adapter.add_part w kwargs "category" _ _) as [parts4|e];
    [|constructor].
  destruct (negb (truthy (VList parts4))
            && negb (truthy (get kwargs "term" VNone)));
    [constructor|].
  destruct (negb (truthy (VList parts4)));
    [destruct (arxiv_adapter.add_part w kwargs "term" "all:" parts4)
       as [parts|e]; [|constructor]
    |pose (parts := parts4)];
  (destruct (join "+AND+" _) as [search_query|e]; [|constructor]);
  (destruct (requests_get w tr _ _) as [resp|e]; [|constructor]);
  (destruct (negb (status_code resp =? 200)); [constructor|]);
  match goal with
  | |- context [arxiv_adapter._parse_arxiv_response ?x w ?t] =>
      destruct (parse_arxiv_response_tagged x w t) as (results & -> & H)
  end;
  (destruct (truthy (get kwargs "start_date" VNone)
             || truthy (get kwargs "end_date" VNone)); [|exact H]);
  (destruct (arxiv_adapter._filter_by_date results _ _)
     as [filtered|e] eqn:E; [|constructor]);
  by eapply filter_by_date_Forall.
Qed.

(** *** Semantic Scholar *)

Lemma semantic_format_tagged w paper r :
  semantic_scholar_adapter._format_semantic_result w paper = Ok r →
  tagged "semantic_scholar" r.
Proof.
  unfold semantic_scholar_adapter._format_semantic_result.
  intros H. repeat (apply bind_res_Ok in H as (? & _ & H)).
  injection H as <-. by right.
Qed.

Lemma semantic_keywords_tagged keywords num_results w tr :
  Forall (tagged "semantic_scholar")
    (returned (semantic_scholar_adapter.search_by_keywords keywords
                 num_results w tr)).
Proof.
  unfold returned, semantic_scholar_adapter.search_by_keywords. run_M.
  destruct (requests_get w tr _ _) as [resp|e]; [|constructor].
  destruct (negb (status_code resp =? 200)); [constructor|].
  destruct (json resp) as [data|e]; [|constructor].
  destruct (py_get data "data" (VList [])) as [papers|e]; [|constructor].
  destruct (py_iter papers) as [items|e]; [|constructor].
  destruct (map_res _ items) as [results|e] eqn:E; [|constructor].
  eapply map_res_Forall; [|exact E]. apply semantic_format_tagged.
Qed.

(** The records the advanced search returns are among those the
    formatter made, and passed the author filter when there is one. *)
Lemma semantic_advanced_Forall (P : dict → Prop) kwargs w tr :
  (∀ paper r,
     semantic_scholar_adapter._format_semantic_result w paper = Ok r →
     (∀ author_query,
        truthy (get kwargs "author" VNone) = true →
        str_lower (get kwargs "author" VNone) = Ok author_query →
        ∃ a, str_lower (get r "authors" (VStr "")) = Ok a
             ∧ contains author_query a = true) →
     P r) →
  Forall P (returned (semantic_scholar_adapter.search_advanced kwargs w tr)).
Proof.
  intros HP.
  unfold returned, semantic_scholar_adapter.search_advanced. run_M.
  destruct (negb (truthy (VList _))); [constructor|].
  destruct (join " " _) as [query|e]; [|constructor].
  destruct (as_int _) as [n|e]; [|constructor].
  destruct (requests_get w tr _ _) as [resp|e]; [|constructor].
  destruct (negb (status_code resp =? 200)); [constructor|].
  destruct (json resp) as [data|e]; [|constructor].
  destruct (py_get data "data" (VList [])) as [papers|e]; [|constructor].
  destruct (py_iter papers) as [items|e]; [|constructor].
  destruct (map_res _ items) as [results|e] eqn:E; [|constructor].
  assert (Hmade : Forall (λ r, ∃ paper,
                     semantic_scholar_adapter._format_semantic_result w paper
                     = Ok r) results).
  { eapply map_res_Forall; [|exact E]. intros x y Hxy. by exists x. }
  destruct (truthy (get kwargs "author" VNone)) eqn:Hauthor.
  - destruct (str_lower (get kwargs "author" VNone)) as [author_query|e]
      eqn:Hquery; [|constructor].
    destruct (for_each _ [] results) as [kept|e] eqn:Hkept; [|constructor].
    cbn. apply slice_to_Forall.
    eapply (for_each_Forall _ P); [|exact Hmade| |exact Hkept]; [|constructor].
    clear -HP Hquery. intros acc r acc' [paper Hr] Hacc H. cbn beta in H.
    apply bind_res_Ok in H as (a & Ha & H). injection H as <-.
    destruct (contains author_query a) eqn:Hc; [|done].
    apply Forall_app. split; [done|]. constructor; [|constructor].
    apply (HP paper r Hr). intros q _ Hq. exists a. split; [done|]. congruence.
  - cbn. apply slice_to_Forall.
    eapply Forall_impl; [exact Hmade|]. intros r [paper Hr].
    apply (HP paper r Hr). intros q Hq. done.
Qed.

Lemma semantic_advanced_tagged kwargs w tr :
  Forall (tagged "semantic_scholar")
    (returned (semantic_scholar_adapter.search_advanced kwargs w tr)).
Proof.
  apply semantic_advanced_Forall. intros paper r Hr _.
  by eapply semantic_format_tagged.
Qed.

(** *** PubMed *)

Lemma pubmed_format_tagged w pubmed_result :
  tagged "pubmed" (pubmed_adapter._format_result w pubmed_result).
Proof.
  unfold pubmed_adapter._format_result.
  destruct (has_key pubmed_result "error") eqn:E; [by left | by right].
Qed.

Lemma pubmed_keywords_tagged keywords num_results w tr :
  Forall (tagged "pubmed")
    (returned (pubmed_adapter.search_by_keywords keywords num_results w tr)).
Proof.
  unfold returned, pubmed_adapter.search_by_keywords. run_M.
  destruct (pubmed_search_key_words w tr keywords num_results) as [results|e];
    [|constructor].
  cbn. apply Forall_fmap, Forall_forall. intros r _.
  apply pubmed_format_tagged.
Qed.

Lemma pubmed_advanced_tagged kwargs w tr :
  Forall (tagged "pubmed")
    (returned (pubmed_adapter.search_advanced kwargs w tr)).
Proof.
  unfold returned, pubmed_adapter.search_advanced. run_M.
  destruct (pubmed_search_advanced w tr _) as [results|e]; [|constructor].
  cbn. apply Forall_fmap, Forall_forall. intros r _.
  apply pubmed_format_tagged.
Qed.

(** *** bioRxiv and medRxiv *)

Lemma biorxiv_format_tagged w server item r :
  biorxiv_adapter._format_biorxiv_result w server item = Ok r →
  tagged server r.
Proof.
  unfold biorxiv_adapter._format_biorxiv_result.
  destruct item; try done. cbn. intros [= <-]. by right.
Qed.

Lemma biorxiv_keywords_tagged server keywords num_results w tr :
  Forall (tagged server)
    (returned (biorxiv_adapter.search_by_keywords server keywords num_results
                 w tr)).
Proof.
  unfold returned, biorxiv_adapter.search_by_keywords.
  unfold mbind, M_bind.
  destruct (biorxiv_adapter.scan_by_keywords _ _ _ _ w tr)
    as [[[results|]|e] tr'] eqn:E; cbn; try constructor.
  apply scan_by_keywords_matches in E.
  eapply Forall_impl; [exact E|].
  intros r (item & _ & _ & _ & _ & _ & Hr). by eapply biorxiv_format_tagged.
Qed.

Lemma biorxiv_advanced_tagged server kwargs w tr :
  Forall (tagged server)
    (returned (biorxiv_adapter.search_advanced server kwargs w tr)).
Proof.
  unfold returned, biorxiv_adapter.search_advanced.
  unfold mbind, M_bind.
  destruct (biorxiv_adapter.scan_advanced _ _ _ w tr)
    as [[[results|]|e] tr'] eqn:E; cbn; try constructor.
  apply scan_advanced_matches in E.
  eapply Forall_impl; [exact E|].
  intros r (item & _ & _ & _ & _ & _ & _ & Hr).
  by eapply biorxiv_format_tagged.
Qed.

(** *** Sci-Hub *)

Lemma resolve_item_tagged papers item w tr papers' tr' :
  Forall (tagged "scihub") papers →
  scihub_adapter.resolve_item papers item w tr = (Ok papers', tr') →
  Forall (tagged "scihub") papers'.
Proof.
  intros Hpapers H. unfold scihub_adapter.resolve_item in H.
  apply bind_lift_Ok in H as (doi & _ & H).
  destruct (truthy doi); [|by injection H as <- _].
  apply bind_M_Ok in H as (paper_info & tr1 & _ & H).
  destruct (truthy paper_info); [|by injection H as <- _].
  apply bind_M_Ok in H as (w' & tr2 & _ & H).
  repeat (apply bind_lift_Ok in H as (? & _ & H)).
  injection H as <- _. apply Forall_app. split; [done|].
  constructor; [by right | constructor].
Qed.

Lemma scihub_dyn_tagged keywords num_results w tr :
  Forall (tagged "scihub")
    (returned (scihub_adapter.search_by_keywords_dyn keywords num_results
                 w tr)).
Proof.
  unfold returned, scihub_adapter.search_by_keywords_dyn.
  unfold mbind at 1, M_bind, ask.
  destruct (scihub_available w); cbn [negb];
    [|repeat constructor].
  unfold mbind at 1, M_bind.
  match goal with
  | |- context [try_except ?b ?h w tr] =>
      destruct (try_except b h w tr) as [[items|e] tr1]
  end; [|constructor].
  destruct (for_keep scihub_adapter.resolve_item [] items w tr1)
    as [[papers|e] tr2] eqn:E; [|constructor].
  cbn. eapply for_keep_Forall; [|constructor|exact E].
  intros acc x w' tr' acc' tr'' Hacc H. by eapply resolve_item_tagged.
Qed.

Lemma scihub_advanced_tagged kwargs w tr :
  Forall (tagged "scihub")
    (returned (scihub_adapter.search_advanced kwargs w tr)).
Proof.
  unfold returned, scihub_adapter.search_advanced.
  unfold mbind at 1, M_bind, ask.
  destruct (scihub_available w); cbn [negb]; [|repeat constructor].
  unfold mbind at 1, M_bind.
  match goal with
  | |- context [(if ?c then lift ?j else mret ?d) w tr] =>
      destruct ((if c then lift j else mret d) w tr) as [[query|e] tr1]
  end; [|constructor].
  apply scihub_dyn_tagged.
Qed.

End provenance.

Section more_searches.

(** *** Semantic Scholar: the author filter *)

Lemma semantic_format_authors w paper r :
  semantic_scholar_adapter._format_semantic_result w paper = Ok r →
  ∃ authors, lookup_key r "authors" = Some (VStr authors).
Proof.
  unfold semantic_scholar_adapter._format_semantic_result.
  intros H. repeat (apply bind_res_Ok in H as (? & _ & H)).
  injection H as <-. by eexists.
Qed.

(** *** bioRxiv: a bound that is not positive *)

Lemma biorxiv_keywords_nothing server keywords n w tr :
  n ≤ 0 →
  biorxiv_adapter.search_by_keywords server keywords n w tr = (Ok [], tr).
Proof.
  intros Hn. unfold biorxiv_adapter.search_by_keywords,
    biorxiv_adapter.scan_by_keywords.
  run_M. rewrite while_round. cbn [length].
  replace (Z.of_nat 0 <? n) with false by (symmetry; apply Z.ltb_ge; cbn; lia).
  cbn [andb]. by rewrite slice_to_nil.
Qed.

Lemma biorxiv_advanced_nothing server kwargs n w tr :
  get kwargs "num_results" (VInt 10) = VInt n →
  n ≤ 0 →
  biorxiv_adapter.search_advanced server kwargs w tr = (Ok [], tr).
Proof.
  intros Hnum Hn. unfold biorxiv_adapter.search_advanced,
    biorxiv_adapter.scan_advanced.
  run_M.
  destruct (str_lower (get kwargs "title" (VStr ""))); [|done].
  destruct (str_lower (get kwargs "author" (VStr ""))); [|done].
  destruct (biorxiv_adapter.date_window w kwargs); [|done].
  rewrite while_round, Hnum. cbn [length py_lt as_int].
  rewrite !bind_Ok.
  replace (Z.of_nat 0 <? n) with false by (symmetry; apply Z.ltb_ge; cbn; lia).
  cbn [andb slice_by as_int]. by rewrite bind_Ok, slice_to_nil.
Qed.

End more_searches.

(** ** The searches: bounds, filters and provenance *)

Section search_claims.

(** X9.  With a bound that is not positive the bioRxiv/medRxiv adapter
    answers both searches with the empty list and requests no page. *)
Theorem biorxiv_nonpositive_bound (n : Z) (w : env) (tr : list call) :
  n ≤ 0 →
  (∀ server keywords,
     biorxiv_adapter.search_by_keywords server keywords n w tr = (Ok [], tr))
  ∧ (∀ server kwargs,
       get kwargs "num_results" (VInt 10) = VInt n →
       biorxiv_adapter.search_advanced server kwargs w tr = (Ok [], tr)).
Proof.
  intros Hn. split; intros.
  - by apply biorxiv_keywords_nothing.
  - by eapply biorxiv_advanced_nothing.
Qed.

Lemma biorxiv_nonpositive_bound_witness :
  (∀ server keywords,
     biorxiv_adapter.search_by_keywords server keywords 0 sample_world []
     = (Ok [], []))
  ∧ (∀ server kwargs,
       get kwargs "num_results" (VInt 10) = VInt 0 →
       biorxiv_adapter.search_advanced server kwargs sample_world []
       = (Ok [], [])).
Proof. apply (biorxiv_nonpositive_bound 0 sample_world []). lia. Defined.

(** The author is looked for case aside, beyond ASCII as well. *)
Example author_match_accents :
  contains (lower "MÜLLER") (lower "Jörg Müller, Ana Đorđević") = true
  ∧ contains (lower "ĐORĐEVIĆ") (lower "Jörg Müller, Ana Đorđević") = true
  ∧ contains (lower "muller") (lower "Jörg Müller") = false.
Proof. by vm_compute. Qed.

(** X10.  The author filter of the Semantic Scholar advanced search: when
    an author is given, the authors of every record returned contain the
    name, case aside. *)
Theorem semantic_author_filter (kwargs : dict) (author : string) (w : env)
    (tr : list call) :
  get kwargs "author" VNone = VStr author →
  author ≠ "" →
  Forall (λ r, ∃ authors,
            lookup_key r "authors" = Some (VStr authors)
            ∧ contains (lower author) (lower authors) = true)
    (returned (semantic_scholar_adapter.search_advanced kwargs w tr)).
Proof.
  intros Hauthor Hne. apply semantic_advanced_Forall.
  intros paper r Hr Hfilter.
  destruct (semantic_format_authors w paper r Hr) as [authors Hauthors].
  exists authors. split; [done|].
  destruct (Hfilter (lower author)) as (a & Ha & Hc).
  - rewrite Hauthor. cbn. by rewrite (eqb_empty_false _ Hne).
  - by rewrite Hauthor.
  - unfold get in Ha. rewrite Hauthors in Ha. by injection Ha as <-.
Qed.

Lemma semantic_author_filter_witness :
  Forall (λ r, ∃ authors,
            lookup_key r "authors" = Some (VStr authors)
            ∧ contains (lower "DOE") (lower authors) = true)
    (returned (semantic_scholar_adapter.search_advanced
                 [("author", VStr "DOE")] sample_world [])).
Proof.
  apply (semantic_author_filter [("author", VStr "DOE")] "DOE" sample_world []).
  - reflexivity.
  - discriminate.
Defined.

Example semantic_author_filter_sample :
  length (returned (semantic_scholar_adapter.search_advanced
                      [("author", VStr "DOE")] sample_world [])) = 2%nat
  ∧ returned (semantic_scholar_adapter.search_advanced
                [("author", VStr "Roe")] sample_world []) = [].
Proof. by vm_compute. Qed.

(** X11.  Provenance.  Every record either search of any of the six
    adapters returns carries the name of its adapter in [source], unless
    it is an error entry (a record with the key [error]: the entry of the
    Sci-Hub adapter without its library, or an error record the PubMed
    collaborator passed on). *)
Theorem search_results_tagged (a : BaseAdapter) (w : env) (tr : list call) :
  a ∈ all_adapters →
  (∀ keywords num_results,
     Forall (tagged (get_source_name a))
       (returned (search_by_keywords a keywords num_results w tr)))
  ∧ (∀ kwargs,
       Forall (tagged (get_source_name a))
         (returned (search_advanced a kwargs w tr))).
Proof.
  unfold all_adapters. rewrite !elem_of_cons, elem_of_nil.
  intros [-> | [-> | [-> | [-> | [-> | [-> | []]]]]]]; split; intros.
  - apply pubmed_keywords_tagged.
  - apply pubmed_advanced_tagged.
  - apply biorxiv_keywords_tagged.
  - apply biorxiv_advanced_tagged.
  - apply biorxiv_keywords_tagged.
  - apply biorxiv_advanced_tagged.
  - apply arxiv_keywords_tagged.
  - apply arxiv_advanced_tagged.
  - apply semantic_keywords_tagged.
  - apply semantic_advanced_tagged.
  - apply scihub_dyn_tagged.
  - apply scihub_advanced_tagged.
Qed.

Lemma search_results_tagged_witness :
  (∀ keywords num_results,
     Forall (tagged "biorxiv")
       (returned (biorxiv_adapter.search_by_keywords "biorxiv" keywords
                    num_results sample_world [])))
  ∧ (∀ kwargs,
       Forall (tagged "biorxiv")
         (returned (biorxiv_adapter.search_advanced "biorxiv" kwargs
                      sample_world []))).
Proof.
  apply (search_results_tagged (biorxiv_adapter.BioRxivAdapter "biorxiv")
           sample_world []).
  unfold all_adapters. apply list_elem_of_further, list_elem_of_here.
Defined.

End search_claims.

(** ** The tools of the server, lemmas *)

Section server_tools.
Import academic_server.

Lemma assoc_Some {A} (d : list (string * A)) k a :
  assoc d k = Some a → (k, a) ∈ d.
Proof.
  induction d as [|[k' a'] d IH]; [done|]. cbn [assoc].
  destruct (String.eqb k' k) eqn:E.
  - apply String.eqb_eq in E as ->. intros [= ->]. left.
  - intros H. right. by apply IH.
Qed.

Lemma invalid_tool_source_names source (adapters : tool_registry) :
  let msg := invalid_tool_source source adapters in
  contains ("'" +:+ source +:+ "'") msg = true
  ∧ ∀ name, name ∈ adapters.*1 → contains name msg = true.
Proof.
  unfold invalid_tool_source. split.
  - change ("Invalid source '" +:+ source +:+ "'. Available: "
             +:+ join_str ", " adapters.*1)
      with ("Invalid source " +:+ ("'" +:+ source +:+ "'" +:+ ". Available: "
             +:+ join_str ", " adapters.*1)).
    apply contains_later.
    set (T := ". Available: " +:+ join_str ", " adapters.*1).
    replace ("'" +:+ source +:+ "'" +:+ T) with (("'" +:+ source +:+ "'") +:+ T)
      by (by rewrite !string_app_assoc).
    apply contains_here.
  - intros name Hin. do 3 apply contains_later.
    apply contains_join, Hin.
Qed.

Lemma get_paper_metadata_unknown (adapters : tool_registry) identifier source
    t ef w tr :
  source ∉ adapters.*1 →
  get_paper_metadata adapters identifier source t ef w tr
  = (Ok [("error", VStr (invalid_tool_source source adapters))], ef, tr).
Proof.
  intros Hsrc. unfold get_paper_metadata, tool_try.
  by rewrite (assoc_None adapters source Hsrc).
Qed.

Lemma get_paper_metadata_returns (adapters : tool_registry) identifier source
    t ef w tr :
  ∃ metadata ef' tr',
    get_paper_metadata adapters identifier source t ef w tr
    = (Ok metadata, ef', tr')
    ∧ ∀ adapter,
        assoc adapters source = Some adapter →
        match get_metadata adapter identifier t ef w (tr ++ [ToThread source])
        with
        | (Ok answer, ef1, tr1) =>
            metadata = answer ∧ ef' = ef1 ∧ tr' = tr1
        | (Raise e, ef1, tr1) =>
            metadata = [("error",
                         VStr ("Error fetching metadata: " +:+ exn_str w e))]
            ∧ ef' = ef1 ∧ tr' = tr1
        end.
Proof.
  unfold get_paper_metadata. run_T. unfold ask.
  destruct (assoc adapters source) as [adapter|].
  - destruct (get_metadata adapter identifier t ef w (tr ++ [ToThread source]))
      as [[[answer|e] ef1] tr1] eqn:E; eexists _, _, _; (split; [done|]);
      intros ? [= <-]; by rewrite E.
  - eexists _, _, _. by split.
Qed.

Lemma get_paper_metadata_shaped (adapters : tool_registry) identifier source
    t ef w tr :
  repository_registry adapters →
  ∃ metadata ef' tr',
    get_paper_metadata adapters identifier source t ef w tr
    = (Ok metadata, ef', tr')
    ∧ metadata_shaped metadata.
Proof.
  intros Hreg.
  destruct (get_paper_metadata_returns adapters identifier source t ef w tr)
    as (metadata & ef' & tr' & Hrun & Hadapter).
  exists metadata, ef', tr'. split; [done|].
  destruct (assoc adapters source) as [adapter|] eqn:Hassoc.
  - specialize (Hadapter adapter eq_refl).
    assert (Hin : adapter ∈ all_tools).
    { apply assoc_Some in Hassoc. unfold repository_registry in Hreg.
      rewrite Forall_forall in Hreg. apply (Hreg _ Hassoc). }
    destruct (tools_get_metadata_shaped adapter identifier t ef w
                (tr ++ [ToThread source]) Hin)
      as (answer & ef1 & tr1 & Hanswer & Hshape).
    rewrite Hanswer in Hadapter. by destruct Hadapter as (-> & _).
  - unfold get_paper_metadata, tool_try in Hrun. rewrite Hassoc in Hrun.
    injection Hrun as <- _ _. by left.
Qed.

Lemma download_paper_pdf_unknown (adapters : tool_registry) identifier source
    t ef w tr :
  source ∉ adapters.*1 →
  download_paper_pdf adapters identifier source t ef w tr
  = (Ok (VStr ("Error: " +:+ invalid_tool_source source adapters)), ef, tr).
Proof.
  intros Hsrc. unfold download_paper_pdf, tool_try.
  by rewrite (assoc_None adapters source Hsrc).
Qed.

Lemma deep_paper_analysis_unknown (adapters : tool_registry) identifier source
    t ef w tr :
  source ≠ "pubmed" →
  source ∉ adapters.*1 →
  deep_paper_analysis adapters identifier source t ef w tr
  = (Ok [("error", VStr (invalid_tool_source source adapters))], ef, tr).
Proof.
  intros Hpm Hsrc. unfold deep_paper_analysis.
  rewrite (proj2 (String.eqb_neq _ _) Hpm).
  unfold tool_try, mbind, Tool_bind.
  by rewrite get_paper_metadata_unknown.
Qed.

Lemma analysis_prompt_quotes w metadata k :
  k ∈ prompt_fields →
  contains (py_str (repr w) (get metadata k (VStr "N/A")))
           (analysis_prompt w metadata) = true.
Proof.
  unfold prompt_fields. rewrite !elem_of_cons, elem_of_nil.
  unfold analysis_prompt.
  intros [-> | [-> | [-> | [-> | [-> | []]]]]];
    apply contains_later; cbn [join_str]; cbv zeta.
  - do 4 apply contains_later.
    apply contains_earlier, contains_later, contains_refl.
  - do 6 apply contains_later.
    apply contains_earlier, contains_later, contains_refl.
  - do 8 apply contains_later.
    apply contains_earlier, contains_later, contains_refl.
  - do 10 apply contains_later.
    apply contains_earlier, contains_later, contains_refl.
  - do 12 apply contains_later.
    apply contains_earlier, contains_later, contains_refl.
Qed.

End server_tools.

Section scihub_lookup.
Import scihub_adapter.

Lemma search_by_title_run title w tr :
  ∃ metadata tr',
    search_by_title title w tr = (Ok metadata, tr')
    ∧ (error_shaped metadata
       ∨ (has_core_fields metadata
          ∧ lookup_key metadata "source" = Some (VStr "scihub")
          ∧ ∃ doi, lookup_key metadata "id" = Some doi ∧ truthy doi = true))
    ∧ (scihub_available w = false →
       tr' = tr ∧ metadata = [("error", VStr "Sci-Hub library not available")]).
Proof.
  unfold search_by_title.
  unfold mbind at 1, M_bind at 1, ask at 1.
  destruct (scihub_available w) eqn:Havail; cbn [negb].
  2:{ eexists _, _. split; [done|]. split; [left; by eexists | done]. }
  apply (try_except_case
           (λ run, ∃ metadata tr',
              run = (Ok metadata, tr')
              ∧ (error_shaped metadata
                 ∨ (has_core_fields metadata
                    ∧ lookup_key metadata "source" = Some (VStr "scihub")
                    ∧ ∃ doi, lookup_key metadata "id" = Some doi
                             ∧ truthy doi = true))
              ∧ (true = false → _))).
  2:{ intros e tr' _. eexists _, _. split; [done|].
      split; [left; by eexists | done]. }
  intros metadata tr' H. exists metadata, tr'. split; [done|].
  split; [|done].
  apply bind_M_Ok in H as (resp & tr1 & _ & H).
  destruct (status_code resp =? 200); [|injection H as <- _; left; by eexists].
  do 3 (apply bind_lift_Ok in H as (? & _ & H)).
  destruct (truthy _); [|injection H as <- _; left; by eexists].
  do 4 (apply bind_lift_Ok in H as (? & _ & H)).
  match type of H with
  | (if truthy ?doi then _ else _) _ _ = _ =>
      destruct (truthy doi) eqn:Hdoi;
        [|injection H as <- _; left; by eexists];
      destruct (scihub_get_metadata_run doi w tr1)
        as (m & tr2 & Hrun & Hshape & _);
      rewrite Hrun in H; injection H as <- _;
      destruct Hshape as [? | (? & ? & ?)]; [by left|];
      right; split; [done|]; split; [done|]; by exists doi
  end.
Qed.

End scihub_lookup.

Section dispatch_more.
Import academic_server.

Lemma validate_source_spec source (adapters : registry) :
  helpers.validate_source source (AVAILABLE_SOURCES adapters) = true
  ↔ source = "all" ∨ is_Some (assoc adapters source).
Proof.
  unfold helpers.validate_source, AVAILABLE_SOURCES.
  rewrite orb_true_iff, bool_decide_eq_true, String.eqb_eq.
  split.
  - intros [Hin | ->]; [right | by left].
    induction adapters as [|[k a] adapters IH]; [by apply elem_of_nil in Hin|].
    cbn [assoc]. destruct (String.eqb k source) eqn:E; [by eexists|].
    apply IH. cbn in Hin. apply elem_of_cons in Hin as [-> | Hin]; [|done].
    by rewrite String.eqb_refl in E.
  - intros [-> | [a Ha]]; [by right | left].
    apply assoc_Some in Ha. by apply (list_elem_of_fmap_2 fst) in Ha.
Qed.

Lemma search_papers_registered (adapters : registry) keywords source
    num_results adapter w tr :
  source ≠ "all" →
  assoc adapters source = Some adapter →
  search_papers adapters keywords source num_results w tr
  = match search_by_keywords adapter keywords num_results w
            (tr ++ [ToThread source]) with
    | (Ok results, tr') => (Ok results, tr')
    | (Raise e, tr') =>
        (Ok [[("error",
               VStr ("An error occurred while searching: " +:+ exn_str w e))]],
         tr')
    end.
Proof.
  intros Hall Hassoc. unfold search_papers, try_except.
  rewrite (proj2 (String.eqb_neq _ _) Hall), Hassoc.
  unfold to_thread. by destruct (search_by_keywords _ _ _ _ _) as [[?|?] ?].
Qed.

Lemma search_papers_advanced_registered (adapters : registry)
    title author journal start_date end_date term source num_results
    adapter w tr :
  source ≠ "all" →
  assoc adapters source = Some adapter →
  search_papers_advanced adapters title author journal start_date end_date
    term source num_results w tr
  = match search_advanced adapter
            (filter (λ kv, is_none kv.2 = false)
               [("title", title); ("author", author); ("journal", journal);
                ("start_date", start_date); ("end_date", end_date);
                ("term", term); ("num_results", VInt num_results)])
            w (tr ++ [ToThread source]) with
    | (Ok results, tr') => (Ok results, tr')
    | (Raise e, tr') =>
        (Ok [[("error",
               VStr ("Error in advanced search: " +:+ exn_str w e))]],
         tr')
    end.
Proof.
  intros Hall Hassoc. unfold search_papers_advanced, try_except.
  rewrite (proj2 (String.eqb_neq _ _) Hall), Hassoc.
  unfold to_thread. by destruct (search_advanced _ _ _ _) as [[?|?] ?].
Qed.

End dispatch_more.

(** ** [helpers.py]: [validate_source] and the dispatch *)

Section validation_claims.
Import academic_server.

(** X12.  [validate_source], given the names of the registry, accepts
    exactly the selectors the two search tools dispatch: a selector it
    rejects gets the invalid-source entry from both tools, with no
    hand-over and no call; one it accepts is ["all"] or the name of a
    registered adapter. *)
Theorem validate_source_agrees (adapters : registry) (source : string)
    (w : env) (tr : list call) :
  (helpers.validate_source source (AVAILABLE_SOURCES adapters) = false →
   (∀ keywords num_results,
      search_papers adapters keywords source num_results w tr
      = (Ok [[("error",
               VStr (invalid_source source "Available sources: " adapters))]],
         tr))
   ∧ (∀ title author journal start_date end_date term num_results,
        search_papers_advanced adapters title author journal start_date
          end_date term source num_results w tr
        = (Ok [[("error",
                 VStr (invalid_source source "Available: " adapters))]],
           tr)))
  ∧ (helpers.validate_source source (AVAILABLE_SOURCES adapters) = true →
     source = "all" ∨ is_Some (assoc adapters source)).
Proof.
  split; [|apply validate_source_spec].
  unfold helpers.validate_source. intros H.
  apply orb_false_iff in H as [Hin Hall].
  apply bool_decide_eq_false in Hin.
  split; intros.
  - unfold search_papers, try_except.
    by rewrite Hall, (assoc_None adapters source Hin).
  - unfold search_papers_advanced, try_except.
    by rewrite Hall, (assoc_None adapters source Hin).
Qed.

Lemma validate_source_agrees_witness :
  (∀ keywords num_results,
     search_papers adapters keywords "scholar" num_results silent_world []
     = (Ok [[("error",
              VStr (invalid_source "scholar" "Available sources: " adapters))]],
        []))
  ∧ ("arxiv" = "all" ∨ is_Some (assoc adapters "arxiv")).
Proof.
  destruct (validate_source_agrees adapters "scholar" silent_world [])
    as [Hreject _].
  destruct (validate_source_agrees adapters "arxiv" silent_world [])
    as [_ Haccept].
  split; [apply Hreject; reflexivity | apply Haccept; reflexivity].
Defined.

End validation_claims.

Section analysis.
Import academic_server.

Lemma deep_paper_analysis_run (adapters : tool_registry) identifier source
    t ef w tr :
  ∃ answer ef' tr',
    deep_paper_analysis adapters identifier source t ef w tr
    = (Ok answer, ef', tr')
    ∧ (∃ v, answer = [("error", v)] ∨ answer = [("analysis_prompt", v)])
    ∧ (source ≠ "pubmed" →
       ∃ metadata,
         get_paper_metadata adapters identifier source t ef w tr
         = (Ok metadata, ef', tr')
         ∧ (has_key metadata "error" = true →
            answer = [("error", get metadata "error" VNone)])
         ∧ (has_key metadata "error" = false →
            answer = [("analysis_prompt",
                       VStr (analysis_prompt w metadata))])).
Proof.
  unfold deep_paper_analysis.
  destruct (String.eqb source "pubmed") eqn:Hpm.
  - apply String.eqb_eq in Hpm as ->. run_T. unfold lift, ask.
    destruct (assoc adapters "pubmed") as [adapter|];
      [|eexists _, _, _; split; [done|]; split; [by eexists; left | by intros []]].
    destruct (deep_analysis adapter) as [method|];
      [|eexists _, _, _; split; [done|]; split; [by eexists; left | by intros []]].
    destruct (method identifier t ef w (tr ++ [ToThread "pubmed"]))
      as [[[analysis|e] ef1] tr1];
      eexists _, _, _; (split; [done|]).
    + split; [by eexists; right | by intros []].
    + split; [by eexists; left | by intros []].
  - apply String.eqb_neq in Hpm.
    destruct (get_paper_metadata_returns adapters identifier source t ef w tr)
      as (metadata & ef1 & tr1 & Hrun & _).
    unfold tool_try, mbind, Tool_bind. rewrite Hrun.
    destruct (has_key metadata "error") eqn:Herr.
    + unfold net, lift, subscript_key, mret, Tool_ret.
      unfold has_key in Herr. unfold get.
      destruct (lookup_key metadata "error") as [v|] eqn:Hv; [|done].
      eexists _, _, _. split; [done|]. split; [eexists; by left|].
      intros _. exists metadata. split; [done|].
      split; [intros _; by rewrite Hv | unfold has_key; by rewrite Hv].
    + unfold net, ask, mret, Tool_ret.
      eexists _, _, _. split; [done|]. split; [eexists; by right|].
      intros _. exists metadata. split; [done|].
      split; [by rewrite Herr | done].
Qed.

End analysis.

(** ** [get_metadata] *)

Section metadata_claims.

(** X13.  The metadata lookups of the arXiv, bioRxiv/medRxiv and Semantic
    Scholar adapters never raise and make exactly one request, whatever
    comes back: arXiv is asked for one result by the identifier without
    its [arXiv:] prefix, bioRxiv for the details of the DOI without its
    [10.1101/] prefix, Semantic Scholar for the paper.  The answer is one
    error entry or a formatted record: of arXiv the first entry of the
    feed, every field a string; and a failed arXiv request (it raises,
    has a status other than 200 or a body that does not parse) gives the
    error entry. *)
Theorem metadata_lookup_one_request (identifier : string) (w : env)
    (tr : list call) :
  (∃ metadata,
     arxiv_adapter.get_metadata identifier w tr
     = (Ok metadata,
        tr ++ [RequestsGet arxiv_adapter.base_url
                 [("id_list", VStr (arxiv_adapter.clean_id identifier));
                  ("max_results", VInt 1)]])
     ∧ (error_shaped metadata ∨ conforms metadata)
     ∧ (request_failed (feed_parses w)
          (requests_get w tr arxiv_adapter.base_url
             [("id_list", VStr (arxiv_adapter.clean_id identifier));
              ("max_results", VInt 1)])
        → error_shaped metadata))
  ∧ (∀ server,
       ∃ metadata,
         biorxiv_adapter.get_metadata server identifier w tr
         = (Ok metadata,
            tr ++ [RequestsGet
                     (biorxiv_adapter.base_url +:+ "/details/" +:+ server
                      +:+ "/" +:+ replace "10.1101/" "" identifier) []])
         ∧ (error_shaped metadata
            ∨ ∃ item,
                biorxiv_adapter._format_biorxiv_result w server item
                = Ok metadata))
  ∧ (∃ metadata,
       semantic_scholar_adapter.get_metadata identifier w tr
       = (Ok metadata,
          tr ++ [RequestsGet
                   (semantic_scholar_adapter.base_url +:+ "/paper/"
                    +:+ identifier)
                   [("fields", VStr "paperId,title,abstract,authors,year,venue,url,openAccessPdf,citationCount,referenceCount")]])
       ∧ (error_shaped metadata
          ∨ ∃ paper,
              semantic_scholar_adapter._format_semantic_result w paper
              = Ok metadata)).
Proof.
  split; [apply arxiv_get_metadata_run|].
  split; [intros server; apply biorxiv_get_metadata_run|].
  apply semantic_get_metadata_run.
Qed.

Example arxiv_get_metadata_sample :
  arxiv_adapter.clean_id " arXiv:2301.00001v1 " = "2301.00001v1"
  ∧ (arxiv_adapter.get_metadata "arXiv:2301.00001v1"
       (arxiv_world (leaf "summary" "Two.")) []).1
    = Ok [("id", VStr "2301.00001v1"); ("title", VStr "First");
          ("authors", VStr "A. Author"); ("abstract", VStr "One.");
          ("publication_date", VStr "2023-01-01");
          ("journal", VStr "arXiv preprint (cs.AI)");
          ("url", VStr "https://arxiv.org/abs/2301.00001v1");
          ("pdf_url", VStr "https://arxiv.org/pdf/2301.00001v1.pdf");
          ("source", VStr "arxiv")].
Proof. by vm_compute. Qed.

(** X14.  [get_metadata] of each of the six adapters never raises, and
    answers with an error (a dictionary with the key [error]) or with a
    record that has the nine core fields. *)
Theorem get_metadata_answers (a : Adapter) (identifier : string) (t : tools)
    (ef : list effect) (w : env) (tr : list call) :
  a ∈ all_tools →
  ∃ metadata ef' tr',
    get_metadata a identifier t ef w tr = (Ok metadata, ef', tr')
    ∧ metadata_shaped metadata.
Proof. apply tools_get_metadata_shaped. Qed.

Lemma get_metadata_answers_witness :
  ∃ metadata ef' tr',
    get_metadata pubmed_adapter.PubMedTools "40883768" sample_tools []
      silent_world []
    = (Ok metadata, ef', tr')
    ∧ metadata_shaped metadata.
Proof.
  apply (get_metadata_answers pubmed_adapter.PubMedTools "40883768"
           sample_tools [] silent_world []).
  unfold all_tools. apply list_elem_of_here.
Defined.

(** X15.  The two lookups of the Sci-Hub adapter, by DOI and by title,
    never raise.  [get_metadata] answers with one error entry or with a
    record of the nine core fields whose [id] is the identifier asked for
    and whose [source] is [scihub]; [search_by_title] with one error entry
    or with such a record for the DOI that CrossRef gave, which is not
    empty. *)
Theorem scihub_lookup_answers (w : env) (tr : list call) :
  (∀ identifier,
     ∃ metadata tr',
       scihub_adapter.get_metadata identifier w tr = (Ok metadata, tr')
       ∧ (error_shaped metadata
          ∨ (has_core_fields metadata
             ∧ lookup_key metadata "id" = Some identifier
             ∧ lookup_key metadata "source" = Some (VStr "scihub"))))
  ∧ (∀ title,
       ∃ metadata tr',
         scihub_adapter.search_by_title title w tr = (Ok metadata, tr')
         ∧ (error_shaped metadata
            ∨ (has_core_fields metadata
               ∧ lookup_key metadata "source" = Some (VStr "scihub")
               ∧ ∃ doi, lookup_key metadata "id" = Some doi
                        ∧ truthy doi = true))).
Proof.
  split.
  - intros identifier.
    destruct (scihub_get_metadata_run identifier w tr)
      as (metadata & tr' & Hrun & Hshape & _).
    by exists metadata, tr'.
  - intros title.
    destruct (search_by_title_run title w tr)
      as (metadata & tr' & Hrun & Hshape & _).
    by exists metadata, tr'.
Qed.

(** X16.  Without its client library the Sci-Hub adapter answers every
    method at once with its error, calls nothing and touches no tool. *)
Theorem scihub_unavailable_silent (w : env) (tr : list call) :
  scihub_available w = false →
  (∀ keywords num_results,
     scihub_adapter.search_by_keywords keywords num_results w tr
     = (Ok scihub_adapter.unavailable, tr))
  ∧ (∀ kwargs,
       scihub_adapter.search_advanced kwargs w tr
       = (Ok scihub_adapter.unavailable, tr))
  ∧ (∀ identifier,
       scihub_adapter.get_metadata identifier w tr
       = (Ok [("error", VStr "Sci-Hub library not available")], tr))
  ∧ (∀ title,
       scihub_adapter.search_by_title title w tr
       = (Ok [("error", VStr "Sci-Hub library not available")], tr))
  ∧ (∀ identifier output_path t ef,
       scihub_adapter.download_pdf identifier output_path t ef w tr
       = (Ok (VStr "Error: Sci-Hub library not available"), ef, tr)).
Proof.
  intros Havail. repeat split; intros.
  - by apply scihub_keywords_unavailable.
  - unfold scihub_adapter.search_advanced, mbind, M_bind, ask.
    by rewrite Havail.
  - unfold scihub_adapter.get_metadata, mbind, M_bind, ask.
    by rewrite Havail.
  - unfold scihub_adapter.search_by_title, mbind, M_bind, ask.
    by rewrite Havail.
  - unfold scihub_adapter.download_pdf. run_T. unfold ask.
    by rewrite Havail.
Qed.

Lemma scihub_unavailable_silent_witness :
  (∀ keywords num_results,
     scihub_adapter.search_by_keywords keywords num_results silent_world []
     = (Ok scihub_adapter.unavailable, []))
  ∧ (∀ kwargs,
       scihub_adapter.search_advanced kwargs silent_world []
       = (Ok scihub_adapter.unavailable, []))
  ∧ (∀ identifier,
       scihub_adapter.get_metadata identifier silent_world []
       = (Ok [("error", VStr "Sci-Hub library not available")], []))
  ∧ (∀ title,
       scihub_adapter.search_by_title title silent_world []
       = (Ok [("error", VStr "Sci-Hub library not available")], []))
  ∧ (∀ identifier output_path t ef,
       scihub_adapter.download_pdf identifier output_path t ef silent_world []
       = (Ok (VStr "Error: Sci-Hub library not available"), ef, [])).
Proof. apply (scihub_unavailable_silent silent_world []). reflexivity. Defined.

End metadata_claims.

(** ** The formatters of the Sci-Hub adapter, lemmas *)

Section scihub_tools.
Import scihub_adapter.

(** *** [_format_authors] *)

Lemma format_authors_not_empty w authors r :
  _format_authors w authors = Ok r → r ≠ "".
Proof.
  unfold _format_authors. destruct (negb (truthy authors)); [by intros [= <-]|].
  intros H. repeat (apply bind_res_Ok in H as (? & _ & H)).
  destruct (negb (String.eqb _ "")) eqn:E; injection H as <-; [|done].
  apply negb_true_iff, String.eqb_neq in E. exact E.
Qed.

Lemma truthy_long (l : list value) :
  (0 < length l)%nat → truthy (VList l) = true.
Proof. destruct l; cbn; [lia | done]. Qed.

Lemma format_authors_first_five_eq w (l l' : list value) :
  take 5 l = take 5 l' →
  (5 < length l)%nat → (5 < length l')%nat →
  _format_authors w (VList l) = _format_authors w (VList l').
Proof.
  intros Htake Hl Hl'. unfold _format_authors.
  rewrite !truthy_long by lia.
  cbn [negb py_slice_to py_len]. rewrite !bind_Ok.
  unfold slice_to. change (0 <=? 5) with true. cbv iota.
  change (Z.to_nat 5) with 5%nat. rewrite Htake.
  cbn [py_iter]. rewrite !bind_Ok.
  destruct (for_each _ [] (take 5 l')) as [author_names|e]; [|done].
  rewrite !bind_Ok.
  destruct (join ", " author_names) as [result|e]; [|done].
  rewrite !bind_Ok.
  replace (5 <? Z.of_nat (length l)) with true
    by (symmetry; apply Z.ltb_lt; lia).
  replace (5 <? Z.of_nat (length l')) with true
    by (symmetry; apply Z.ltb_lt; lia).
  reflexivity.
Qed.

Lemma append_not_empty (s t : string) : t ≠ "" → s +:+ t ≠ "".
Proof.
  intros Ht H. apply (f_equal String.length) in H.
  rewrite length_app_string in H. destruct t; [done|]. cbn in H. lia.
Qed.

Lemma format_authors_et_al w (l : list value) r :
  (5 < length l)%nat →
  _format_authors w (VList l) = Ok r →
  ∃ names, r = names +:+ " et al.".
Proof.
  intros Hl. unfold _format_authors.
  rewrite truthy_long by lia.
  cbn [negb py_slice_to py_len]. rewrite !bind_Ok.
  cbn [py_iter]. rewrite !bind_Ok.
  destruct (for_each _ [] _) as [author_names|e]; [|done].
  rewrite !bind_Ok.
  destruct (join ", " author_names) as [result|e]; [|done].
  rewrite !bind_Ok.
  replace (5 <? Z.of_nat (length l)) with true
    by (symmetry; apply Z.ltb_lt; lia).
  intros H.
  match type of H with
  | context [?names +:+ " et al."] =>
      rewrite (proj2 (String.eqb_neq (names +:+ " et al.") "")) in H
        by (by apply append_not_empty);
      exists names
  end.
  by injection H as <-.
Qed.

(** *** [_format_date] *)

Lemma format_02d_two_digits (z : Z) :
  0 ≤ z < 100 → format_02d (VInt z) = Ok (two_digits z).
Proof.
  intros Hz. replace z with (Z.of_nat (Z.to_nat z)) by lia.
  assert (Hn : (Z.to_nat z < 100)%nat) by lia.
  generalize dependent (Z.to_nat z). clear. intros n Hn.
  do 100 (destruct n as [|n]; [reflexivity|]). lia.
Qed.

Lemma format_date_parts w (y m d : Z) :
  0 ≤ m < 100 → 0 ≤ d < 100 →
  _format_date w (VDict [("date-parts",
                          VList [VList [VInt y; VInt m; VInt d]])])
  = Ok (dec y +:+ "-" +:+ two_digits m +:+ "-" +:+ two_digits d)
  ∧ _format_date w (VDict [("date-parts", VList [VList [VInt y; VInt m]])])
    = Ok (dec y +:+ "-" +:+ two_digits m +:+ "-01")
  ∧ _format_date w (VDict [("date-parts", VList [VList [VInt y]])])
    = Ok (dec y +:+ "-01-01").
Proof.
  intros Hm Hd.
  pose proof (format_02d_two_digits m Hm) as Hmm.
  pose proof (format_02d_two_digits d Hd) as Hdd.
  assert (H01 : format_02d (VInt 1) = Ok "01") by done.
  unfold _format_date. cbn -[format_02d dec Z.of_nat two_digits].
  change (Z.of_nat 3) with 3. change (Z.of_nat 2) with 2.
  change (Z.of_nat 1) with 1. cbn -[format_02d dec two_digits].
  rewrite ?bind_Ok, Hmm, Hdd, H01, ?bind_Ok. done.
Qed.

End scihub_tools.

(** ** [scihub_adapter.py]: the formatters of CrossRef data *)

Section scihub_format_claims.
Import scihub_adapter.

(** X17.  [_format_authors] never returns the empty string: without
    authors the answer is ["N/A"].  At most five authors are named: of a
    list of more than five, the answer ends in [" et al."] and depends on
    the first five only. *)
Theorem format_authors_first_five (w : env) :
  _format_authors w VNone = Ok "N/A"
  ∧ _format_authors w (VList []) = Ok "N/A"
  ∧ (∀ authors r, _format_authors w authors = Ok r → r ≠ "")
  ∧ (∀ l l' : list value,
       take 5 l = take 5 l' →
       (5 < length l)%nat → (5 < length l')%nat →
       _format_authors w (VList l) = _format_authors w (VList l'))
  ∧ (∀ (l : list value) r,
       (5 < length l)%nat →
       _format_authors w (VList l) = Ok r →
       ∃ names, r = names +:+ " et al.").
Proof.
  split; [done|]. split; [done|].
  split; [apply format_authors_not_empty|].
  split; [apply format_authors_first_five_eq | apply format_authors_et_al].
Qed.

Example format_authors_sample :
  _format_authors silent_world
    (VList (replicate 7 (VDict [("given", VStr "Ada");
                                ("family", VStr "Lovelace")])))
  = Ok "Ada Lovelace, Ada Lovelace, Ada Lovelace, Ada Lovelace, Ada Lovelace et al.".
Proof. by vm_compute. Qed.

(** X18.  [_format_date] writes a date of CrossRef as year, month and day
    separated by dashes, the month and the day each as its own two decimal
    digits, a zero first where the number is under ten; a month or day
    that is not given counts as 1; without date parts the answer is
    ["N/A"]. *)
Theorem format_date_iso (w : env) (y m d : Z) :
  0 ≤ m < 100 → 0 ≤ d < 100 →
  _format_date w (VDict [("date-parts",
                          VList [VList [VInt y; VInt m; VInt d]])])
  = Ok (dec y +:+ "-" +:+ two_digits m +:+ "-" +:+ two_digits d)
  ∧ _format_date w (VDict [("date-parts", VList [VList [VInt y; VInt m]])])
    = Ok (dec y +:+ "-" +:+ two_digits m +:+ "-01")
  ∧ _format_date w (VDict [("date-parts", VList [VList [VInt y]])])
    = Ok (dec y +:+ "-01-01")
  ∧ _format_date w (VDict [("date-parts", VList [VList []])]) = Ok "N/A"
  ∧ _format_date w (VDict []) = Ok "N/A".
Proof.
  intros Hm Hd.
  destruct (format_date_parts w y m d Hm Hd) as (H3 & H2 & H1).
  by repeat split.
Qed.

Lemma format_date_iso_witness :
  _format_date silent_world
    (VDict [("date-parts", VList [VList [VInt 2023; VInt 5; VInt 17]])])
  = Ok (dec 2023 +:+ "-" +:+ two_digits 5 +:+ "-" +:+ two_digits 17)
  ∧ _format_date silent_world
      (VDict [("date-parts", VList [VList [VInt 2023; VInt 5]])])
    = Ok (dec 2023 +:+ "-" +:+ two_digits 5 +:+ "-01")
  ∧ _format_date silent_world
      (VDict [("date-parts", VList [VList [VInt 2023]])])
    = Ok (dec 2023 +:+ "-01-01")
  ∧ _format_date silent_world (VDict [("date-parts", VList [VList []])])
    = Ok "N/A"
  ∧ _format_date silent_world (VDict []) = Ok "N/A".
Proof. apply (format_date_iso silent_world 2023 5 17); lia. Defined.

(** Month and day keep their places. *)
Example format_date_sample :
  _format_date silent_world
    (VDict [("date-parts", VList [VList [VInt 2023; VInt 5; VInt 17]])])
  = Ok "2023-05-17"
  ∧ two_digits 5 = "05" ∧ two_digits 17 = "17".
Proof. by vm_compute. Qed.

End scihub_format_claims.

(** ** The downloads, lemmas *)

Section downloads.

Lemma contains_slash_cons c s :
  contains "/" (String c s)
  = bool_decide (c = "/"%char) || contains "/" s.
Proof.
  rewrite contains_unfold. f_equal. cbn [String.prefix].
  destruct (ascii_dec "/" c) as [<-|Hne].
  - rewrite bool_decide_true by done. by destruct s.
  - by rewrite bool_decide_false by congruence.
Qed.

Lemma contains_slash_app a b :
  contains "/" (a +:+ b) = contains "/" a || contains "/" b.
Proof.
  induction a as [|c a IH]; [by destruct b|].
  change (contains "/" (String c (a +:+ b))
          = contains "/" (String c a) || contains "/" b).
  rewrite !contains_slash_cons, IH. by rewrite orb_assoc.
Qed.

Lemma replace_slash_free s : slash_free (replace "/" "_" s).
Proof.
  unfold slash_free, replace. induction s as [|c s IH]; [done|].
  cbn [replace_go String.prefix].
  destruct (ascii_dec "/" c) as [<-|Hne].
  - replace (String.prefix "" s) with true by (by destruct s).
    change (contains "/" (String "_" (replace_go "/" "_" 0 s)) = false).
    by rewrite contains_slash_cons, IH.
  - rewrite contains_slash_cons, IH. by rewrite bool_decide_false by congruence.
Qed.

Lemma slash_free_app a b : slash_free a → slash_free b → slash_free (a +:+ b).
Proof. unfold slash_free. intros Ha Hb. by rewrite contains_slash_app, Ha, Hb. Qed.

(** Writing the body of an answer under [filename]. *)
Lemma arxiv_download_run identifier t ef w tr :
  let pdf_url := "https://arxiv.org/pdf/" +:+ arxiv_adapter.clean_id identifier
                 +:+ ".pdf" in
  let filename := "arxiv_"
                  +:+ replace "/" "_" (arxiv_adapter.clean_id identifier)
                  +:+ ".pdf" in
  ∃ message ef',
    arxiv_adapter.download_pdf identifier t ef w tr
    = (Ok (VStr message), ef', tr ++ [RequestsGet pdf_url []])
    ∧ (ef' = ef
       ∨ ∃ resp,
           requests_get w tr pdf_url [] = Ok resp
           ∧ status_code resp = 200
           ∧ ef' = ef ++ [WriteFile filename (content t resp)]
           ∧ (write_file t ef filename (content t resp) = Ok ()
              → message = "PDF downloaded successfully as " +:+ filename))
    ∧ slash_free filename.
Proof.
  intros pdf_url filename.
  assert (Hfree : slash_free filename).
  { subst filename. apply slash_free_app; [done|].
    apply slash_free_app; [apply replace_slash_free | done]. }
  unfold arxiv_adapter.download_pdf. fold pdf_url. fold filename.
  run_T. unfold http_get, call_out, ask.
  destruct (requests_get w tr pdf_url []) as [resp|e] eqn:Hresp;
    [|eexists _, _; split; [done|]; split; [by left | done]].
  destruct (status_code resp =? 200) eqn:Hstatus; cbn [negb];
    [|eexists _, _; split; [done|]; split; [by left | done]].
  apply Z.eqb_eq in Hstatus.
  destruct (write_file t ef filename (content t resp)) as [[]|e] eqn:Hwrite;
    eexists _, _; (split; [done|]); (split; [|done]); right; exists resp;
    repeat split; try done; intros; congruence.
Qed.

Lemma biorxiv_download_run server identifier t ef w tr :
  let doi := replace "10.1101/" "" identifier in
  let pdf_url := "https://www." +:+ server +:+ ".org/content/" +:+ doi
                 +:+ "v1.full.pdf" in
  let filename := server +:+ "_" +:+ replace "/" "_" doi +:+ ".pdf" in
  ∃ message ef',
    biorxiv_adapter.download_pdf server identifier t ef w tr
    = (Ok (VStr message), ef', tr ++ [RequestsGet pdf_url []])
    ∧ (ef' = ef
       ∨ ∃ resp,
           requests_get w tr pdf_url [] = Ok resp
           ∧ status_code resp = 200
           ∧ ef' = ef ++ [WriteFile filename (content t resp)]
           ∧ (write_file t ef filename (content t resp) = Ok ()
              → message = "PDF downloaded successfully as " +:+ filename))
    ∧ (slash_free server → slash_free filename).
Proof.
  intros doi pdf_url filename.
  assert (Hfree : slash_free server → slash_free filename).
  { intros Hs. subst filename. apply slash_free_app; [done|].
    apply slash_free_app; [done|].
    apply slash_free_app; [apply replace_slash_free | done]. }
  unfold biorxiv_adapter.download_pdf. fold doi. fold pdf_url. fold filename.
  run_T. unfold http_get, call_out, ask.
  destruct (requests_get w tr pdf_url []) as [resp|e] eqn:Hresp;
    [|eexists _, _; split; [done|]; split; [by left | done]].
  destruct (status_code resp =? 200) eqn:Hstatus; cbn [negb];
    [|eexists _, _; split; [done|]; split; [by left | done]].
  apply Z.eqb_eq in Hstatus.
  destruct (write_file t ef filename (content t resp)) as [[]|e] eqn:Hwrite;
    eexists _, _; (split; [done|]); (split; [|done]); right; exists resp;
    repeat split; try done; intros; congruence.
Qed.

Lemma semantic_download_run identifier t ef w tr :
  ∃ message ef' tr',
    semantic_scholar_adapter.download_pdf identifier t ef w tr
    = (Ok (VStr message), ef', tr')
    ∧ downloaded t w tr' ef ef' message.
Proof.
  unfold semantic_scholar_adapter.download_pdf. run_T.
  destruct (semantic_get_metadata_run identifier w tr)
    as (metadata & -> & Hshape).
  set (tr1 := tr ++ _).
  destruct Hshape as [[msg ->] | [paper Hfmt]].
  { cbn. eexists _, _, _. split; [done | by left]. }
  apply semantic_format_no_error in Hfmt as [-> _].
  destruct (truthy (get metadata "pdf_url" VNone)) eqn:Hpdf; cbn [negb].
  2:{ unfold ask. eexists _, _, _. split; [done | by left]. }
  unfold semantic_scholar_adapter.http_get_value.
  destruct (get metadata "pdf_url" VNone) as [| | |url| |] eqn:Hurl;
    try (unfold lift, ask; eexists _, _, _; split; [done | by left]).
  unfold http_get, call_out.
  destruct (requests_get w tr1 url []) as [resp|e] eqn:Hresp;
    [|unfold ask; eexists _, _, _; split; [done | by left]].
  destruct (status_code resp =? 200) eqn:Hstatus; cbn [negb];
    [|eexists _, _, _; split; [done | by left]].
  apply Z.eqb_eq in Hstatus. unfold lift.
  destruct (get metadata "id" (VStr identifier)) as [| | |paper_id| |];
    cbn [semantic_scholar_adapter.replace_slash];
    try (unfold ask; eexists _, _, _; split; [done | by left]).
  set (filename := "semantic_scholar_" +:+ _ +:+ ".pdf").
  assert (Hfree : slash_free filename).
  { subst filename. apply slash_free_app; [done|].
    apply slash_free_app; [apply replace_slash_free | done]. }
  destruct (write_file t ef filename (content t resp)) as [[]|e] eqn:Hwrite;
    unfold ask; eexists _, _, _; (split; [done|]); right;
    exists filename, url, resp, tr1; repeat split; try done;
    intros; congruence.
Qed.

Lemma http_download_run a identifier t ef w tr :
  a ∈ http_downloaders →
  ∃ message ef' tr',
    download_pdf a identifier t ef w tr = (Ok (VStr message), ef', tr')
    ∧ downloaded t w tr' ef ef' message.
Proof.
  unfold http_downloaders. rewrite !elem_of_cons, elem_of_nil.
  intros [-> | [-> | [-> | [-> | []]]]]; cbn [download_pdf
    biorxiv_adapter.BioRxivTools arxiv_adapter.ArXivTools
    semantic_scholar_adapter.SemanticScholarTools].
  - destruct (biorxiv_download_run "biorxiv" identifier t ef w tr)
      as (message & ef' & -> & Hef & Hfree).
    eexists _, _, _. split; [done|].
    destruct Hef as [-> | (resp & ? & ? & -> & ?)]; [by left|].
    right. eexists _, _, resp, tr. repeat split; try done. by apply Hfree.
  - destruct (biorxiv_download_run "medrxiv" identifier t ef w tr)
      as (message & ef' & -> & Hef & Hfree).
    eexists _, _, _. split; [done|].
    destruct Hef as [-> | (resp & ? & ? & -> & ?)]; [by left|].
    right. eexists _, _, resp, tr. repeat split; try done. by apply Hfree.
  - destruct (arxiv_download_run identifier t ef w tr)
      as (message & ef' & -> & Hef & Hfree).
    eexists _, _, _. split; [done|].
    destruct Hef as [-> | (resp & ? & ? & -> & ?)]; [by left|].
    right. eexists _, _, resp, tr. by repeat split.
  - apply semantic_download_run.
Qed.

Lemma scihub_download_run identifier output_path t ef w tr :
  ∃ message ef' tr',
    scihub_adapter.download_pdf identifier output_path t ef w tr
    = (Ok (VStr message), ef', tr')
    ∧ (scihub_available w = false →
       ef' = ef ∧ tr' = tr
       ∧ message = "Error: Sci-Hub library not available")
    ∧ (ef' = ef
       ∨ ∃ url,
           ef' = ef ++ [ScihubDownload url
                          (default ("paper_" +:+ replace "/" "_" identifier
                                    +:+ ".pdf") output_path)]
           ∧ tr' = tr ++ [ScihubFetch (VStr identifier)]).
Proof.
  unfold scihub_adapter.download_pdf. run_T. unfold ask.
  destruct (scihub_available w) eqn:Havail; cbn [negb].
  2:{ eexists _, _, _. split; [done|]. split; [done | by left]. }
  unfold scihub_adapter._fetch_from_scihub, try_except, call_out, mret, M_ret.
  set (tr1 := tr ++ _).
  assert (Hfetch : ∃ result,
             (match scihub_fetch w tr (VStr identifier) with
              | Ok a => (Ok a, tr1)
              | Raise _ => (Ok VNone, tr1)
              end) = (Ok result, tr1)).
  { destruct (scihub_fetch w tr (VStr identifier)); by eexists. }
  destruct Hfetch as [result ->].
  destruct (truthy result) eqn:Hresult; cbn [andb].
  2:{ eexists _, _, _. split; [done|]. split; [done | by left]. }
  unfold lift.
  destruct (py_get result "url" VNone) as [url|e];
    [|eexists _, _, _; split; [done|]; split; [done | by left]].
  destruct (truthy url);
    [|eexists _, _, _; split; [done|]; split; [done | by left]].
  destruct (subscript_key result "url") as [url'|e];
    [|eexists _, _, _; split; [done|]; split; [done | by left]].
  destruct (scihub_download t ef url' _) as [[]|e];
    eexists _, _, _; (split; [done|]); (split; [done|]); right; exists url';
    by destruct output_path.
Qed.

Lemma pubmed_download_run identifier t ef w tr :
  ∃ message,
    pubmed_adapter.download_pdf identifier t ef w tr
    = (Ok (VStr message), ef ++ [DownloadFullTextPdf identifier], tr).
Proof.
  unfold pubmed_adapter.download_pdf. run_T. unfold ask.
  destruct (download_full_text_pdf t ef identifier); by eexists.
Qed.

Lemma tools_download_message a identifier t ef w tr :
  a ∈ all_tools →
  ∃ message ef' tr',
    download_pdf a identifier t ef w tr = (Ok (VStr message), ef', tr').
Proof.
  unfold all_tools. rewrite !elem_of_cons, elem_of_nil.
  intros [-> | [-> | [-> | [-> | [-> | [-> | []]]]]]].
  - destruct (pubmed_download_run identifier t ef w tr) as [message H].
    by eexists _, _, _.
  - destruct (http_download_run (biorxiv_adapter.BioRxivTools "biorxiv")
                identifier t ef w tr) as (message & ef' & tr' & H & _);
      [unfold http_downloaders; set_solver|].
    by eexists _, _, _.
  - destruct (http_download_run (biorxiv_adapter.BioRxivTools "medrxiv")
                identifier t ef w tr) as (message & ef' & tr' & H & _);
      [unfold http_downloaders; set_solver|].
    by eexists _, _, _.
  - destruct (http_download_run arxiv_adapter.ArXivTools
                identifier t ef w tr) as (message & ef' & tr' & H & _);
      [unfold http_downloaders; set_solver|].
    by eexists _, _, _.
  - destruct (http_download_run semantic_scholar_adapter.SemanticScholarTools
                identifier t ef w tr) as (message & ef' & tr' & H & _);
      [unfold http_downloaders; set_solver|].
    by eexists _, _, _.
  - destruct (scihub_download_run identifier None t ef w tr)
      as (message & ef' & tr' & H & _).
    by eexists _, _, _.
Qed.

End downloads.

(** ** [download_pdf] *)

Section download_claims.

(** X19.  The downloads by HTTP (arXiv, bioRxiv, medRxiv, Semantic
    Scholar) never raise and answer with a message.  They write nothing,
    or one file: the body of the answer with status 200 to their last
    request, under a name that holds no path separator (every [/] of the
    identifier has given way to [_]); when the write goes through, the
    message names that file. *)
Theorem http_downloads_write_one_file (a : Adapter) (identifier : string)
    (t : tools) (ef : list effect) (w : env) (tr : list call) :
  a ∈ http_downloaders →
  ∃ message ef' tr',
    download_pdf a identifier t ef w tr = (Ok (VStr message), ef', tr')
    ∧ downloaded t w tr' ef ef' message.
Proof. apply http_download_run. Qed.

Lemma http_downloads_write_one_file_witness :
  ∃ message ef' tr',
    download_pdf arxiv_adapter.ArXivTools "arXiv:math/0309136" sample_tools []
      (arxiv_world (leaf "summary" "Two.")) []
    = (Ok (VStr message), ef', tr')
    ∧ downloaded sample_tools (arxiv_world (leaf "summary" "Two.")) tr' [] ef'
        message.
Proof.
  apply (http_downloads_write_one_file arxiv_adapter.ArXivTools
           "arXiv:math/0309136" sample_tools []
           (arxiv_world (leaf "summary" "Two.")) []).
  unfold http_downloaders.
  apply list_elem_of_further, list_elem_of_further, list_elem_of_here.
Defined.

Example arxiv_download_sample :
  arxiv_adapter.download_pdf "arXiv:math/0309136" sample_tools []
    (arxiv_world (leaf "summary" "Two.")) []
  = (Ok (VStr "PDF downloaded successfully as arxiv_math_0309136.pdf"),
     [WriteFile "arxiv_math_0309136.pdf" "<feed/>"],
     [RequestsGet "https://arxiv.org/pdf/math/0309136.pdf" []]).
Proof. by vm_compute. Qed.

(** X20.  The download of the Sci-Hub adapter never raises and answers
    with a message.  Without the library it answers that the library is
    not available and asks nothing.  With the library it asks the client
    for the paper exactly once, and starts at most one download, to the
    path given or else to [paper_<identifier>.pdf] with every [/] of the
    identifier replaced by [_], a name without path separator; if the
    download goes through, the message names that path. *)
Theorem scihub_download_answers (identifier : string)
    (output_path : option string) (t : tools) (ef : list effect) (w : env)
    (tr : list call) :
  let path := default ("paper_" +:+ replace "/" "_" identifier +:+ ".pdf")
                output_path in
  (scihub_available w = false →
   scihub_adapter.download_pdf identifier output_path t ef w tr
   = (Ok (VStr "Error: Sci-Hub library not available"), ef, tr))
  ∧ (scihub_available w = true →
     ∃ message ef',
       scihub_adapter.download_pdf identifier output_path t ef w tr
       = (Ok (VStr message), ef', tr ++ [ScihubFetch (VStr identifier)])
       ∧ (ef' = ef
          ∨ ∃ url,
              ef' = ef ++ [ScihubDownload url path]
              ∧ (scihub_download t ef url path = Ok () →
                 message = "PDF successfully downloaded to " +:+ path)))
  ∧ slash_free ("paper_" +:+ replace "/" "_" identifier +:+ ".pdf").
Proof.
  cbv zeta. split; [|split].
  - intros Havail. unfold scihub_adapter.download_pdf. run_T. unfold ask.
    by rewrite Havail.
  - intros Havail. unfold scihub_adapter.download_pdf. run_T. unfold ask.
    rewrite Havail. cbn [negb].
    unfold scihub_adapter._fetch_from_scihub, try_except, call_out, mret,
      M_ret.
    set (tr1 := tr ++ _).
    assert (Hfetch : ∃ result,
               (match scihub_fetch w tr (VStr identifier) with
                | Ok a => (Ok a, tr1)
                | Raise _ => (Ok VNone, tr1)
                end) = (Ok result, tr1)).
    { destruct (scihub_fetch w tr (VStr identifier)); by eexists. }
    destruct Hfetch as [result ->].
    destruct (truthy result) eqn:Hresult; cbn [andb].
    2:{ eexists _, _. split; [done | by left]. }
    unfold lift.
    destruct (py_get result "url" VNone) as [url|e];
      [|eexists _, _; split; [done | by left]].
    destruct (truthy url); [|eexists _, _; split; [done | by left]].
    destruct (subscript_key result "url") as [url'|e];
      [|eexists _, _; split; [done | by left]].
    destruct (scihub_download t ef url' _) as [[]|e] eqn:Hd;
      eexists _, _; (split; [done|]); right; exists url';
      destruct output_path as [path|]; cbn [from_option id] in *;
      (split; [done|]); intros Hdone; (done || by rewrite Hdone in Hd).
  - apply slash_free_app; [done|].
    apply slash_free_app; [apply replace_slash_free | done].
Qed.

(** A download that goes through, and one without the library. *)
Example scihub_download_sample :
  scihub_adapter.download_pdf "10.1000/182" None sample_tools []
    scihub_download_world []
  = (Ok (VStr "PDF successfully downloaded to paper_10.1000_182.pdf"),
     [ScihubDownload (VStr "https://sci-hub.se/182.pdf")
        "paper_10.1000_182.pdf"],
     [ScihubFetch (VStr "10.1000/182")])
  ∧ scihub_adapter.download_pdf "10.1000/182" None sample_tools []
      silent_world []
    = (Ok (VStr "Error: Sci-Hub library not available"), [], []).
Proof. by vm_compute. Qed.

End download_claims.

(** ** [academic_server.py]: the tools that take one source *)

Section server_tool_claims.
Import academic_server.

(** X21.  A source that is not registered (["all"] is none for these
    tools) makes [get_paper_metadata], [download_paper_pdf] and, for a
    source other than ["pubmed"], [deep_paper_analysis] answer with the
    invalid-source error: no adapter is handed the work, no call leaves
    the process and no tool is used.  The message names the source and
    lists every registered name. *)
Theorem tools_reject_unknown_source (adapters : tool_registry)
    (identifier source : string) (t : tools) (ef : list effect) (w : env)
    (tr : list call) :
  source ∉ adapters.*1 →
  get_paper_metadata adapters identifier source t ef w tr
  = (Ok [("error", VStr (invalid_tool_source source adapters))], ef, tr)
  ∧ download_paper_pdf adapters identifier source t ef w tr
    = (Ok (VStr ("Error: " +:+ invalid_tool_source source adapters)), ef, tr)
  ∧ (source ≠ "pubmed" →
     deep_paper_analysis adapters identifier source t ef w tr
     = (Ok [("error", VStr (invalid_tool_source source adapters))], ef, tr))
  ∧ contains ("'" +:+ source +:+ "'") (invalid_tool_source source adapters)
    = true
  ∧ (∀ name, name ∈ adapters.*1 →
             contains name (invalid_tool_source source adapters) = true).
Proof.
  intros Hsrc.
  split; [by apply get_paper_metadata_unknown|].
  split; [by apply download_paper_pdf_unknown|].
  split; [intros Hpm; by apply deep_paper_analysis_unknown|].
  apply invalid_tool_source_names.
Qed.

Lemma tools_reject_unknown_source_witness :
  get_paper_metadata tool_adapters "2301.00001" "all" sample_tools []
    silent_world []
  = (Ok [("error", VStr (invalid_tool_source "all" tool_adapters))], [], [])
  ∧ download_paper_pdf tool_adapters "2301.00001" "all" sample_tools []
      silent_world []
    = (Ok (VStr ("Error: " +:+ invalid_tool_source "all" tool_adapters)),
       [], [])
  ∧ ("all" ≠ "pubmed" →
     deep_paper_analysis tool_adapters "2301.00001" "all" sample_tools []
       silent_world []
     = (Ok [("error", VStr (invalid_tool_source "all" tool_adapters))],
        [], []))
  ∧ contains ("'" +:+ "all" +:+ "'") (invalid_tool_source "all" tool_adapters)
    = true
  ∧ (∀ name, name ∈ tool_adapters.*1 →
             contains name (invalid_tool_source "all" tool_adapters) = true).
Proof.
  apply (tools_reject_unknown_source tool_adapters "2301.00001" "all"
           sample_tools [] silent_world []).
  unfold tool_adapters. cbn [fmap list_fmap fst].
  intros Hin. repeat (apply elem_of_cons in Hin as [Hin|Hin]; [discriminate|]).
  by apply elem_of_nil in Hin.
Defined.

Example invalid_tool_source_message :
  invalid_tool_source "all" tool_adapters
  = "Invalid source 'all'. Available: pubmed, biorxiv, medrxiv, arxiv, semantic_scholar".
Proof. by vm_compute. Qed.

(** X22.  Over a registry of the repository's adapters
    [get_paper_metadata] never raises and answers with an error or with a
    record that has the nine core fields.  For a registered source it hands
    the lookup to that adapter and returns its answer as it is, and turns
    an exception of the adapter into an error entry. *)
Theorem get_paper_metadata_answers (adapters : tool_registry)
    (identifier source : string) (t : tools) (ef : list effect) (w : env)
    (tr : list call) :
  repository_registry adapters →
  ∃ metadata ef' tr',
    get_paper_metadata adapters identifier source t ef w tr
    = (Ok metadata, ef', tr')
    ∧ metadata_shaped metadata
    ∧ ∀ adapter,
        assoc adapters source = Some adapter →
        get_metadata adapter identifier t ef w (tr ++ [ToThread source])
        = (Ok metadata, ef', tr').
Proof.
  intros Hreg.
  destruct (get_paper_metadata_shaped adapters identifier source t ef w tr Hreg)
    as (metadata & ef' & tr' & Hrun & Hshape).
  exists metadata, ef', tr'. split; [done|]. split; [done|].
  intros adapter Hassoc.
  destruct (get_paper_metadata_returns adapters identifier source t ef w tr)
    as (metadata1 & ef1 & tr1 & Hrun1 & Hadapter).
  rewrite Hrun in Hrun1. injection Hrun1 as <- <- <-.
  specialize (Hadapter adapter Hassoc).
  assert (Hin : adapter ∈ all_tools).
  { apply assoc_Some in Hassoc. unfold repository_registry in Hreg.
    rewrite Forall_forall in Hreg. apply (Hreg _ Hassoc). }
  destruct (tools_get_metadata_shaped adapter identifier t ef w
              (tr ++ [ToThread source]) Hin)
    as (answer & ef2 & tr2 & Hanswer & _).
  rewrite Hanswer in Hadapter |- *. by destruct Hadapter as (-> & -> & ->).
Qed.

Lemma get_paper_metadata_answers_witness :
  ∃ metadata ef' tr',
    get_paper_metadata tool_adapters "arXiv:2301.00001v1" "arxiv" sample_tools
      [] (arxiv_world (leaf "summary" "Two.")) []
    = (Ok metadata, ef', tr')
    ∧ metadata_shaped metadata
    ∧ ∀ adapter,
        assoc tool_adapters "arxiv" = Some adapter →
        get_metadata adapter "arXiv:2301.00001v1" sample_tools []
          (arxiv_world (leaf "summary" "Two.")) ([] ++ [ToThread "arxiv"])
        = (Ok metadata, ef', tr').
Proof.
  apply (get_paper_metadata_answers tool_adapters "arXiv:2301.00001v1" "arxiv"
           sample_tools [] (arxiv_world (leaf "summary" "Two.")) []).
  unfold repository_registry, tool_adapters, all_tools.
  repeat (apply Forall_cons_2; [cbn [snd]; set_solver|]). apply Forall_nil_2.
Defined.

(** X23.  Over a registry of the repository's adapters
    [download_paper_pdf] never raises and answers with a message, a
    string. *)
Theorem download_paper_pdf_answers (adapters : tool_registry)
    (identifier source : string) (t : tools) (ef : list effect) (w : env)
    (tr : list call) :
  repository_registry adapters →
  ∃ message ef' tr',
    download_paper_pdf adapters identifier source t ef w tr
    = (Ok (VStr message), ef', tr').
Proof.
  intros Hreg. unfold download_paper_pdf, tool_try.
  destruct (assoc adapters source) as [adapter|] eqn:Hassoc;
    [|by eexists _, _, _].
  assert (Hin : adapter ∈ all_tools).
  { apply assoc_Some in Hassoc. unfold repository_registry in Hreg.
    rewrite Forall_forall in Hreg. apply (Hreg _ Hassoc). }
  unfold tool_thread.
  destruct (tools_download_message adapter identifier t ef w
              (tr ++ [ToThread source]) Hin)
    as (message & ef' & tr' & ->).
  by eexists _, _, _.
Qed.

Lemma download_paper_pdf_answers_witness :
  ∃ message ef' tr',
    download_paper_pdf tool_adapters "40883768" "pubmed" sample_tools []
      silent_world []
    = (Ok (VStr message), ef', tr').
Proof.
  apply (download_paper_pdf_answers tool_adapters "40883768" "pubmed"
           sample_tools [] silent_world []).
  unfold repository_registry, tool_adapters, all_tools.
  repeat (apply Forall_cons_2; [cbn [snd]; set_solver|]). apply Forall_nil_2.
Defined.

(** X24.  [deep_paper_analysis] never raises, over any registry, and its
    answer has one key: [error] or [analysis_prompt].  For a source other
    than ["pubmed"] it looks the metadata up with [get_paper_metadata]
    and does nothing else: an error of the lookup is passed on under
    [error]; otherwise the prompt is built from the metadata, and quotes
    its title, authors, journal, publication date and abstract (["N/A"]
    for a field that is absent). *)
Theorem deep_paper_analysis_answers (adapters : tool_registry)
    (identifier source : string) (t : tools) (ef : list effect) (w : env)
    (tr : list call) :
  ∃ answer ef' tr',
    deep_paper_analysis adapters identifier source t ef w tr
    = (Ok answer, ef', tr')
    ∧ (∃ v, answer = [("error", v)] ∨ answer = [("analysis_prompt", v)])
    ∧ (source ≠ "pubmed" →
       ∃ metadata,
         get_paper_metadata adapters identifier source t ef w tr
         = (Ok metadata, ef', tr')
         ∧ (has_key metadata "error" = true →
            answer = [("error", get metadata "error" VNone)])
         ∧ (has_key metadata "error" = false →
            answer = [("analysis_prompt",
                       VStr (analysis_prompt w metadata))]
            ∧ ∀ k, k ∈ prompt_fields →
                   contains (py_str (repr w) (get metadata k (VStr "N/A")))
                            (analysis_prompt w metadata) = true)).
Proof.
  destruct (deep_paper_analysis_run adapters identifier source t ef w tr)
    as (answer & ef' & tr' & Hrun & Hkey & Hother).
  exists answer, ef', tr'. split; [done|]. split; [done|].
  intros Hpm. destruct (Hother Hpm) as (metadata & Hmeta & Herr & Hprompt).
  exists metadata. split; [done|]. split; [done|].
  intros Hno. split; [by apply Hprompt|].
  intros k Hk. by apply analysis_prompt_quotes.
Qed.

(** X25.  A search of one registered source: the tool hands the search to
    that adapter, once, and returns its list as it is, neither merged nor
    deduplicated; an exception of the adapter becomes a list of one error
    entry. *)
Theorem single_source_passthrough (adapters : registry) (source : string)
    (adapter : BaseAdapter) (w : env) (tr : list call) :
  source ≠ "all" →
  assoc adapters source = Some adapter →
  (∀ keywords num_results,
     search_papers adapters keywords source num_results w tr
     = match search_by_keywords adapter keywords num_results w
               (tr ++ [ToThread source]) with
       | (Ok results, tr') => (Ok results, tr')
       | (Raise e, tr') =>
           (Ok [[("error",
                  VStr ("An error occurred while searching: "
                        +:+ exn_str w e))]],
            tr')
       end)
  ∧ (∀ title author journal start_date end_date term num_results,
       search_papers_advanced adapters title author journal start_date
         end_date term source num_results w tr
       = match search_advanced adapter
                 (search_params_of title author journal start_date end_date
                    term num_results)
                 w (tr ++ [ToThread source]) with
         | (Ok results, tr') => (Ok results, tr')
         | (Raise e, tr') =>
             (Ok [[("error",
                    VStr ("Error in advanced search: " +:+ exn_str w e))]],
              tr')
         end).
Proof.
  intros Hall Hassoc. split; intros.
  - by apply search_papers_registered.
  - by apply search_papers_advanced_registered.
Qed.

Lemma single_source_passthrough_witness :
  (∀ keywords num_results,
     search_papers sample_registry keywords "pubmed" num_results
       silent_world []
     = match search_by_keywords (stub "pubmed" (Ok [paperA1; paperB1]))
               keywords num_results silent_world ([] ++ [ToThread "pubmed"])
       with
       | (Ok results, tr') => (Ok results, tr')
       | (Raise e, tr') =>
           (Ok [[("error",
                  VStr ("An error occurred while searching: "
                        +:+ exn_str silent_world e))]],
            tr')
       end)
  ∧ (∀ title author journal start_date end_date term num_results,
       search_papers_advanced sample_registry title author journal
         start_date end_date term "pubmed" num_results silent_world []
       = match search_advanced (stub "pubmed" (Ok [paperA1; paperB1]))
                 (search_params_of title author journal start_date end_date
                    term num_results)
                 silent_world ([] ++ [ToThread "pubmed"]) with
         | (Ok results, tr') => (Ok results, tr')
         | (Raise e, tr') =>
             (Ok [[("error",
                    VStr ("Error in advanced search: "
                          +:+ exn_str silent_world e))]],
              tr')
         end).
Proof.
  apply (single_source_passthrough sample_registry "pubmed"
           (stub "pubmed" (Ok [paperA1; paperB1])) silent_world []).
  - discriminate.
  - reflexivity.
Defined.

Example single_source_keeps_duplicates :
  search_papers [("pubmed", stub "pubmed" (Ok [paperA1; paperA1]))]
    "cuts" "pubmed" 5 silent_world []
  = (Ok [paperA1; paperA1], [ToThread "pubmed"])
  ∧ search_papers [("pubmed", stub "pubmed" (Ok [paperA1; paperA1]))]
      "cuts" "all" 5 silent_world []
    = (Ok [paperA1], [ToThread "pubmed"]).
Proof. by vm_compute. Qed.

End server_tool_claims.

(** ** [academic_server.py]: all sources, further *)

Section all_sources_further.
Import helpers MergeSpec academic_server.

(** X26.  The advanced search over all sources isolates faults as the
    keyword search does: every adapter is handed the arguments that were
    given, under its own [try]; the loop does not raise and passes to the
    merge exactly the non-empty results that were returned, in registry
    order; the aggregate is the merge of that mapping, holds or covers
    every record a successful adapter returned, and nothing else. *)
Theorem all_sources_advanced_fault_isolation (adapters : registry)
    (title author journal start_date end_date term : value)
    (num_results : Z) (w : env) (tr : list call) :
  let method := λ adapter,
    search_advanced adapter
      (search_params_of title author journal start_date end_date term
         num_results) in
  let answered := (answers method adapters w tr).1 in
  let per_source := omap contribution answered in
  NoDup (AVAILABLE_SOURCES adapters) →
  Forall paper_typed (mjoin per_source.*2) →
  ∃ merged tr',
    search_every method adapters [] w tr = (Ok per_source, tr')
    ∧ merge_results_from_sources per_source = Ok merged
    ∧ search_papers_advanced adapters title author journal start_date
        end_date term "all" num_results w tr
      = (Ok merged, tr')
    ∧ (∀ name l, (name, l) ∈ per_source ↔ l ≠ [] ∧ (name, Ok l) ∈ answered)
    ∧ (∀ name l r, (name, Ok l) ∈ answered → r ∈ l → covered r merged)
    ∧ (∀ r, r ∈ merged → ∃ name l, (name, Ok l) ∈ answered ∧ r ∈ l).
Proof.
  intros method answered per_source Hnd Hty.
  exists (merge per_source), (answers method adapters w tr).2.
  assert (Hloop : search_every method adapters [] w tr
                  = (Ok per_source, (answers method adapters w tr).2)).
  { rewrite search_every_contributions; [done | done |].
    intros k _. apply not_elem_of_nil. }
  assert (Hmerge : merge_results_from_sources per_source
                   = Ok (merge per_source)) by by apply merge_refines.
  split; [exact Hloop|]. split; [exact Hmerge|]. split; [|split; [|split]].
  - unfold search_papers_advanced, try_except.
    cbn [String.eqb Ascii.eqb Bool.eqb].
    unfold mbind, M_bind.
    change (search_every _ adapters [] w tr)
      with (search_every method adapters [] w tr).
    rewrite Hloop. unfold lift. by rewrite Hmerge.
  - intros name l. apply contribution_spec.
  - intros name l r Hin Hr.
    assert (Hflat : r ∈ mjoin per_source.*2).
    { apply elem_of_per_source. exists name, l. split; [|done].
      apply contribution_spec. split; [|done]. intros ->.
      by apply elem_of_nil in Hr. }
    destruct (dedup_covers _ ∅ ∅ r Hflat) as [Hc | [[_ Hc] | [_ Hc]]];
      [exact Hc | by apply not_elem_of_empty in Hc..].
  - intros r Hr.
    assert (Hflat : r ∈ mjoin per_source.*2).
    { eapply elem_of_sublist; [exact Hr | apply dedup_sublist]. }
    apply elem_of_per_source in Hflat as (name & l & Hin & Hrl).
    exists name, l. split; [|done]. by apply contribution_spec in Hin as [_ ?].
Qed.

Lemma all_sources_advanced_fault_isolation_witness :
  ∃ merged tr',
    search_every
      (λ adapter,
         search_advanced adapter
           (search_params_of (VStr "cuts") VNone VNone VNone VNone VNone 5))
      sample_registry [] silent_world []
    = (Ok [("pubmed", [paperA1; paperB1]); ("arxiv", [paperA2; paperB2])], tr')
    ∧ merge_results_from_sources
        [("pubmed", [paperA1; paperB1]); ("arxiv", [paperA2; paperB2])]
      = Ok merged
    ∧ search_papers_advanced sample_registry (VStr "cuts") VNone VNone VNone
        VNone VNone "all" 5 silent_world []
      = (Ok merged, tr').
Proof.
  destruct (all_sources_advanced_fault_isolation sample_registry (VStr "cuts")
              VNone VNone VNone VNone VNone 5 silent_world [])
    as (merged & tr' & H1 & H2 & H3 & _).
  - unfold AVAILABLE_SOURCES, sample_registry. cbn [fmap list_fmap fst].
    repeat (apply NoDup_cons_2;
            [intros Hin;
             repeat (apply elem_of_cons in Hin as [Hin|Hin]; [discriminate|]);
             by apply elem_of_nil in Hin|]).
    apply NoDup_nil_2.
  - repeat constructor.
  - exists merged, tr'. split; [exact H1|]. split; [exact H2 | exact H3].
Defined.

(** X27.  One record that cannot be merged spoils the search over all
    sources: when an adapter returns a record whose title is not a string
    (or whose id is a non-empty list or dictionary), the merge raises and
    the tool answers with a single error entry; the results of every
    adapter are lost.  The adapters were all called. *)
Theorem all_sources_poisoned (adapters : registry) (keywords : string)
    (num_results : Z) (w : env) (tr : list call) :
  let method := λ adapter, search_by_keywords adapter keywords num_results in
  let answered := (answers method adapters w tr).1 in
  let per_source := omap contribution answered in
  NoDup (AVAILABLE_SOURCES adapters) →
  ¬ Forall mergeable (mjoin per_source.*2) →
  ∃ e,
    (e = AttributeError ∨ e = TypeError)
    ∧ search_papers adapters keywords "all" num_results w tr
      = (Ok [[("error",
               VStr ("An error occurred while searching: " +:+ exn_str w e))]],
         (answers method adapters w tr).2).
Proof.
  intros method answered per_source Hnd Hbad.
  assert (Hloop : search_every method adapters [] w tr
                  = (Ok per_source, (answers method adapters w tr).2)).
  { rewrite search_every_contributions; [done | done |].
    intros k _. apply not_elem_of_nil. }
  assert (Hmerge : merge_results_from_sources per_source = Raise AttributeError
                   ∨ merge_results_from_sources per_source = Raise TypeError).
  { unfold merge_results_from_sources.
    rewrite (for_each_nested merge_result).
    destruct (for_each_merge_raises (mjoin per_source.*2)
                (MergeState [] ∅ ∅)) as [_ Hraise].
    destruct (Hraise Hbad) as [-> | ->]; [by left | by right]. }
  unfold search_papers, try_except. cbn [String.eqb Ascii.eqb Bool.eqb].
  unfold mbind, M_bind. fold method. rewrite Hloop. unfold lift, ask.
  destruct Hmerge as [-> | ->]; eexists; (split; [|reflexivity]); auto.
Qed.

Lemma all_sources_poisoned_witness :
  ∃ e,
    (e = AttributeError ∨ e = TypeError)
    ∧ search_papers
        [("pubmed", stub "pubmed" (Ok [paperA1]));
         ("semantic_scholar",
          stub "semantic_scholar" (Ok [[("id", VStr "p9"); ("title", VNone)]]))]
        "CRISPR" "all" 5 silent_world []
      = (Ok [[("error",
               VStr ("An error occurred while searching: "
                     +:+ exn_str silent_world e))]],
         [ToThread "pubmed"; ToThread "semantic_scholar"]).
Proof.
  apply (all_sources_poisoned
           [("pubmed", stub "pubmed" (Ok [paperA1]));
            ("semantic_scholar",
             stub "semantic_scholar"
               (Ok [[("id", VStr "p9"); ("title", VNone)]]))]
           "CRISPR" 5 silent_world []).
  - unfold AVAILABLE_SOURCES. cbn [fmap list_fmap fst].
    repeat (apply NoDup_cons_2;
            [intros Hin;
             repeat (apply elem_of_cons in Hin as [Hin|Hin]; [discriminate|]);
             by apply elem_of_nil in Hin|]).
    apply NoDup_nil_2.
  - intros H. cbn in H. apply Forall_cons in H as [_ H].
    apply Forall_cons in H as [[H _] _]. exact H.
Defined.

End all_sources_further.

(** ** [pubmed_adapter.py]: the methods besides the searches *)

Section pubmed_tool_claims.
Import pubmed_adapter.

(** X28.  The three other methods of the PubMed adapter never raise and
    make no request of their own: each asks the collaborator.
    [get_metadata] asks once and answers with an error or a record with
    the core fields, the error entry when the collaborator knows nothing
    ([None] or an empty dictionary) or raises; [download_pdf] asks once
    and passes the collaborator's message on; [deep_analysis] answers with
    a string, and asks for the analysis only when there is metadata. *)
Theorem pubmed_tools_contain_failures (identifier : string) (t : tools)
    (ef : list effect) (w : env) (tr : list call) :
  (∃ metadata,
     get_metadata identifier t ef w tr
     = (Ok metadata, ef ++ [GetPubmedMetadata identifier], tr)
     ∧ metadata_shaped metadata
     ∧ (match get_pubmed_metadata t ef identifier with
        | Ok (Some (_ :: _)) => False
        | _ => True
        end → error_shaped metadata))
  ∧ (∃ message,
       download_pdf identifier t ef w tr
       = (Ok (VStr message), ef ++ [DownloadFullTextPdf identifier], tr)
       ∧ ∀ answer, download_full_text_pdf t ef identifier = Ok answer →
                   message = answer)
  ∧ (∃ message ef',
       deep_analysis identifier t ef w tr = (Ok (VStr message), ef', tr)
       ∧ match get_pubmed_metadata t ef identifier with
         | Ok (Some (field :: fields)) =>
             ef' = ef ++ [GetPubmedMetadata identifier;
                          PubmedDeepAnalysis (field :: fields)]
         | Ok _ =>
             ef' = ef ++ [GetPubmedMetadata identifier]
             ∧ message = "Error: Could not retrieve metadata for analysis"
         | Raise e =>
             ef' = ef ++ [GetPubmedMetadata identifier]
             ∧ message = "Error generating analysis: " +:+ exn_str w e
         end).
Proof.
  split; [|split].
  - destruct (pubmed_get_metadata_run identifier t ef w tr)
      as (metadata & Hrun & Hshape).
    exists metadata. split; [done|]. split; [done|].
    revert Hrun. unfold get_metadata. run_T. unfold ask.
    destruct (get_pubmed_metadata t ef identifier) as [[[|field fields]|]|e];
      intros [= <-]; intros Hnone; try done; by eexists.
  - unfold download_pdf. run_T. unfold ask.
    destruct (download_full_text_pdf t ef identifier) as [answer|e];
      eexists; (split; [done|]); by intros ? [= <-].
  - unfold deep_analysis. run_T. unfold ask.
    destruct (get_pubmed_metadata t ef identifier) as [[[|field fields]|]|e];
      try (by eexists _, _).
    destruct (pubmed_deep_analysis t _ (field :: fields)) as [prompt|e];
      eexists _, _; (split; [done|]); by rewrite <- app_assoc.
Qed.

Example pubmed_get_metadata_sample :
  (get_metadata "40883768" sample_tools [] silent_world []).1.1
  = Ok [("id", VStr "40883768"); ("title", VStr "A trial");
        ("authors", VStr "No authors available");
        ("abstract", VStr "No abstract available");
        ("publication_date", VStr ""); ("journal", VStr "");
        ("url", VStr "https://pubmed.ncbi.nlm.nih.gov/40883768/");
        ("pdf_url", VNone); ("source", VStr "pubmed")].
Proof. by vm_compute. Qed.

End pubmed_tool_claims.

(** ** The registry and the constructor, evaluated *)

Example list_available_sources_sample :
  academic_server.list_available_sources academic_server.tool_adapters
  = ["pubmed"; "biorxiv"; "medrxiv"; "arxiv"; "semantic_scholar"]
  ∧ academic_server.AVAILABLE_SOURCES academic_server.adapters
    = ["pubmed"; "biorxiv"; "medrxiv"; "arxiv"; "semantic_scholar"].
Proof. by split. Qed.

Example biorxiv_constructor_sample :
  is_ok (biorxiv_adapter.__init__ "biorxiv") = true
  ∧ is_ok (biorxiv_adapter.__init__ "medrxiv") = true
  ∧ is_ok (biorxiv_adapter.__init__ "arxiv") = false.
Proof. by vm_compute. Qed.
